(** * School administration backend: tutors, grades, sections and assignments

    A shallow embedding of the Express/Prisma controllers of the
    repository and of the relational store they run against.

    - The store follows the two SQL migrations
      ([backend/prisma/migrations/.../migration.sql] and the later
      migration that introduces [SectionSubject]): one list of rows per
      table, in insertion order, the unique indexes and foreign keys
      of the SQL, and its [ON DELETE] actions.
    - A Prisma call that can throw returns a [result]; a
      [prisma.$transaction] keeps the store it started from when its
      callback throws.
    - Row ids ([TEXT] primary keys filled by Prisma's default) are drawn
      from a counter kept in the store; the [createdAt]/[updatedAt]
      columns and the audit log (one insert after the domain write) are
      left out.
    - Strings are [string]; a character stands for one code unit below
      256.

    The repository holds two revisions of the grade and assignment
    controllers.  [Rev1] embeds [src/unnamed/part_001] (grades) and
    [src/backend/src/controllers/assignment.controller.ts]; [Rev2]
    embeds [src/unnamed/part_002], the revision whose routes and
    comments announce the duplicate-assignment fix. *)

From Stdlib Require Import List String Ascii Bool Arith ZArith Lia DecimalString.
Import ListNotations.
Local Open Scope string_scope.
Local Open Scope list_scope.

Set Implicit Arguments.

(* ================================================================= *)
(** * The relational store *)

Module Prisma.

Definition Id := nat.

Inductive Role := SUPERADMIN | SCHOOL_ADMIN | TEACHER.

Record School := mkSchool
  { school_id : Id; school_name : string; school_code : string;
    school_isActive : bool }.

Record User := mkUser
  { user_id : Id; user_name : string; user_email : string;
    user_phone : option string; user_password : string;
    user_role : Role; user_schoolId : option Id;
    user_tutorId : option Id }.

Record Tutor := mkTutor
  { tutor_id : Id; tutor_name : string; tutor_email : string;
    tutor_phone : string; tutor_schoolId : Id; tutor_isActive : bool }.

Record Grade := mkGrade
  { grade_id : Id; grade_name : string; grade_schoolId : Id;
    grade_order : Z; grade_isActive : bool }.

(** Table [Section] ([Section] is a keyword here). *)
Record SectionRow := mkSection
  { section_id : Id; section_name : string; section_gradeId : Id;
    section_classTutorId : option Id; section_isActive : bool }.

Record SectionSubject := mkSectionSubject
  { ss_id : Id; ss_name : string; ss_sectionId : Id;
    ss_isActive : bool }.

Record TutorSubjectAssignment := mkAssignment
  { tsa_id : Id; tsa_tutorId : Id; tsa_sectionSubjectId : Id;
    tsa_isActive : bool }.

Record DB := mkDB
  { schools : list School;
    users : list User;
    tutors : list Tutor;
    grades : list Grade;
    sections : list SectionRow;
    sectionSubjects : list SectionSubject;
    assignments : list TutorSubjectAssignment;
    nextId : Id }.

(** Prisma's errors: the known request errors of a unique index, of a
    foreign key and of a record to update or delete that is not found,
    and the validation error of a value that a field does not take. *)
Inductive PrismaError := P2002 | P2003 | P2025 | Invalid.

Inductive result (A : Type) :=
| Ok (a : A)
| Err (e : PrismaError).
Arguments Ok {A} a.
Arguments Err {A} e.

Definition bind {A B} (r : result A) (k : A -> result B) : result B :=
  match r with
  | Ok a => k a
  | Err e => Err e
  end.

Definition optId_eqb (a : option Id) (b : option Id) : bool :=
  match a, b with
  | Some x, Some y => Nat.eqb x y
  | None, None => true
  | _, _ => false
  end.

(** [findFirst]: the first row, in table order, that satisfies the
    [where] clause. *)
Definition findFirst {A} (p : A -> bool) (l : list A) : option A := find p l.

(** [update({ where: { id }, data })] on one table: P2025 when no row
    has the id. *)
Definition updateWhere {A} (key : A -> Id) (i : Id) (f : A -> A)
    (l : list A) : result (list A) :=
  if existsb (fun r => Nat.eqb (key r) i) l
  then Ok (map (fun r => if Nat.eqb (key r) i then f r else r) l)
  else Err P2025.

(** [updateMany]: every matching row, never throws. *)
Definition updateMany {A} (p : A -> bool) (f : A -> A) (l : list A)
    : list A :=
  map (fun r => if p r then f r else r) l.

(** [deleteMany]: every matching row, never throws. *)
Definition deleteMany {A} (p : A -> bool) (l : list A) : list A :=
  filter (fun r => negb (p r)) l.

(** ** Setters used by [data: { ... }] *)

Definition set_ss_isActive (b : bool) (s : SectionSubject) :=
  mkSectionSubject (ss_id s) (ss_name s) (ss_sectionId s) b.

Definition set_tsa_isActive (b : bool) (a : TutorSubjectAssignment) :=
  mkAssignment (tsa_id a) (tsa_tutorId a) (tsa_sectionSubjectId a) b.

Definition set_classTutorId (t : option Id) (s : SectionRow) :=
  mkSection (section_id s) (section_name s) (section_gradeId s) t
            (section_isActive s).

(** ** Store updates, one table at a time *)

Definition with_schools (db : DB) l :=
  mkDB l (users db) (tutors db) (grades db) (sections db)
       (sectionSubjects db) (assignments db) (nextId db).
Definition with_users (db : DB) l :=
  mkDB (schools db) l (tutors db) (grades db) (sections db)
       (sectionSubjects db) (assignments db) (nextId db).
Definition with_tutors (db : DB) l :=
  mkDB (schools db) (users db) l (grades db) (sections db)
       (sectionSubjects db) (assignments db) (nextId db).
Definition with_grades (db : DB) l :=
  mkDB (schools db) (users db) (tutors db) l (sections db)
       (sectionSubjects db) (assignments db) (nextId db).
Definition with_sections (db : DB) l :=
  mkDB (schools db) (users db) (tutors db) (grades db) l
       (sectionSubjects db) (assignments db) (nextId db).
Definition with_sectionSubjects (db : DB) l :=
  mkDB (schools db) (users db) (tutors db) (grades db) (sections db)
       l (assignments db) (nextId db).
Definition with_assignments (db : DB) l :=
  mkDB (schools db) (users db) (tutors db) (grades db) (sections db)
       (sectionSubjects db) l (nextId db).
Definition bump (db : DB) :=
  mkDB (schools db) (users db) (tutors db) (grades db) (sections db)
       (sectionSubjects db) (assignments db) (S (nextId db)).

(** ** Existence tests for foreign keys *)

Definition hasSchool (db : DB) (i : Id) : bool :=
  existsb (fun r => Nat.eqb (school_id r) i) (schools db).
Definition hasTutor (db : DB) (i : Id) : bool :=
  existsb (fun r => Nat.eqb (tutor_id r) i) (tutors db).
Definition hasGrade (db : DB) (i : Id) : bool :=
  existsb (fun r => Nat.eqb (grade_id r) i) (grades db).
Definition hasSection (db : DB) (i : Id) : bool :=
  existsb (fun r => Nat.eqb (section_id r) i) (sections db).
Definition hasSectionSubject (db : DB) (i : Id) : bool :=
  existsb (fun r => Nat.eqb (ss_id r) i) (sectionSubjects db).

Definition optRef (has : Id -> bool) (o : option Id) : bool :=
  match o with
  | Some i => has i
  | None => true
  end.

(** ** [create]

    Each insert checks the table's unique indexes (P2002), then its
    foreign keys (P2003), and appends the row under a fresh id. *)

(** [School]: unique [code]. *)
Definition createSchoolRow (db : DB) (name code : string)
    : result (School * DB) :=
  if existsb (fun r => String.eqb (school_code r) code) (schools db)
  then Err P2002
  else
    let row := mkSchool (nextId db) name code true in
    Ok (row, bump (with_schools db (schools db ++ [row]))).

(** [User]: unique [email], unique [tutorId]; references [School] and
    [Tutor]. *)
Definition createUserRow (db : DB) (name email : string)
    (phone : option string) (password : string) (role : Role)
    (schoolId tutorId : option Id) : result (User * DB) :=
  if existsb (fun r => String.eqb (user_email r) email) (users db)
  then Err P2002
  else if match tutorId with
          | Some t => existsb (fun r => optId_eqb (user_tutorId r) (Some t))
                              (users db)
          | None => false
          end
  then Err P2002
  else if negb (optRef (hasSchool db) schoolId && optRef (hasTutor db) tutorId)
  then Err P2003
  else
    let row := mkUser (nextId db) name email phone password role
                      schoolId tutorId in
    Ok (row, bump (with_users db (users db ++ [row]))).

(** [Tutor]: unique [email]; references [School]. *)
Definition createTutorRow (db : DB) (name email phone : string)
    (schoolId : Id) (isActive : bool) : result (Tutor * DB) :=
  if existsb (fun r => String.eqb (tutor_email r) email) (tutors db)
  then Err P2002
  else if negb (hasSchool db schoolId)
  then Err P2003
  else
    let row := mkTutor (nextId db) name email phone schoolId isActive in
    Ok (row, bump (with_tutors db (tutors db ++ [row]))).

(** What Prisma takes as the value of an [Int] field: a number that
    fits a 64-bit signed integer.  Any other is refused with a
    validation error before a statement reaches the database.  (That
    an [INTEGER] column of the migration is read back as 32 bits is
    not modelled: no handler here fails when it reads a row.) *)
Definition fitsInt (z : Z) : bool :=
  (Z.leb (- 2 ^ 63) z && Z.ltb z (2 ^ 63))%Z.

(** [Grade]: [order] is an [Int]; unique [(schoolId, name)];
    references [School]. *)
Definition createGradeRow (db : DB) (name : string) (schoolId : Id)
    (order : Z) (isActive : bool) : result (Grade * DB) :=
  if negb (fitsInt order)
  then Err Invalid
  else if existsb (fun r => Nat.eqb (grade_schoolId r) schoolId
                       && String.eqb (grade_name r) name) (grades db)
  then Err P2002
  else if negb (hasSchool db schoolId)
  then Err P2003
  else
    let row := mkGrade (nextId db) name schoolId order isActive in
    Ok (row, bump (with_grades db (grades db ++ [row]))).

(** [Section]: unique [(gradeId, name)]; references [Grade]; a new
    section has no class tutor. *)
Definition createSectionRow (db : DB) (name : string) (gradeId : Id)
    (isActive : bool) : result (SectionRow * DB) :=
  if existsb (fun r => Nat.eqb (section_gradeId r) gradeId
                       && String.eqb (section_name r) name) (sections db)
  then Err P2002
  else if negb (hasGrade db gradeId)
  then Err P2003
  else
    let row := mkSection (nextId db) name gradeId None isActive in
    Ok (row, bump (with_sections db (sections db ++ [row]))).

(** [SectionSubject]: unique [(sectionId, name)]; references
    [Section]. *)
Definition createSectionSubjectRow (db : DB) (name : string)
    (sectionId : Id) (isActive : bool) : result (SectionSubject * DB) :=
  if existsb (fun r => Nat.eqb (ss_sectionId r) sectionId
                       && String.eqb (ss_name r) name) (sectionSubjects db)
  then Err P2002
  else if negb (hasSection db sectionId)
  then Err P2003
  else
    let row := mkSectionSubject (nextId db) name sectionId isActive in
    Ok (row, bump (with_sectionSubjects db (sectionSubjects db ++ [row]))).

(** The [where] clause [{ tutorId, sectionSubjectId }]. *)
Definition sameLink (t ssid : Id) (a : TutorSubjectAssignment) : bool :=
  Nat.eqb (tsa_tutorId a) t && Nat.eqb (tsa_sectionSubjectId a) ssid.

(** [TutorSubjectAssignment]: unique [(tutorId, sectionSubjectId)];
    references [Tutor] and [SectionSubject]. *)
Definition createAssignmentRow (db : DB) (tutorId sectionSubjectId : Id)
    (isActive : bool) : result (TutorSubjectAssignment * DB) :=
  if existsb (sameLink tutorId sectionSubjectId) (assignments db)
  then Err P2002
  else if negb (hasTutor db tutorId && hasSectionSubject db sectionSubjectId)
  then Err P2003
  else
    let row := mkAssignment (nextId db) tutorId sectionSubjectId isActive in
    Ok (row, bump (with_assignments db (assignments db ++ [row]))).

(** ** [update] by id *)

Definition updateSectionSubjectRow (db : DB) (i : Id)
    (f : SectionSubject -> SectionSubject) : result DB :=
  bind (updateWhere ss_id i f (sectionSubjects db))
       (fun l => Ok (with_sectionSubjects db l)).

Definition updateAssignmentRow (db : DB) (i : Id)
    (f : TutorSubjectAssignment -> TutorSubjectAssignment) : result DB :=
  bind (updateWhere tsa_id i f (assignments db))
       (fun l => Ok (with_assignments db l)).

Definition updateSectionRow (db : DB) (i : Id)
    (f : SectionRow -> SectionRow) : result DB :=
  bind (updateWhere section_id i f (sections db))
       (fun l => Ok (with_sections db l)).

(** ** [delete] by id, with the [ON DELETE] actions of the schema *)

(** Deleting section subjects takes their assignments along. *)
Definition dropSectionSubjects (p : SectionSubject -> bool) (db : DB) : DB :=
  let gone := filter p (sectionSubjects db) in
  with_assignments
    (with_sectionSubjects db (deleteMany p (sectionSubjects db)))
    (deleteMany (fun a => existsb (fun s => Nat.eqb (ss_id s)
                                              (tsa_sectionSubjectId a)) gone)
                (assignments db)).

(** Deleting sections takes their subjects along. *)
Definition dropSections (p : SectionRow -> bool) (db : DB) : DB :=
  let gone := filter p (sections db) in
  dropSectionSubjects
    (fun s => existsb (fun r => Nat.eqb (section_id r) (ss_sectionId s)) gone)
    (with_sections db (deleteMany p (sections db))).

(** Deleting grades takes their sections along. *)
Definition dropGrades (p : Grade -> bool) (db : DB) : DB :=
  let gone := filter p (grades db) in
  dropSections
    (fun s => existsb (fun g => Nat.eqb (grade_id g) (section_gradeId s)) gone)
    (with_grades db (deleteMany p (grades db))).

(** Deleting tutors: their assignments and linked users go
    ([ON DELETE CASCADE]); sections they were class tutor of lose the
    reference ([ON DELETE SET NULL]). *)
Definition dropTutors (p : Tutor -> bool) (db : DB) : DB :=
  let gone := filter p (tutors db) in
  let isGone := fun i => existsb (fun t => Nat.eqb (tutor_id t) i) gone in
  mkDB (schools db)
       (deleteMany (fun u => match user_tutorId u with
                             | Some i => isGone i
                             | None => false
                             end) (users db))
       (deleteMany p (tutors db))
       (grades db)
       (updateMany (fun s => match section_classTutorId s with
                             | Some i => isGone i
                             | None => false
                             end) (set_classTutorId None) (sections db))
       (sectionSubjects db)
       (deleteMany (fun a => isGone (tsa_tutorId a)) (assignments db))
       (nextId db).

Definition deleteTutorRow (db : DB) (i : Id) : result DB :=
  if hasTutor db i
  then Ok (dropTutors (fun t => Nat.eqb (tutor_id t) i) db)
  else Err P2025.

Definition deleteAssignmentRow (db : DB) (i : Id) : result DB :=
  if existsb (fun a => Nat.eqb (tsa_id a) i) (assignments db)
  then Ok (with_assignments db
             (deleteMany (fun a => Nat.eqb (tsa_id a) i) (assignments db)))
  else Err P2025.

Definition deleteSectionSubjectRow (db : DB) (i : Id) : result DB :=
  if hasSectionSubject db i
  then Ok (dropSectionSubjects (fun s => Nat.eqb (ss_id s) i) db)
  else Err P2025.

Definition deleteSectionRow (db : DB) (i : Id) : result DB :=
  if hasSection db i
  then Ok (dropSections (fun s => Nat.eqb (section_id s) i) db)
  else Err P2025.

Definition deleteGradeRow (db : DB) (i : Id) : result DB :=
  if hasGrade db i
  then Ok (dropGrades (fun g => Nat.eqb (grade_id g) i) db)
  else Err P2025.

(** ** [update] and [updateMany] that touch indexed columns *)

(** A field of [data] that is [undefined] keeps the column. *)
Definition orKeep {A} (o : option A) (old : A) : A :=
  match o with
  | Some v => v
  | None => old
  end.

Record TutorData := mkTutorData
  { td_name : option string; td_email : option string;
    td_phone : option string; td_isActive : option bool }.

Definition applyTutorData (d : TutorData) (t : Tutor) : Tutor :=
  mkTutor (tutor_id t) (orKeep (td_name d) (tutor_name t))
          (orKeep (td_email d) (tutor_email t))
          (orKeep (td_phone d) (tutor_phone t)) (tutor_schoolId t)
          (orKeep (td_isActive d) (tutor_isActive t)).

(** [tutor.update({ where: { id }, data })]: P2025 without the row,
    P2002 when another row carries the new [email]. *)
Definition updateTutorRow (db : DB) (i : Id) (d : TutorData)
    : result (Tutor * DB) :=
  match findFirst (fun t => Nat.eqb (tutor_id t) i) (tutors db) with
  | None => Err P2025
  | Some old =>
      let row := applyTutorData d old in
      if existsb (fun r => negb (Nat.eqb (tutor_id r) i)
                           && String.eqb (tutor_email r) (tutor_email row))
                 (tutors db)
      then Err P2002
      else Ok (row, with_tutors db
                      (map (fun r => if Nat.eqb (tutor_id r) i
                                     then applyTutorData d r else r)
                           (tutors db)))
  end.

Record UserData := mkUserData
  { ud_name : option string; ud_email : option string;
    ud_phone : option string }.

Definition applyUserData (d : UserData) (u : User) : User :=
  mkUser (user_id u) (orKeep (ud_name d) (user_name u))
         (orKeep (ud_email d) (user_email u))
         (match ud_phone d with
          | Some p => Some p
          | None => user_phone u
          end)
         (user_password u) (user_role u) (user_schoolId u) (user_tutorId u).

(** [user.updateMany({ where, data })]: P2002 when a row it rewrites
    ends with the [email] of another row. *)
Definition updateManyUsers (db : DB) (p : User -> bool) (d : UserData)
    : result DB :=
  let rows := updateMany p (applyUserData d) (users db) in
  if existsb (fun u => p u
                       && existsb (fun r => negb (Nat.eqb (user_id r)
                                                          (user_id u))
                                            && String.eqb (user_email r)
                                                 (user_email
                                                    (applyUserData d u)))
                                  rows)
             (users db)
  then Err P2002
  else Ok (with_users db rows).

Record GradeData := mkGradeData
  { gd_name : option string; gd_order : option Z;
    gd_isActive : option bool }.

Definition applyGradeData (d : GradeData) (g : Grade) : Grade :=
  mkGrade (grade_id g) (orKeep (gd_name d) (grade_name g)) (grade_schoolId g)
          (orKeep (gd_order d) (grade_order g))
          (orKeep (gd_isActive d) (grade_isActive g)).

(** [grade.update]: a validation error when [data] carries an [order]
    that the field does not take; P2002 when another grade of the
    school carries the new name. *)
Definition updateGradeRow (db : DB) (i : Id) (d : GradeData)
    : result (Grade * DB) :=
  if negb (match gd_order d with
           | Some order => fitsInt order
           | None => true
           end)
  then Err Invalid
  else
    match findFirst (fun g => Nat.eqb (grade_id g) i) (grades db) with
    | None => Err P2025
    | Some old =>
        let row := applyGradeData d old in
        if existsb (fun r => negb (Nat.eqb (grade_id r) i)
                             && Nat.eqb (grade_schoolId r)
                                        (grade_schoolId row)
                             && String.eqb (grade_name r) (grade_name row))
                   (grades db)
        then Err P2002
        else Ok (row, with_grades db
                        (map (fun r => if Nat.eqb (grade_id r) i
                                       then applyGradeData d r else r)
                             (grades db)))
    end.

Definition set_section_name (name : string) (s : SectionRow) :=
  mkSection (section_id s) name (section_gradeId s) (section_classTutorId s)
            (section_isActive s).

(** [section.update({ where: { id }, data: { name } })]: P2002 when
    another section of the grade carries the name. *)
Definition renameSectionRow (db : DB) (i : Id) (name : string)
    : result (SectionRow * DB) :=
  match findFirst (fun s => Nat.eqb (section_id s) i) (sections db) with
  | None => Err P2025
  | Some old =>
      if existsb (fun r => negb (Nat.eqb (section_id r) i)
                           && Nat.eqb (section_gradeId r) (section_gradeId old)
                           && String.eqb (section_name r) name)
                 (sections db)
      then Err P2002
      else Ok (set_section_name name old,
               with_sections db
                 (map (fun r => if Nat.eqb (section_id r) i
                                then set_section_name name r else r)
                      (sections db)))
  end.

(** Deleting schools takes their users, tutors and grades along. *)
Definition dropSchools (p : School -> bool) (db : DB) : DB :=
  let gone := filter p (schools db) in
  let isGone := fun i => existsb (fun s => Nat.eqb (school_id s) i) gone in
  dropGrades (fun g => isGone (grade_schoolId g))
    (dropTutors (fun t => isGone (tutor_schoolId t))
       (with_users (with_schools db (deleteMany p (schools db)))
          (deleteMany (fun u => match user_schoolId u with
                                | Some i => isGone i
                                | None => false
                                end) (users db)))).

Definition deleteSchoolRow (db : DB) (i : Id) : result DB :=
  if hasSchool db i
  then Ok (dropSchools (fun s => Nat.eqb (school_id s) i) db)
  else Err P2025.

(** ** [prisma.$transaction]

    The callback either commits its store or throws, and then the
    store is the one the transaction started from. *)
Definition transaction {A} (body : DB -> result (A * DB)) (db : DB)
    : result A * DB :=
  match body db with
  | Ok (a, db') => (Ok a, db')
  | Err e => (Err e, db)
  end.

End Prisma.

(* ================================================================= *)
(** * HTTP layer shared by the controllers *)

Module Http.

(** What a handler sends: [res.status(n).json(payload)] on its main
    path, or a body that only carries a [message]. *)
Inductive Response (A : Type) :=
| Json (code : nat) (payload : A)
| Message (code : nat) (message : string).
Arguments Json {A} code payload.
Arguments Message {A} code message.

Definition status {A} (r : Response A) : nat :=
  match r with
  | Json c _ => c
  | Message c _ => c
  end.

(** A body field that passes [if (!field)]: present and not empty. *)
Definition required (f : option string) : option string :=
  match f with
  | Some s => if String.eqb s "" then None else Some s
  | None => None
  end.

Definition truthy (f : option string) : bool :=
  match required f with
  | Some _ => true
  | None => false
  end.

(** [`${n}`] for a count. *)
Definition showNat (n : nat) : string :=
  NilZero.string_of_uint (Nat.to_uint n).

Definition dquote : string := String (Ascii.ascii_of_nat 34) EmptyString.

End Http.

(* ================================================================= *)
(** * superadmin.controller: school provisioning *)

Module SuperadminController.
Import Prisma Http.

Record CreateSchoolReq := mkCreateSchoolReq
  { cs_name : option string; cs_code : option string;
    cs_adminName : option string; cs_adminEmail : option string;
    cs_adminPhone : option string }.

(** [createSchool]; [tempPassword] and [hashedPassword] are what
    [generateTempPassword] and [bcrypt.hash] returned. *)
Definition createSchool (db : DB) (req : CreateSchoolReq)
    (tempPassword hashedPassword : string)
    : Response (School * User * string) * DB :=
  match required (cs_name req), required (cs_code req),
        required (cs_adminName req), required (cs_adminEmail req),
        required (cs_adminPhone req) with
  | Some name, Some code, Some adminName, Some adminEmail, Some adminPhone =>
      match findFirst (fun s => String.eqb (school_code s) code) (schools db) with
      | Some _ => (Message 409 "School code already exists", db)
      | None =>
        match findFirst (fun u => String.eqb (user_email u) adminEmail)
                        (users db) with
        | Some _ => (Message 409 "Admin email already exists", db)
        | None =>
          match transaction
                  (fun tx =>
                     bind (createSchoolRow tx name code) (fun '(school, tx1) =>
                     bind (createUserRow tx1 adminName adminEmail
                             (Some adminPhone) hashedPassword SCHOOL_ADMIN
                             (Some (school_id school)) None)
                          (fun '(admin, tx2) => Ok ((school, admin), tx2))))
                  db with
          | (Ok (school, admin), db') =>
              (Json 201 (school, admin, tempPassword), db')
          | (Err _, db') => (Message 500 "Create school failed", db')
          end
        end
      end
  | _, _, _, _, _ => (Message 400 "Missing required fields", db)
  end.

(** [deleteSchool] of [superadmin.controller.ts]: one [delete], the
    schema's cascades do the rest. *)
Definition deleteSchool (db : DB) (id : Id) : Response unit * DB :=
  match findFirst (fun s => Nat.eqb (school_id s) id) (schools db) with
  | None => (Message 404 "School not found", db)
  | Some school =>
      match deleteSchoolRow db id with
      | Ok db' =>
          (Message 200 "School and all related data deleted successfully",
           db')
      | Err _ => (Message 500 "Delete school failed", db)
      end
  end.

(** [deleteSchool] as [assignment.controller.ts] carries it: a
    transaction that first deletes the users of the school. *)
Definition deleteSchoolTx (db : DB) (id : Id) : Response unit * DB :=
  match findFirst (fun s => Nat.eqb (school_id s) id) (schools db) with
  | None => (Message 404 "School not found", db)
  | Some school =>
      match transaction
              (fun tx =>
                 let tx1 :=
                   with_users tx
                     (deleteMany (fun u => optId_eqb (user_schoolId u)
                                                     (Some id))
                                 (users tx)) in
                 bind (deleteSchoolRow tx1 id) (fun tx2 => Ok (tt, tx2)))
              db with
      | (Ok _, db') => (Message 200 "School deleted successfully", db')
      | (Err _, db') => (Message 500 "Delete school failed", db')
      end
  end.

End SuperadminController.

(* ================================================================= *)
(** * tutor.controller *)

Module TutorController.
Import Prisma Http.

Record CreateTutorReq := mkCreateTutorReq
  { ct_schoolId : Id; ct_name : option string; ct_email : option string;
    ct_phone : option string }.

(** The callback of [createTutor]'s transaction: the tutor row, then
    the linked user row. *)
Definition createTutorTx (name email phone hashedPassword : string)
    (schoolId : Id) (tx : DB) : result ((Tutor * User) * DB) :=
  bind (createTutorRow tx name email phone schoolId true) (fun '(tutor, tx1) =>
  bind (createUserRow tx1 name email (Some phone) hashedPassword TEACHER
          (Some schoolId) (Some (tutor_id tutor)))
       (fun '(user, tx2) => Ok ((tutor, user), tx2))).

(** [createTutor]; [tempPassword] and [hashedPassword] are what
    [generateTempPassword] and [bcrypt.hash] returned. *)
Definition createTutor (db : DB) (req : CreateTutorReq)
    (tempPassword hashedPassword : string)
    : Response (Tutor * string) * DB :=
  match required (ct_name req), required (ct_email req),
        required (ct_phone req) with
  | Some name, Some email, Some phone =>
      match findFirst (fun s => Nat.eqb (school_id s) (ct_schoolId req))
                      (schools db) with
      | None => (Message 404 "School not found", db)
      | Some school =>
        match findFirst (fun t => String.eqb (tutor_email t) email)
                        (tutors db) with
        | Some _ => (Message 409 "Tutor email already exists", db)
        | None =>
          match findFirst (fun u => String.eqb (user_email u) email)
                          (users db) with
          | Some _ => (Message 409 "User email already exists", db)
          | None =>
            match transaction
                    (createTutorTx name email phone hashedPassword
                                   (ct_schoolId req)) db with
            | (Ok (tutor, user), db') => (Json 201 (tutor, tempPassword), db')
            | (Err _, db') => (Message 500 "Failed to create tutor", db')
            end
          end
        end
      end
  | _, _, _ => (Message 400 "Missing required fields: name, email, phone", db)
  end.

(** [_count: { subjectAssignments: true }]: every assignment row of
    the tutor, active or not. *)
Definition countSubjectAssignments (db : DB) (tutorId : Id) : nat :=
  List.length (filter (fun a => Nat.eqb (tsa_tutorId a) tutorId) (assignments db)).

(** [_count: { classSections: true }]. *)
Definition countClassSections (db : DB) (tutorId : Id) : nat :=
  List.length (filter (fun s => optId_eqb (section_classTutorId s) (Some tutorId))
                 (sections db)).

Definition isForce (force : option string) : bool :=
  match force with
  | Some s => String.eqb s "true"
  | None => false
  end.

(** [deleteTutor]; [force] is [req.query.force]. *)
Definition deleteTutor (db : DB) (tutorId : Id) (force : option string)
    : Response unit * DB :=
  match findFirst (fun t => Nat.eqb (tutor_id t) tutorId) (tutors db) with
  | None => (Message 404 "Tutor not found", db)
  | Some tutor =>
      let nSubjects := countSubjectAssignments db tutorId in
      let nSections := countClassSections db tutorId in
      if (Nat.ltb 0 nSubjects || Nat.ltb 0 nSections) && negb (isForce force)
      then (Message 400
              ("Tutor has " ++ showNat nSubjects
               ++ " subject assignments and is class tutor for "
               ++ showNat nSections
               ++ " sections. Use ?force=true to delete anyway."), db)
      else
        match deleteTutorRow db tutorId with
        | Ok db' => (Message 200 "Tutor deleted successfully", db')
        | Err _ => (Message 500 "Failed to delete tutor", db)
        end
  end.

Record UpdateTutorReq := mkUpdateTutorReq
  { ut_name : option string; ut_email : option string;
    ut_phone : option string; ut_isActive : option bool }.

(** The callback of [updateTutor]'s transaction: the tutor row, then
    the user rows linked to it. *)
Definition updateTutorTx (tutorId : Id) (req : UpdateTutorReq) (tx : DB)
    : result (Tutor * DB) :=
  bind (updateTutorRow tx tutorId
          (mkTutorData (ut_name req) (ut_email req) (ut_phone req)
                       (ut_isActive req)))
       (fun '(tutor, tx1) =>
  bind (updateManyUsers tx1
          (fun u => optId_eqb (user_tutorId u) (Some tutorId))
          (mkUserData (ut_name req) (ut_email req) (ut_phone req)))
       (fun tx2 => Ok (tutor, tx2))).

(** [updateTutor]. *)
Definition updateTutor (db : DB) (tutorId : Id) (req : UpdateTutorReq)
    : Response Tutor * DB :=
  match findFirst (fun t => Nat.eqb (tutor_id t) tutorId) (tutors db) with
  | None => (Message 404 "Tutor not found", db)
  | Some existingTutor =>
      let emailExists :=
        match required (ut_email req) with
        | Some email =>
            if negb (String.eqb email (tutor_email existingTutor))
            then findFirst (fun t => String.eqb (tutor_email t) email)
                           (tutors db)
            else None
        | None => None
        end in
      match emailExists with
      | Some _ => (Message 409 "Email already exists", db)
      | None =>
          match transaction (updateTutorTx tutorId req) db with
          | (Ok tutor, db') => (Json 200 tutor, db')
          | (Err _, db') => (Message 500 "Failed to update tutor", db')
          end
      end
  end.

End TutorController.

(* ================================================================= *)
(** * Request and result shapes shared by both controller revisions *)

Module Shapes.
Import Prisma Http.

(** [for (const x of xs) { ... }] over a state that the body updates;
    a throw in the body leaves the loop. *)
Fixpoint forEach {A S} (body : A -> S -> result S) (xs : list A) (st : S)
    : result S :=
  match xs with
  | [] => Ok st
  | x :: rest => bind (body x st) (forEach body rest)
  end.

(** [names.includes(name)]. *)
Definition includes (names : list string) (name : string) : bool :=
  existsb (String.eqb name) names.

(** ** The key pattern [/^(.+)-([A-Z])$/] *)

(** [.] matches any code unit but a line terminator. *)
Definition isLineTerminator (c : ascii) : bool :=
  Nat.eqb (nat_of_ascii c) 10 || Nat.eqb (nat_of_ascii c) 13.

Definition isUpperAZ (c : ascii) : bool :=
  Nat.leb 65 (nat_of_ascii c) && Nat.leb (nat_of_ascii c) 90.

Definition isNil {A} (l : list A) : bool :=
  match l with
  | [] => true
  | _ => false
  end.

(** [key.match(/^(.+)-([A-Z])$/)]: the two capture groups.  Both ends
    are anchored, so the last code unit is the section letter, the one
    before it the dash, and all that precedes is the grade name. *)
Definition matchKey (key : string) : option (string * string) :=
  match rev (list_ascii_of_string key) with
  | c :: d :: front =>
      if isUpperAZ c && Ascii.eqb d "-"%char && negb (isNil front)
         && forallb (fun x => negb (isLineTerminator x)) front
      then Some (string_of_list_ascii (rev front), String c EmptyString)
      else None
  | _ => None
  end.

(** ** Grade requests *)

Record SectionData := mkSectionData
  { sd_name : string; sd_subjects : option (list string) }.

Record CreateGradeReq := mkCreateGradeReq
  { cg_schoolId : Id; cg_gradeName : option string; cg_order : option Z;
    cg_sections : option (list SectionData) }.

Definition CreatedGrade : Type :=
  (Grade * list (SectionRow * list SectionSubject))%type.

(** The transaction of [createGrade], the same in both revisions:
    the grade, then each section, then each section's subjects. *)
Definition createSubjects (sectionId : Id) (names : list string)
    (st : DB * list SectionSubject) : result (DB * list SectionSubject) :=
  forEach (fun subjectName '(tx, acc) =>
             bind (createSectionSubjectRow tx subjectName sectionId true)
                  (fun '(row, tx') => Ok (tx', acc ++ [row])))
          names st.

Definition createSections (gradeId : Id) (sections : list SectionData)
    (st : DB * list (SectionRow * list SectionSubject))
    : result (DB * list (SectionRow * list SectionSubject)) :=
  forEach (fun sectionData '(tx, acc) =>
             bind (createSectionRow tx (sd_name sectionData) gradeId true)
                  (fun '(section, tx1) =>
             bind (match sd_subjects sectionData with
                   | Some names => createSubjects (section_id section) names
                                                  (tx1, [])
                   | None => Ok (tx1, [])
                   end)
                  (fun '(tx2, subjects) =>
                     Ok (tx2, acc ++ [(section, subjects)]))))
          sections st.

Definition createGradeTx (schoolId : Id) (gradeName : string)
    (gradeOrder : Z) (sections : list SectionData) (tx : DB)
    : result (CreatedGrade * DB) :=
  bind (createGradeRow tx gradeName schoolId gradeOrder true)
       (fun '(grade, tx1) =>
  bind (createSections (grade_id grade) sections (tx1, []))
       (fun '(tx2, created) => Ok ((grade, created), tx2))).

(** ** Smart-assign requests and results *)

Record SmartAssignReq := mkSmartAssignReq
  { sa_schoolId : Id;
    sa_tutorId : option Id;
    (** [Object.entries(assignments)], empty when the field is absent *)
    sa_assignments : list (string * list string);
    sa_classGrade : option string;
    sa_classSection : option string }.

Record CreatedItem := mkCreatedItem
  { ci_id : Id; ci_grade : string; ci_section : string;
    ci_subject : string; ci_reactivated : bool }.

Record SkippedItem := mkSkippedItem
  { sk_grade : string; sk_section : string; sk_subject : string;
    sk_reason : string }.

Record ClassTutorAssignment := mkClassTutorAssignment
  { cta_grade : string; cta_section : string }.

(** What the transaction callback has built so far: the store of the
    transaction and the three arrays it pushes to. *)
Record Acc := mkAcc
  { acc_db : DB;
    createdAssignments : list CreatedItem;
    skippedAssignments : list SkippedItem;
    errors : list string }.

Definition pushError (st : Acc) (msg : string) : Acc :=
  mkAcc (acc_db st) (createdAssignments st) (skippedAssignments st)
        (errors st ++ [msg]).

Definition pushCreated (st : Acc) (db : DB) (item : CreatedItem) : Acc :=
  mkAcc db (createdAssignments st ++ [item]) (skippedAssignments st)
        (errors st).

Definition pushSkipped (st : Acc) (db : DB) (item : SkippedItem) : Acc :=
  mkAcc db (createdAssignments st) (skippedAssignments st ++ [item])
        (errors st).

Definition withDb (st : Acc) (db : DB) : Acc :=
  mkAcc db (createdAssignments st) (skippedAssignments st) (errors st).

(** The value the callback returns, with the tutor the handler adds. *)
Record SmartAssignBody := mkSmartAssignBody
  { sb_tutor : Tutor;
    sb_subjectAssignments : list CreatedItem;
    sb_skippedAssignments : list SkippedItem;
    sb_classTutorAssignment : option ClassTutorAssignment;
    sb_errors : list string }.

(** [where] clauses of the lookups. *)
Definition activeGradeNamed (schoolId : Id) (name : string) (g : Grade) :=
  Nat.eqb (grade_schoolId g) schoolId && String.eqb (grade_name g) name
  && grade_isActive g.

Definition activeSectionNamed (gradeId : Id) (name : string) (s : SectionRow) :=
  Nat.eqb (section_gradeId s) gradeId && String.eqb (section_name s) name
  && section_isActive s.

Definition subjectNamed (sectionId : Id) (name : string) (active : bool)
    (s : SectionSubject) :=
  Nat.eqb (ss_sectionId s) sectionId && String.eqb (ss_name s) name
  && Bool.eqb (ss_isActive s) active.

Definition invalidKeyMessage (key : string) : string :=
  "Invalid key format: " ++ key ++ ". Expected format: " ++ dquote
  ++ "Grade X-A" ++ dquote.

(** The first transaction of [updateTutorAssignments] and the one of
    [deleteAllTutorAssignments]: the tutor's assignment rows go and the
    sections it was class tutor of are cleared. *)
Definition clearTutor (tutorId : Id) (db : DB) : DB :=
  with_sections
    (with_assignments db
       (deleteMany (fun a => Nat.eqb (tsa_tutorId a) tutorId)
                   (assignments db)))
    (updateMany (fun s => optId_eqb (section_classTutorId s) (Some tutorId))
                (set_classTutorId None) (sections db)).

End Shapes.

(* ================================================================= *)
(** * Rev2: grade and assignment controllers of [src/unnamed/part_002] *)

Module Rev2.
Import Prisma Http Shapes.

(** ** Grades, sections and subjects *)

(** [createGrade]: the order falls back to
    [(await prisma.grade.count({ where: { schoolId } })) + 1]. *)
Definition createGrade (db : DB) (req : CreateGradeReq)
    : Response CreatedGrade * DB :=
  match required (cg_gradeName req), cg_sections req with
  | Some gradeName, Some (s :: more) =>
      let sections := s :: more in
      let schoolId := cg_schoolId req in
      match findFirst (fun g => Nat.eqb (grade_schoolId g) schoolId
                                && String.eqb (grade_name g) gradeName)
                      (grades db) with
      | Some _ => (Message 409 "Grade already exists in this school", db)
      | None =>
          let gradeOrder :=
            match cg_order req with
            | Some order => order
            | None =>
                (Z.of_nat (List.length
                   (filter (fun g => Nat.eqb (grade_schoolId g) schoolId)
                           (grades db))) + 1)%Z
            end in
          match transaction (createGradeTx schoolId gradeName gradeOrder
                                           sections) db with
          | (Ok created, db') => (Json 201 created, db')
          | (Err _, db') => (Message 500 "Failed to create grade", db')
          end
      end
  | _, _ => (Message 400 "gradeName and at least one section are required", db)
  end.

(** The callback of [updateSectionSubjects]'s transaction;
    [currentSubjects] are the active subjects read before it. *)
Definition addStep (sectionId : Id) (subjectName : string)
    (st : DB * list SectionSubject) : result (DB * list SectionSubject) :=
  let '(tx, addedSubjects) := st in
  match findFirst (subjectNamed sectionId subjectName false)
                  (sectionSubjects tx) with
  | Some existingInactive =>
      bind (updateSectionSubjectRow tx (ss_id existingInactive)
                                    (set_ss_isActive true))
           (fun tx' => Ok (tx', addedSubjects
                                ++ [set_ss_isActive true existingInactive]))
  | None =>
      bind (createSectionSubjectRow tx subjectName sectionId true)
           (fun '(newSubject, tx') => Ok (tx', addedSubjects ++ [newSubject]))
  end.

Definition deactivateStep (subject : SectionSubject) (tx : DB) : result DB :=
  updateSectionSubjectRow tx (ss_id subject) (set_ss_isActive false).

Definition updateSectionSubjectsTx (sectionId : Id)
    (currentSubjects : list SectionSubject) (newNames : list string)
    (tx : DB) : result ((list SectionSubject * list SectionSubject) * DB) :=
  let currentNames := map ss_name currentSubjects in
  let toAdd := filter (fun name => negb (includes currentNames name))
                      newNames in
  bind (forEach (addStep sectionId) toAdd (tx, [])) (fun '(tx1, added) =>
  let toDeactivate :=
    filter (fun s => negb (includes newNames (ss_name s))) currentSubjects in
  bind (forEach deactivateStep toDeactivate tx1)
       (fun tx2 => Ok ((added, toDeactivate), tx2))).

(** [updateSectionSubjects]; [subjects] is [None] when the body field
    is missing or is no array.  The payload is the [changes] part of
    the body: the names added and the names removed. *)
Definition updateSectionSubjects (db : DB) (sectionId : Id)
    (subjects : option (list string))
    : Response (list string * list string) * DB :=
  match subjects with
  | None => (Message 400 "subjects array is required", db)
  | Some newNames =>
      match findFirst (fun s => Nat.eqb (section_id s) sectionId)
                      (sections db) with
      | None => (Message 404 "Section not found", db)
      | Some section =>
          let currentSubjects :=
            filter (fun s => Nat.eqb (ss_sectionId s) sectionId
                             && ss_isActive s) (sectionSubjects db) in
          match transaction
                  (updateSectionSubjectsTx sectionId currentSubjects newNames)
                  db with
          | (Ok (added, removed), db') =>
              (Json 200 (map ss_name added, map ss_name removed), db')
          | (Err _, db') =>
              (Message 500 "Failed to update section subjects", db')
          end
      end
  end.

(** [addSubjectToSection]. *)
Definition addSubjectToSection (db : DB) (sectionId : Id)
    (name : option string) : Response SectionSubject * DB :=
  match required name with
  | None => (Message 400 "Subject name is required", db)
  | Some name =>
      match findFirst (fun s => Nat.eqb (section_id s) sectionId)
                      (sections db) with
      | None => (Message 404 "Section not found", db)
      | Some section =>
          match findFirst (fun s => Nat.eqb (ss_sectionId s) sectionId
                                    && String.eqb (ss_name s) name)
                          (sectionSubjects db) with
          | Some existingSubject =>
              if ss_isActive existingSubject
              then (Message 409 "Subject already exists in this section", db)
              else
                match updateSectionSubjectRow db (ss_id existingSubject)
                                              (set_ss_isActive true) with
                | Ok db' => (Json 200 (set_ss_isActive true existingSubject),
                             db')
                | Err _ => (Message 500 "Failed to add subject", db)
                end
          | None =>
              match createSectionSubjectRow db name sectionId true with
              | Ok (sectionSubject, db') => (Json 201 sectionSubject, db')
              | Err _ => (Message 500 "Failed to add subject", db)
              end
          end
      end
  end.

(** [deleteSubjectFromSection]. *)
Definition deleteSubjectFromSection (db : DB) (subjectId : Id)
    : Response unit * DB :=
  match findFirst (fun s => Nat.eqb (ss_id s) subjectId)
                  (sectionSubjects db) with
  | None => (Message 404 "Subject not found", db)
  | Some subject =>
      match deleteSectionSubjectRow db subjectId with
      | Ok db' => (Message 200 "Subject deleted successfully", db')
      | Err _ => (Message 500 "Failed to delete subject", db)
      end
  end.

(** [deleteSection]. *)
Definition deleteSection (db : DB) (sectionId : Id) : Response unit * DB :=
  match findFirst (fun s => Nat.eqb (section_id s) sectionId)
                  (sections db) with
  | None => (Message 404 "Section not found", db)
  | Some section =>
      match deleteSectionRow db sectionId with
      | Ok db' => (Message 200 "Section deleted successfully", db')
      | Err _ => (Message 500 "Failed to delete section", db)
      end
  end.

(** [deleteGrade]. *)
Definition deleteGrade (db : DB) (gradeId : Id) : Response unit * DB :=
  match findFirst (fun g => Nat.eqb (grade_id g) gradeId) (grades db) with
  | None => (Message 404 "Grade not found", db)
  | Some grade =>
      match deleteGradeRow db gradeId with
      | Ok db' => (Message 200 "Grade deleted successfully", db')
      | Err _ => (Message 500 "Failed to delete grade", db)
      end
  end.

(** ** Assignments *)

(** Body of the inner loop of [smartAssignTutor], one subject name of
    a resolved section. *)
Definition subjectStep (tutorId sectionId : Id)
    (gradeName sectionName subjectName : string) (st : Acc) : result Acc :=
  bind (match findFirst (subjectNamed sectionId subjectName true)
                        (sectionSubjects (acc_db st)) with
        | Some sectionSubject => Ok (sectionSubject, acc_db st)
        | None => createSectionSubjectRow (acc_db st) subjectName sectionId
                                          true
        end)
       (fun '(sectionSubject, tx) =>
  match findFirst (sameLink tutorId (ss_id sectionSubject))
                  (assignments tx) with
  | Some existingAssignment =>
      if tsa_isActive existingAssignment
      then Ok (pushSkipped st tx
                 (mkSkippedItem gradeName sectionName subjectName
                                "Already assigned"))
      else
        bind (updateAssignmentRow tx (tsa_id existingAssignment)
                                  (set_tsa_isActive true))
             (fun tx' =>
                Ok (pushCreated st tx'
                      (mkCreatedItem (tsa_id existingAssignment) gradeName
                                     sectionName subjectName true)))
  | None =>
      bind (createAssignmentRow tx tutorId (ss_id sectionSubject) true)
           (fun '(assignment, tx') =>
              Ok (pushCreated st tx'
                    (mkCreatedItem (tsa_id assignment) gradeName sectionName
                                   subjectName false)))
  end).

(** Body of the outer loop, one entry of the [assignments] object. *)
Definition keyStep (schoolId tutorId : Id) (entry : string * list string)
    (st : Acc) : result Acc :=
  let '(key, subjectNames) := entry in
  match matchKey key with
  | None => Ok (pushError st (invalidKeyMessage key))
  | Some (gradeName, sectionName) =>
      match findFirst (activeGradeNamed schoolId gradeName)
                      (grades (acc_db st)) with
      | None => Ok (pushError st ("Grade not found: " ++ gradeName))
      | Some grade =>
          match findFirst (activeSectionNamed (grade_id grade) sectionName)
                          (sections (acc_db st)) with
          | None => Ok (pushError st ("Section " ++ sectionName
                                      ++ " not found in " ++ gradeName))
          | Some section =>
              forEach (subjectStep tutorId (section_id section) gradeName
                                   sectionName)
                      subjectNames st
          end
      end
  end.

(** Part 2 of the callback: the class tutor. *)
Definition classTutorStep (schoolId tutorId : Id)
    (classGrade classSection : option string) (st : Acc)
    : result (Acc * option ClassTutorAssignment) :=
  match required classGrade, required classSection with
  | Some classGrade, Some classSection =>
      match findFirst (activeGradeNamed schoolId classGrade)
                      (grades (acc_db st)) with
      | Some grade =>
          match findFirst (activeSectionNamed (grade_id grade) classSection)
                          (sections (acc_db st)) with
          | Some section =>
              let assign :=
                bind (updateSectionRow (acc_db st) (section_id section)
                                       (set_classTutorId (Some tutorId)))
                     (fun tx' =>
                        Ok (withDb st tx',
                            Some (mkClassTutorAssignment classGrade
                                                         classSection))) in
              match section_classTutorId section with
              | Some current =>
                  if negb (Nat.eqb current tutorId)
                  then
                    let existingClassTutor :=
                      findFirst (fun t => Nat.eqb (tutor_id t) current)
                                (tutors (acc_db st)) in
                    let who :=
                      match existingClassTutor with
                      | Some t => if String.eqb (tutor_name t) ""
                                  then "another tutor" else tutor_name t
                      | None => "another tutor"
                      end in
                    Ok (pushError st
                          ("Section " ++ classGrade ++ "-" ++ classSection
                           ++ " already has " ++ who ++ " as class tutor"),
                        None)
                  else assign
              | None => assign
              end
          | None =>
              Ok (pushError st
                    ("Section " ++ classSection ++ " not found in "
                     ++ classGrade ++ " for class tutor assignment"), None)
          end
      | None =>
          Ok (pushError st ("Grade " ++ classGrade
                            ++ " not found for class tutor assignment"), None)
      end
  | _, _ => Ok (st, None)
  end.

(** The callback handed to [prisma.$transaction]. *)
Definition smartAssignTx (req : SmartAssignReq) (tutorId : Id) (tx : DB)
    : result ((Acc * option ClassTutorAssignment) * DB) :=
  bind (forEach (keyStep (sa_schoolId req) tutorId) (sa_assignments req)
                (mkAcc tx [] [] []))
       (fun st1 =>
  bind (classTutorStep (sa_schoolId req) tutorId (sa_classGrade req)
                       (sa_classSection req) st1)
       (fun '(st2, cta) => Ok ((st2, cta), acc_db st2))).

(** [smartAssignTutor]. *)
Definition smartAssignTutor (db : DB) (req : SmartAssignReq)
    : Response SmartAssignBody * DB :=
  match sa_tutorId req with
  | None => (Message 400 "tutorId is required", db)
  | Some tutorId =>
      match findFirst (fun t => Nat.eqb (tutor_id t) tutorId
                                && Nat.eqb (tutor_schoolId t) (sa_schoolId req))
                      (tutors db) with
      | None => (Message 404 "Tutor not found in this school", db)
      | Some tutor =>
          match transaction (smartAssignTx req tutorId) db with
          | (Ok (st, cta), db') =>
              (Json 201 (mkSmartAssignBody tutor (createdAssignments st)
                           (skippedAssignments st) cta (errors st)), db')
          | (Err P2002, db') =>
              (Message 409
                 "This tutor is already assigned to one or more of these subjects",
               db')
          | (Err _, db') => (Message 500 "Failed to assign tutor", db')
          end
      end
  end.

(** [updateTutorAssignments]: a first transaction clears the tutor,
    then [smartAssignTutor] runs on the same body. *)
Definition updateTutorAssignments (db : DB) (req : SmartAssignReq)
    : Response SmartAssignBody * DB :=
  match sa_tutorId req with
  | None => (Message 400 "tutorId is required", db)
  | Some tutorId =>
      match findFirst (fun t => Nat.eqb (tutor_id t) tutorId
                                && Nat.eqb (tutor_schoolId t) (sa_schoolId req))
                      (tutors db) with
      | None => (Message 404 "Tutor not found in this school", db)
      | Some tutor =>
          let (_, db1) :=
            transaction (fun tx => Ok (tt, clearTutor tutorId tx)) db in
          smartAssignTutor db1 req
      end
  end.

(** [deleteAllTutorAssignments]. *)
Definition deleteAllTutorAssignments (db : DB) (tutorId : Id)
    : Response unit * DB :=
  match findFirst (fun t => Nat.eqb (tutor_id t) tutorId) (tutors db) with
  | None => (Message 404 "Tutor not found", db)
  | Some tutor =>
      let (_, db1) :=
        transaction (fun tx => Ok (tt, clearTutor tutorId tx)) db in
      (Message 200 "All assignments removed successfully", db1)
  end.

(** [assignClassTutor]. *)
Definition assignClassTutor (db : DB) (sectionId : Id) (tutorId : option Id)
    : Response SectionRow * DB :=
  match tutorId with
  | None => (Message 400 "tutorId is required", db)
  | Some tutorId =>
      match findFirst (fun s => Nat.eqb (section_id s) sectionId)
                      (sections db) with
      | None => (Message 404 "Section not found", db)
      | Some section =>
          match findFirst (fun t => Nat.eqb (tutor_id t) tutorId)
                          (tutors db) with
          | None => (Message 404 "Tutor not found", db)
          | Some tutor =>
              match updateSectionRow db sectionId
                                     (set_classTutorId (Some tutorId)) with
              | Ok db' => (Json 200 (set_classTutorId (Some tutorId) section),
                           db')
              | Err _ => (Message 500 "Failed to assign class tutor", db)
              end
          end
      end
  end.

(** [removeClassTutor]. *)
Definition removeClassTutor (db : DB) (sectionId : Id) : Response unit * DB :=
  match findFirst (fun s => Nat.eqb (section_id s) sectionId)
                  (sections db) with
  | None => (Message 404 "Section not found", db)
  | Some section =>
      match updateSectionRow db sectionId (set_classTutorId None) with
      | Ok db' => (Message 200 "Class tutor removed successfully", db')
      | Err _ => (Message 500 "Failed to remove class tutor", db)
      end
  end.

(** [`${section.grade.name}-${section.name}`] for an included
    [sectionSubject.section]; the relations are required ones, the
    empty name stands for a row the foreign keys rule out. *)
Definition sectionLabel (db : DB) (sectionSubject : SectionSubject) : string :=
  match findFirst (fun s => Nat.eqb (section_id s)
                                    (ss_sectionId sectionSubject))
                  (sections db) with
  | Some section =>
      match findFirst (fun g => Nat.eqb (grade_id g) (section_gradeId section))
                      (grades db) with
      | Some grade => grade_name grade ++ "-" ++ section_name section
      | None => "-" ++ section_name section
      end
  | None => "-"
  end.

(** [assignSubjectToTutor]: no transaction, each call commits on its
    own. *)
Definition assignSubjectToTutor (db : DB) (schoolId : Id)
    (tutorId sectionSubjectId : option Id)
    : Response TutorSubjectAssignment * DB :=
  match tutorId, sectionSubjectId with
  | Some tutorId, Some sectionSubjectId =>
      match findFirst (fun t => Nat.eqb (tutor_id t) tutorId
                                && Nat.eqb (tutor_schoolId t) schoolId)
                      (tutors db) with
      | None => (Message 404 "Tutor not found in this school", db)
      | Some tutor =>
          match findFirst (fun s => Nat.eqb (ss_id s) sectionSubjectId)
                          (sectionSubjects db) with
          | None => (Message 404 "Subject not found", db)
          | Some sectionSubject =>
              match findFirst (sameLink tutorId sectionSubjectId)
                              (assignments db) with
              | Some existingAssignment =>
                  if tsa_isActive existingAssignment
                  then (Message 409 (tutor_name tutor
                                     ++ " is already assigned to teach "
                                     ++ ss_name sectionSubject ++ " in "
                                     ++ sectionLabel db sectionSubject), db)
                  else
                    match updateAssignmentRow db (tsa_id existingAssignment)
                                              (set_tsa_isActive true) with
                    | Ok db' =>
                        (Json 200 (set_tsa_isActive true existingAssignment),
                         db')
                    | Err P2002 =>
                        (Message 409
                           "This tutor is already assigned to this subject",
                         db)
                    | Err _ => (Message 500 "Failed to assign subject", db)
                    end
              | None =>
                  match createAssignmentRow db tutorId sectionSubjectId
                                            true with
                  | Ok (assignment, db') => (Json 201 assignment, db')
                  | Err P2002 =>
                      (Message 409
                         "This tutor is already assigned to this subject", db)
                  | Err _ => (Message 500 "Failed to assign subject", db)
                  end
              end
          end
      end
  | _, _ => (Message 400 "tutorId and sectionSubjectId are required", db)
  end.

(** [removeAssignment]. *)
Definition removeAssignment (db : DB) (assignmentId : Id)
    : Response unit * DB :=
  match findFirst (fun a => Nat.eqb (tsa_id a) assignmentId)
                  (assignments db) with
  | None => (Message 404 "Assignment not found", db)
  | Some assignment =>
      match deleteAssignmentRow db assignmentId with
      | Ok db' => (Message 200 "Assignment removed successfully", db')
      | Err _ => (Message 500 "Failed to remove assignment", db)
      end
  end.

(** ** The handlers around them *)

Record UpdateGradeReq := mkUpdateGradeReq
  { ug_name : option string; ug_order : option Z;
    ug_isActive : option bool }.

(** [updateGrade]: name, order and active flag of one grade. *)
Definition updateGrade (db : DB) (gradeId : Id) (req : UpdateGradeReq)
    : Response Grade * DB :=
  match findFirst (fun g => Nat.eqb (grade_id g) gradeId) (grades db) with
  | None => (Message 404 "Grade not found", db)
  | Some existingGrade =>
      let nameConflict :=
        match required (ug_name req) with
        | Some name =>
            if negb (String.eqb name (grade_name existingGrade))
            then findFirst
                   (fun g => Nat.eqb (grade_schoolId g)
                                     (grade_schoolId existingGrade)
                             && String.eqb (grade_name g) name
                             && negb (Nat.eqb (grade_id g) gradeId))
                   (grades db)
            else None
        | None => None
        end in
      match nameConflict with
      | Some _ => (Message 409 "A grade with this name already exists", db)
      | None =>
          match updateGradeRow db gradeId
                  (mkGradeData (ug_name req) (ug_order req)
                               (ug_isActive req)) with
          | Ok (updatedGrade, db') => (Json 200 updatedGrade, db')
          | Err _ => (Message 500 "Failed to update grade", db)
          end
      end
  end.

(** The callback of [addSection]'s transaction. *)
Definition addSectionTx (gradeId : Id) (name : string)
    (subjects : option (list string)) (tx : DB)
    : result ((SectionRow * list SectionSubject) * DB) :=
  bind (createSectionRow tx name gradeId true) (fun '(section, tx1) =>
  bind (match subjects with
        | Some names => createSubjects (section_id section) names (tx1, [])
        | None => Ok (tx1, [])
        end)
       (fun '(tx2, createdSubjects) => Ok ((section, createdSubjects), tx2))).

(** [addSection]: a new section of a grade, with its subjects. *)
Definition addSection (db : DB) (gradeId : Id) (name : option string)
    (subjects : option (list string))
    : Response (SectionRow * list SectionSubject) * DB :=
  match required name with
  | None => (Message 400 "Section name is required", db)
  | Some name =>
      match findFirst (fun g => Nat.eqb (grade_id g) gradeId) (grades db) with
      | None => (Message 404 "Grade not found", db)
      | Some grade =>
          match findFirst (fun s => Nat.eqb (section_gradeId s) gradeId
                                    && String.eqb (section_name s) name)
                          (sections db) with
          | Some _ => (Message 409 "Section already exists in this grade", db)
          | None =>
              match transaction (addSectionTx gradeId name subjects) db with
              | (Ok created, db') => (Json 201 created, db')
              | (Err _, db') => (Message 500 "Failed to add section", db')
              end
          end
      end
  end.

(** [updateSection]: the name of a section. *)
Definition updateSection (db : DB) (sectionId : Id) (name : option string)
    : Response SectionRow * DB :=
  match required name with
  | None => (Message 400 "Section name is required", db)
  | Some name =>
      match findFirst (fun s => Nat.eqb (section_id s) sectionId)
                      (sections db) with
      | None => (Message 404 "Section not found", db)
      | Some existingSection =>
          let nameConflict :=
            if negb (String.eqb name (section_name existingSection))
            then findFirst
                   (fun s => Nat.eqb (section_gradeId s)
                                     (section_gradeId existingSection)
                             && String.eqb (section_name s) name
                             && negb (Nat.eqb (section_id s) sectionId))
                   (sections db)
            else None in
          match nameConflict with
          | Some _ =>
              (Message 409
                 "A section with this name already exists in this grade", db)
          | None =>
              match renameSectionRow db sectionId name with
              | Ok (updatedSection, db') => (Json 200 updatedSection, db')
              | Err _ => (Message 500 "Failed to update section", db)
              end
          end
      end
  end.

(** [checkDuplicateAssignment]: [isDuplicate] and, with it, the id of
    the active assignment found. *)
Definition checkDuplicateAssignment (db : DB)
    (tutorId sectionSubjectId : option Id) : Response (bool * option Id) :=
  match tutorId, sectionSubjectId with
  | Some tutorId, Some sectionSubjectId =>
      match findFirst (fun a => sameLink tutorId sectionSubjectId a
                                && tsa_isActive a) (assignments db) with
      | Some existingAssignment =>
          Json 200 (true, Some (tsa_id existingAssignment))
      | None => Json 200 (false, None)
      end
  | _, _ => Message 400 "tutorId and sectionSubjectId are required"
  end.

End Rev2.

(* ================================================================= *)
(** * Rev1: [src/unnamed/part_001] and
      [src/backend/src/controllers/assignment.controller.ts] *)

Module Rev1.
Import Prisma Http Shapes.

(** [_max: { order: true }] over the school's grades: [null] when it
    has none. *)
Definition maxOrder (db : DB) (schoolId : Id) : option Z :=
  fold_left (fun acc g =>
               match acc with
               | None => Some (grade_order g)
               | Some m => Some (Z.max m (grade_order g))
               end)
            (filter (fun g => Nat.eqb (grade_schoolId g) schoolId) (grades db))
            None.

(** [x || 0] on a number or [null]. *)
Definition orZero (x : option Z) : Z :=
  match x with
  | Some v => v
  | None => 0%Z
  end.

(** [createGrade] of [part_001]: an absent (or zero) order falls back
    to [(maxOrder._max.order || 0) + 1]. *)
Definition createGrade (db : DB) (req : CreateGradeReq)
    : Response CreatedGrade * DB :=
  match required (cg_gradeName req), cg_sections req with
  | Some gradeName, Some (s :: more) =>
      let sections := s :: more in
      let schoolId := cg_schoolId req in
      match findFirst (fun r => Nat.eqb (school_id r) schoolId)
                      (schools db) with
      | None => (Message 404 "School not found", db)
      | Some school =>
          match findFirst (fun g => Nat.eqb (grade_schoolId g) schoolId
                                    && String.eqb (grade_name g) gradeName)
                          (grades db) with
          | Some _ => (Message 409 "Grade already exists in this school", db)
          | None =>
              let computed := (orZero (maxOrder db schoolId) + 1)%Z in
              let gradeOrder :=
                match cg_order req with
                | Some order => if Z.eqb order 0 then computed else order
                | None => computed
                end in
              match transaction (createGradeTx schoolId gradeName gradeOrder
                                               sections) db with
              | (Ok created, db') => (Json 201 created, db')
              | (Err _, db') => (Message 500 "Failed to create grade", db')
              end
          end
      end
  | _, _ =>
      (Message 400 "Missing required fields: gradeName and sections array", db)
  end.

(** The subject block of [updateGrade] in [part_001] for one section
    with an id (the [if (sectionData.subjects)] branch): names not yet
    among the section's rows, active or not, are created; rows whose
    name is not listed are deactivated. *)
Definition updateGradeSubjects (sectionId : Id) (subjects : list string)
    (tx : DB) : result DB :=
  let currentSubjects :=
    filter (fun s => Nat.eqb (ss_sectionId s) sectionId)
           (sectionSubjects tx) in
  let currentNames := map ss_name currentSubjects in
  bind (forEach (fun subjectName tx1 =>
                   if negb (includes currentNames subjectName)
                   then bind (createSectionSubjectRow tx1 subjectName
                                                      sectionId true)
                             (fun '(_, tx2) => Ok tx2)
                   else Ok tx1)
                subjects tx)
       (fun tx1 =>
  forEach (fun current tx2 =>
             if negb (includes subjects (ss_name current))
             then updateSectionSubjectRow tx2 (ss_id current)
                                          (set_ss_isActive false)
             else Ok tx2)
          currentSubjects tx1).

(** Body of the inner loop of [smartAssignTutor] in
    [assignment.controller.ts]: an existing assignment, active or not,
    is passed over. *)
Definition subjectStep (tutorId sectionId : Id)
    (gradeName sectionName subjectName : string) (st : Acc) : result Acc :=
  bind (match findFirst (subjectNamed sectionId subjectName true)
                        (sectionSubjects (acc_db st)) with
        | Some sectionSubject => Ok (sectionSubject, acc_db st)
        | None => createSectionSubjectRow (acc_db st) subjectName sectionId
                                          true
        end)
       (fun '(sectionSubject, tx) =>
  match findFirst (sameLink tutorId (ss_id sectionSubject))
                  (assignments tx) with
  | Some existingAssignment => Ok (withDb st tx)
  | None =>
      bind (createAssignmentRow tx tutorId (ss_id sectionSubject) true)
           (fun '(assignment, tx') =>
              Ok (pushCreated st tx'
                    (mkCreatedItem (tsa_id assignment) gradeName sectionName
                                   subjectName false)))
  end).

Definition keyStep (schoolId tutorId : Id) (entry : string * list string)
    (st : Acc) : result Acc :=
  let '(key, subjectNames) := entry in
  match matchKey key with
  | None => Ok (pushError st (invalidKeyMessage key))
  | Some (gradeName, sectionName) =>
      match findFirst (activeGradeNamed schoolId gradeName)
                      (grades (acc_db st)) with
      | None => Ok (pushError st ("Grade not found: " ++ gradeName))
      | Some grade =>
          match findFirst (activeSectionNamed (grade_id grade) sectionName)
                          (sections (acc_db st)) with
          | None => Ok (pushError st ("Section " ++ sectionName
                                      ++ " not found in " ++ gradeName))
          | Some section =>
              forEach (subjectStep tutorId (section_id section) gradeName
                                   sectionName)
                      subjectNames st
          end
      end
  end.

(** Part 2 of the callback: the section's class tutor is written
    whatever it was. *)
Definition classTutorStep (schoolId tutorId : Id)
    (classGrade classSection : option string) (st : Acc)
    : result (Acc * option ClassTutorAssignment) :=
  match required classGrade, required classSection with
  | Some classGrade, Some classSection =>
      match findFirst (activeGradeNamed schoolId classGrade)
                      (grades (acc_db st)) with
      | Some grade =>
          match findFirst (activeSectionNamed (grade_id grade) classSection)
                          (sections (acc_db st)) with
          | Some section =>
              bind (updateSectionRow (acc_db st) (section_id section)
                                     (set_classTutorId (Some tutorId)))
                   (fun tx' =>
                      Ok (withDb st tx',
                          Some (mkClassTutorAssignment classGrade
                                                       classSection)))
          | None =>
              Ok (pushError st
                    ("Section " ++ classSection ++ " not found in "
                     ++ classGrade ++ " for class tutor assignment"), None)
          end
      | None =>
          Ok (pushError st ("Grade " ++ classGrade
                            ++ " not found for class tutor assignment"), None)
      end
  | _, _ => Ok (st, None)
  end.

Definition smartAssignTx (req : SmartAssignReq) (tutorId : Id) (tx : DB)
    : result ((Acc * option ClassTutorAssignment) * DB) :=
  bind (forEach (keyStep (sa_schoolId req) tutorId) (sa_assignments req)
                (mkAcc tx [] [] []))
       (fun st1 =>
  bind (classTutorStep (sa_schoolId req) tutorId (sa_classGrade req)
                       (sa_classSection req) st1)
       (fun '(st2, cta) => Ok ((st2, cta), acc_db st2))).

(** [smartAssignTutor] of [assignment.controller.ts]; its body has no
    [skippedAssignments], the field stays empty here. *)
Definition smartAssignTutor (db : DB) (req : SmartAssignReq)
    : Response SmartAssignBody * DB :=
  match sa_tutorId req with
  | None => (Message 400 "tutorId is required", db)
  | Some tutorId =>
      match findFirst (fun t => Nat.eqb (tutor_id t) tutorId
                                && Nat.eqb (tutor_schoolId t) (sa_schoolId req))
                      (tutors db) with
      | None => (Message 404 "Tutor not found in this school", db)
      | Some tutor =>
          match transaction (smartAssignTx req tutorId) db with
          | (Ok (st, cta), db') =>
              (Json 201 (mkSmartAssignBody tutor (createdAssignments st)
                           [] cta (errors st)), db')
          | (Err _, db') => (Message 500 "Failed to assign tutor", db')
          end
      end
  end.

(** [updateTutorAssignments] of [assignment.controller.ts]. *)
Definition updateTutorAssignments (db : DB) (req : SmartAssignReq)
    : Response SmartAssignBody * DB :=
  match sa_tutorId req with
  | None => (Message 400 "tutorId is required", db)
  | Some tutorId =>
      match findFirst (fun t => Nat.eqb (tutor_id t) tutorId
                                && Nat.eqb (tutor_schoolId t) (sa_schoolId req))
                      (tutors db) with
      | None => (Message 404 "Tutor not found in this school", db)
      | Some tutor =>
          let (_, db1) :=
            transaction (fun tx => Ok (tt, clearTutor tutorId tx)) db in
          smartAssignTutor db1 req
      end
  end.

End Rev1.


(* ================================================================= *)
(** * Middleware and routes: [authenticate], [requireRole] *)

Module Middleware.
Import Prisma Http.

(** [req.user], as [authenticate] fills it from the token. *)
Record AuthUser := mkAuthUser
  { au_userId : Id; au_role : Role; au_email : string;
    au_schoolId : option Id }.

(** A middleware calls [next()] or answers. *)
Inductive Passed (A : Type) :=
| Next (a : A)
| Reject (code : nat) (message : string).
Arguments Next {A} a.
Arguments Reject {A} code message.

Definition role_eqb (a b : Role) : bool :=
  match a, b with
  | SUPERADMIN, SUPERADMIN => true
  | SCHOOL_ADMIN, SCHOOL_ADMIN => true
  | TEACHER, TEACHER => true
  | _, _ => false
  end.

(** [s.split(sep)] for a separator of one code unit. *)
Fixpoint split (sep : ascii) (s : string) : list string :=
  match s with
  | EmptyString => [EmptyString]
  | String c rest =>
      if Ascii.eqb c sep then EmptyString :: split sep rest
      else match split sep rest with
           | piece :: more => String c piece :: more
           | [] => [String c EmptyString]
           end
  end.

(** [authenticate]; [verify] is [jwt.verify] under the access secret:
    the payload of a token it accepts, [None] where it throws. *)
Definition authenticate (verify : string -> option AuthUser)
    (authorization : option string) : Passed AuthUser :=
  match authorization with
  | None => Reject 401 "Unauthorized"
  | Some authHeader =>
      if String.prefix "Bearer " authHeader
      then
        match nth_error (split " "%char authHeader) 1 with
        | Some token =>
            match verify token with
            | Some decoded => Next decoded
            | None => Reject 401 "Invalid or expired token"
            end
        | None => Reject 401 "Invalid or expired token"
        end
      else Reject 401 "Unauthorized"
  end.

(** [requireRole(...allowedRoles)]; [schoolId] is
    [req.params.schoolId]. *)
Definition requireRole (allowedRoles : list Role) (user : option AuthUser)
    (schoolId : option Id) : Passed unit :=
  match user with
  | None => Reject 401 "Unauthorized"
  | Some u =>
      if negb (existsb (role_eqb (au_role u)) allowedRoles)
      then Reject 403 "Forbidden"
      else if role_eqb (au_role u) SUPERADMIN
      then Next tt
      else if negb (optId_eqb (au_schoolId u) schoolId)
      then Reject 403 "Forbidden"
      else Next tt
  end.

(** A route of a router mounted under [/api/v1/schools/:schoolId/...]:
    [router.use(authenticate)], then [requireRole(...)], then the
    handler. *)
Definition route {A} (verify : string -> option AuthUser)
    (allowedRoles : list Role) (handler : DB -> Response A * DB)
    (authorization : option string) (schoolId : Id) (db : DB)
    : Response A * DB :=
  match authenticate verify authorization with
  | Reject code message => (Message code message, db)
  | Next user =>
      match requireRole allowedRoles (Some user) (Some schoolId) with
      | Reject code message => (Message code message, db)
      | Next _ => handler db
      end
  end.

End Middleware.

(* ================================================================= *)
(** * Concrete stores and requests *)

Module Scenario.
Import Prisma Http Shapes.

(** The store after [prisma/seed.ts]. *)
Definition seeded : DB :=
  mkDB [] [mkUser 0 "System Super Admin" "superadmin@system.com" None
                  "hash0" SUPERADMIN None None]
       [] [] [] [] [] 1.

(** School Lincoln with its admin. *)
Definition lincoln : DB :=
  snd (SuperadminController.createSchool seeded
         (SuperadminController.mkCreateSchoolReq
            (Some "Lincoln") (Some "LIN01") (Some "Ann")
            (Some "ann@lincoln.edu") (Some "555-0100"))
         "temp1" "hash1").

(** Grade 1 with section A and subjects English and Maths. *)
Definition gradeOneReq : CreateGradeReq :=
  mkCreateGradeReq 1 (Some "Grade 1") None
    (Some [mkSectionData "A" (Some ["English"; "Maths"])]).

Definition withGrade : DB := snd (Rev2.createGrade lincoln gradeOneReq).

Definition janeReq : TutorController.CreateTutorReq :=
  TutorController.mkCreateTutorReq 1 (Some "Jane") (Some "jane@lincoln.edu")
                                   (Some "555-0101").

(** Tutor Jane (id 7) with her user account. *)
Definition withJane : DB :=
  snd (TutorController.createTutor withGrade janeReq "temp2" "hash2").

Definition englishReq : SmartAssignReq :=
  mkSmartAssignReq 1 (Some 7) [("Grade 1-A", ["English"])] None None.

(** Jane teaches English in Grade 1-A. *)
Definition janeAssigned : DB := snd (Rev2.smartAssignTutor withJane englishReq).

(** A school whose only grade was created with the explicit order 5. *)
Definition gradeFiveReq : CreateGradeReq :=
  mkCreateGradeReq 1 (Some "Grade 5") (Some 5%Z) (Some [mkSectionData "A" None]).

Definition withGradeFive : DB := snd (Rev2.createGrade lincoln gradeFiveReq).

Definition gradeSixReq : CreateGradeReq :=
  mkCreateGradeReq 1 (Some "Grade 6") None (Some [mkSectionData "A" None]).

(** A second request for Jane's address. *)
Definition joanReq : TutorController.CreateTutorReq :=
  TutorController.mkCreateTutorReq 1 (Some "Joan") (Some "jane@lincoln.edu")
                                   (Some "555-0102").

(** A second tutor, Joan (id 9), in Jane's school. *)
Definition joanNewReq : TutorController.CreateTutorReq :=
  TutorController.mkCreateTutorReq 1 (Some "Joan") (Some "joan@lincoln.edu")
                                   (Some "555-0102").

Definition withTwoTutors : DB :=
  snd (TutorController.createTutor withJane joanNewReq "temp3" "hash3").

(** Joan asks for the class Grade 1-A and for no subject. *)
Definition classOnlyReq : SmartAssignReq :=
  mkSmartAssignReq 1 (Some 9) [] (Some "Grade 1") (Some "A").

(** Jane's assignment to English, switched off. *)
Definition janeInactive : DB :=
  with_assignments janeAssigned
    (map (set_tsa_isActive false) (assignments janeAssigned)).

(** Section A (id 4) keeps Maths only: English (id 5) is switched
    off. *)
Definition englishOff : DB :=
  snd (Rev2.updateSectionSubjects withJane 4 (Some ["Maths"])).

Definition mathsReq : SmartAssignReq :=
  mkSmartAssignReq 1 (Some 7) [("Grade 1-A", ["Maths"])] None None.

(** Jane teaches Maths, and English is switched off. *)
Definition janeMaths : DB := snd (Rev2.smartAssignTutor englishOff mathsReq).

(** Jane teaches Maths and is class tutor of Grade 1-A; English is
    switched off. *)
Definition janeClassMaths : DB :=
  snd (Rev2.assignClassTutor janeMaths 4 (Some 7)).

(** A request for Jane with one well-formed key and one key that has
    no section letter. *)
Definition mixedReq : SmartAssignReq :=
  mkSmartAssignReq 1 (Some 7)
    [("Grade 1-A", ["English"]); ("Grade 1", ["Maths"])] None None.

End Scenario.

(* ================================================================= *)
(** * Properties of stores used in the statements *)

Module Props.
Import Prisma Http Shapes.

(** An address is taken when a tutor row or a user row carries it. *)
Definition emailTaken (db : DB) (email : string) : Prop :=
  (exists t, In t (tutors db) /\ tutor_email t = email)
  \/ (exists u, In u (users db) /\ user_email u = email).

(** A tutor is engaged when it has an active subject assignment or is
    class tutor of a section. *)
Definition isEngaged (db : DB) (tutorId : Id) : Prop :=
  (exists a, In a (assignments db) /\ tsa_tutorId a = tutorId
             /\ tsa_isActive a = true)
  \/ (exists s, In s (sections db) /\ section_classTutorId s = Some tutorId).

(** ** Comparing two stores around [smartAssignTutor] *)

(** The same section but, possibly, for its class tutor. *)
Definition sec_sim (s s' : SectionRow) : Prop :=
  section_id s' = section_id s /\ section_name s' = section_name s
  /\ section_gradeId s' = section_gradeId s
  /\ section_isActive s' = section_isActive s.

(** The same assignment row, still active if it was. *)
Definition asg_le (a a' : TutorSubjectAssignment) : Prop :=
  tsa_id a' = tsa_id a /\ tsa_tutorId a' = tsa_tutorId a
  /\ tsa_sectionSubjectId a' = tsa_sectionSubjectId a
  /\ (tsa_isActive a = true -> tsa_isActive a' = true).

(** [ext db db']: [db'] has the grades and tutors of [db], its sections
    up to their class tutors, its section subjects followed by new
    ones, and its assignment rows, none deactivated, followed by new
    ones. *)
Definition ext (db db' : DB) : Prop :=
  grades db' = grades db
  /\ tutors db' = tutors db
  /\ Forall2 sec_sim (sections db) (sections db')
  /\ (exists extra, sectionSubjects db' = sectionSubjects db ++ extra)
  /\ (exists kept extra, assignments db' = kept ++ extra
                         /\ Forall2 asg_le (assignments db) kept).

(** The tutor already teaches the subject of that name in the section:
    the lookups of [subjectStep] find an active section subject and an
    active assignment to it. *)
Definition settled (db : DB) (tutorId sectionId : Id) (subjectName : string)
    : Prop :=
  exists ss a,
    findFirst (subjectNamed sectionId subjectName true) (sectionSubjects db)
    = Some ss
    /\ findFirst (sameLink tutorId (ss_id ss)) (assignments db) = Some a
    /\ tsa_isActive a = true.

(** The arrays of a smart-assign answer, empty when the answer is an
    error message. *)
Definition createdOf (r : Response SmartAssignBody) : list CreatedItem :=
  match r with
  | Json _ body => sb_subjectAssignments body
  | Message _ _ => []
  end.

Definition skippedOf (r : Response SmartAssignBody) : list SkippedItem :=
  match r with
  | Json _ body => sb_skippedAssignments body
  | Message _ _ => []
  end.

Definition errorsOf (r : Response SmartAssignBody) : list string :=
  match r with
  | Json _ body => sb_errors body
  | Message _ _ => []
  end.

(** A skipped item names the grade, section and subject of a created
    one. *)
Definition sameTriple (c : CreatedItem) (k : SkippedItem) : Prop :=
  sk_grade k = ci_grade c /\ sk_section k = ci_section c
  /\ sk_subject k = ci_subject c.

(** Two accumulators that differ at most in their [errors]. *)
Definition sameWork (st st' : Acc) : Prop :=
  acc_db st' = acc_db st
  /\ createdAssignments st' = createdAssignments st
  /\ skippedAssignments st' = skippedAssignments st.

(** What one turn of the inner loop of [smartAssignTutor] did for
    the subject [subjectName] of section [sectionName] in grade
    [gradeName]: one skipped item, or one created item. *)
Inductive Outcome (gradeName sectionName subjectName : string)
    (st st' : Acc) : Prop :=
| Skipped :
    st' = pushSkipped st (acc_db st')
            (mkSkippedItem gradeName sectionName subjectName
                           "Already assigned") ->
    Outcome gradeName sectionName subjectName st st'
| Added (item : CreatedItem) :
    st' = pushCreated st (acc_db st') item ->
    ci_grade item = gradeName -> ci_section item = sectionName ->
    ci_subject item = subjectName ->
    Outcome gradeName sectionName subjectName st st'.

(** The accumulator with another [errors] array. *)
Definition setErrors (st : Acc) (es : list string) : Acc :=
  mkAcc (acc_db st) (createdAssignments st) (skippedAssignments st) es.

Definition mapResult {A B} (f : A -> B) (r : result A) : result B :=
  match r with
  | Ok a => Ok (f a)
  | Err e => Err e
  end.

(** Two runs end alike: both commit, in related states, or both throw
    the same error. *)
Definition rel_result {S} (R : S -> S -> Prop) (r1 r2 : result S) : Prop :=
  match r1, r2 with
  | Ok a, Ok b => R a b
  | Err e1, Err e2 => e1 = e2
  | _, _ => False
  end.

(** [st1] did the work of [st2] and reports at least its errors, the
    message [msg] among them. *)
Definition reportsMore (msg : string) (st1 st2 : Acc) : Prop :=
  sameWork st2 st1
  /\ incl (errors st2) (errors st1)
  /\ In msg (errors st1).

Definition classTutorOf (r : Response SmartAssignBody)
    : option ClassTutorAssignment :=
  match r with
  | Json _ body => sb_classTutorAssignment body
  | Message _ _ => None
  end.

(** The request with another [assignments] object. *)
Definition withAssignments (req : SmartAssignReq)
    (l : list (string * list string)) : SmartAssignReq :=
  mkSmartAssignReq (sa_schoolId req) (sa_tutorId req) l (sa_classGrade req)
                   (sa_classSection req).

(** ** Section subjects *)

(** The columns of the unique index of [SectionSubject]. *)
Definition skey (s : SectionSubject) : Id * string :=
  (ss_sectionId s, ss_name s).

(** The table of section subjects obeys its unique index and its
    primary key, and its ids were drawn from the counter. *)
Definition subjectsWf (db : DB) : Prop :=
  NoDup (map skey (sectionSubjects db))
  /\ NoDup (map ss_id (sectionSubjects db))
  /\ Forall (fun s => ss_id s < nextId db) (sectionSubjects db).

(** The names [updateSectionSubjects] reads as current. *)
Definition activeNames (db : DB) (sectionId : Id) : list string :=
  map ss_name (filter (fun s => Nat.eqb (ss_sectionId s) sectionId
                                && ss_isActive s) (sectionSubjects db)).

(** The names of a request that [updateSectionSubjects] adds. *)
Definition namesToAdd (db : DB) (sectionId : Id) (names : list string)
    : list string :=
  filter (fun name => negb (includes (activeNames db sectionId) name)) names.

(** ** Parts of loops named in the proofs *)

(** The second half of a turn of the inner loop of Rev2's
    [smartAssignTutor], once the section subject [ss] is at hand in
    the store [tx]. *)
Definition linkPart (tutorId : Id) (gradeName sectionName subjectName : string)
    (st : Acc) (ss : SectionSubject) (tx : DB) : result Acc :=
  match findFirst (sameLink tutorId (ss_id ss)) (assignments tx) with
  | Some existingAssignment =>
      if tsa_isActive existingAssignment
      then Ok (pushSkipped st tx
                 (mkSkippedItem gradeName sectionName subjectName
                                "Already assigned"))
      else
        bind (updateAssignmentRow tx (tsa_id existingAssignment)
                                  (set_tsa_isActive true))
             (fun tx' =>
                Ok (pushCreated st tx'
                      (mkCreatedItem (tsa_id existingAssignment) gradeName
                                     sectionName subjectName true)))
  | None =>
      bind (createAssignmentRow tx tutorId (ss_id ss) true)
           (fun '(assignment, tx') =>
              Ok (pushCreated st tx'
                    (mkCreatedItem (tsa_id assignment) gradeName sectionName
                                   subjectName false)))
  end.

(** The row function of an [update] of [isActive] by id. *)
Definition turn (b : bool) (i : Id) (r : SectionSubject) : SectionSubject :=
  if Nat.eqb (ss_id r) i then set_ss_isActive b r else r.

(** Every assignment row of the tutor has an id from [floor] on, and
    so has the next row. *)
Definition freshFrom (tutorId floor : Id) (db : DB) : Prop :=
  floor <= nextId db
  /\ forall a, In a (assignments db) -> tsa_tutorId a = tutorId ->
               floor <= tsa_id a.

(** What holds of the store of [updateSectionSubjects]'s transaction
    when the names [seen] have been added: [db0] is the store it
    started from and [x] a switched-off subject of the section. *)
Definition adding (sectionId : Id) (db0 : DB) (x : SectionSubject)
    (seen : list string) (tx : DB) : Prop :=
  subjectsWf tx
  /\ hasSection tx sectionId = true
  /\ (forall r, In r (sectionSubjects tx) -> ss_sectionId r = sectionId ->
                ss_isActive r = true ->
                In (ss_name r) (activeNames db0 sectionId)
                \/ In (ss_name r) seen)
  /\ (~ In (ss_name x) seen -> In x (sectionSubjects tx))
  /\ (In (ss_name x) seen ->
      In (set_ss_isActive true x) (sectionSubjects tx))
  /\ (forall r, In r (sectionSubjects db0) ->
                exists r', In r' (sectionSubjects tx)
                           /\ ss_id r' = ss_id r).

(** What holds of that store while subjects are switched off. *)
Definition removing (db0 : DB) (x : SectionSubject) (tx : DB) : Prop :=
  NoDup (map skey (sectionSubjects tx))
  /\ In (set_ss_isActive true x) (sectionSubjects tx)
  /\ (forall r, In r (sectionSubjects db0) ->
                exists r', In r' (sectionSubjects tx)
                           /\ ss_id r' = ss_id r).

(** ** Reachable stores *)

(** The columns of the unique index of [TutorSubjectAssignment]. *)
Definition link (a : TutorSubjectAssignment) : Id * Id :=
  (tsa_tutorId a, tsa_sectionSubjectId a).

Definition belowOpt (n : Id) (o : option Id) : Prop :=
  match o with
  | Some i => i < n
  | None => True
  end.

(** A table shrinks when rows are deleted from it. *)
Definition shrinks {A} (l' l : list A) : Prop :=
  exists p, l' = filter p l.

(** What every handler keeps: the unique indexes of assignments and
    of section subjects, and ids drawn from the counter. *)
Definition wf (db : DB) : Prop :=
  NoDup (map link (assignments db))
  /\ subjectsWf db
  /\ Forall (fun a => tsa_id a < nextId db) (assignments db)
  /\ Forall (fun t => tutor_id t < nextId db) (tutors db)
  /\ Forall (fun u => belowOpt (nextId db) (user_tutorId u)) (users db).

(** The requests of the modelled routes, with what the environment
    supplies (temporary password and its hash). *)
Inductive Request :=
| CreateSchool (req : SuperadminController.CreateSchoolReq)
               (temp hash : string)
| CreateTutor (req : TutorController.CreateTutorReq) (temp hash : string)
| DeleteTutor (tutorId : Id) (force : option string)
| CreateGrade1 (req : CreateGradeReq)
| CreateGrade2 (req : CreateGradeReq)
| UpdateSectionSubjects (sectionId : Id) (subjects : option (list string))
| AddSubjectToSection (sectionId : Id) (name : option string)
| DeleteSubjectFromSection (subjectId : Id)
| DeleteSection (sectionId : Id)
| DeleteGrade (gradeId : Id)
| SmartAssign1 (req : SmartAssignReq)
| SmartAssign2 (req : SmartAssignReq)
| UpdateTutorAssignments1 (req : SmartAssignReq)
| UpdateTutorAssignments2 (req : SmartAssignReq)
| DeleteAllTutorAssignments (tutorId : Id)
| AssignClassTutor (sectionId : Id) (tutorId : option Id)
| RemoveClassTutor (sectionId : Id)
| AssignSubjectToTutor (schoolId : Id) (tutorId sectionSubjectId : option Id)
| RemoveAssignment (assignmentId : Id).

(** The store a request leaves. *)
Definition handle (db : DB) (rq : Request) : DB :=
  match rq with
  | CreateSchool req temp hash =>
      snd (SuperadminController.createSchool db req temp hash)
  | CreateTutor req temp hash =>
      snd (TutorController.createTutor db req temp hash)
  | DeleteTutor tutorId force =>
      snd (TutorController.deleteTutor db tutorId force)
  | CreateGrade1 req => snd (Rev1.createGrade db req)
  | CreateGrade2 req => snd (Rev2.createGrade db req)
  | UpdateSectionSubjects sectionId subjects =>
      snd (Rev2.updateSectionSubjects db sectionId subjects)
  | AddSubjectToSection sectionId name =>
      snd (Rev2.addSubjectToSection db sectionId name)
  | DeleteSubjectFromSection subjectId =>
      snd (Rev2.deleteSubjectFromSection db subjectId)
  | DeleteSection sectionId => snd (Rev2.deleteSection db sectionId)
  | DeleteGrade gradeId => snd (Rev2.deleteGrade db gradeId)
  | SmartAssign1 req => snd (Rev1.smartAssignTutor db req)
  | SmartAssign2 req => snd (Rev2.smartAssignTutor db req)
  | UpdateTutorAssignments1 req => snd (Rev1.updateTutorAssignments db req)
  | UpdateTutorAssignments2 req => snd (Rev2.updateTutorAssignments db req)
  | DeleteAllTutorAssignments tutorId =>
      snd (Rev2.deleteAllTutorAssignments db tutorId)
  | AssignClassTutor sectionId tutorId =>
      snd (Rev2.assignClassTutor db sectionId tutorId)
  | RemoveClassTutor sectionId => snd (Rev2.removeClassTutor db sectionId)
  | AssignSubjectToTutor schoolId tutorId sectionSubjectId =>
      snd (Rev2.assignSubjectToTutor db schoolId tutorId sectionSubjectId)
  | RemoveAssignment assignmentId =>
      snd (Rev2.removeAssignment db assignmentId)
  end.

(** The stores the handlers can build from the seeded one. *)
Inductive reachable : DB -> Prop :=
| reach_seeded : reachable Scenario.seeded
| reach_handle db rq : reachable db -> reachable (handle db rq).

End Props.
(* ================================================================= *)
(** * The modelled API as a whole *)

Module Api.
Import Prisma Http Shapes Props.

(** The status a handler answers with, and the store it leaves. *)
Definition answer {A} (r : Response A * DB) : nat * DB :=
  (status (fst r), snd r).

Definition respondTo (db : DB) (rq : Request) : nat * DB :=
  match rq with
  | CreateSchool req temp hash =>
      answer (SuperadminController.createSchool db req temp hash)
  | CreateTutor req temp hash =>
      answer (TutorController.createTutor db req temp hash)
  | DeleteTutor tutorId force =>
      answer (TutorController.deleteTutor db tutorId force)
  | CreateGrade1 req => answer (Rev1.createGrade db req)
  | CreateGrade2 req => answer (Rev2.createGrade db req)
  | UpdateSectionSubjects sectionId subjects =>
      answer (Rev2.updateSectionSubjects db sectionId subjects)
  | AddSubjectToSection sectionId name =>
      answer (Rev2.addSubjectToSection db sectionId name)
  | DeleteSubjectFromSection subjectId =>
      answer (Rev2.deleteSubjectFromSection db subjectId)
  | DeleteSection sectionId => answer (Rev2.deleteSection db sectionId)
  | DeleteGrade gradeId => answer (Rev2.deleteGrade db gradeId)
  | SmartAssign1 req => answer (Rev1.smartAssignTutor db req)
  | SmartAssign2 req => answer (Rev2.smartAssignTutor db req)
  | UpdateTutorAssignments1 req => answer (Rev1.updateTutorAssignments db req)
  | UpdateTutorAssignments2 req => answer (Rev2.updateTutorAssignments db req)
  | DeleteAllTutorAssignments tutorId =>
      answer (Rev2.deleteAllTutorAssignments db tutorId)
  | AssignClassTutor sectionId tutorId =>
      answer (Rev2.assignClassTutor db sectionId tutorId)
  | RemoveClassTutor sectionId => answer (Rev2.removeClassTutor db sectionId)
  | AssignSubjectToTutor schoolId tutorId sectionSubjectId =>
      answer (Rev2.assignSubjectToTutor db schoolId tutorId sectionSubjectId)
  | RemoveAssignment assignmentId =>
      answer (Rev2.removeAssignment db assignmentId)
  end.

(** The requests of [Request] and those of the handlers modelled
    beside them. *)
Inductive Call :=
| Base (rq : Request)
| UpdateTutor (tutorId : Id) (req : TutorController.UpdateTutorReq)
| UpdateGrade (gradeId : Id) (req : Rev2.UpdateGradeReq)
| AddSection (gradeId : Id) (name : option string)
             (subjects : option (list string))
| UpdateSection (sectionId : Id) (name : option string)
| DeleteSchool (id : Id)
| DeleteSchoolTx (id : Id).

Definition respond (db : DB) (c : Call) : nat * DB :=
  match c with
  | Base rq => respondTo db rq
  | UpdateTutor tutorId req =>
      answer (TutorController.updateTutor db tutorId req)
  | UpdateGrade gradeId req => answer (Rev2.updateGrade db gradeId req)
  | AddSection gradeId name subjects =>
      answer (Rev2.addSection db gradeId name subjects)
  | UpdateSection sectionId name =>
      answer (Rev2.updateSection db sectionId name)
  | DeleteSchool id => answer (SuperadminController.deleteSchool db id)
  | DeleteSchoolTx id => answer (SuperadminController.deleteSchoolTx db id)
  end.

(** The two replace-all requests. *)
Definition isReplaceAll (c : Call) : bool :=
  match c with
  | Base (UpdateTutorAssignments1 _) => true
  | Base (UpdateTutorAssignments2 _) => true
  | _ => false
  end.

(** A status of the 2xx class. *)
Definition succeeded (code : nat) : bool :=
  Nat.leb 200 code && Nat.ltb code 300.

(** The stores that sequences of calls build from the seeded one. *)
Inductive built : DB -> Prop :=
| built_seeded : built Scenario.seeded
| built_call db c : built db -> built (snd (respond db c)).

(** The foreign keys of the schema. *)
Inductive Ref :=
| UserSchool | UserTutor | TutorSchool | GradeSchool | SectionGrade
| SectionClassTutor | SubjectSection | AssignmentTutor | AssignmentSubject.

(** The foreign key holds in the store: every row of the referring
    table names a row that is there. *)
Definition holds (k : Ref) (db : DB) : Prop :=
  match k with
  | UserSchool =>
      Forall (fun u => optRef (hasSchool db) (user_schoolId u) = true)
             (users db)
  | UserTutor =>
      Forall (fun u => optRef (hasTutor db) (user_tutorId u) = true)
             (users db)
  | TutorSchool =>
      Forall (fun t => hasSchool db (tutor_schoolId t) = true) (tutors db)
  | GradeSchool =>
      Forall (fun g => hasSchool db (grade_schoolId g) = true) (grades db)
  | SectionGrade =>
      Forall (fun s => hasGrade db (section_gradeId s) = true) (sections db)
  | SectionClassTutor =>
      Forall (fun s => optRef (hasTutor db) (section_classTutorId s) = true)
             (sections db)
  | SubjectSection =>
      Forall (fun s => hasSection db (ss_sectionId s) = true)
             (sectionSubjects db)
  | AssignmentTutor =>
      Forall (fun a => hasTutor db (tsa_tutorId a) = true) (assignments db)
  | AssignmentSubject =>
      Forall (fun a => hasSectionSubject db (tsa_sectionSubjectId a) = true)
             (assignments db)
  end.

(** No reference dangles. *)
Definition refsOk (db : DB) : Prop := forall k, holds k db.

Definition optList (o : option Id) : list Id :=
  match o with
  | Some i => [i]
  | None => []
  end.

(** The ids that the rows of the referring table of a foreign key
    name, and the ids of the table it refers to. *)
Definition src (k : Ref) (db : DB) : list Id :=
  match k with
  | UserSchool => flat_map (fun u => optList (user_schoolId u)) (users db)
  | UserTutor => flat_map (fun u => optList (user_tutorId u)) (users db)
  | TutorSchool => map tutor_schoolId (tutors db)
  | GradeSchool => map grade_schoolId (grades db)
  | SectionGrade => map section_gradeId (sections db)
  | SectionClassTutor =>
      flat_map (fun s => optList (section_classTutorId s)) (sections db)
  | SubjectSection => map ss_sectionId (sectionSubjects db)
  | AssignmentTutor => map tsa_tutorId (assignments db)
  | AssignmentSubject => map tsa_sectionSubjectId (assignments db)
  end.

Definition tgt (k : Ref) (db : DB) : list Id :=
  match k with
  | UserSchool | TutorSchool | GradeSchool => map school_id (schools db)
  | UserTutor | SectionClassTutor | AssignmentTutor =>
      map tutor_id (tutors db)
  | SectionGrade => map grade_id (grades db)
  | SubjectSection => map section_id (sections db)
  | AssignmentSubject => map ss_id (sectionSubjects db)
  end.

(** One write of a handler that the database has carried out. *)
Inductive write : DB -> DB -> Prop :=
| w_school db name code row db' :
    createSchoolRow db name code = Ok (row, db') -> write db db'
| w_user db name email phone password role schoolId tutorId row db' :
    createUserRow db name email phone password role schoolId tutorId
    = Ok (row, db') -> write db db'
| w_tutor db name email phone schoolId active row db' :
    createTutorRow db name email phone schoolId active = Ok (row, db') ->
    write db db'
| w_grade db name schoolId order active row db' :
    createGradeRow db name schoolId order active = Ok (row, db') ->
    write db db'
| w_section db name gradeId active row db' :
    createSectionRow db name gradeId active = Ok (row, db') -> write db db'
| w_subject db name sectionId row db' :
    createSectionSubjectRow db name sectionId true = Ok (row, db') ->
    write db db'
| w_assignment db tutorId sectionSubjectId active row db' :
    createAssignmentRow db tutorId sectionSubjectId active = Ok (row, db') ->
    write db db'
| w_subject_active db i b db' :
    updateSectionSubjectRow db i (set_ss_isActive b) = Ok db' -> write db db'
| w_assignment_active db i b db' :
    updateAssignmentRow db i (set_tsa_isActive b) = Ok db' -> write db db'
| w_class_tutor db i t db' :
    optRef (hasTutor db) t = true ->
    updateSectionRow db i (set_classTutorId t) = Ok db' -> write db db'
| w_tutor_data db i d row db' :
    updateTutorRow db i d = Ok (row, db') -> write db db'
| w_users_data db p d db' :
    updateManyUsers db p d = Ok db' -> write db db'
| w_grade_data db i d row db' :
    updateGradeRow db i d = Ok (row, db') -> write db db'
| w_section_name db i name row db' :
    renameSectionRow db i name = Ok (row, db') -> write db db'
| w_delete_tutor db i db' : deleteTutorRow db i = Ok db' -> write db db'
| w_delete_assignment db i db' :
    deleteAssignmentRow db i = Ok db' -> write db db'
| w_delete_subject db i db' :
    deleteSectionSubjectRow db i = Ok db' -> write db db'
| w_delete_section db i db' : deleteSectionRow db i = Ok db' -> write db db'
| w_delete_grade db i db' : deleteGradeRow db i = Ok db' -> write db db'
| w_delete_school db i db' : deleteSchoolRow db i = Ok db' -> write db db'
| w_delete_assignments db p :
    write db (with_assignments db (deleteMany p (assignments db)))
| w_clear_class_tutors db p :
    write db (with_sections db
                (updateMany p (set_classTutorId None) (sections db)))
| w_delete_users db p :
    write db (with_users db (deleteMany p (users db))).

(** A sequence of writes. *)
Inductive writes : DB -> DB -> Prop :=
| writes_none db : writes db db
| writes_more db db1 db2 : writes db db1 -> write db1 db2 -> writes db db2.

(** No row refers to a tutor of id [i]: the id is free for a new
    tutor. *)
Definition tutorIdUnused (db : DB) (i : Id) : Prop :=
  Forall (fun t => tutor_id t <> i) (tutors db)
  /\ Forall (fun u => user_tutorId u <> Some i) (users db)
  /\ Forall (fun a => tsa_tutorId a <> i) (assignments db)
  /\ Forall (fun s => section_classTutorId s <> Some i) (sections db).

(** The user rows linked to the tutor. *)
Definition linkedTo (tutorId : Id) (u : User) : bool :=
  optId_eqb (user_tutorId u) (Some tutorId).

(** The rows that [names] become when they are inserted one after
    the other as active subjects of section [sid], the first under
    the id [next]. *)
Fixpoint newSubjects (next sid : Id) (names : list string)
    : list SectionSubject :=
  match names with
  | [] => []
  | name :: rest =>
      mkSectionSubject next name sid true :: newSubjects (S next) sid rest
  end.

(** The store with [rows] appended to its section subjects, one id
    drawn for each. *)
Definition withRows (db : DB) (rows : list SectionSubject) : DB :=
  mkDB (schools db) (users db) (tutors db) (grades db) (sections db)
       (sectionSubjects db ++ rows) (assignments db)
       (nextId db + List.length rows).

(** Section [sid] has a subject row of that name, active or not. *)
Definition present (db : DB) (sid : Id) (name : string) : bool :=
  existsb (fun r => Nat.eqb (ss_sectionId r) sid
                    && String.eqb (ss_name r) name) (sectionSubjects db).

(** The two stores hold the same rows; their counters may differ. *)
Definition sameTables (db db' : DB) : Prop :=
  schools db' = schools db /\ users db' = users db
  /\ tutors db' = tutors db /\ grades db' = grades db
  /\ sections db' = sections db
  /\ sectionSubjects db' = sectionSubjects db
  /\ assignments db' = assignments db.

(** No row refers to a section or a section subject whose id the
    counter has not handed out yet. *)
Definition sectionIdsBelow (db : DB) : Prop :=
  Forall (fun s => section_id s < nextId db) (sections db)
  /\ Forall (fun s => ss_sectionId s < nextId db) (sectionSubjects db)
  /\ Forall (fun a => tsa_sectionSubjectId a < nextId db) (assignments db).

(** No row refers to a grade, a section or a section subject whose
    id the counter has not handed out yet. *)
Definition gradeIdsBelow (db : DB) : Prop :=
  Forall (fun g => grade_id g < nextId db) (grades db)
  /\ Forall (fun s => section_gradeId s < nextId db) (sections db)
  /\ Forall (fun s => ss_sectionId s < nextId db) (sectionSubjects db)
  /\ Forall (fun a => tsa_sectionSubjectId a < nextId db) (assignments db).

(** The subject names of a section of a [createGrade] request:
    none when the field is absent. *)
Definition subjectNames (sd : SectionData) : list string :=
  match sd_subjects sd with
  | Some names => names
  | None => []
  end.

(** The sections of a request have pairwise different names, and so
    have the subjects of each. *)
Definition wellNamed (sds : list SectionData) : Prop :=
  NoDup (map sd_name sds) /\ Forall (fun sd => NoDup (subjectNames sd)) sds.

(** Grade [gid] has a section of that name. *)
Definition sectionTaken (db : DB) (gid : Id) (name : string) : bool :=
  existsb (fun r => Nat.eqb (section_gradeId r) gid
                    && String.eqb (section_name r) name) (sections db).

(** What the loop of [createGrade] needs of the store: the grade is
    there, and no subject row refers to a section that is not. *)
Definition readyFor (gid : Id) (tx : DB) : Prop :=
  hasGrade tx gid = true
  /\ Forall (fun x => ss_sectionId x < nextId tx) (sectionSubjects tx).

(** The names in a created section and its subjects. *)
Definition madeNames (made : SectionRow * list SectionSubject)
    : string * list string :=
  (section_name (fst made), map ss_name (snd made)).

(** Section [s] has an active subject of that name. *)
Definition activeIn (db : DB) (s : Id) (name : string) : bool :=
  existsb (subjectNamed s name true) (sectionSubjects db).

(** Every row of [db0] is in [tx] under its id, section and name. *)
Definition keepsRows (db0 tx : DB) : Prop :=
  forall c, In c (sectionSubjects db0) ->
            exists r, In r (sectionSubjects tx)
                      /\ ss_id r = ss_id c /\ skey r = skey c.

(** What holds in the first loop of [updateSectionSubjects] when the
    names [seen] have been added to the subjects of [db0]. *)
Definition addedSoFar (sectionId : Id) (db0 : DB) (seen : list string)
    (tx : DB) : Prop :=
  subjectsWf tx /\ hasSection tx sectionId = true /\ keepsRows db0 tx
  /\ forall s n, activeIn tx s n
                 = activeIn db0 s n
                   || (Nat.eqb s sectionId && includes seen n).

(** What holds in its second loop when the rows [gone] have been
    switched off, from the store [tx1] on. *)
Definition removedSoFar (sectionId : Id) (db0 tx1 : DB)
    (gone : list SectionSubject) (tx : DB) : Prop :=
  subjectsWf tx /\ keepsRows db0 tx
  /\ hasSection tx sectionId = hasSection tx1 sectionId
  /\ forall s n, activeIn tx s n
                 = activeIn tx1 s n
                   && negb (Nat.eqb s sectionId
                            && includes (map ss_name gone) n).

(** The active section [sectionId] is named [sectionName] and lies in
    an active grade of the school named [gradeName]. *)
Definition located (schoolId : Id) (db : DB) (gradeName sectionName : string)
    (sectionId : Id) : Prop :=
  exists g s,
    In g (grades db) /\ grade_schoolId g = schoolId
    /\ grade_name g = gradeName /\ grade_isActive g = true
    /\ In s (sections db) /\ section_id s = sectionId
    /\ section_gradeId s = grade_id g /\ section_name s = sectionName
    /\ section_isActive s = true.

(** The item of a smart-assign answer is in the store: an active
    assignment row of that id links the tutor to an active subject of
    the item's name, in the section and grade of the item's names. *)
Definition reported (schoolId tutorId : Id) (db : DB) (item : CreatedItem)
    : Prop :=
  exists ss a,
    located schoolId db (ci_grade item) (ci_section item) (ss_sectionId ss)
    /\ In ss (sectionSubjects db) /\ ss_name ss = ci_subject item
    /\ ss_isActive ss = true
    /\ In a (assignments db) /\ tsa_id a = ci_id item
    /\ tsa_tutorId a = tutorId /\ tsa_sectionSubjectId a = ss_id ss
    /\ tsa_isActive a = true.

(** A number within 32 bits: one that Prisma takes for an [Int] field
    and that an [INTEGER] column gives back as it is. *)
Definition inInt32 (z : Z) : Prop := (- 2 ^ 31 <= z < 2 ^ 31)%Z.

(** Another section of the grade of [existing] carries the name. *)
Definition sectionNameTaken (db : DB) (existing : SectionRow)
    (name : string) : Prop :=
  exists s, In s (sections db)
            /\ section_gradeId s = section_gradeId existing
            /\ section_name s = name
            /\ section_id s <> section_id existing.

(** Another grade of the school of [existing] carries the name. *)
Definition gradeNameTaken (db : DB) (existing : Grade) (name : string)
    : Prop :=
  exists g, In g (grades db)
            /\ grade_schoolId g = grade_schoolId existing
            /\ grade_name g = name
            /\ grade_id g <> grade_id existing.

End Api.

(** ** Proof automation *)

Arguments Shapes.invalidKeyMessage : simpl never.

Ltac easy_message :=
  repeat split; try reflexivity; try apply incl_refl;
  try (intros; discriminate).

(** One case split on what decides the answer of a handler: the
    scrutinee of a [match]. *)
Ltac branch_on_answer :=
  match goal with
  | |- context [match ?x with _ => _ end] => destruct x eqn:?
  end.

(** The tables of a store after a write, one step of reduction. *)
Ltac tables :=
  cbn [Api.src Api.tgt Prisma.schools Prisma.users Prisma.tutors
       Prisma.grades Prisma.sections Prisma.sectionSubjects
       Prisma.assignments Prisma.nextId Prisma.with_schools
       Prisma.with_users Prisma.with_tutors Prisma.with_grades
       Prisma.with_sections Prisma.with_sectionSubjects
       Prisma.with_assignments Prisma.bump] in *.

Create HintDb refs.
Create Rewrite HintDb refs.

(** A foreign key that a write does not touch, or touches by adding
    to the table it refers to or by deleting from the table that
    refers: [H] is the key before the write. *)
Ltac same_refs H :=
  tables; unfold Prisma.updateMany;
  rewrite ?map_app, ?flat_map_app; cbn [map flat_map Api.optList app];
  rewrite ?app_nil_r;
  autorewrite with refs;
  first [ exact H
        | apply incl_appl; exact H
        | eapply incl_tran; [solve [eauto with refs nocore] | exact H] ].

(** ** Tables that are written out *)

(** The cases of a row [H : In x l] of a table that is written out. *)
Ltac each_row H :=
  vm_compute in H; repeat (destruct H as [<-|H]); try contradiction.

(** The keys of a table that is written out are distinct, or its rows
    are all below a bound. *)
Ltac distinct_rows :=
  vm_compute; repeat constructor;
  try (let H := fresh in
       intros H; repeat (destruct H as [H|H]);
       try discriminate H; contradiction).

(** ** Runs of handlers as sequences of writes *)

Ltac one_write := solve [econstructor; eassumption].

Ltac by_writes :=
  first [ apply Api.writes_none
        | eapply Api.writes_more; [|one_write]; by_writes ].

(** The store a handler leaves after its transaction is the store of
    the transaction. *)
Ltac drop_answer :=
  match goal with
  | |- Api.writes ?db (snd ?e) =>
      match e with
      | match ?r with _ => _ end =>
          replace (snd e) with (snd r)
            by (destruct r as [[?|?] ?]; cbn [snd];
                repeat branch_on_answer; reflexivity)
      end
  end.

(** One case split on a check that comes before the transaction. *)
Ltac branch_on_check :=
  match goal with
  | |- context [match ?x with _ => _ end] =>
      lazymatch x with
      | context [Prisma.transaction] => fail
      | _ => destruct x eqn:?
      end
  end.

(** The case splits of a run that committed, innermost first. *)
Ltac unfold_run E :=
  unfold Prisma.bind in E;
  repeat match type of E with
         | context [match ?x with _ => _ end] =>
             lazymatch x with
             | context [match _ with _ => _ end] => fail
             | _ => destruct x eqn:?
             end
         end;
  try discriminate; inversion E; subst.

(** A callback without a loop: the writes are its binds. *)
Ltac straight E := unfold_run E; by_writes.

(* ================================================================= *)
(** * Lookups and the store primitives *)

Import Prisma Http Shapes TutorController Props Middleware Api.

Section Lookups.
Context {A : Type}.
Variable p : A -> bool.

Lemma findFirst_none_existsb (l : list A) :
  findFirst p l = None <-> existsb p l = false.
Proof.
  unfold findFirst. induction l as [|x l IH]; simpl.
  - tauto.
  - destruct (p x); simpl; [split; discriminate | exact IH].
Qed.

Lemma findFirst_some_existsb (l : list A) (x : A) :
  findFirst p l = Some x -> existsb p l = true.
Proof.
  intros H. destruct (existsb p l) eqn:E; [reflexivity|].
  apply findFirst_none_existsb in E. congruence.
Qed.

Lemma findFirst_some (l : list A) (x : A) :
  findFirst p l = Some x -> In x l /\ p x = true.
Proof. unfold findFirst. apply find_some. Qed.

Lemma findFirst_app_some (l l' : list A) (x : A) :
  findFirst p l = Some x -> findFirst p (l ++ l') = Some x.
Proof.
  unfold findFirst. induction l as [|y l IH]; simpl; [discriminate|].
  destruct (p y); auto.
Qed.

Lemma findFirst_app_none (l l' : list A) :
  findFirst p l = None -> findFirst p (l ++ l') = findFirst p l'.
Proof.
  unfold findFirst. induction l as [|y l IH]; simpl; [reflexivity|].
  destruct (p y); [discriminate | auto].
Qed.
End Lookups.

Lemma transaction_ok {A} (body : DB -> result (A * DB)) db a db' :
  body db = Ok (a, db') -> transaction body db = (Ok a, db').
Proof. unfold transaction. intros ->. reflexivity. Qed.

Lemma transaction_err {A} (body : DB -> result (A * DB)) db e :
  body db = Err e -> transaction body db = (Err e, db).
Proof. unfold transaction. intros ->. reflexivity. Qed.

(* ================================================================= *)
(** * Grades: the default display order *)

Section GradeOrder.

Lemma createGradeTx_grade schoolId name order sections tx g created tx' :
  createGradeTx schoolId name order sections tx = Ok ((g, created), tx') ->
  g = mkGrade (nextId tx) name schoolId order true.
Proof.
  unfold createGradeTx, createGradeRow.
  destruct (negb (fitsInt order)); [discriminate|].
  destruct (existsb _ (grades tx)); [discriminate|].
  destruct (negb (hasSchool tx schoolId)); [discriminate|].
  cbn [bind].
  destruct (createSections _ _ _) as [[tx2 secs]|e]; cbn [bind];
    [|discriminate].
  intros H. inversion H. reflexivity.
Qed.

(** Rev2 numbers a grade created without [order] by the count of the
    school's grades. *)
Lemma Rev2_createGrade_default_order db req g created db' :
  cg_order req = None ->
  Rev2.createGrade db req = (Json 201 (g, created), db') ->
  grade_order g =
  (Z.of_nat (List.length (filter (fun x => Nat.eqb (grade_schoolId x)
                                                   (cg_schoolId req))
                                 (grades db))) + 1)%Z.
Proof.
  intros Hord. unfold Rev2.createGrade. rewrite Hord.
  destruct (required (cg_gradeName req)) as [name|]; [|discriminate].
  destruct (cg_sections req) as [[|s more]|]; try discriminate.
  destruct (findFirst _ (grades db)); [discriminate|].
  unfold transaction.
  destruct (createGradeTx _ _ _ _ db) as [[[g0 c0] tx']|e] eqn:E;
    [|discriminate].
  intros H. inversion H. subst.
  apply createGradeTx_grade in E. subst g. reflexivity.
Qed.

Lemma fold_max_spec (l : list Grade) (acc : option Z) :
  match fold_left (fun a g => match a with
                              | None => Some (grade_order g)
                              | Some m => Some (Z.max m (grade_order g))
                              end) l acc with
  | None => acc = None /\ l = []
  | Some m =>
      (acc = Some m \/ exists g, In g l /\ grade_order g = m)
      /\ (forall g, In g l -> (grade_order g <= m)%Z)
      /\ (forall a, acc = Some a -> (a <= m)%Z)
  end.
Proof.
  revert acc. induction l as [|g l IH]; intros acc; simpl.
  - destruct acc as [a|]; [|tauto].
    split; [left; reflexivity|]. split; [tauto|].
    intros a' H. inversion H. lia.
  - match goal with |- context [fold_left ?f l ?a] =>
      specialize (IH a); destruct (fold_left f l a) as [m|] end.
    + destruct IH as (Hin & Hub & Hacc).
      split; [|split].
      * destruct Hin as [Hin|(g' & Hg' & Ho)].
        -- destruct acc as [a|]; inversion Hin; subst.
           ++ destruct (Z.max_spec a (grade_order g)) as [[_ E]|[_ E]];
                rewrite E; [right; exists g; auto | left; reflexivity].
           ++ right. exists g. auto.
        -- right. exists g'. auto.
      * intros g' [<-|Hg']; [|auto].
        destruct acc as [a|];
          [specialize (Hacc _ eq_refl); lia | specialize (Hacc _ eq_refl); lia].
      * intros a ->. specialize (Hacc _ eq_refl). lia.
    + destruct IH as (Hacc & _). destruct acc; discriminate.
Qed.

(** [maxOrder] is the largest order among the school's grades. *)
Lemma maxOrder_spec db schoolId :
  match Rev1.maxOrder db schoolId with
  | None => forall g, In g (grades db) -> grade_schoolId g <> schoolId
  | Some m =>
      (exists g, In g (grades db) /\ grade_schoolId g = schoolId
                 /\ grade_order g = m)
      /\ (forall g, In g (grades db) -> grade_schoolId g = schoolId ->
                    (grade_order g <= m)%Z)
  end.
Proof.
  unfold Rev1.maxOrder.
  pose proof (fold_max_spec
                (filter (fun g => Nat.eqb (grade_schoolId g) schoolId)
                        (grades db)) None) as H.
  match goal with |- match ?x with _ => _ end =>
    destruct x as [m|] end.
  - destruct H as (Hin & Hub & _). split.
    + destruct Hin as [Hin|(g & Hg & Ho)]; [discriminate|].
      apply filter_In in Hg. destruct Hg as (Hg & E).
      apply Nat.eqb_eq in E. exists g. auto.
    + intros g Hg E. apply Hub. apply filter_In. split; [assumption|].
      apply Nat.eqb_eq. assumption.
  - destruct H as (_ & Hnil). intros g Hg E.
    assert (In g (filter (fun g => Nat.eqb (grade_schoolId g) schoolId)
                         (grades db))) as Hf.
    { apply filter_In. split; [assumption|]. apply Nat.eqb_eq. assumption. }
    rewrite Hnil in Hf. destruct Hf.
Qed.

(** Rev1 numbers a grade created without [order] one above the
    largest order of the school, and 1 in a school without grades. *)
Lemma Rev1_createGrade_default_order db req g created db' :
  cg_order req = None ->
  Rev1.createGrade db req = (Json 201 (g, created), db') ->
  grade_order g = (Rev1.orZero (Rev1.maxOrder db (cg_schoolId req)) + 1)%Z.
Proof.
  intros Hord. unfold Rev1.createGrade. rewrite Hord.
  destruct (required (cg_gradeName req)) as [name|]; [|discriminate].
  destruct (cg_sections req) as [[|s more]|]; try discriminate.
  destruct (findFirst _ (schools db)); [|discriminate].
  destruct (findFirst _ (grades db)); [discriminate|].
  unfold transaction.
  destruct (createGradeTx _ _ _ _ db) as [[[g0 c0] tx']|e] eqn:E;
    [|discriminate].
  intros H. inversion H. subst.
  apply createGradeTx_grade in E. subst g. reflexivity.
Qed.

End GradeOrder.

(** C8, on Rev2.  In a school whose only grade has order 5,
    [createGrade] without [order] answers 201 with a grade of order 2
    (one above the count of grades), while the largest order is 5 and
    the claim asks for 6. *)
Theorem Rev2_createGrade_count_not_max :
  Rev1.maxOrder Scenario.withGradeFive 1 = Some 5%Z
  /\ exists g created db',
       Rev2.createGrade Scenario.withGradeFive Scenario.gradeSixReq
       = (Json 201 (g, created), db')
       /\ grade_order g = 2%Z
       /\ grade_order g <> (5 + 1)%Z.
Proof.
  split; [reflexivity|].
  eexists _, _, _. split; [vm_compute; reflexivity|].
  split; [reflexivity | discriminate].
Qed.

(* ================================================================= *)
(** * Tutors: creation and deletion *)


Lemma findFirst_email_tutor db email :
  findFirst (fun t => String.eqb (tutor_email t) email) (tutors db) = None
  <-> ~ exists t, In t (tutors db) /\ tutor_email t = email.
Proof.
  rewrite findFirst_none_existsb. split.
  - intros H (t & Ht & E).
    assert (existsb (fun t => String.eqb (tutor_email t) email) (tutors db)
            = true) as H'.
    { apply existsb_exists. exists t. split; [assumption|].
      apply String.eqb_eq. assumption. }
    congruence.
  - intros H. destruct (existsb _ (tutors db)) eqn:E; [|reflexivity].
    exfalso. apply H. apply existsb_exists in E.
    destruct E as (t & Ht & E). apply String.eqb_eq in E. eauto.
Qed.

Lemma findFirst_email_user db email :
  findFirst (fun u => String.eqb (user_email u) email) (users db) = None
  <-> ~ exists u, In u (users db) /\ user_email u = email.
Proof.
  rewrite findFirst_none_existsb. split.
  - intros H (t & Ht & E).
    assert (existsb (fun u => String.eqb (user_email u) email) (users db)
            = true) as H'.
    { apply existsb_exists. exists t. split; [assumption|].
      apply String.eqb_eq. assumption. }
    congruence.
  - intros H. destruct (existsb _ (users db)) eqn:E; [|reflexivity].
    exfalso. apply H. apply existsb_exists in E.
    destruct E as (t & Ht & E). apply String.eqb_eq in E. eauto.
Qed.

(** The transaction of [createTutor] commits both rows or throws. *)
Lemma createTutorTx_rows name email phone hash schoolId tx tutor user tx' :
  createTutorTx name email phone hash schoolId tx = Ok ((tutor, user), tx') ->
  tutor = mkTutor (nextId tx) name email phone schoolId true
  /\ user = mkUser (S (nextId tx)) name email (Some phone) hash TEACHER
                   (Some schoolId) (Some (nextId tx))
  /\ tx' = bump (with_users (bump (with_tutors tx (tutors tx ++ [tutor])))
                            (users tx ++ [user])).
Proof.
  unfold createTutorTx, createTutorRow.
  destruct (existsb _ (tutors tx)); [discriminate|].
  destruct (negb (hasSchool tx schoolId)); [discriminate|].
  cbn [bind]. unfold createUserRow.
  cbn [users tutors bump with_tutors nextId tutor_id].
  destruct (existsb _ (users tx)); [discriminate|].
  destruct (existsb (fun r => optId_eqb (user_tutorId r) (Some (nextId tx)))
                    (users tx)); [discriminate|].
  match goal with |- context [if ?c then Err P2003 else _] =>
    destruct c end; [discriminate|].
  cbn [bind]. intros H. inversion H. subst. auto.
Qed.

(** Whatever the request, [createTutor] leaves the store as it was or
    adds exactly one tutor row and one TEACHER user row linked to
    it. *)
Lemma createTutor_atomic db req temp hash :
  snd (createTutor db req temp hash) = db
  \/ exists tutor user,
       tutors (snd (createTutor db req temp hash)) = tutors db ++ [tutor]
       /\ users (snd (createTutor db req temp hash)) = users db ++ [user]
       /\ user_role user = TEACHER
       /\ user_tutorId user = Some (tutor_id tutor)
       /\ user_email user = tutor_email tutor.
Proof.
  unfold createTutor.
  destruct (required (ct_name req)) as [name|]; [|left; reflexivity].
  destruct (required (ct_email req)) as [email|]; [|left; reflexivity].
  destruct (required (ct_phone req)) as [phone|]; [|left; reflexivity].
  destruct (findFirst _ (schools db)); [|left; reflexivity].
  destruct (findFirst _ (tutors db)); [left; reflexivity|].
  destruct (findFirst _ (users db)); [left; reflexivity|].
  unfold transaction.
  destruct (createTutorTx _ _ _ _ _ db) as [[[tutor user] tx']|e] eqn:E;
    [|left; reflexivity].
  right. apply createTutorTx_rows in E. destruct E as (Et & Eu & Etx).
  exists tutor, user. cbn [snd]. subst tx'. cbn.
  subst user tutor. cbn. auto.
Qed.

(** A request whose address is taken never writes. *)
Lemma createTutor_taken_writes_nothing db req temp hash email :
  required (ct_email req) = Some email ->
  emailTaken db email ->
  snd (createTutor db req temp hash) = db
  /\ (status (fst (createTutor db req temp hash)) = 400
      \/ status (fst (createTutor db req temp hash)) = 404
      \/ status (fst (createTutor db req temp hash)) = 409).
Proof.
  intros He Htaken. unfold createTutor. rewrite He.
  destruct (required (ct_name req)) as [name|]; [|cbn; auto].
  destruct (required (ct_phone req)) as [phone|]; [|cbn; auto].
  destruct (findFirst _ (schools db)); [|cbn; auto].
  destruct (findFirst _ (tutors db)) eqn:Et; [cbn; auto|].
  destruct (findFirst _ (users db)) eqn:Eu; [cbn; auto|].
  exfalso. apply findFirst_email_tutor in Et. apply findFirst_email_user in Eu.
  destruct Htaken; contradiction.
Qed.

(** C5.  For a request that carries name, email and phone
    and names an existing school: when the address is taken by a
    tutor row or a user row the answer is 409 and the store is the
    same; otherwise (no user row being linked to the id the new tutor
    gets) the answer is 201 and the store gains the tutor row
    and its TEACHER user row, and nothing else. *)
Theorem createTutor_conflict_or_both db req temp hash name email phone :
  required (ct_name req) = Some name ->
  required (ct_email req) = Some email ->
  required (ct_phone req) = Some phone ->
  hasSchool db (ct_schoolId req) = true ->
  Forall (fun u => user_tutorId u <> Some (nextId db)) (users db) ->
  (emailTaken db email ->
     status (fst (createTutor db req temp hash)) = 409
     /\ snd (createTutor db req temp hash) = db)
  /\ (~ emailTaken db email ->
      let tutor := mkTutor (nextId db) name email phone (ct_schoolId req)
                           true in
      let user := mkUser (S (nextId db)) name email (Some phone) hash TEACHER
                         (Some (ct_schoolId req)) (Some (nextId db)) in
      createTutor db req temp hash
      = (Json 201 (tutor, temp),
         bump (with_users (bump (with_tutors db (tutors db ++ [tutor])))
                          (users db ++ [user])))).
Proof.
  intros Hn He Hp Hs Hfresh. unfold createTutor. rewrite Hn, He, Hp.
  destruct (findFirst _ (schools db)) as [school|] eqn:Es.
  2:{ apply findFirst_none_existsb in Es. unfold hasSchool in Hs. congruence. }
  split.
  - intros Htaken.
    destruct (findFirst _ (tutors db)) eqn:Et; [cbn; auto|].
    destruct (findFirst _ (users db)) eqn:Eu; [cbn; auto|].
    exfalso. apply findFirst_email_tutor in Et.
    apply findFirst_email_user in Eu. destruct Htaken; contradiction.
  - intros Hfree.
    destruct (findFirst _ (tutors db)) as [t|] eqn:Et.
    { exfalso. apply Hfree. left. apply findFirst_some in Et.
      destruct Et as (Ht & E). apply String.eqb_eq in E. eauto. }
    destruct (findFirst _ (users db)) as [u|] eqn:Eu.
    { exfalso. apply Hfree. right. apply findFirst_some in Eu.
      destruct Eu as (Hu & E). apply String.eqb_eq in E. eauto. }
    apply findFirst_none_existsb in Et. apply findFirst_none_existsb in Eu.
    unfold transaction, createTutorTx, createTutorRow.
    rewrite Et. rewrite Hs. cbn [negb bind]. unfold createUserRow.
    cbn [users tutors bump with_tutors nextId tutor_id schools].
    rewrite Eu.
    assert (existsb (fun r => optId_eqb (user_tutorId r) (Some (nextId db)))
                    (users db) = false) as Hlink.
    { destruct (existsb (fun r => optId_eqb (user_tutorId r) _) (users db))
        eqn:E; [|reflexivity].
      apply existsb_exists in E. destruct E as (u & Hu & E).
      rewrite Forall_forall in Hfresh. specialize (Hfresh u Hu).
      destruct (user_tutorId u) as [i|]; cbn in E; [|discriminate].
      apply Nat.eqb_eq in E. congruence. }
    rewrite Hlink.
    assert (optRef (hasSchool
              (mkDB (schools db) (users db)
                    (tutors db ++ [mkTutor (nextId db) name email phone
                                           (ct_schoolId req) true])
                    (grades db) (sections db) (sectionSubjects db)
                    (assignments db) (S (nextId db))))
              (Some (ct_schoolId req)) = true) as Hfk1.
    { cbn. exact Hs. }
    assert (optRef (hasTutor
              (mkDB (schools db) (users db)
                    (tutors db ++ [mkTutor (nextId db) name email phone
                                           (ct_schoolId req) true])
                    (grades db) (sections db) (sectionSubjects db)
                    (assignments db) (S (nextId db))))
              (Some (nextId db)) = true) as Hfk2.
    { cbn. unfold hasTutor. cbn. rewrite existsb_app. cbn.
      rewrite Nat.eqb_refl. rewrite orb_true_r. reflexivity. }
    unfold with_tutors, bump in *. cbn [schools users tutors grades sections
      sectionSubjects assignments nextId] in *.
    rewrite Hfk1, Hfk2. cbn. reflexivity.
Qed.

Lemma engaged_counts db tutorId :
  isEngaged db tutorId ->
  Nat.ltb 0 (countSubjectAssignments db tutorId)
  || Nat.ltb 0 (countClassSections db tutorId) = true.
Proof.
  intros [(a & Ha & Et & _)|(s & Hs & Ec)]; apply orb_true_iff.
  - left. unfold countSubjectAssignments.
    assert (In a (filter (fun a => Nat.eqb (tsa_tutorId a) tutorId)
                         (assignments db))) as Hf.
    { apply filter_In. split; [assumption|]. apply Nat.eqb_eq. assumption. }
    destruct (filter _ (assignments db)); [destruct Hf | reflexivity].
  - right. unfold countClassSections.
    assert (In s (filter (fun s => optId_eqb (section_classTutorId s)
                                             (Some tutorId))
                         (sections db))) as Hf.
    { apply filter_In. split; [assumption|]. rewrite Ec. cbn.
      apply Nat.eqb_refl. }
    destruct (filter _ (sections db)); [destruct Hf | reflexivity].
Qed.

Lemma gone_tutor_ids db tutorId j :
  hasTutor db tutorId = true ->
  existsb (fun t => Nat.eqb (tutor_id t) j)
          (filter (fun t => Nat.eqb (tutor_id t) tutorId) (tutors db))
  = Nat.eqb j tutorId.
Proof.
  intros Hhas. unfold hasTutor in Hhas. apply existsb_exists in Hhas.
  destruct Hhas as (t & Ht & E). apply Nat.eqb_eq in E.
  destruct (Nat.eqb j tutorId) eqn:Ej.
  - apply Nat.eqb_eq in Ej. subst j. apply existsb_exists. exists t.
    split; [|apply Nat.eqb_eq; assumption].
    apply filter_In. split; [assumption|]. apply Nat.eqb_eq. assumption.
  - destruct (existsb _ _) eqn:Ex; [|reflexivity].
    apply existsb_exists in Ex. destruct Ex as (t' & Ht' & E').
    apply filter_In in Ht'. destruct Ht' as (_ & E'').
    apply Nat.eqb_eq in E', E''. apply Nat.eqb_neq in Ej. congruence.
Qed.

(** C6.  For a tutor that exists and has an active subject
    assignment or is class tutor of a section: without [force=true]
    [deleteTutor] answers 400 and the store is the same; with
    [force=true] it answers 200, the tutor row is gone, every
    assignment row of the tutor is gone and the other assignment
    rows stay, and no section names the tutor as class tutor. *)
Theorem deleteTutor_guard_and_force db tutorId force :
  hasTutor db tutorId = true ->
  isEngaged db tutorId ->
  (isForce force = false ->
     status (fst (deleteTutor db tutorId force)) = 400
     /\ snd (deleteTutor db tutorId force) = db)
  /\ (isForce force = true ->
      let db' := snd (deleteTutor db tutorId force) in
      status (fst (deleteTutor db tutorId force)) = 200
      /\ hasTutor db' tutorId = false
      /\ assignments db'
         = filter (fun a => negb (Nat.eqb (tsa_tutorId a) tutorId))
                  (assignments db)
      /\ (forall s, In s (sections db') ->
                    section_classTutorId s <> Some tutorId)
      /\ tutors db'
         = filter (fun t => negb (Nat.eqb (tutor_id t) tutorId)) (tutors db)).
Proof.
  intros Hhas Heng. unfold deleteTutor.
  destruct (findFirst _ (tutors db)) as [tutor|] eqn:Ef.
  2:{ apply findFirst_none_existsb in Ef. unfold hasTutor in Hhas.
      congruence. }
  rewrite (engaged_counts Heng). cbn [andb]. split.
  - intros ->. cbn. auto.
  - intros ->. cbn [negb]. unfold deleteTutorRow. rewrite Hhas.
    cbn [snd fst status]. unfold dropTutors.
    cbn [tutors assignments sections].
    split; [reflexivity|]. split; [|split; [|split]].
    + unfold hasTutor, deleteMany. cbn [tutors].
      destruct (existsb _ _) eqn:E; [|reflexivity].
      apply existsb_exists in E. destruct E as (t & Ht & E).
      apply filter_In in Ht. destruct Ht as (_ & Hn).
      rewrite E in Hn. discriminate.
    + unfold deleteMany. apply filter_ext. intros a.
      rewrite (@gone_tutor_ids db tutorId _ Hhas). reflexivity.
    + intros s Hs. unfold updateMany in Hs. apply in_map_iff in Hs.
      destruct Hs as (s0 & <- & Hs0).
      destruct (section_classTutorId s0) as [i|] eqn:Ec.
      * rewrite (@gone_tutor_ids db tutorId _ Hhas).
        destruct (Nat.eqb i tutorId) eqn:Ei.
        -- cbn. discriminate.
        -- rewrite Ec. apply Nat.eqb_neq in Ei. congruence.
      * rewrite Ec. discriminate.
    + reflexivity.
Qed.


(** Jane's store meets the hypotheses of
    [createTutor_conflict_or_both], for a request with her address. *)
Lemma createTutor_conflict_or_both_witness :
  status (fst (TutorController.createTutor Scenario.withJane Scenario.joanReq
                 "temp3" "hash3")) = 409
  /\ snd (TutorController.createTutor Scenario.withJane Scenario.joanReq
            "temp3" "hash3") = Scenario.withJane.
Proof.
  apply (@createTutor_conflict_or_both Scenario.withJane Scenario.joanReq
           "temp3" "hash3" "Joan" "jane@lincoln.edu" "555-0102");
    try reflexivity.
  - repeat constructor; discriminate.
  - left. eexists. split; [left; reflexivity | reflexivity].
Defined.

(** Jane, once assigned, meets the hypotheses of
    [deleteTutor_guard_and_force]. *)
Lemma deleteTutor_guard_and_force_witness :
  (TutorController.isForce None = false ->
     status (fst (TutorController.deleteTutor Scenario.janeAssigned 7 None))
     = 400
     /\ snd (TutorController.deleteTutor Scenario.janeAssigned 7 None)
        = Scenario.janeAssigned)
  /\ (TutorController.isForce None = true ->
      let db' := snd (TutorController.deleteTutor Scenario.janeAssigned 7
                        None) in
      status (fst (TutorController.deleteTutor Scenario.janeAssigned 7 None))
      = 200
      /\ hasTutor db' 7 = false
      /\ assignments db'
         = filter (fun a => negb (Nat.eqb (tsa_tutorId a) 7))
                  (assignments Scenario.janeAssigned)
      /\ (forall s, In s (sections db') -> section_classTutorId s <> Some 7)
      /\ tutors db'
         = filter (fun t => negb (Nat.eqb (tutor_id t) 7))
                  (tutors Scenario.janeAssigned)).
Proof.
  apply (@deleteTutor_guard_and_force Scenario.janeAssigned 7 None).
  - reflexivity.
  - left. eexists. split; [left; reflexivity|]. split; reflexivity.
Defined.

(* ================================================================= *)
(** * Loops, and how a store grows under [smartAssignTutor] *)

Section Loops.
Context {A S : Type}.
Variable body : A -> S -> result S.

Lemma forEach_app (l1 l2 : list A) (st : S) :
  forEach body (l1 ++ l2) st = bind (forEach body l1 st) (forEach body l2).
Proof.
  revert st. induction l1 as [|x l1 IH]; intros st; simpl; [reflexivity|].
  destruct (body x st) as [st'|e]; simpl; [apply IH | reflexivity].
Qed.

(** A property kept by every successful turn is kept by the loop. *)
Lemma forEach_invariant (P : S -> Prop) :
  (forall x st st', body x st = Ok st' -> P st -> P st') ->
  forall l st st', forEach body l st = Ok st' -> P st -> P st'.
Proof.
  intros Hstep l. induction l as [|x l IH]; intros st st' H HP; simpl in H.
  - inversion H. subst. exact HP.
  - destruct (body x st) as [st1|e] eqn:E; simpl in H; [|discriminate].
    eapply IH; eauto.
Qed.

(** The same for a preorder between the state before and after. *)
Lemma forEach_preorder (R : S -> S -> Prop) :
  (forall st, R st st) ->
  (forall a b c, R a b -> R b c -> R a c) ->
  (forall x st st', body x st = Ok st' -> R st st') ->
  forall l st st', forEach body l st = Ok st' -> R st st'.
Proof.
  intros Hrefl Htrans Hstep l.
  induction l as [|x l IH]; intros st st' H; simpl in H.
  - inversion H. apply Hrefl.
  - destruct (body x st) as [st1|e] eqn:E; simpl in H; [|discriminate].
    eapply Htrans; eauto.
Qed.
End Loops.

Section Related.
Context {A B : Type}.
Variable R : A -> B -> Prop.
Variable p : A -> bool.
Variable q : B -> bool.
Hypothesis Hpq : forall x y, R x y -> p x = q y.

(** Lookups in two tables related row by row find related rows. *)
Lemma findFirst_Forall2 (l : list A) (l' : list B) :
  Forall2 R l l' ->
  match findFirst p l with
  | Some x => exists y, findFirst q l' = Some y /\ R x y
  | None => findFirst q l' = None
  end.
Proof.
  unfold findFirst. induction 1 as [|x y l l' Hxy _ IH]; simpl.
  - reflexivity.
  - rewrite <- (Hpq Hxy). destruct (p x); [eauto | exact IH].
Qed.
End Related.

Lemma findFirst_map_respect {A} (p : A -> bool) (f : A -> A) (l : list A) :
  (forall x, p (f x) = p x) ->
  findFirst p (map f l) = option_map f (findFirst p l).
Proof.
  intros Hp. unfold findFirst. induction l as [|x l IH]; simpl; [reflexivity|].
  rewrite Hp. destruct (p x); [reflexivity | exact IH].
Qed.

Lemma Forall2_refl {A} (R : A -> A -> Prop) (l : list A) :
  (forall x, R x x) -> Forall2 R l l.
Proof. intros H. induction l; constructor; auto. Qed.

Lemma Forall2_trans {A} (R : A -> A -> Prop) :
  (forall x y z, R x y -> R y z -> R x z) ->
  forall l1 l2 l3, Forall2 R l1 l2 -> Forall2 R l2 l3 -> Forall2 R l1 l3.
Proof.
  intros Ht l1 l2 l3 H12. revert l3.
  induction H12 as [|x y l1 l2 Hxy _ IH]; intros l3 H23; inversion H23; subst;
    constructor; eauto.
Qed.

Lemma Forall2_map_r {A} (R : A -> A -> Prop) (f : A -> A) (l : list A) :
  (forall x, R x (f x)) -> Forall2 R l (map f l).
Proof. intros H. induction l; simpl; constructor; auto. Qed.

Section Growth.

Lemma sec_sim_refl s : sec_sim s s.
Proof. unfold sec_sim. auto. Qed.

Lemma sec_sim_trans a b c : sec_sim a b -> sec_sim b c -> sec_sim a c.
Proof. unfold sec_sim. intuition congruence. Qed.

Lemma asg_le_refl a : asg_le a a.
Proof. unfold asg_le. auto. Qed.

Lemma asg_le_trans a b c : asg_le a b -> asg_le b c -> asg_le a c.
Proof. unfold asg_le. intuition congruence. Qed.

Lemma ext_refl db : ext db db.
Proof.
  unfold ext. repeat split.
  - apply Forall2_refl, sec_sim_refl.
  - exists []. symmetry. apply app_nil_r.
  - exists (assignments db), []. split; [symmetry; apply app_nil_r|].
    apply Forall2_refl, asg_le_refl.
Qed.

Lemma ext_trans a b c : ext a b -> ext b c -> ext a c.
Proof.
  intros (Hg1 & Ht1 & Hs1 & (x1 & Hx1) & (k1 & e1 & Ha1 & Hk1))
         (Hg2 & Ht2 & Hs2 & (x2 & Hx2) & (k2 & e2 & Ha2 & Hk2)).
  unfold ext. split; [congruence|]. split; [congruence|]. split; [|split].
  - eapply Forall2_trans; eauto using sec_sim_trans.
  - exists (x1 ++ x2). rewrite Hx2, Hx1. symmetry. apply app_assoc.
  - rewrite Ha1 in Hk2. apply Forall2_app_inv_l in Hk2.
    destruct Hk2 as (k2a & k2b & Hka & Hkb & ->).
    exists k2a, (k2b ++ e2). split.
    + rewrite Ha2. symmetry. apply app_assoc.
    + eapply Forall2_trans; eauto using asg_le_trans.
Qed.

Lemma createSectionSubjectRow_ok db name sectionId active row db' :
  createSectionSubjectRow db name sectionId active = Ok (row, db') ->
  row = mkSectionSubject (nextId db) name sectionId active
  /\ db' = bump (with_sectionSubjects db (sectionSubjects db ++ [row]))
  /\ existsb (fun r => Nat.eqb (ss_sectionId r) sectionId
                       && String.eqb (ss_name r) name)
             (sectionSubjects db) = false
  /\ hasSection db sectionId = true.
Proof.
  unfold createSectionSubjectRow.
  destruct (existsb _ (sectionSubjects db)); [discriminate|].
  destruct (hasSection db sectionId); [|discriminate].
  cbn [negb]. intros H. inversion H. auto.
Qed.

Lemma createAssignmentRow_ok db tutorId ssid active row db' :
  createAssignmentRow db tutorId ssid active = Ok (row, db') ->
  row = mkAssignment (nextId db) tutorId ssid active
  /\ db' = bump (with_assignments db (assignments db ++ [row]))
  /\ existsb (sameLink tutorId ssid) (assignments db) = false.
Proof.
  unfold createAssignmentRow.
  destruct (existsb _ (assignments db)); [discriminate|].
  destruct (negb _); [discriminate|].
  intros H. inversion H. auto.
Qed.

Lemma updateWhere_ok {A} (key : A -> Id) i f (l l' : list A) :
  updateWhere key i f l = Ok l' ->
  l' = map (fun r => if Nat.eqb (key r) i then f r else r) l
  /\ existsb (fun r => Nat.eqb (key r) i) l = true.
Proof.
  unfold updateWhere. destruct (existsb _ l); [|discriminate].
  intros H. inversion H. auto.
Qed.

Lemma updateWhere_present {A} (key : A -> Id) f (l : list A) x :
  In x l ->
  updateWhere key (key x) f l
  = Ok (map (fun r => if Nat.eqb (key r) (key x) then f r else r) l).
Proof.
  intros Hx. unfold updateWhere.
  assert (existsb (fun r => Nat.eqb (key r) (key x)) l = true) as ->;
    [|reflexivity].
  apply existsb_exists. exists x. split; [assumption | apply Nat.eqb_refl].
Qed.

Lemma updateAssignmentRow_ok db i f db' :
  updateAssignmentRow db i f = Ok db' ->
  db' = with_assignments db
          (map (fun r => if Nat.eqb (tsa_id r) i then f r else r)
               (assignments db)).
Proof.
  unfold updateAssignmentRow.
  destruct (updateWhere tsa_id i f (assignments db)) as [l|e] eqn:E;
    cbn [bind]; [|discriminate].
  apply updateWhere_ok in E. destruct E as (-> & _).
  intros H. inversion H. reflexivity.
Qed.

Lemma updateSectionRow_ok db i f db' :
  updateSectionRow db i f = Ok db' ->
  db' = with_sections db
          (map (fun r => if Nat.eqb (section_id r) i then f r else r)
               (sections db)).
Proof.
  unfold updateSectionRow.
  destruct (updateWhere section_id i f (sections db)) as [l|e] eqn:E;
    cbn [bind]; [|discriminate].
  apply updateWhere_ok in E. destruct E as (-> & _).
  intros H. inversion H. reflexivity.
Qed.

Lemma ext_new_subject db row :
  ext db (bump (with_sectionSubjects db (sectionSubjects db ++ [row]))).
Proof.
  unfold ext. cbn. repeat split.
  - apply Forall2_refl, sec_sim_refl.
  - eauto.
  - exists (assignments db), []. split; [symmetry; apply app_nil_r|].
    apply Forall2_refl, asg_le_refl.
Qed.

Lemma ext_new_assignment db row :
  ext db (bump (with_assignments db (assignments db ++ [row]))).
Proof.
  unfold ext. cbn. repeat split.
  - apply Forall2_refl, sec_sim_refl.
  - exists []. symmetry. apply app_nil_r.
  - exists (assignments db), [row]. split; [reflexivity|].
    apply Forall2_refl, asg_le_refl.
Qed.

Lemma ext_activate db i :
  ext db (with_assignments db
            (map (fun r => if Nat.eqb (tsa_id r) i
                           then set_tsa_isActive true r else r)
                 (assignments db))).
Proof.
  unfold ext. cbn. repeat split.
  - apply Forall2_refl, sec_sim_refl.
  - exists []. symmetry. apply app_nil_r.
  - eexists _, []. split; [symmetry; apply app_nil_r|].
    apply Forall2_map_r. intros x. destruct (Nat.eqb (tsa_id x) i).
    + unfold asg_le. cbn. auto.
    + apply asg_le_refl.
Qed.

Lemma ext_class_tutor db i t :
  ext db (with_sections db
            (map (fun r => if Nat.eqb (section_id r) i
                           then set_classTutorId t r else r)
                 (sections db))).
Proof.
  unfold ext. cbn. repeat split.
  - apply Forall2_map_r. intros x. destruct (Nat.eqb (section_id x) i).
    + unfold sec_sim. cbn. auto.
    + apply sec_sim_refl.
  - exists []. symmetry. apply app_nil_r.
  - exists (assignments db), []. split; [symmetry; apply app_nil_r|].
    apply Forall2_refl, asg_le_refl.
Qed.

End Growth.

(* ================================================================= *)
(** * Rev2: one subject name of [smartAssignTutor] *)

Section SubjectStep.
Variables tutorId sectionId : Id.
Variables gradeName sectionName : string.

Lemma linkPart_ok subjectName st ss tx st' :
  findFirst (subjectNamed sectionId subjectName true) (sectionSubjects tx)
  = Some ss ->
  linkPart tutorId gradeName sectionName subjectName st ss tx = Ok st' ->
  ext tx (acc_db st')
  /\ settled (acc_db st') tutorId sectionId subjectName
  /\ Outcome gradeName sectionName subjectName st st'.
Proof.
  intros Hss. unfold linkPart.
  destruct (findFirst (sameLink tutorId (ss_id ss)) (assignments tx))
    as [a|] eqn:Ea.
  - destruct (tsa_isActive a) eqn:Eact.
    + intros H. inversion H. subst st'. cbn [acc_db pushSkipped].
      split; [apply ext_refl|]. split; [exists ss, a; auto|].
      apply Skipped. reflexivity.
    + destruct (updateAssignmentRow _ _ _) as [tx'|e] eqn:Eu;
        cbn [bind]; [|discriminate].
      apply updateAssignmentRow_ok in Eu. subst tx'.
      intros H. inversion H. subst st'. cbn [acc_db pushCreated].
      split; [apply ext_activate|]. split.
      * exists ss, (set_tsa_isActive true a).
        cbn [sectionSubjects with_assignments assignments].
        split; [assumption|].
        rewrite findFirst_map_respect.
        -- rewrite Ea. cbn. rewrite Nat.eqb_refl. auto.
        -- intros x. destruct (Nat.eqb (tsa_id x) (tsa_id a)); reflexivity.
      * eapply Added; reflexivity.
  - destruct (createAssignmentRow _ _ _ _) as [[row tx']|e] eqn:Ec;
      cbn [bind]; [|discriminate].
    apply createAssignmentRow_ok in Ec. destruct Ec as (Hrow & Htx' & _).
    intros H. inversion H. subst st'. cbn [acc_db pushCreated].
    subst tx'. split; [apply ext_new_assignment|]. split.
    + exists ss, row.
      cbn [sectionSubjects with_assignments assignments bump].
      split; [assumption|].
      rewrite (findFirst_app_none _ _ _ Ea).
      subst row. unfold findFirst. cbn. unfold sameLink. cbn.
      rewrite !Nat.eqb_refl. auto.
    + eapply Added; subst row; reflexivity.
Qed.

(** A successful turn grows the store, leaves the subject settled
    for the tutor, and pushed one item to [skippedAssignments] or to
    [createdAssignments]. *)
Lemma subjectStep_ok subjectName st st' :
  Rev2.subjectStep tutorId sectionId gradeName sectionName subjectName
    st = Ok st' ->
  ext (acc_db st) (acc_db st')
  /\ settled (acc_db st') tutorId sectionId subjectName
  /\ Outcome gradeName sectionName subjectName st st'.
Proof.
  unfold Rev2.subjectStep.
  destruct (findFirst (subjectNamed sectionId subjectName true)
                      (sectionSubjects (acc_db st))) as [ss|] eqn:Ess.
  - cbn [bind]. intros H.
    exact (linkPart_ok _ _ _ Ess H).
  - destruct (createSectionSubjectRow _ _ _ _) as [[ss tx]|e] eqn:Ecs;
      cbn [bind]; [|discriminate].
    apply createSectionSubjectRow_ok in Ecs.
    destruct Ecs as (Hss & Htx & _).
    assert (Hfound : findFirst (subjectNamed sectionId subjectName true)
                               (sectionSubjects tx) = Some ss).
    { subst tx. cbn [sectionSubjects with_sectionSubjects bump].
      rewrite (findFirst_app_none _ _ _ Ess).
      unfold findFirst. cbn. subst ss. unfold subjectNamed. cbn.
      rewrite Nat.eqb_refl, String.eqb_refl. reflexivity. }
    intros H. destruct (linkPart_ok _ _ _ Hfound H) as (Hext & Hset & Hout).
    split; [|auto]. eapply ext_trans; [|exact Hext].
    subst tx. apply ext_new_subject.
Qed.

(** A property of the store that the three writes of a turn keep
    is kept by the turn. *)
Lemma subjectStep_preserves (P : DB -> Prop) subjectName st st' :
  (forall db name sid,
      existsb (fun r => Nat.eqb (ss_sectionId r) sid
                        && String.eqb (ss_name r) name)
              (sectionSubjects db) = false ->
      hasSection db sid = true ->
      P db ->
      P (bump (with_sectionSubjects db
                 (sectionSubjects db
                  ++ [mkSectionSubject (nextId db) name sid true])))) ->
  (forall db i,
      P db ->
      P (with_assignments db
           (map (fun r => if Nat.eqb (tsa_id r) i
                          then set_tsa_isActive true r else r)
                (assignments db)))) ->
  (forall db ssid,
      existsb (sameLink tutorId ssid) (assignments db) = false ->
      P db ->
      P (bump (with_assignments db
                 (assignments db
                  ++ [mkAssignment (nextId db) tutorId ssid true])))) ->
  Rev2.subjectStep tutorId sectionId gradeName sectionName subjectName
    st = Ok st' ->
  P (acc_db st) -> P (acc_db st').
Proof.
  intros Hsub Hact Hnew.
  assert (Hlink : forall ss tx,
            linkPart tutorId gradeName sectionName subjectName st ss tx = Ok st' -> P tx -> P (acc_db st')).
  { intros ss tx. unfold linkPart.
    destruct (findFirst (sameLink tutorId (ss_id ss)) (assignments tx))
      as [a|].
    - destruct (tsa_isActive a).
      + intros H. inversion H. auto.
      + destruct (updateAssignmentRow _ _ _) as [tx'|e] eqn:Eu;
          cbn [bind]; [|discriminate].
        apply updateAssignmentRow_ok in Eu. subst tx'.
        intros H. inversion H. cbn [acc_db pushCreated]. apply Hact.
    - destruct (createAssignmentRow _ _ _ _) as [[row tx']|e] eqn:Ec;
        cbn [bind]; [|discriminate].
      apply createAssignmentRow_ok in Ec. destruct Ec as (-> & -> & Hex).
      intros H. inversion H. cbn [acc_db pushCreated]. apply Hnew.
      exact Hex. }
  unfold Rev2.subjectStep.
  destruct (findFirst (subjectNamed sectionId subjectName true)
                      (sectionSubjects (acc_db st))) as [ss|].
  - cbn [bind]. apply Hlink.
  - destruct (createSectionSubjectRow _ _ _ _) as [[ss tx]|e] eqn:Ecs;
      cbn [bind]; [|discriminate].
    apply createSectionSubjectRow_ok in Ecs.
    destruct Ecs as (-> & -> & Hex & Hsec).
    intros H HP. eapply Hlink; [exact H|]. apply Hsub; assumption.
Qed.

Lemma asg_le_sameLink t s x y :
  asg_le x y -> sameLink t s x = sameLink t s y.
Proof. intros (_ & Ht & Hs & _). unfold sameLink. rewrite Ht, Hs. reflexivity. Qed.

(** Being settled survives any growth of the store. *)
Lemma settled_ext db db' subjectName :
  settled db tutorId sectionId subjectName -> ext db db' ->
  settled db' tutorId sectionId subjectName.
Proof.
  intros (ss & a & Hss & Ha & Hact)
         (_ & _ & _ & (extra & Hx) & (kept & more & Hk & Hle)).
  pose proof (@findFirst_Forall2 _ _ asg_le _ _
                (asg_le_sameLink tutorId (ss_id ss)) _ _ Hle) as Hf.
  rewrite Ha in Hf. destruct Hf as (a' & Ha' & Hle').
  exists ss, a'. split; [|split].
  - rewrite Hx. apply findFirst_app_some. assumption.
  - rewrite Hk. apply findFirst_app_some. assumption.
  - destruct Hle' as (_ & _ & _ & Hact'). auto.
Qed.

(** On a settled subject the turn only pushes a skipped item. *)
Lemma settled_skip subjectName st :
  settled (acc_db st) tutorId sectionId subjectName ->
  Rev2.subjectStep tutorId sectionId gradeName sectionName subjectName
    st
  = Ok (pushSkipped st (acc_db st)
          (mkSkippedItem gradeName sectionName subjectName
                         "Already assigned")).
Proof.
  intros (ss & a & Hss & Ha & Hact). unfold Rev2.subjectStep.
  rewrite Hss. cbn [bind]. rewrite Ha, Hact. reflexivity.
Qed.

End SubjectStep.

(* ================================================================= *)
(** * Rev2: the keys of [smartAssignTutor] and its class tutor *)

Section RelatedLoops.
Context {A S : Type}.
Variable body : A -> S -> result S.
Variable R : S -> S -> Prop.

Lemma forEach_rel :
  (forall x a b, R a b -> rel_result R (body x a) (body x b)) ->
  forall l a b, R a b -> rel_result R (forEach body l a) (forEach body l b).
Proof.
  intros Hstep l. induction l as [|x l IH]; intros a b Hab; simpl.
  - exact Hab.
  - specialize (Hstep x a b Hab).
    destruct (body x a) as [a'|ea], (body x b) as [b'|eb]; simpl in *;
      try contradiction; auto.
Qed.
End RelatedLoops.

Section Subjects.
Variable tutorId : Id.

Lemma subjects_ok sectionId g s subjectNames st st' :
  forEach (Rev2.subjectStep tutorId sectionId g s) subjectNames st = Ok st' ->
  ext (acc_db st) (acc_db st') /\ errors st' = errors st.
Proof.
  intros H. split.
  - revert H. apply (forEach_preorder
      (Rev2.subjectStep tutorId sectionId g s)
      (fun a b => ext (acc_db a) (acc_db b))).
    + intros a. apply ext_refl.
    + intros a b c. apply ext_trans.
    + intros x a b Hx. apply subjectStep_ok in Hx. tauto.
  - revert H. apply (forEach_preorder
      (Rev2.subjectStep tutorId sectionId g s)
      (fun a b => errors b = errors a)).
    + reflexivity.
    + intros a b c. congruence.
    + intros x a b Hx. apply subjectStep_ok in Hx.
      destruct Hx as (_ & _ & [->| item ->]); reflexivity.
Qed.

(** Part 1 writes section subjects and assignments only. *)
Lemma subjectStep_frame sectionId g s x st st' :
  Rev2.subjectStep tutorId sectionId g s x st = Ok st' ->
  sections (acc_db st') = sections (acc_db st)
  /\ grades (acc_db st') = grades (acc_db st)
  /\ tutors (acc_db st') = tutors (acc_db st).
Proof.
  unfold Rev2.subjectStep.
  destruct (findFirst _ (sectionSubjects (acc_db st))) as [ss|].
  - cbn [bind].
    destruct (findFirst _ (assignments (acc_db st))) as [a|].
    + destruct (tsa_isActive a).
      * intros H. inversion H. auto.
      * destruct (updateAssignmentRow _ _ _) as [tx'|e] eqn:Eu;
          cbn [bind]; [|discriminate].
        apply updateAssignmentRow_ok in Eu. subst tx'.
        intros H. inversion H. auto.
    + destruct (createAssignmentRow _ _ _ _) as [[row tx']|e] eqn:Ec;
        cbn [bind]; [|discriminate].
      apply createAssignmentRow_ok in Ec. destruct Ec as (_ & -> & _).
      intros H. inversion H. auto.
  - destruct (createSectionSubjectRow _ _ _ _) as [[ss tx]|e] eqn:Ecs;
      cbn [bind]; [|discriminate].
    apply createSectionSubjectRow_ok in Ecs. destruct Ecs as (_ & -> & _).
    match goal with |- context [findFirst ?p (assignments ?d)] =>
      destruct (findFirst p (assignments d)) as [a|] end.
    + destruct (tsa_isActive a).
      * intros H. inversion H. auto.
      * destruct (updateAssignmentRow _ _ _) as [tx'|e] eqn:Eu;
          cbn [bind]; [|discriminate].
        apply updateAssignmentRow_ok in Eu. subst tx'.
        intros H. inversion H. auto.
    + destruct (createAssignmentRow _ _ _ _) as [[row tx']|e] eqn:Ec;
        cbn [bind]; [|discriminate].
      apply createAssignmentRow_ok in Ec. destruct Ec as (_ & -> & _).
      intros H. inversion H. auto.
Qed.

(** ** The [errors] array is write-only *)

Lemma subjectStep_setErrors sectionId g s x st es :
  Rev2.subjectStep tutorId sectionId g s x (setErrors st es)
  = mapResult (fun st' => setErrors st' es)
              (Rev2.subjectStep tutorId sectionId g s x st).
Proof.
  unfold Rev2.subjectStep. cbn [acc_db setErrors].
  destruct (findFirst _ (sectionSubjects (acc_db st))) as [ss|].
  - cbn [bind].
    destruct (findFirst _ (assignments (acc_db st))) as [a|].
    + destruct (tsa_isActive a); [reflexivity|].
      destruct (updateAssignmentRow _ _ _); reflexivity.
    + destruct (createAssignmentRow _ _ _ _) as [[row tx']|e]; reflexivity.
  - destruct (createSectionSubjectRow _ _ _ _) as [[ss tx]|e];
      cbn [bind mapResult]; [|reflexivity].
    destruct (findFirst _ (assignments tx)) as [a|].
    + destruct (tsa_isActive a); [reflexivity|].
      destruct (updateAssignmentRow _ _ _); reflexivity.
    + destruct (createAssignmentRow _ _ _ _) as [[row tx']|e]; reflexivity.
Qed.

Lemma subjects_setErrors sectionId g s l st es :
  forEach (Rev2.subjectStep tutorId sectionId g s) l (setErrors st es)
  = mapResult (fun st' => setErrors st' es)
              (forEach (Rev2.subjectStep tutorId sectionId g s) l st).
Proof.
  revert st. induction l as [|x l IH]; intros st; simpl; [reflexivity|].
  rewrite subjectStep_setErrors.
  destruct (Rev2.subjectStep tutorId sectionId g s x st) as [st1|e];
    simpl; [apply IH | reflexivity].
Qed.

Lemma reportsMore_setErrors msg st1 st2 :
  reportsMore msg st1 st2 -> st1 = setErrors st2 (errors st1).
Proof.
  intros ((Hdb & Hc & Hs) & _). destruct st1, st2. cbn in *.
  subst. reflexivity.
Qed.

Lemma reportsMore_push msg m st1 st2 :
  reportsMore msg st1 st2 -> reportsMore msg (pushError st1 m)
                                         (pushError st2 m).
Proof.
  intros ((Hdb & Hc & Hs) & Hincl & Hin). unfold reportsMore, sameWork.
  cbn. repeat split; auto.
  - intros x Hx. apply in_app_iff in Hx. apply in_app_iff.
    destruct Hx; [left; auto | right; assumption].
  - apply in_app_iff. left. assumption.
Qed.

End Subjects.

Section Keys.
Variables schoolId tutorId : Id.

(** A property of the store that the three writes of part 1 keep is
    kept by part 1. *)
Lemma keys_preserves (P : DB -> Prop) l st st' :
  (forall db name sid,
      existsb (fun r => Nat.eqb (ss_sectionId r) sid
                        && String.eqb (ss_name r) name)
              (sectionSubjects db) = false ->
      hasSection db sid = true ->
      P db ->
      P (bump (with_sectionSubjects db
                 (sectionSubjects db
                  ++ [mkSectionSubject (nextId db) name sid true])))) ->
  (forall db i,
      P db ->
      P (with_assignments db
           (map (fun r => if Nat.eqb (tsa_id r) i
                          then set_tsa_isActive true r else r)
                (assignments db)))) ->
  (forall db ssid,
      existsb (sameLink tutorId ssid) (assignments db) = false ->
      P db ->
      P (bump (with_assignments db
                 (assignments db
                  ++ [mkAssignment (nextId db) tutorId ssid true])))) ->
  forEach (Rev2.keyStep schoolId tutorId) l st = Ok st' ->
  P (acc_db st) -> P (acc_db st').
Proof.
  intros Hsub Hact Hnew.
  apply (forEach_invariant (Rev2.keyStep schoolId tutorId) (fun st => P (acc_db st))).
  intros [key subjectNames] a b. unfold Rev2.keyStep.
  destruct (matchKey key) as [[g s]|];
    [|intros H; inversion H; auto].
  destruct (findFirst _ (grades (acc_db a))) as [grade|];
    [|intros H; inversion H; auto].
  destruct (findFirst _ (sections (acc_db a))) as [section|];
    [|intros H; inversion H; auto].
  apply (forEach_invariant
           (Rev2.subjectStep tutorId (section_id section) g s)
           (fun st => P (acc_db st))).
  intros x y z. apply subjectStep_preserves; assumption.
Qed.

(** A key that does not match the pattern costs one error message
    and nothing else. *)
Lemma keyStep_malformed key subjectNames st :
  matchKey key = None ->
  (Rev2.keyStep schoolId tutorId) (key, subjectNames) st = Ok (pushError st (invalidKeyMessage key)).
Proof. intros H. unfold Rev2.keyStep. rewrite H. reflexivity. Qed.

Lemma keyStep_ext entry st st' :
  (Rev2.keyStep schoolId tutorId) entry st = Ok st' -> ext (acc_db st) (acc_db st').
Proof.
  unfold Rev2.keyStep. destruct entry as [key subjectNames].
  destruct (matchKey key) as [[g s]|].
  2:{ intros H. inversion H. apply ext_refl. }
  destruct (findFirst _ (grades (acc_db st))) as [grade|].
  2:{ intros H. inversion H. apply ext_refl. }
  destruct (findFirst _ (sections (acc_db st))) as [section|].
  2:{ intros H. inversion H. apply ext_refl. }
  intros H. apply subjects_ok in H. tauto.
Qed.

Lemma keys_ext l st st' :
  forEach (Rev2.keyStep schoolId tutorId) l st = Ok st' -> ext (acc_db st) (acc_db st').
Proof.
  apply (forEach_preorder (Rev2.keyStep schoolId tutorId) (fun a b => ext (acc_db a) (acc_db b))).
  - intros a. apply ext_refl.
  - intros a b c. apply ext_trans.
  - intros x a b. apply keyStep_ext.
Qed.

Lemma keys_frame l st st' :
  forEach (Rev2.keyStep schoolId tutorId) l st = Ok st' ->
  sections (acc_db st') = sections (acc_db st)
  /\ grades (acc_db st') = grades (acc_db st)
  /\ tutors (acc_db st') = tutors (acc_db st).
Proof.
  apply (forEach_preorder (Rev2.keyStep schoolId tutorId)
           (fun a b => sections (acc_db b) = sections (acc_db a)
                       /\ grades (acc_db b) = grades (acc_db a)
                       /\ tutors (acc_db b) = tutors (acc_db a))).
  - auto.
  - intros a b c (? & ? & ?) (? & ? & ?). repeat split; congruence.
  - intros [key subjectNames] a b. unfold Rev2.keyStep.
    destruct (matchKey key) as [[g s]|].
    2:{ intros H. inversion H. auto. }
    destruct (findFirst _ (grades (acc_db a))) as [grade|].
    2:{ intros H. inversion H. auto. }
    destruct (findFirst _ (sections (acc_db a))) as [section|].
    2:{ intros H. inversion H. auto. }
    apply (forEach_preorder
             (Rev2.subjectStep tutorId (section_id section) g s)
             (fun a b => sections (acc_db b) = sections (acc_db a)
                         /\ grades (acc_db b) = grades (acc_db a)
                         /\ tutors (acc_db b) = tutors (acc_db a))).
    + auto.
    + intros x y z (? & ? & ?) (? & ? & ?). repeat split; congruence.
    + intros x y z. apply subjectStep_frame.
Qed.

(** Two runs that differ in the errors they carry do the same work
    on every further key. *)
Lemma keyStep_reportsMore msg entry st1 st2 :
  reportsMore msg st1 st2 ->
  rel_result (reportsMore msg) ((Rev2.keyStep schoolId tutorId) entry st1) ((Rev2.keyStep schoolId tutorId) entry st2).
Proof.
  intros HR. pose proof HR as ((Hdb & Hc & Hs) & Hincl & Hin).
  unfold Rev2.keyStep. destruct entry as [key subjectNames].
  rewrite Hdb.
  destruct (matchKey key) as [[g s]|];
    [|cbn; apply reportsMore_push; assumption].
  destruct (findFirst _ (grades (acc_db st2))) as [grade|];
    [|cbn; apply reportsMore_push; assumption].
  destruct (findFirst _ (sections (acc_db st2))) as [section|];
    [|cbn; apply reportsMore_push; assumption].
  rewrite (reportsMore_setErrors HR). rewrite subjects_setErrors.
  destruct (forEach _ subjectNames st2) as [st2'|e] eqn:E; cbn; [|reflexivity].
  apply subjects_ok in E. destruct E as (_ & Herr).
  unfold reportsMore, sameWork. cbn. rewrite Herr. auto.
Qed.

Lemma keys_reportsMore msg l st1 st2 :
  reportsMore msg st1 st2 ->
  rel_result (reportsMore msg) (forEach (Rev2.keyStep schoolId tutorId) l st1) (forEach (Rev2.keyStep schoolId tutorId) l st2).
Proof.
  apply forEach_rel. intros x a b. apply keyStep_reportsMore.
Qed.

(** The loop over a map with a malformed key, against the loop over
    the map without it. *)
Lemma keys_malformed pre key subjectNames post st :
  matchKey key = None ->
  rel_result (reportsMore (invalidKeyMessage key))
             (forEach (Rev2.keyStep schoolId tutorId) (pre ++ (key, subjectNames) :: post) st)
             (forEach (Rev2.keyStep schoolId tutorId) (pre ++ post) st).
Proof.
  intros Hbad. rewrite !forEach_app.
  destruct (forEach (Rev2.keyStep schoolId tutorId) pre st) as [st1|e]; cbn [bind]; [|reflexivity].
  cbn [forEach]. rewrite keyStep_malformed by assumption. cbn [bind].
  apply keys_reportsMore. unfold reportsMore, sameWork. cbn.
  repeat split.
  - intros x Hx. apply in_app_iff. left. assumption.
  - apply in_app_iff. right. left. reflexivity.
Qed.

(** ** The class tutor *)

Lemma classTutorStep_reportsMore msg cg cs st1 st2 :
  reportsMore msg st1 st2 ->
  rel_result (fun x y => reportsMore msg (fst x) (fst y) /\ snd x = snd y)
             (Rev2.classTutorStep schoolId tutorId cg cs st1)
             (Rev2.classTutorStep schoolId tutorId cg cs st2).
Proof.
  intros HR. pose proof HR as ((Hdb & Hc & Hs) & Hincl & Hin).
  unfold Rev2.classTutorStep. rewrite Hdb.
  destruct (required cg) as [g|]; [|cbn; auto].
  destruct (required cs) as [s|]; [|cbn; auto].
  destruct (findFirst _ (grades (acc_db st2))) as [grade|];
    [|cbn; split; [apply reportsMore_push; assumption | reflexivity]].
  destruct (findFirst _ (sections (acc_db st2))) as [section|];
    [|cbn; split; [apply reportsMore_push; assumption | reflexivity]].
  assert (Hassign :
    rel_result (fun x y => reportsMore msg (fst x) (fst y) /\ snd x = snd y)
      (bind (updateSectionRow (acc_db st2) (section_id section)
               (set_classTutorId (Some tutorId)))
            (fun tx' => Ok (withDb st1 tx',
                            Some (mkClassTutorAssignment g s))))
      (bind (updateSectionRow (acc_db st2) (section_id section)
               (set_classTutorId (Some tutorId)))
            (fun tx' => Ok (withDb st2 tx',
                            Some (mkClassTutorAssignment g s))))).
  { destruct (updateSectionRow _ _ _) as [tx'|e]; cbn; [|reflexivity].
    unfold reportsMore, sameWork. cbn. auto. }
  destruct (section_classTutorId section) as [current|]; [|exact Hassign].
  destruct (negb (Nat.eqb current tutorId)); [|exact Hassign].
  cbn. split; [apply reportsMore_push; assumption | reflexivity].
Qed.

End Keys.

(** C7.  Take a request whose map has a key that does not match
    [/^(.+)-([A-Z])$/], and the same request without that entry.  The
    turn for the key pushes its message to [errors] and goes on; the
    two calls answer with the same status, leave the same store,
    report the same created and skipped items and class tutor, and
    the first reports every error of the second; when it answers 201
    its [errors] hold the message for the key. *)
Theorem smartAssignTutor_malformed_key db req pre key subjectNames post :
  matchKey key = None ->
  sa_assignments req = pre ++ (key, subjectNames) :: post ->
  let r := Rev2.smartAssignTutor db req in
  let r' := Rev2.smartAssignTutor db (withAssignments req (pre ++ post)) in
  (forall schoolId tutorId st,
      Rev2.keyStep schoolId tutorId (key, subjectNames) st
      = Ok (pushError st (invalidKeyMessage key)))
  /\ status (fst r) = status (fst r')
  /\ snd r = snd r'
  /\ createdOf (fst r) = createdOf (fst r')
  /\ skippedOf (fst r) = skippedOf (fst r')
  /\ classTutorOf (fst r) = classTutorOf (fst r')
  /\ incl (errorsOf (fst r')) (errorsOf (fst r))
  /\ (status (fst r) = 201 -> In (invalidKeyMessage key) (errorsOf (fst r))).
Proof.
  intros Hbad Hmap r r'.
  split; [intros schoolId tutorId st; apply keyStep_malformed; assumption|].
  subst r r'. unfold Rev2.smartAssignTutor. cbn [sa_tutorId withAssignments
    sa_schoolId].
  destruct (sa_tutorId req) as [tutorId|]; [|cbn; easy_message].
  destruct (findFirst _ (tutors db)) as [tutor|];
    [|cbn; easy_message].
  unfold transaction, Rev2.smartAssignTx.
  cbn [sa_assignments sa_schoolId sa_classGrade sa_classSection
       withAssignments].
  rewrite Hmap.
  pose proof (@keys_malformed (sa_schoolId req) tutorId pre key subjectNames
                post (mkAcc db [] [] []) Hbad) as Hk.
  destruct (forEach _ (pre ++ (key, subjectNames) :: post) _) as [st1|e1];
    destruct (forEach _ (pre ++ post) _) as [st2|e2];
    cbn in Hk; try contradiction.
  - cbn [bind].
    pose proof (@classTutorStep_reportsMore (sa_schoolId req) tutorId _
                  (sa_classGrade req) (sa_classSection req) _ _ Hk) as Hc.
    destruct (Rev2.classTutorStep _ _ _ _ st1) as [[a ca]|ea];
      destruct (Rev2.classTutorStep _ _ _ _ st2) as [[b cb]|eb];
      cbn in Hc; try contradiction.
    + destruct Hc as (((Hdb & Hcr & Hsk) & Hincl & Hin) & Hcta).
      cbn. subst cb. repeat split; auto.
    + subst eb. cbn. destruct ea; cbn; easy_message.
  - subst e2. cbn. destruct e1; cbn; easy_message.
Qed.

Lemma updateSectionRow_present db x f :
  In x (sections db) ->
  updateSectionRow db (section_id x) f
  = Ok (with_sections db
          (map (fun r => if Nat.eqb (section_id r) (section_id x)
                         then f r else r) (sections db))).
Proof.
  intros Hx. unfold updateSectionRow.
  rewrite (updateWhere_present section_id f _ _ Hx). reflexivity.
Qed.

Lemma activeSectionNamed_set gradeId name i t s :
  activeSectionNamed gradeId name
    (if Nat.eqb (section_id s) i then set_classTutorId t s else s)
  = activeSectionNamed gradeId name s.
Proof. destruct (Nat.eqb (section_id s) i); reflexivity. Qed.

(** The [smartAssignTutor] of [part_002] guards the class tutor.  Let
    the call pass its checks and its subject part, and let
    [classGrade]/[classSection] resolve to [section].  The answer is
    201.  When [section] has another class tutor, the table of
    sections is left as it was, the answer names no class tutor and
    its [errors] end with a message for the section.  Otherwise the
    rows with the id of [section] get the tutor as class tutor, the
    other rows stay, and the answer names the class. *)
Theorem smartAssignTutor_class_tutor db req tutorId tutor st1 cg cs
    grade section :
  sa_tutorId req = Some tutorId ->
  findFirst (fun t => Nat.eqb (tutor_id t) tutorId
                      && Nat.eqb (tutor_schoolId t) (sa_schoolId req))
            (tutors db) = Some tutor ->
  forEach (Rev2.keyStep (sa_schoolId req) tutorId) (sa_assignments req)
          (mkAcc db [] [] []) = Ok st1 ->
  required (sa_classGrade req) = Some cg ->
  required (sa_classSection req) = Some cs ->
  findFirst (activeGradeNamed (sa_schoolId req) cg) (grades db)
  = Some grade ->
  findFirst (activeSectionNamed (grade_id grade) cs) (sections db)
  = Some section ->
  let r := Rev2.smartAssignTutor db req in
  status (fst r) = 201
  /\ (forall other,
        section_classTutorId section = Some other -> other <> tutorId ->
        sections (snd r) = sections db
        /\ classTutorOf (fst r) = None
        /\ exists msg, errorsOf (fst r) = errors st1 ++ [msg])
  /\ (section_classTutorId section = None
      \/ section_classTutorId section = Some tutorId ->
      sections (snd r)
      = map (fun s => if Nat.eqb (section_id s) (section_id section)
                      then set_classTutorId (Some tutorId) s else s)
            (sections db)
      /\ findFirst (activeSectionNamed (grade_id grade) cs)
                   (sections (snd r))
         = Some (set_classTutorId (Some tutorId) section)
      /\ classTutorOf (fst r) = Some (mkClassTutorAssignment cg cs)
      /\ errorsOf (fst r) = errors st1).
Proof.
  intros Hid Htutor Hkeys Hcg Hcs Hgrade Hsection r. subst r.
  unfold Rev2.smartAssignTutor. rewrite Hid, Htutor.
  unfold transaction, Rev2.smartAssignTx. rewrite Hkeys. cbn [bind].
  unfold Rev2.classTutorStep. rewrite Hcg, Hcs.
  destruct (keys_frame _ _ _ _ Hkeys) as (Hsec & Hgr & _).
  cbn [acc_db] in Hsec, Hgr. rewrite Hgr, Hsec, Hgrade, Hsection.
  assert (Hin : In section (sections (acc_db st1))).
  { rewrite Hsec. apply findFirst_some in Hsection. tauto. }
  rewrite (updateSectionRow_present _ _ (set_classTutorId (Some tutorId)) Hin).
  cbn [bind].
  assert (Hfound :
    findFirst (activeSectionNamed (grade_id grade) cs)
      (map (fun s => if Nat.eqb (section_id s) (section_id section)
                     then set_classTutorId (Some tutorId) s else s)
           (sections db))
    = Some (set_classTutorId (Some tutorId) section)).
  { rewrite findFirst_map_respect
      by (intros x; apply activeSectionNamed_set).
    rewrite Hsection. cbn. rewrite Nat.eqb_refl. reflexivity. }
  destruct (section_classTutorId section) as [current|] eqn:Ecur.
  - destruct (Nat.eqb current tutorId) eqn:Eeq; cbn [negb].
    + apply Nat.eqb_eq in Eeq. subst current. cbn.
      split; [reflexivity|]. split.
      * intros other Ho Hne. congruence.
      * intros _. rewrite Hsec. auto.
    + apply Nat.eqb_neq in Eeq. cbn.
      split; [reflexivity|]. split.
      * intros other Ho Hne. rewrite Hsec. eauto.
      * intros [H|H]; [discriminate | congruence].
  - cbn. split; [reflexivity|]. split.
    + intros other Ho. discriminate.
    + intros _. rewrite Hsec. auto.
Qed.

(** Whether or not the subject part throws, a section that has
    another class tutor keeps it. *)
Lemma smartAssignTutor_keeps_other_class_tutor db req tutorId cg cs
    grade section other :
  sa_tutorId req = Some tutorId ->
  required (sa_classGrade req) = Some cg ->
  required (sa_classSection req) = Some cs ->
  findFirst (activeGradeNamed (sa_schoolId req) cg) (grades db)
  = Some grade ->
  findFirst (activeSectionNamed (grade_id grade) cs) (sections db)
  = Some section ->
  section_classTutorId section = Some other -> other <> tutorId ->
  sections (snd (Rev2.smartAssignTutor db req)) = sections db.
Proof.
  intros Hid Hcg Hcs Hgrade Hsection Hother Hne.
  destruct (findFirst (fun t => Nat.eqb (tutor_id t) tutorId
                        && Nat.eqb (tutor_schoolId t) (sa_schoolId req))
                      (tutors db)) as [tutor|] eqn:Htutor.
  2:{ unfold Rev2.smartAssignTutor. rewrite Hid, Htutor. reflexivity. }
  destruct (forEach (Rev2.keyStep (sa_schoolId req) tutorId)
              (sa_assignments req) (mkAcc db [] [] [])) as [st1|e] eqn:Hk.
  - unfold Rev2.smartAssignTutor. rewrite Hid, Htutor.
    unfold transaction, Rev2.smartAssignTx. rewrite Hk. cbn [bind].
    unfold Rev2.classTutorStep. rewrite Hcg, Hcs.
    destruct (keys_frame _ _ _ _ Hk) as (Hsec & Hgr & _).
    cbn [acc_db] in Hsec, Hgr. rewrite Hgr, Hsec, Hgrade, Hsection, Hother.
    apply Nat.eqb_neq in Hne. rewrite Hne. cbn. exact Hsec.
  - unfold Rev2.smartAssignTutor. rewrite Hid, Htutor.
    unfold transaction, Rev2.smartAssignTx. rewrite Hk. cbn [bind].
    destruct e; reflexivity.
Qed.

(** C2.  The [smartAssignTutor] of [assignment.controller.ts] writes
    the class tutor whatever the section had.  Jane (id 7) is class
    tutor of Grade 1-A, and a call for Joan (id 9) names that class:
    the answer is 201, its [errors] are empty, it reports the class
    as assigned, and the section has Joan as class tutor. *)
Theorem Rev1_smartAssignTutor_overwrites_class_tutor :
  let db := snd (Rev2.assignClassTutor Scenario.withTwoTutors 4 (Some 7)) in
  let r := Rev1.smartAssignTutor db Scenario.classOnlyReq in
  map section_classTutorId (sections db) = [Some 7]
  /\ status (fst r) = 201
  /\ errorsOf (fst r) = []
  /\ classTutorOf (fst r) = Some (mkClassTutorAssignment "Grade 1" "A")
  /\ map section_classTutorId (sections (snd r)) = [Some 9].
Proof. vm_compute. repeat split; reflexivity. Qed.


(** Grade 1-A has Jane as class tutor when a call for a second tutor
    names the class. *)
Lemma smartAssignTutor_class_tutor_witness :
  let db := snd (Rev2.assignClassTutor Scenario.withTwoTutors 4 (Some 7)) in
  let r := Rev2.smartAssignTutor db Scenario.classOnlyReq in
  status (fst r) = 201
  /\ sections (snd r) = sections db
  /\ classTutorOf (fst r) = None
  /\ exists msg, errorsOf (fst r) = [] ++ [msg].
Proof.
  cbv zeta.
  destruct (@smartAssignTutor_class_tutor
              (snd (Rev2.assignClassTutor Scenario.withTwoTutors 4 (Some 7)))
              Scenario.classOnlyReq 9
              (mkTutor 9 "Joan" "joan@lincoln.edu" "555-0102" 1 true)
              (mkAcc (snd (Rev2.assignClassTutor Scenario.withTwoTutors 4
                             (Some 7))) [] [] [])
              "Grade 1" "A"
              (mkGrade 3 "Grade 1" 1 1 true)
              (mkSection 4 "A" 3 (Some 7) true)
              eq_refl eq_refl eq_refl eq_refl eq_refl eq_refl eq_refl)
    as (Hst & Hother & _).
  split; [exact Hst|].
  apply (Hother 7); [reflexivity | discriminate].
Defined.

(* ================================================================= *)
(** * Rev2: [smartAssignTutor] called twice *)

Section Twice.
Variables schoolId tutorId : Id.

Lemma acc_eta st :
  mkAcc (acc_db st) (createdAssignments st) (skippedAssignments st)
        (errors st) = st.
Proof. destruct st. reflexivity. Qed.

(** The inner loop, run again in a store that extends the one the
    first run ended in: every name is skipped, nothing is written,
    and each item the first run created is among the skipped. *)
Lemma subjects_second_run sectionId g s subjectNames :
  forall st st1,
    forEach (Rev2.subjectStep tutorId sectionId g s) subjectNames st
    = Ok st1 ->
    forall st2, ext (acc_db st1) (acc_db st2) ->
    exists sk,
      forEach (Rev2.subjectStep tutorId sectionId g s) subjectNames st2
      = Ok (mkAcc (acc_db st2) (createdAssignments st2)
                  (skippedAssignments st2 ++ sk) (errors st2))
      /\ (forall c, In c (createdAssignments st1) ->
                    In c (createdAssignments st)
                    \/ exists k, In k sk /\ sameTriple c k).
Proof.
  induction subjectNames as [|x rest IH]; intros st st1 H st2 Hext.
  - cbn in H. inversion H. subst st1. exists []. cbn.
    rewrite app_nil_r, acc_eta. auto.
  - cbn [forEach] in H.
    destruct (Rev2.subjectStep tutorId sectionId g s x st) as [st'|e] eqn:Ex;
      cbn [bind] in H; [|discriminate].
    apply subjectStep_ok in Ex. destruct Ex as (_ & Hset & Hout).
    pose proof H as Hrest. apply subjects_ok in Hrest.
    destruct Hrest as (Hrest & _).
    assert (Hset2 : settled (acc_db st2) tutorId sectionId x).
    { eapply settled_ext; [exact Hset|]. eapply ext_trans; eauto. }
    cbn [forEach]. rewrite (@settled_skip _ _ g s _ _ Hset2). cbn [bind].
    specialize (IH _ _ H
      (pushSkipped st2 (acc_db st2)
         (mkSkippedItem g s x "Already assigned")) Hext).
    destruct IH as (sk & Hrun & Hcov).
    exists (mkSkippedItem g s x "Already assigned" :: sk).
    cbn [pushSkipped acc_db createdAssignments skippedAssignments errors]
      in Hrun.
    rewrite <- app_assoc in Hrun. split; [exact Hrun|].
    intros c Hc. destruct (Hcov c Hc) as [Hc'|(k & Hk & Hck)].
    + destruct Hout as [Hsk|item Hadd Hg Hs Hx].
      * left. rewrite Hsk in Hc'. exact Hc'.
      * rewrite Hadd in Hc'. cbn in Hc'. apply in_app_iff in Hc'.
        destruct Hc' as [Hc'|[<-|[]]]; [left; assumption|].
        right. eexists. split; [left; reflexivity|].
        unfold sameTriple. cbn. rewrite Hg, Hs, Hx. auto.
    + right. exists k. split; [right; assumption | assumption].
Qed.

Lemma sec_sim_named gradeId name x y :
  sec_sim x y ->
  activeSectionNamed gradeId name x = activeSectionNamed gradeId name y.
Proof.
  intros (_ & Hn & Hg & Ha). unfold activeSectionNamed.
  rewrite Hn, Hg, Ha. reflexivity.
Qed.

(** One key, looked at again. *)
Lemma keyStep_second_run entry st st' :
  Rev2.keyStep schoolId tutorId entry st = Ok st' ->
  forall st2, ext (acc_db st) (acc_db st2) ->
              ext (acc_db st') (acc_db st2) ->
  exists sk er,
    Rev2.keyStep schoolId tutorId entry st2
    = Ok (mkAcc (acc_db st2) (createdAssignments st2)
                (skippedAssignments st2 ++ sk) (errors st2 ++ er))
    /\ (forall c, In c (createdAssignments st') ->
                  In c (createdAssignments st)
                  \/ exists k, In k sk /\ sameTriple c k).
Proof.
  destruct entry as [key subjectNames]. intros Ek st2 Hext0 Hext'.
  assert (Herr : forall m,
            exists (sk : list SkippedItem) er,
              Ok (pushError st2 m)
              = Ok (mkAcc (acc_db st2) (createdAssignments st2)
                          (skippedAssignments st2 ++ sk) (errors st2 ++ er))
              /\ (forall c, In c (createdAssignments (pushError st m)) ->
                            In c (createdAssignments st)
                            \/ exists k, In k sk /\ sameTriple c k)).
  { intros m. exists [], [m]. unfold pushError. cbn.
    rewrite app_nil_r. auto. }
  unfold Rev2.keyStep in *.
  destruct Hext0 as (Hgr & _ & Hsecs & _). rewrite Hgr.
  destruct (matchKey key) as [[g s]|].
  2:{ inversion Ek. apply Herr. }
  destruct (findFirst (activeGradeNamed schoolId g) (grades (acc_db st)))
    as [grade|] eqn:Eg.
  2:{ inversion Ek. apply Herr. }
  pose proof (@findFirst_Forall2 _ _ sec_sim _ _
                (sec_sim_named (grade_id grade) s) _ _ Hsecs) as Hf.
  destruct (findFirst (activeSectionNamed (grade_id grade) s)
                      (sections (acc_db st))) as [section|] eqn:Es.
  2:{ rewrite Hf. inversion Ek. apply Herr. }
  destruct Hf as (section' & -> & (Hid & _)). rewrite Hid.
  destruct (@subjects_second_run _ _ _ _ _ _ Ek st2 Hext')
    as (sk1 & Hrun1 & Hcov1).
  exists sk1, []. rewrite app_nil_r. auto.
Qed.

(** The outer loop, run again. *)
Lemma keys_second_run l :
  forall st st1,
    forEach (Rev2.keyStep schoolId tutorId) l st = Ok st1 ->
    forall st2, ext (acc_db st1) (acc_db st2) ->
    exists sk er,
      forEach (Rev2.keyStep schoolId tutorId) l st2
      = Ok (mkAcc (acc_db st2) (createdAssignments st2)
                  (skippedAssignments st2 ++ sk) (errors st2 ++ er))
      /\ (forall c, In c (createdAssignments st1) ->
                    In c (createdAssignments st)
                    \/ exists k, In k sk /\ sameTriple c k).
Proof.
  induction l as [|entry rest IH]; intros st st1 H st2 Hext.
  - cbn in H. inversion H. subst st1. exists [], []. cbn.
    rewrite !app_nil_r, acc_eta. auto.
  - cbn [forEach] in H.
    destruct (Rev2.keyStep schoolId tutorId entry st)
      as [st'|e] eqn:Ek; cbn [bind] in H; [|discriminate].
    pose proof H as Hrest. apply keys_ext in Hrest.
    pose proof Ek as Hhead. apply keyStep_ext in Hhead.
    assert (Hext' : ext (acc_db st') (acc_db st2))
      by (eapply ext_trans; eauto).
    assert (Hext0 : ext (acc_db st) (acc_db st2))
      by (eapply ext_trans; eauto).
    destruct (@keyStep_second_run _ _ _ Ek _ Hext0 Hext')
      as (sk1 & er1 & Hrun1 & Hcov1).
    cbn [forEach]. rewrite Hrun1. cbn [bind].
    destruct (IH _ _ H
                (mkAcc (acc_db st2) (createdAssignments st2)
                       (skippedAssignments st2 ++ sk1) (errors st2 ++ er1))
                Hext) as (sk2 & er2 & Hrun2 & Hcov2).
    cbn [acc_db createdAssignments skippedAssignments errors] in Hrun2.
    exists (sk1 ++ sk2), (er1 ++ er2). rewrite !app_assoc.
    split; [exact Hrun2|].
    intros c Hc. destruct (Hcov2 c Hc) as [Hc'|(k & Hk & Hck)].
    + destruct (Hcov1 c Hc') as [Hc''|(k & Hk & Hck)]; [left; assumption|].
      right. exists k. split; [apply in_app_iff; left; assumption|assumption].
    + right. exists k. split; [apply in_app_iff; right; assumption|assumption].
Qed.

Lemma map_update_twice i t (l : list SectionRow) :
  map (fun r => if Nat.eqb (section_id r) i
                then set_classTutorId t r else r)
      (map (fun r => if Nat.eqb (section_id r) i
                     then set_classTutorId t r else r) l)
  = map (fun r => if Nat.eqb (section_id r) i
                  then set_classTutorId t r else r) l.
Proof.
  rewrite map_map. apply map_ext. intros r.
  destruct (Nat.eqb (section_id r) i) eqn:E; cbn; rewrite E; reflexivity.
Qed.

(** Part 2 grows the store, and run again in the store it left it
    writes nothing. *)
Lemma classTutorStep_second_run cg cs st1 st1' cta :
  Rev2.classTutorStep schoolId tutorId cg cs st1 = Ok (st1', cta) ->
  ext (acc_db st1) (acc_db st1')
  /\ createdAssignments st1' = createdAssignments st1
  /\ skippedAssignments st1' = skippedAssignments st1
  /\ forall st2, acc_db st2 = acc_db st1' ->
     exists er cta',
       Rev2.classTutorStep schoolId tutorId cg cs st2
       = Ok (mkAcc (acc_db st2) (createdAssignments st2)
                   (skippedAssignments st2) (errors st2 ++ er), cta').
Proof.
  unfold Rev2.classTutorStep.
  destruct (required cg) as [g|].
  2:{ intros H. inversion H. subst. split; [apply ext_refl|].
      split; [reflexivity|]. split; [reflexivity|].
      intros st2 _. exists [], None. rewrite app_nil_r, acc_eta.
      reflexivity. }
  destruct (required cs) as [s|].
  2:{ intros H. inversion H. subst. split; [apply ext_refl|].
      split; [reflexivity|]. split; [reflexivity|].
      intros st2 _. exists [], None. rewrite app_nil_r, acc_eta.
      reflexivity. }
  destruct (findFirst _ (grades (acc_db st1))) as [grade|] eqn:Eg.
  2:{ intros H. inversion H. subst. cbn. split; [apply ext_refl|].
      split; [reflexivity|]. split; [reflexivity|].
      intros st2 Hdb.
      replace (grades (acc_db st2)) with (grades (acc_db st1))
        by (rewrite Hdb; reflexivity).
      rewrite Eg. eexists [_], None. reflexivity. }
  destruct (findFirst _ (sections (acc_db st1))) as [section|] eqn:Es.
  2:{ intros H. inversion H. subst. cbn. split; [apply ext_refl|].
      split; [reflexivity|]. split; [reflexivity|].
      intros st2 Hdb.
      replace (grades (acc_db st2)) with (grades (acc_db st1))
        by (rewrite Hdb; reflexivity).
      replace (sections (acc_db st2)) with (sections (acc_db st1))
        by (rewrite Hdb; reflexivity).
      rewrite Eg, Es. eexists [_], None. reflexivity. }
  assert (Hin : In section (sections (acc_db st1)))
    by (apply findFirst_some in Es; tauto).
  rewrite (updateSectionRow_present _ _ (set_classTutorId (Some tutorId))
             Hin). cbn [bind].
  set (f := fun r => if Nat.eqb (section_id r) (section_id section)
                     then set_classTutorId (Some tutorId) r else r).
  assert (Hassign :
    Ok (withDb st1 (with_sections (acc_db st1)
                      (map f (sections (acc_db st1)))),
        Some (mkClassTutorAssignment g s)) = Ok (st1', cta) ->
    ext (acc_db st1) (acc_db st1')
    /\ createdAssignments st1' = createdAssignments st1
    /\ skippedAssignments st1' = skippedAssignments st1
    /\ forall st2, acc_db st2 = acc_db st1' ->
       exists er cta',
         match findFirst (activeGradeNamed schoolId g)
                         (grades (acc_db st2)) with
         | Some grade =>
             match findFirst (activeSectionNamed (grade_id grade) s)
                             (sections (acc_db st2)) with
             | Some section =>
                 let assign :=
                   bind (updateSectionRow (acc_db st2) (section_id section)
                           (set_classTutorId (Some tutorId)))
                        (fun tx' =>
                           Ok (withDb st2 tx',
                               Some (mkClassTutorAssignment g s))) in
                 match section_classTutorId section with
                 | Some current =>
                     if negb (Nat.eqb current tutorId)
                     then
                       let existingClassTutor :=
                         findFirst (fun t => Nat.eqb (tutor_id t) current)
                                   (tutors (acc_db st2)) in
                       let who :=
                         match existingClassTutor with
                         | Some t => if String.eqb (tutor_name t) ""
                                     then "another tutor" else tutor_name t
                         | None => "another tutor"
                         end in
                       Ok (pushError st2
                             ("Section " ++ g ++ "-" ++ s
                              ++ " already has " ++ who
                              ++ " as class tutor"), None)
                     else assign
                 | None => assign
                 end
             | None =>
                 Ok (pushError st2
                       ("Section " ++ s ++ " not found in " ++ g
                        ++ " for class tutor assignment"), None)
             end
         | None =>
             Ok (pushError st2 ("Grade " ++ g
                                ++ " not found for class tutor assignment"),
                 None)
         end
         = Ok (mkAcc (acc_db st2) (createdAssignments st2)
                     (skippedAssignments st2) (errors st2 ++ er), cta')).
  { intros H. inversion H. subst st1' cta.
    cbn [acc_db withDb createdAssignments skippedAssignments].
    split; [apply ext_class_tutor|]. split; [reflexivity|].
    split; [reflexivity|]. intros st2 Hdb.
    exists [], (Some (mkClassTutorAssignment g s)).
    rewrite Hdb. cbn [grades sections with_sections]. rewrite Eg.
    rewrite findFirst_map_respect
      by (intros x; apply activeSectionNamed_set).
    rewrite Es. cbn [option_map].
    assert (Hf : f section = set_classTutorId (Some tutorId) section)
      by (unfold f; rewrite Nat.eqb_refl; reflexivity).
    assert (Hin' : In (set_classTutorId (Some tutorId) section)
                      (sections (with_sections (acc_db st1)
                                   (map f (sections (acc_db st1))))))
      by (cbn; rewrite <- Hf; apply in_map; assumption).
    rewrite Hf. cbn [section_classTutorId set_classTutorId].
    rewrite Nat.eqb_refl. cbn [negb].
    rewrite (updateSectionRow_present _ _
               (set_classTutorId (Some tutorId)) Hin').
    cbn [bind sections with_sections section_id set_classTutorId].
    subst f. rewrite map_update_twice. rewrite app_nil_r.
    unfold withDb, with_sections. cbn. reflexivity. }
  destruct (section_classTutorId section) as [current|] eqn:Ec;
    [|exact Hassign].
  destruct (negb (Nat.eqb current tutorId)) eqn:En; [|exact Hassign].
  clear Hassign. intros H. inversion H. subst st1' cta. cbn.
  split; [apply ext_refl|].
  split; [reflexivity|]. split; [reflexivity|].
  intros st2 Hdb.
  replace (grades (acc_db st2)) with (grades (acc_db st1))
    by (rewrite Hdb; reflexivity).
  replace (sections (acc_db st2)) with (sections (acc_db st1))
    by (rewrite Hdb; reflexivity).
  rewrite Eg, Es, Ec, En. eexists [_], None. reflexivity.
Qed.

End Twice.

(** The two ways [smartAssignTutor] ends: an error message and the
    store untouched, or 201 with what the two parts of the transaction
    built. *)
Lemma smartAssignTutor_cases db req :
  (exists code msg, Rev2.smartAssignTutor db req = (Message code msg, db))
  \/ (exists tutorId tutor st1 st1' cta,
        sa_tutorId req = Some tutorId
        /\ findFirst (fun t => Nat.eqb (tutor_id t) tutorId
                               && Nat.eqb (tutor_schoolId t) (sa_schoolId req))
                     (tutors db) = Some tutor
        /\ forEach (Rev2.keyStep (sa_schoolId req) tutorId)
                   (sa_assignments req) (mkAcc db [] [] []) = Ok st1
        /\ Rev2.classTutorStep (sa_schoolId req) tutorId (sa_classGrade req)
                               (sa_classSection req) st1 = Ok (st1', cta)
        /\ Rev2.smartAssignTutor db req
           = (Json 201 (mkSmartAssignBody tutor (createdAssignments st1')
                          (skippedAssignments st1') cta (errors st1')),
              acc_db st1')).
Proof.
  unfold Rev2.smartAssignTutor.
  destruct (sa_tutorId req) as [tutorId|] eqn:Eid; [|left; eauto].
  destruct (findFirst _ (tutors db)) as [tutor|] eqn:Etutor; [|left; eauto].
  unfold transaction, Rev2.smartAssignTx.
  destruct (forEach _ (sa_assignments req) (mkAcc db [] [] []))
    as [st1|e] eqn:Ekeys; cbn [bind].
  2:{ left. destruct e; eauto. }
  destruct (Rev2.classTutorStep _ _ _ _ st1) as [[st1' cta]|e] eqn:Eclass;
    cbn [bind].
  2:{ left. destruct e; eauto. }
  right. exists tutorId, tutor, st1, st1', cta. auto.
Qed.

(** A property of the store that the four writes of
    [smartAssignTutor] keep is kept by the call. *)
Lemma smartAssignTutor_preserves (P : DB -> Prop) db req tutorId :
  sa_tutorId req = Some tutorId ->
  (forall db name sid,
      existsb (fun r => Nat.eqb (ss_sectionId r) sid
                        && String.eqb (ss_name r) name)
              (sectionSubjects db) = false ->
      hasSection db sid = true ->
      P db ->
      P (bump (with_sectionSubjects db
                 (sectionSubjects db
                  ++ [mkSectionSubject (nextId db) name sid true])))) ->
  (forall db i,
      P db ->
      P (with_assignments db
           (map (fun r => if Nat.eqb (tsa_id r) i
                          then set_tsa_isActive true r else r)
                (assignments db)))) ->
  (forall db ssid,
      existsb (sameLink tutorId ssid) (assignments db) = false ->
      P db ->
      P (bump (with_assignments db
                 (assignments db
                  ++ [mkAssignment (nextId db) tutorId ssid true])))) ->
  (forall db i,
      P db ->
      P (with_sections db
           (map (fun r => if Nat.eqb (section_id r) i
                          then set_classTutorId (Some tutorId) r else r)
                (sections db)))) ->
  P db -> P (snd (Rev2.smartAssignTutor db req)).
Proof.
  intros Hid Hsub Hact Hnew Hclass HP.
  destruct (smartAssignTutor_cases db req)
    as [(code & msg & E1)|(t & tutor & st1 & st1' & cta & Eid & Etutor
                           & Ekeys & Eclass & E1)]; rewrite E1; cbn [snd].
  - exact HP.
  - assert (t = tutorId) by congruence. subst t.
    apply (@keys_preserves _ _ P) in Ekeys; auto.
    revert Eclass. unfold Rev2.classTutorStep.
    destruct (required (sa_classGrade req)) as [g|];
      [|intros H; inversion H; subst; assumption].
    destruct (required (sa_classSection req)) as [s|];
      [|intros H; inversion H; subst; assumption].
    destruct (findFirst _ (grades (acc_db st1))) as [grade|];
      [|intros H; inversion H; subst; assumption].
    destruct (findFirst _ (sections (acc_db st1))) as [section|];
      [|intros H; inversion H; subst; assumption].
    assert (Hassign :
      bind (updateSectionRow (acc_db st1) (section_id section)
              (set_classTutorId (Some tutorId)))
           (fun tx' => Ok (withDb st1 tx',
                           Some (mkClassTutorAssignment g s)))
      = Ok (st1', cta) -> P (acc_db st1')).
    { destruct (updateSectionRow _ _ _) as [tx'|e] eqn:Eu; cbn [bind];
        [|discriminate].
      apply updateSectionRow_ok in Eu. subst tx'.
      intros H. inversion H. cbn [acc_db withDb]. apply Hclass. assumption. }
    destruct (section_classTutorId section) as [current|]; [|exact Hassign].
    destruct (negb (Nat.eqb current tutorId)); [|exact Hassign].
    intros H. inversion H. subst. assumption.
Qed.

(** The [smartAssignTutor] of [part_002] is idempotent.  Call it, and
    call it again with the same request on the store the first call
    left.  The second call leaves that store as it is, and for every
    item in the first answer's [subjectAssignments] its
    [skippedAssignments] holds an item with the same grade, section
    and subject. *)
Theorem smartAssignTutor_twice db req :
  let r1 := Rev2.smartAssignTutor db req in
  let r2 := Rev2.smartAssignTutor (snd r1) req in
  snd r2 = snd r1
  /\ status (fst r2) = status (fst r1)
  /\ forall c, In c (createdOf (fst r1)) ->
               exists k, In k (skippedOf (fst r2)) /\ sameTriple c k.
Proof.
  cbv zeta.
  destruct (smartAssignTutor_cases db req)
    as [(code & msg & E1)|(tutorId & tutor & st1 & st1' & cta & Eid & Etutor
                           & Ekeys & Eclass & E1)].
  - rewrite E1. cbn [snd fst]. rewrite E1. cbn.
    split; [reflexivity|]. split; [reflexivity|]. intros c [].
  - rewrite E1. cbn [snd fst createdOf sb_subjectAssignments status].
    apply classTutorStep_second_run in Eclass.
    destruct Eclass as (Hext & Hcr & Hsk & Hagain).
    unfold Rev2.smartAssignTutor. rewrite Eid.
    pose proof Hext as (Hgr & Htu & Hrest).
    pose proof Ekeys as Hfr. apply keys_frame in Hfr.
    destruct Hfr as (_ & _ & Htu0). cbn [acc_db] in Htu0.
    rewrite Htu, Htu0, Etutor.
    unfold transaction, Rev2.smartAssignTx.
    destruct (@keys_second_run _ _ _ _ _ Ekeys (mkAcc (acc_db st1') [] [] [])
                Hext) as (sk & er & Hrun & Hcov).
    cbn [acc_db createdAssignments skippedAssignments errors] in Hrun.
    rewrite Hrun. cbn [bind].
    destruct (Hagain (mkAcc (acc_db st1') [] ([] ++ sk) ([] ++ er)) eq_refl)
      as (er' & cta' & Hrun').
    rewrite Hrun'. cbn. split; [reflexivity|]. split; [reflexivity|].
    intros c Hc. rewrite Hcr in Hc. destruct (Hcov c Hc) as [[]|Hk]. exact Hk.
Qed.

(** Rev1 passes over an assignment that exists but is inactive, and
    has no [skippedAssignments]: the same re-assignment that Rev2
    reports as reactivated leaves the row inactive. *)
Lemma Rev1_smartAssignTutor_no_reactivation :
  let db := Scenario.janeInactive in
  map tsa_isActive (assignments db) = [false]
  /\ map tsa_isActive
         (assignments (snd (Rev1.smartAssignTutor db Scenario.englishReq)))
     = [false]
  /\ map tsa_isActive
         (assignments (snd (Rev2.smartAssignTutor db Scenario.englishReq)))
     = [true]
  /\ map ci_reactivated
         (createdOf (fst (Rev2.smartAssignTutor db Scenario.englishReq)))
     = [true].
Proof. vm_compute. auto. Qed.
(** C1.  The [smartAssignTutor] of [assignment.controller.ts] passes
    over an assignment that exists and reports nothing.  Jane is
    assigned to English of Grade 1-A, and the same request is sent
    again: the second call answers 201 and leaves the store as it
    is, and the item that the first call reported as created is in
    none of its lists. *)
Theorem Rev1_smartAssignTutor_second_call_silent :
  let r1 := Rev1.smartAssignTutor Scenario.withJane Scenario.englishReq in
  let r2 := Rev1.smartAssignTutor (snd r1) Scenario.englishReq in
  status (fst r1) = 201
  /\ createdOf (fst r1) = [mkCreatedItem 9 "Grade 1" "A" "English" false]
  /\ status (fst r2) = 201
  /\ snd r2 = snd r1
  /\ createdOf (fst r2) = []
  /\ skippedOf (fst r2) = []
  /\ errorsOf (fst r2) = [].
Proof. vm_compute. repeat split; reflexivity. Qed.

(* ================================================================= *)
(** * Rev2: the three ways of one subject, and the one that throws *)

Section ThreeWays.
Variables tutorId sectionId : Id.
Variables gradeName sectionName subjectName : string.

Lemma existsb_false_In {A} (p : A -> bool) l :
  existsb p l = false <-> forall x, In x l -> p x = false.
Proof.
  split.
  - intros H x Hx. destruct (p x) eqn:E; [|reflexivity].
    assert (existsb p l = true) by (apply existsb_exists; eauto).
    congruence.
  - intros H. destruct (existsb p l) eqn:E; [|reflexivity].
    apply existsb_exists in E. destruct E as (x & Hx & Hp).
    rewrite (H x Hx) in Hp. discriminate.
Qed.

(** When every row of that name in the section is active, the
    section subject is found or created, and then the assignment is
    skipped, reactivated or created. *)
Lemma subjectStep_three_ways st :
  hasTutor (acc_db st) tutorId = true ->
  hasSection (acc_db st) sectionId = true ->
  (forall r, In r (sectionSubjects (acc_db st)) ->
             ss_sectionId r = sectionId -> ss_name r = subjectName ->
             ss_isActive r = true) ->
  exists ss tx,
    ((findFirst (subjectNamed sectionId subjectName true)
                (sectionSubjects (acc_db st)) = Some ss
      /\ tx = acc_db st)
     \/ (findFirst (subjectNamed sectionId subjectName true)
                   (sectionSubjects (acc_db st)) = None
         /\ ss = mkSectionSubject (nextId (acc_db st)) subjectName
                                  sectionId true
         /\ tx = bump (with_sectionSubjects (acc_db st)
                         (sectionSubjects (acc_db st) ++ [ss]))))
    /\ In ss (sectionSubjects tx)
    /\ match findFirst (sameLink tutorId (ss_id ss)) (assignments tx) with
       | Some existing =>
           if tsa_isActive existing
           then Rev2.subjectStep tutorId sectionId gradeName sectionName
                  subjectName st
                = Ok (pushSkipped st tx
                        (mkSkippedItem gradeName sectionName subjectName
                                       "Already assigned"))
           else Rev2.subjectStep tutorId sectionId gradeName sectionName
                  subjectName st
                = Ok (pushCreated st
                        (with_assignments tx
                           (map (fun r => if Nat.eqb (tsa_id r)
                                                     (tsa_id existing)
                                          then set_tsa_isActive true r
                                          else r) (assignments tx)))
                        (mkCreatedItem (tsa_id existing) gradeName
                                       sectionName subjectName true))
       | None =>
           Rev2.subjectStep tutorId sectionId gradeName sectionName
             subjectName st
           = Ok (pushCreated st
                   (bump (with_assignments tx
                            (assignments tx
                             ++ [mkAssignment (nextId tx) tutorId (ss_id ss)
                                              true])))
                   (mkCreatedItem (nextId tx) gradeName sectionName
                                  subjectName false))
       end.
Proof.
  intros Htutor Hsection Hactive.
  assert (Hlink : forall ss tx,
    In ss (sectionSubjects tx) -> hasTutor tx tutorId = true ->
    match findFirst (sameLink tutorId (ss_id ss)) (assignments tx) with
    | Some existing =>
        if tsa_isActive existing
        then Ok (pushSkipped st tx
                   (mkSkippedItem gradeName sectionName subjectName
                                  "Already assigned"))
             = Ok (pushSkipped st tx
                     (mkSkippedItem gradeName sectionName subjectName
                                    "Already assigned"))
        else bind (updateAssignmentRow tx (tsa_id existing)
                                       (set_tsa_isActive true))
                  (fun tx' =>
                     Ok (pushCreated st tx'
                           (mkCreatedItem (tsa_id existing) gradeName
                                          sectionName subjectName true)))
             = Ok (pushCreated st
                     (with_assignments tx
                        (map (fun r => if Nat.eqb (tsa_id r)
                                                  (tsa_id existing)
                                       then set_tsa_isActive true r
                                       else r) (assignments tx)))
                     (mkCreatedItem (tsa_id existing) gradeName
                                    sectionName subjectName true))
    | None =>
        bind (createAssignmentRow tx tutorId (ss_id ss) true)
             (fun '(assignment, tx') =>
                Ok (pushCreated st tx'
                      (mkCreatedItem (tsa_id assignment) gradeName
                                     sectionName subjectName false)))
        = Ok (pushCreated st
                (bump (with_assignments tx
                         (assignments tx
                          ++ [mkAssignment (nextId tx) tutorId (ss_id ss)
                                           true])))
                (mkCreatedItem (nextId tx) gradeName sectionName
                               subjectName false))
    end).
  { intros ss tx Hss Ht.
    destruct (findFirst (sameLink tutorId (ss_id ss)) (assignments tx))
      as [existing|] eqn:Ea.
    - destruct (tsa_isActive existing); [reflexivity|].
      apply findFirst_some in Ea. destruct Ea as (Hin & _).
      unfold updateAssignmentRow.
      rewrite (updateWhere_present tsa_id (set_tsa_isActive true) _ _ Hin).
      reflexivity.
    - apply findFirst_none_existsb in Ea. unfold createAssignmentRow.
      rewrite Ea, Ht.
      assert (hasSectionSubject tx (ss_id ss) = true) as ->.
      { unfold hasSectionSubject. apply existsb_exists. exists ss.
        split; [assumption | apply Nat.eqb_refl]. }
      reflexivity. }
  unfold Rev2.subjectStep.
  destruct (findFirst (subjectNamed sectionId subjectName true)
                      (sectionSubjects (acc_db st))) as [ss|] eqn:Ess.
  - exists ss, (acc_db st). split; [left; auto|].
    assert (Hin : In ss (sectionSubjects (acc_db st)))
      by (apply findFirst_some in Ess; tauto).
    split; [assumption|]. cbn [bind].
    specialize (Hlink ss (acc_db st) Hin Htutor).
    destruct (findFirst (sameLink tutorId (ss_id ss))
                        (assignments (acc_db st))) as [existing|];
      [destruct (tsa_isActive existing)|]; exact Hlink.
  - set (row := mkSectionSubject (nextId (acc_db st)) subjectName
                                 sectionId true).
    set (tx := bump (with_sectionSubjects (acc_db st)
                       (sectionSubjects (acc_db st) ++ [row]))).
    assert (Hcreate : createSectionSubjectRow (acc_db st) subjectName
                        sectionId true = Ok (row, tx)).
    { unfold createSectionSubjectRow. rewrite Hsection.
      assert (existsb (fun r => Nat.eqb (ss_sectionId r) sectionId
                                && String.eqb (ss_name r) subjectName)
                      (sectionSubjects (acc_db st)) = false) as ->;
        [|reflexivity].
      apply existsb_false_In. intros r Hr.
      destruct (Nat.eqb (ss_sectionId r) sectionId) eqn:E1;
        [|reflexivity].
      destruct (String.eqb (ss_name r) subjectName) eqn:E2;
        [|reflexivity].
      exfalso. apply Nat.eqb_eq in E1. apply String.eqb_eq in E2.
      pose proof (Hactive r Hr E1 E2) as Hact.
      apply findFirst_none_existsb in Ess.
      rewrite existsb_false_In in Ess. specialize (Ess r Hr).
      unfold subjectNamed in Ess.
      rewrite E1, E2, Hact, Nat.eqb_refl, String.eqb_refl in Ess.
      discriminate. }
    rewrite Hcreate. cbn [bind]. exists row, tx.
    split; [right; auto|].
    assert (Hin : In row (sectionSubjects tx)).
    { subst tx. cbn. apply in_app_iff. right. left. reflexivity. }
    split; [assumption|].
    specialize (Hlink row tx Hin Htutor).
    destruct (findFirst (sameLink tutorId (ss_id row)) (assignments tx))
      as [existing|]; [destruct (tsa_isActive existing)|]; exact Hlink.
Qed.

(** When a row of that name in the section is inactive (and none is
    active, as the unique index has it), the lookup misses it, the
    insert violates the index, and the turn throws. *)
Lemma subjectStep_inactive_throws st r :
  In r (sectionSubjects (acc_db st)) ->
  ss_sectionId r = sectionId -> ss_name r = subjectName ->
  findFirst (subjectNamed sectionId subjectName true)
            (sectionSubjects (acc_db st)) = None ->
  Rev2.subjectStep tutorId sectionId gradeName sectionName subjectName st
  = Err P2002.
Proof.
  intros Hr Hs Hn Hnone. unfold Rev2.subjectStep. rewrite Hnone.
  unfold createSectionSubjectRow.
  assert (existsb (fun r => Nat.eqb (ss_sectionId r) sectionId
                            && String.eqb (ss_name r) subjectName)
                  (sectionSubjects (acc_db st)) = true) as ->;
    [|reflexivity].
  apply existsb_exists. exists r. split; [assumption|].
  rewrite Hs, Hn, Nat.eqb_refl, String.eqb_refl. reflexivity.
Qed.

End ThreeWays.

(** C3, the case the code misses.  English was switched off in section
    A by [updateSectionSubjects]; a call that assigns English there
    finds no active row, its insert violates the unique index on
    (sectionId, name), the transaction is rolled back and the answer
    is 409: the subject is neither found nor created and no
    assignment is looked at.  [addSubjectToSection], for the same
    name, reactivates the row. *)
Theorem smartAssignTutor_inactive_subject_aborts :
  let db := Scenario.englishOff in
  sectionSubjects db
  = [mkSectionSubject 5 "English" 4 false; mkSectionSubject 6 "Maths" 4 true]
  /\ Rev2.subjectStep 7 4 "Grade 1" "A" "English" (mkAcc db [] [] [])
     = Err P2002
  /\ Rev2.smartAssignTutor db Scenario.englishReq
     = (Message 409
          "This tutor is already assigned to one or more of these subjects",
        db)
  /\ assignments db = []
  /\ fst (Rev2.addSubjectToSection db 4 (Some "English"))
     = Json 200 (mkSectionSubject 5 "English" 4 true).
Proof. vm_compute. repeat split; reflexivity. Qed.

(* ================================================================= *)
(** * Rev2: [updateTutorAssignments] *)

Section ReplaceAll.
Variable tutorId : Id.
Variable floor : Id.

Lemma fresh_cleared db :
  Forall (fun a => tsa_id a < nextId db) (assignments db) ->
  floor = nextId db ->
  freshFrom tutorId floor (clearTutor tutorId db).
Proof.
  intros Hids ->. split; [cbn; lia|]. cbn. intros a Hin Ht.
  unfold deleteMany in Hin. apply filter_In in Hin.
  destruct Hin as (_ & Hne). rewrite Ht, Nat.eqb_refl in Hne. discriminate.
Qed.

Lemma smartAssignTutor_fresh db req :
  sa_tutorId req = Some tutorId ->
  freshFrom tutorId floor db -> freshFrom tutorId floor (snd (Rev2.smartAssignTutor db req)).
Proof.
  intros Hid. apply smartAssignTutor_preserves with (tutorId := tutorId);
    [assumption|..].
  - intros d name sid _ _ (Hn & Ha). split; [cbn; lia | exact Ha].
  - intros d i (Hn & Ha). split; [exact Hn|]. cbn. intros a Hin Ht.
    apply in_map_iff in Hin. destruct Hin as (a0 & <- & Hin0).
    destruct (Nat.eqb (tsa_id a0) i); cbn in *; auto.
  - intros d ssid _ (Hn & Ha). split; [cbn; lia|]. cbn. intros a Hin Ht.
    apply in_app_iff in Hin. destruct Hin as [Hin|[<-|[]]]; auto.
  - intros d i (Hn & Ha). split; [exact Hn | exact Ha].
Qed.

(** The same for the handler of [assignment.controller.ts]. *)
Lemma Rev1_subjectStep_fresh sid g s x st st' :
  Rev1.subjectStep tutorId sid g s x st = Ok st' ->
  freshFrom tutorId floor (acc_db st) ->
  freshFrom tutorId floor (acc_db st')
  /\ sections (acc_db st') = sections (acc_db st).
Proof.
  unfold Rev1.subjectStep. intros H (Hn & Ha).
  assert (Hnext : forall ss tx,
            (tx = acc_db st
             \/ tx = bump (with_sectionSubjects (acc_db st)
                             (sectionSubjects (acc_db st) ++ [ss]))) ->
            match findFirst (sameLink tutorId (ss_id ss)) (assignments tx) with
            | Some _ => Ok (withDb st tx)
            | None =>
                bind (createAssignmentRow tx tutorId (ss_id ss) true)
                     (fun '(assignment, tx') =>
                        Ok (pushCreated st tx'
                              (mkCreatedItem (tsa_id assignment) g s x
                                             false)))
            end = Ok st' ->
            freshFrom tutorId floor (acc_db st')
            /\ sections (acc_db st') = sections (acc_db st)).
  { intros ss tx Htx E.
    assert (Hfresh : freshFrom tutorId floor tx
                     /\ sections tx = sections (acc_db st)).
    { destruct Htx as [->| ->]; [split; [split|]; auto|].
      split; [|reflexivity]. split; [cbn; lia | exact Ha]. }
    destruct Hfresh as ((Hn' & Ha') & Hsec).
    destruct (findFirst _ (assignments tx)).
    - inversion E. cbn. split; [split|]; assumption.
    - destruct (createAssignmentRow tx tutorId (ss_id ss) true)
        as [[row tx']|e] eqn:Ec; cbn [bind] in E; [|discriminate].
      apply createAssignmentRow_ok in Ec. destruct Ec as (-> & -> & _).
      inversion E. cbn. split; [|exact Hsec]. split; [cbn; lia|].
      cbn. intros a Hin Ht. apply in_app_iff in Hin.
      destruct Hin as [Hin|[<-|[]]]; [auto | cbn; lia]. }
  destruct (findFirst _ (sectionSubjects (acc_db st))) as [ss|];
    cbn [bind] in H.
  - apply (Hnext ss (acc_db st)); [left; reflexivity | exact H].
  - destruct (createSectionSubjectRow _ _ _ _) as [[ss tx]|e] eqn:Ecs;
      cbn [bind] in H; [|discriminate].
    apply createSectionSubjectRow_ok in Ecs. destruct Ecs as (Hss & -> & _).
    apply (Hnext ss (bump (with_sectionSubjects (acc_db st)
                             (sectionSubjects (acc_db st) ++ [ss]))));
      [right; reflexivity | exact H].
Qed.

Lemma Rev1_keys_fresh schoolId l st st' :
  forEach (Rev1.keyStep schoolId tutorId) l st = Ok st' ->
  freshFrom tutorId floor (acc_db st) ->
  freshFrom tutorId floor (acc_db st')
  /\ sections (acc_db st') = sections (acc_db st).
Proof.
  intros H Hf.
  assert (Hinv : freshFrom tutorId floor (acc_db st')
                 /\ sections (acc_db st') = sections (acc_db st)).
  { refine (@forEach_invariant _ _ (Rev1.keyStep schoolId tutorId)
              (fun a => freshFrom tutorId floor (acc_db a)
                        /\ sections (acc_db a) = sections (acc_db st))
              _ l st st' H _); [|split; [exact Hf | reflexivity]].
    intros [key names] a b. unfold Rev1.keyStep.
    destruct (matchKey key) as [[g s]|].
    2:{ intros E. inversion E. cbn. auto. }
    destruct (findFirst _ (grades (acc_db a))).
    2:{ intros E. inversion E. cbn. auto. }
    destruct (findFirst _ (sections (acc_db a))) as [section|].
    2:{ intros E. inversion E. cbn. auto. }
    intros E (Hfa & Hsa).
    refine (@forEach_invariant _ _
              (Rev1.subjectStep tutorId (section_id section) g s)
              (fun c => freshFrom tutorId floor (acc_db c)
                        /\ sections (acc_db c) = sections (acc_db st))
              _ names a b E _); [|split; assumption].
    intros x c d Hx (Hfc & Hsc).
    destruct (@Rev1_subjectStep_fresh (section_id section) g s x c d Hx Hfc)
      as (Hfd & Hsd).
    split; [exact Hfd | congruence]. }
  exact Hinv.
Qed.

End ReplaceAll.

(** A class-tutor step that reports no class leaves the sections as
    they are, in both revisions. *)
Lemma classTutorStep_unreported schoolId tutorId cg cs st st' :
  Rev2.classTutorStep schoolId tutorId cg cs st = Ok (st', None)
  \/ Rev1.classTutorStep schoolId tutorId cg cs st = Ok (st', None) ->
  acc_db st' = acc_db st.
Proof.
  unfold Rev2.classTutorStep, Rev1.classTutorStep, bind.
  intros [H|H]; revert H;
    repeat match goal with
           | |- context [match ?x with _ => _ end] =>
               lazymatch x with
               | context [match _ with _ => _ end] => fail
               | _ => destruct x eqn:?
               end
           end;
    intros H; try discriminate H; inversion H; reflexivity.
Qed.

Lemma classTutorStep_fresh schoolId tutorId floor cg cs st st' cta :
  Rev2.classTutorStep schoolId tutorId cg cs st = Ok (st', cta)
  \/ Rev1.classTutorStep schoolId tutorId cg cs st = Ok (st', cta) ->
  freshFrom tutorId floor (acc_db st) ->
  freshFrom tutorId floor (acc_db st').
Proof.
  unfold Rev2.classTutorStep, Rev1.classTutorStep, bind.
  intros [H|H] Hf; revert H;
    repeat match goal with
           | |- context [match ?x with _ => _ end] =>
               lazymatch x with
               | context [match _ with _ => _ end] => fail
               | _ => destruct x eqn:?
               end
           end;
    intros H; try discriminate H; inversion H; subst; try exact Hf.
  all: match goal with
       | E : updateSectionRow _ _ _ = Ok _ |- _ =>
           apply updateSectionRow_ok in E; subst; exact Hf
       end.
Qed.

(** The store that the first transaction commits, table by table. *)
Lemma clearTutor_tables tutorId db :
  assignments (clearTutor tutorId db)
  = filter (fun a => negb (Nat.eqb (tsa_tutorId a) tutorId)) (assignments db)
  /\ sections (clearTutor tutorId db)
     = map (fun s => if optId_eqb (section_classTutorId s) (Some tutorId)
                     then set_classTutorId None s else s) (sections db)
  /\ (forall s, In s (sections (clearTutor tutorId db)) ->
                section_classTutorId s <> Some tutorId)
  /\ schools (clearTutor tutorId db) = schools db
  /\ users (clearTutor tutorId db) = users db
  /\ tutors (clearTutor tutorId db) = tutors db
  /\ grades (clearTutor tutorId db) = grades db
  /\ sectionSubjects (clearTutor tutorId db) = sectionSubjects db.
Proof.
  unfold clearTutor, updateMany, deleteMany. cbn.
  repeat split; try reflexivity.
  intros s Hs. apply in_map_iff in Hs. destruct Hs as (s0 & <- & _).
  destruct (optId_eqb (section_classTutorId s0) (Some tutorId)) eqn:E.
  - cbn. discriminate.
  - intros Heq. rewrite Heq in E. cbn in E. rewrite Nat.eqb_refl in E.
    discriminate.
Qed.

(** What the second step of [updateTutorAssignments] leaves, started
    on a store [cleared] in which every assignment row of the tutor
    has an id from [floor] on. *)
Lemma smartAssignTutor_after_clear tutorId floor cleared req r :
  sa_tutorId req = Some tutorId ->
  freshFrom tutorId floor cleared ->
  r = Rev2.smartAssignTutor cleared req
  \/ r = Rev1.smartAssignTutor cleared req ->
  freshFrom tutorId floor (snd r)
  /\ (classTutorOf (fst r) = None -> sections (snd r) = sections cleared)
  /\ (status (fst r) <> 201 -> snd r = cleared).
Proof.
  intros Hid Hf [->| ->].
  - split; [exact (@smartAssignTutor_fresh tutorId floor cleared req Hid Hf)|].
    destruct (smartAssignTutor_cases cleared req)
      as [(code & msg & E)|(t & tu & st1 & st1' & cta & Et & _ & Ek & Ec
                            & E)]; rewrite E; cbn [fst snd status].
    + split; [reflexivity|]. intros _. reflexivity.
    + split; [|intros H; now elim H].
      cbn [classTutorOf sb_classTutorAssignment]. intros ->.
      rewrite (@classTutorStep_unreported (sa_schoolId req) t
                 (sa_classGrade req) (sa_classSection req) st1 st1'
                 (or_introl Ec)).
      destruct (keys_frame _ _ _ _ Ek) as (Hsec & _). exact Hsec.
  - unfold Rev1.smartAssignTutor. rewrite Hid.
    destruct (findFirst _ (tutors cleared)) as [tu|];
      [|cbn; split; [exact Hf|]; split; reflexivity].
    unfold transaction, Rev1.smartAssignTx.
    destruct (forEach (Rev1.keyStep (sa_schoolId req) tutorId)
                (sa_assignments req) (mkAcc cleared [] [] []))
      as [st1|e] eqn:Ek; cbn [bind];
      [|cbn; split; [exact Hf|]; split; reflexivity].
    destruct (@Rev1_keys_fresh tutorId floor (sa_schoolId req)
                (sa_assignments req) (mkAcc cleared [] [] []) st1 Ek Hf)
      as (Hf1 & Hsec1).
    destruct (Rev1.classTutorStep (sa_schoolId req) tutorId
                (sa_classGrade req) (sa_classSection req) st1)
      as [[st1' cta]|e] eqn:Ec; cbn [bind];
      [|cbn; split; [exact Hf|]; split; reflexivity].
    cbn [fst snd status classTutorOf sb_classTutorAssignment].
    split; [|split; [|intros H; now elim H]].
    + exact (@classTutorStep_fresh (sa_schoolId req) tutorId floor
               (sa_classGrade req) (sa_classSection req) st1 st1' cta
               (or_intror Ec) Hf1).
    + intros ->.
      rewrite (@classTutorStep_unreported (sa_schoolId req) tutorId
                 (sa_classGrade req) (sa_classSection req) st1 st1'
                 (or_intror Ec)).
      exact Hsec1.
Qed.

(** C9.  [updateTutorAssignments] of either revision, for a tutor of
    the school, first commits the store [cleared]: the assignment
    rows of the tutor are deleted, the sections that had the tutor as
    class tutor have none, and the other tables are as they were.
    The call then is [smartAssignTutor] on that store.  Whatever this
    second step answers, no assignment row the tutor had before the
    call is in the final store; unless the answer reports a class
    tutor, the sections are those of the cleared store; and when the
    answer is not 201 (the transaction of the second step was rolled
    back) the final store is the cleared one. *)
Theorem updateTutorAssignments_not_atomic db req tutorId tutor :
  sa_tutorId req = Some tutorId ->
  findFirst (fun t => Nat.eqb (tutor_id t) tutorId
                      && Nat.eqb (tutor_schoolId t) (sa_schoolId req))
            (tutors db) = Some tutor ->
  Forall (fun a => tsa_id a < nextId db) (assignments db) ->
  let cleared := clearTutor tutorId db in
  let r2 := Rev2.updateTutorAssignments db req in
  let r1 := Rev1.updateTutorAssignments db req in
  (assignments cleared
   = filter (fun a => negb (Nat.eqb (tsa_tutorId a) tutorId)) (assignments db)
   /\ sections cleared
      = map (fun s => if optId_eqb (section_classTutorId s) (Some tutorId)
                      then set_classTutorId None s else s) (sections db)
   /\ (forall s, In s (sections cleared) ->
                 section_classTutorId s <> Some tutorId)
   /\ schools cleared = schools db /\ users cleared = users db
   /\ tutors cleared = tutors db /\ grades cleared = grades db
   /\ sectionSubjects cleared = sectionSubjects db)
  /\ r2 = Rev2.smartAssignTutor cleared req
  /\ r1 = Rev1.smartAssignTutor cleared req
  /\ forall r, r = r2 \/ r = r1 ->
       (forall a, In a (assignments db) -> tsa_tutorId a = tutorId ->
                  ~ In a (assignments (snd r)))
       /\ (classTutorOf (fst r) = None -> sections (snd r) = sections cleared)
       /\ (status (fst r) <> 201 -> snd r = cleared).
Proof.
  intros Hid Htutor Hids. cbv zeta.
  split; [exact (clearTutor_tables tutorId db)|].
  assert (E2 : Rev2.updateTutorAssignments db req
               = Rev2.smartAssignTutor (clearTutor tutorId db) req).
  { unfold Rev2.updateTutorAssignments. rewrite Hid, Htutor. reflexivity. }
  assert (E1 : Rev1.updateTutorAssignments db req
               = Rev1.smartAssignTutor (clearTutor tutorId db) req).
  { unfold Rev1.updateTutorAssignments. rewrite Hid, Htutor. reflexivity. }
  split; [exact E2|]. split; [exact E1|].
  intros r Hr. rewrite E2, E1 in Hr.
  destruct (@smartAssignTutor_after_clear tutorId (nextId db)
              (clearTutor tutorId db) req r Hid
              (@fresh_cleared tutorId (nextId db) db Hids eq_refl) Hr)
    as ((_ & Hf) & Hsec & Hback).
  split; [|split; assumption].
  intros a Hin Ht Hin'. specialize (Hf a Hin' Ht).
  rewrite Forall_forall in Hids. specialize (Hids a Hin). lia.
Qed.

(** Jane teaches Maths and is class tutor of Grade 1-A, and English
    is switched off: replacing her assignments by English takes Maths
    and the class from her and gives her nothing. *)
Lemma updateTutorAssignments_not_atomic_witness :
  let r := Rev2.updateTutorAssignments Scenario.janeClassMaths
             Scenario.englishReq in
  assignments Scenario.janeClassMaths = [mkAssignment 9 7 6 true]
  /\ map section_classTutorId (sections Scenario.janeClassMaths) = [Some 7]
  /\ status (fst r) = 409
  /\ assignments (snd r) = []
  /\ map section_classTutorId (sections (snd r)) = [None]
  /\ (forall a, In a (assignments Scenario.janeClassMaths) ->
                tsa_tutorId a = 7 -> ~ In a (assignments (snd r))).
Proof.
  cbv zeta.
  destruct (@updateTutorAssignments_not_atomic Scenario.janeClassMaths
              Scenario.englishReq 7
              (mkTutor 7 "Jane" "jane@lincoln.edu" "555-0101" 1 true)
              eq_refl eq_refl)
    as ((Hasg & Hsec & _) & _ & _ & Hr).
  - repeat constructor.
  - destruct (Hr (Rev2.updateTutorAssignments Scenario.janeClassMaths
                    Scenario.englishReq) (or_introl eq_refl))
      as (Hgone & _ & Hback).
    assert (Hst : status (fst (Rev2.updateTutorAssignments
                                 Scenario.janeClassMaths Scenario.englishReq))
                  = 409) by reflexivity.
    split; [reflexivity|]. split; [reflexivity|]. split; [exact Hst|].
    rewrite Hback by (rewrite Hst; discriminate).
    rewrite Hasg, Hsec.
    split; [reflexivity|]. split; [reflexivity|].
    rewrite <- Hasg.
    rewrite <- Hback by (rewrite Hst; discriminate). exact Hgone.
Defined.

(* ================================================================= *)
(** * Rev2: [updateSectionSubjects] *)

Section Keyed.
Context {A K : Type}.
Variable key : A -> K.

Lemma NoDup_map_inj (l : list A) a b :
  NoDup (map key l) -> In a l -> In b l -> key a = key b -> a = b.
Proof.
  induction l as [|x l IH]; simpl; intros Hnd Ha Hb Hk; [destruct Ha|].
  inversion Hnd as [|? ? Hnot Hnd']; subst.
  destruct Ha as [->|Ha], Hb as [->|Hb]; auto.
  - exfalso. apply Hnot. rewrite Hk. apply in_map. assumption.
  - exfalso. apply Hnot. rewrite <- Hk. apply in_map. assumption.
Qed.

Lemma map_key_update (g : A -> A) (l : list A) :
  (forall r, key (g r) = key r) -> map key (map g l) = map key l.
Proof. intros H. rewrite map_map. apply map_ext. assumption. Qed.
End Keyed.

Section Reconcile.
Variable sectionId : Id.

Lemma turn_skey b i r : skey (turn b i r) = skey r.
Proof. unfold turn. destruct (Nat.eqb (ss_id r) i); reflexivity. Qed.

Lemma turn_id b i r : ss_id (turn b i r) = ss_id r.
Proof. unfold turn. destruct (Nat.eqb (ss_id r) i); reflexivity. Qed.

Lemma turn_other b i r : ss_id r <> i -> turn b i r = r.
Proof.
  intros H. unfold turn. apply Nat.eqb_neq in H. rewrite H. reflexivity.
Qed.

Lemma updateSectionSubjectRow_present db b r0 :
  In r0 (sectionSubjects db) ->
  updateSectionSubjectRow db (ss_id r0) (set_ss_isActive b)
  = Ok (with_sectionSubjects db
          (map (turn b (ss_id r0)) (sectionSubjects db))).
Proof.
  intros H. unfold updateSectionSubjectRow.
  rewrite (updateWhere_present ss_id (set_ss_isActive b) _ _ H).
  reflexivity.
Qed.

Lemma subjectsWf_turn db b i :
  subjectsWf db ->
  subjectsWf (with_sectionSubjects db
                (map (turn b i) (sectionSubjects db))).
Proof.
  intros (Hk & Hi & Hlt). unfold subjectsWf. cbn.
  rewrite (map_key_update skey), (map_key_update ss_id)
    by (intros; first [apply turn_skey | apply turn_id]).
  split; [assumption|]. split; [assumption|].
  rewrite Forall_forall in *. intros y Hy. apply in_map_iff in Hy.
  destruct Hy as (r & <- & Hr). rewrite turn_id. auto.
Qed.

Lemma subjectsWf_new db name :
  subjectsWf db ->
  existsb (fun r => Nat.eqb (ss_sectionId r) sectionId
                    && String.eqb (ss_name r) name)
          (sectionSubjects db) = false ->
  subjectsWf (bump (with_sectionSubjects db
                      (sectionSubjects db
                       ++ [mkSectionSubject (nextId db) name sectionId
                                            true]))).
Proof.
  intros (Hk & Hi & Hlt) Hex. unfold subjectsWf. cbn.
  rewrite !map_app. cbn. rewrite Forall_forall in Hlt.
  split; [|split].
  - apply NoDup_app; [assumption | repeat constructor; intros [] |].
    intros k Hin [<-|[]]. apply in_map_iff in Hin.
    destruct Hin as (r & Hr & Hin).
    rewrite existsb_false_In in Hex. specialize (Hex r Hin).
    unfold skey in Hr. inversion Hr as [[H1 H2]].
    rewrite H1, H2, Nat.eqb_refl, String.eqb_refl in Hex. discriminate.
  - apply NoDup_app; [assumption | repeat constructor; intros [] |].
    intros k Hin [<-|[]]. apply in_map_iff in Hin.
    destruct Hin as (r & Hr & Hin). specialize (Hlt r Hin). lia.
  - apply Forall_forall. intros y Hy. apply in_app_iff in Hy.
    destruct Hy as [Hy|[<-|[]]]; [specialize (Hlt y Hy); lia | cbn; lia].
Qed.

Variable db0 : DB.
Variable x : SectionSubject.
Hypothesis Hx_in : In x (sectionSubjects db0).
Hypothesis Hx_sec : ss_sectionId x = sectionId.
Hypothesis Hx_off : ss_isActive x = false.

Lemma addStep_adding seen tx added m :
  adding sectionId db0 x seen tx ->
  ~ In m seen -> ~ In m (activeNames db0 sectionId) ->
  exists tx' added',
    Rev2.addStep sectionId m (tx, added) = Ok (tx', added')
    /\ adding sectionId db0 x (m :: seen) tx'.
Proof.
  intros (Hwf & Hsec & Hact & Hx0 & Hx1 & Hids) Hm Hma.
  unfold Rev2.addStep.
  destruct (findFirst (subjectNamed sectionId m false) (sectionSubjects tx))
    as [r0|] eqn:Ef.
  - (* an inactive row of that name is switched on *)
    apply findFirst_some in Ef. destruct Ef as (Hr0 & Hp).
    unfold subjectNamed in Hp. apply andb_true_iff in Hp.
    destruct Hp as (Hp & Hoff). apply andb_true_iff in Hp.
    destruct Hp as (Hs0 & Hn0).
    apply Nat.eqb_eq in Hs0. apply String.eqb_eq in Hn0.
    apply Bool.eqb_prop in Hoff.
    rewrite (updateSectionSubjectRow_present _ true _ Hr0). cbn [bind].
    eexists _, _. split; [reflexivity|].
    pose proof Hwf as (Hk & Hi & _).
    assert (Hsame : forall r, In r (sectionSubjects tx) ->
                              ss_id r = ss_id r0 -> r = r0).
    { intros r Hr E. eapply NoDup_map_inj; eauto. }
    unfold adding. cbn [sectionSubjects with_sectionSubjects].
    split; [apply subjectsWf_turn; assumption|].
    split; [exact Hsec|]. split; [|split; [|split]].
    + intros y Hy Hys Hya. apply in_map_iff in Hy.
      destruct Hy as (r & <- & Hr).
      destruct (Nat.eq_dec (ss_id r) (ss_id r0)) as [E|E].
      * rewrite (Hsame r Hr E). unfold turn. rewrite Nat.eqb_refl.
        cbn. right. left. symmetry. assumption.
      * pose proof (@turn_other true (ss_id r0) r E) as Et.
        rewrite Et in Hys, Hya |- *.
        destruct (Hact r Hr Hys Hya); [left | right; right]; assumption.
    + intros Hnot. assert (Hnx : ss_name x <> m)
        by (intros E; apply Hnot; left; symmetry; assumption).
      assert (Hxin : In x (sectionSubjects tx))
        by (apply Hx0; intros H; apply Hnot; right; assumption).
      apply in_map_iff. exists x. split; [|assumption].
      apply turn_other. intros E. apply Hnx.
      rewrite (Hsame x Hxin E). assumption.
    + intros [E|Hseen].
      * assert (Hxin : In x (sectionSubjects tx))
          by (apply Hx0; rewrite <- E; assumption).
        assert (x = r0).
        { eapply (NoDup_map_inj skey); eauto. unfold skey.
          rewrite Hx_sec, Hs0, Hn0, E. reflexivity. }
        subst r0. apply in_map_iff. exists x. split; [|assumption].
        unfold turn. rewrite Nat.eqb_refl. reflexivity.
      * assert (Hnx : ss_name x <> m)
          by (intros E; apply Hm; rewrite <- E; exact Hseen).
        apply in_map_iff. exists (set_ss_isActive true x).
        split; [|auto]. apply turn_other. intros E. apply Hnx.
        rewrite <- (Hsame _ (Hx1 Hseen) E) in Hn0. exact Hn0.
    + intros r Hr. destruct (Hids r Hr) as (r' & Hr' & E).
      exists (turn true (ss_id r0) r'). split; [apply in_map; assumption|].
      rewrite turn_id. assumption.
  - (* a new row *)
    assert (Hex : existsb (fun r => Nat.eqb (ss_sectionId r) sectionId
                                    && String.eqb (ss_name r) m)
                          (sectionSubjects tx) = false).
    { apply existsb_false_In. intros r Hr.
      destruct (Nat.eqb (ss_sectionId r) sectionId) eqn:E1; [|reflexivity].
      destruct (String.eqb (ss_name r) m) eqn:E2; [|reflexivity].
      exfalso. apply Nat.eqb_eq in E1. apply String.eqb_eq in E2.
      apply findFirst_none_existsb in Ef. rewrite existsb_false_In in Ef.
      specialize (Ef r Hr). unfold subjectNamed in Ef.
      rewrite E1, E2, Nat.eqb_refl, String.eqb_refl in Ef.
      destruct (ss_isActive r) eqn:Ea; [|discriminate].
      destruct (Hact r Hr E1 Ea) as [H|H]; rewrite E2 in H; contradiction. }
    unfold createSectionSubjectRow. rewrite Hex, Hsec. cbn [negb bind].
    eexists _, _. split; [reflexivity|].
    assert (Hnx : ss_name x <> m).
    { intros E. destruct (in_dec string_dec (ss_name x) seen) as [Hs|Hs].
      - rewrite E in Hs. contradiction.
      - specialize (Hx0 Hs). rewrite existsb_false_In in Hex.
        specialize (Hex x Hx0).
        rewrite Hx_sec, E, Nat.eqb_refl, String.eqb_refl in Hex.
        discriminate. }
    unfold adding. cbn [sectionSubjects with_sectionSubjects bump].
    split; [apply subjectsWf_new; assumption|].
    split; [exact Hsec|]. split; [|split; [|split]].
    + intros y Hy Hys Hya. apply in_app_iff in Hy.
      destruct Hy as [Hy|[<-|[]]].
      * destruct (Hact y Hy Hys Hya); [left | right; right]; assumption.
      * right. left. reflexivity.
    + intros Hnot. apply in_app_iff. left. apply Hx0.
      intros H. apply Hnot. right. assumption.
    + intros [E|Hseen]; [symmetry in E; contradiction|].
      apply in_app_iff. left. auto.
    + intros r Hr. destruct (Hids r Hr) as (r' & Hr' & E).
      exists r'. split; [apply in_app_iff; left; assumption | assumption].
Qed.

Lemma addLoop_adding toAdd :
  forall seen tx added,
    adding sectionId db0 x seen tx ->
    NoDup toAdd ->
    (forall m, In m toAdd -> ~ In m seen
                             /\ ~ In m (activeNames db0 sectionId)) ->
    exists tx' added',
      forEach (Rev2.addStep sectionId) toAdd (tx, added) = Ok (tx', added')
      /\ adding sectionId db0 x (rev toAdd ++ seen) tx'.
Proof.
  induction toAdd as [|m rest IH]; intros seen tx added Hadd Hnd Hnew.
  - exists tx, added. split; [reflexivity | exact Hadd].
  - apply NoDup_cons_iff in Hnd. destruct Hnd as (Hnot & Hnd').
    destruct (Hnew m (or_introl eq_refl)) as (Hm & Hma).
    destruct (@addStep_adding seen tx added m Hadd Hm Hma)
      as (tx1 & added1 & Hstep & Hadd1).
    destruct (IH (m :: seen) tx1 added1 Hadd1 Hnd') as (tx' & added' & Hrun & Hfin).
    { intros k Hk. destruct (Hnew k (or_intror Hk)) as (Hks & Hka).
      split; [|assumption]. intros [<-|H]; contradiction. }
    exists tx', added'. cbn [forEach]. rewrite Hstep. cbn [bind].
    split; [exact Hrun|]. cbn [rev]. rewrite <- app_assoc. exact Hfin.
Qed.

Lemma removeLoop_removing toDeactivate :
  NoDup (map ss_id (sectionSubjects db0)) ->
  (forall s, In s toDeactivate ->
             In s (sectionSubjects db0) /\ ss_isActive s = true) ->
  forall tx,
    removing db0 x tx ->
    exists tx',
      forEach Rev2.deactivateStep toDeactivate tx = Ok tx' /\ removing db0 x tx'.
Proof.
  intros Hids0. induction toDeactivate as [|s rest IH]; intros Hall tx Hrem.
  - exists tx. split; [reflexivity | exact Hrem].
  - destruct (Hall s (or_introl eq_refl)) as (Hs & Hson).
    destruct Hrem as (Hk & Hx' & Hids).
    destruct (Hids s Hs) as (s' & Hs' & E).
    cbn [forEach]. unfold Rev2.deactivateStep at 1. rewrite <- E.
    rewrite (updateSectionSubjectRow_present _ false _ Hs'). cbn [bind].
    apply IH; [intros k Hk'; apply Hall; right; assumption|].
    unfold removing. cbn [sectionSubjects with_sectionSubjects].
    split; [|split].
    + rewrite (map_key_update skey) by (intros; apply turn_skey).
      assumption.
    + apply in_map_iff. exists (set_ss_isActive true x).
      split; [|assumption]. apply turn_other. cbn. rewrite E.
      intros Eid.
      assert (x = s)
        by (eapply (NoDup_map_inj ss_id);
            [exact Hids0 | exact Hx_in | exact Hs | exact Eid]).
      subst s. congruence.
    + intros r Hr. destruct (Hids r Hr) as (r' & Hr' & Er).
      exists (turn false (ss_id s') r').
      split; [apply in_map; assumption|]. rewrite turn_id. assumption.
Qed.

(** The list names the switched-off subject [x] and repeats none of
    the names it adds: [x] is switched on again under its id. *)
Lemma reconcile_reactivates names :
  subjectsWf db0 ->
  hasSection db0 sectionId = true ->
  In (ss_name x) names ->
  NoDup (namesToAdd db0 sectionId names) ->
  let r := Rev2.updateSectionSubjects db0 sectionId (Some names) in
  status (fst r) = 200
  /\ In (set_ss_isActive true x) (sectionSubjects (snd r))
  /\ (forall y, In y (sectionSubjects (snd r)) ->
                ss_sectionId y = sectionId -> ss_name y = ss_name x ->
                y = set_ss_isActive true x)
  /\ NoDup (map skey (sectionSubjects (snd r))).
Proof.
  intros Hwf Hsec Hname Hnd r. subst r.
  unfold Rev2.updateSectionSubjects.
  destruct (findFirst _ (sections db0)) as [section|] eqn:Es.
  2:{ apply findFirst_none_existsb in Es. unfold hasSection in Hsec.
      congruence. }
  unfold transaction, Rev2.updateSectionSubjectsTx.
  fold (activeNames db0 sectionId). fold (namesToAdd db0 sectionId names).
  pose proof Hwf as (Hk0 & Hi0 & _).
  assert (Hxa : ~ In (ss_name x) (activeNames db0 sectionId)).
  { intros H. unfold activeNames in H. apply in_map_iff in H.
    destruct H as (y & Hy & Hin). apply filter_In in Hin.
    destruct Hin as (Hin & Hp). apply andb_true_iff in Hp.
    destruct Hp as (Hys & Hya). apply Nat.eqb_eq in Hys.
    assert (y = x).
    { eapply (NoDup_map_inj skey); eauto. unfold skey.
      rewrite Hys, Hy, Hx_sec. reflexivity. }
    subst y. congruence. }
  assert (Hstart : adding sectionId db0 x [] db0).
  { unfold adding. split; [assumption|]. split; [assumption|].
    split; [|split; [|split]].
    - intros y Hy Hys Hya. left. unfold activeNames. apply in_map.
      apply filter_In. split; [assumption|].
      rewrite Hys, Hya, Nat.eqb_refl. reflexivity.
    - auto.
    - intros [].
    - intros y Hy. exists y. auto. }
  destruct (@addLoop_adding (namesToAdd db0 sectionId names) [] db0 []
              Hstart Hnd) as (tx1 & added & Hrun & Hadd).
  { intros m Hm. split; [intros []|].
    unfold namesToAdd in Hm. apply filter_In in Hm. destruct Hm as (_ & Hm).
    intros Hin. unfold includes in Hm.
    assert (existsb (String.eqb m) (activeNames db0 sectionId) = true) as E.
    { apply existsb_exists. exists m. split; [assumption|].
      apply String.eqb_refl. }
    rewrite E in Hm. discriminate. }
  rewrite Hrun. cbn [bind].
  destruct Hadd as (Hwf1 & _ & _ & _ & Hx1 & Hids1).
  assert (Hrem : removing db0 x tx1).
  { unfold removing. split; [apply Hwf1|]. split; [|assumption].
    apply Hx1. rewrite app_nil_r. apply in_rev. rewrite rev_involutive.
    unfold namesToAdd. apply filter_In. split; [assumption|].
    unfold includes.
    destruct (existsb (String.eqb (ss_name x)) (activeNames db0 sectionId))
      eqn:E; [|reflexivity].
    apply existsb_exists in E. destruct E as (k & Hk & E).
    apply String.eqb_eq in E. subst k. contradiction. }
  match goal with |- context [forEach Rev2.deactivateStep ?l tx1] =>
    destruct (@removeLoop_removing l Hi0) with (tx := tx1)
      as (tx2 & Hrun2 & (Hk2 & Hx2 & _)) end.
  { intros s Hs. apply filter_In in Hs. destruct Hs as (Hs & _).
    apply filter_In in Hs. destruct Hs as (Hs & Hp).
    apply andb_true_iff in Hp. tauto. }
  { exact Hrem. }
  rewrite Hrun2. cbn [bind snd fst status].
  split; [reflexivity|]. split; [assumption|]. split; [|assumption].
  intros y Hy Hys Hyn. eapply (NoDup_map_inj skey); eauto.
  unfold skey. cbn. rewrite Hys, Hyn, Hx_sec. reflexivity.
Qed.

End Reconcile.

(** C4, amended.  Let the table of section subjects obey its
    indexes, and let [x] be a switched-off subject of the section.
    When the list of [updateSectionSubjects] holds the name of [x]
    and repeats none of the names it adds, the answer is 200, the
    row [x] is in the table with its id, switched on, it is the only
    row of that name in the section, and no two rows of the table
    share a section and a name. *)
Theorem updateSectionSubjects_reactivates sectionId db0 x names :
  In x (sectionSubjects db0) ->
  ss_sectionId x = sectionId ->
  ss_isActive x = false ->
  subjectsWf db0 ->
  hasSection db0 sectionId = true ->
  In (ss_name x) names ->
  NoDup (namesToAdd db0 sectionId names) ->
  let r := Rev2.updateSectionSubjects db0 sectionId (Some names) in
  status (fst r) = 200
  /\ In (set_ss_isActive true x) (sectionSubjects (snd r))
  /\ (forall y, In y (sectionSubjects (snd r)) ->
                ss_sectionId y = sectionId -> ss_name y = ss_name x ->
                y = set_ss_isActive true x)
  /\ NoDup (map skey (sectionSubjects (snd r))).
Proof.
  intros Hin Hsec Hoff Hwf Hhas Hnamed Hnodup.
  exact (@reconcile_reactivates sectionId db0 x Hin Hsec Hoff names
           Hwf Hhas Hnamed Hnodup).
Qed.

(* ================================================================= *)
(** * What every handler keeps *)

Section WfTables.

Lemma Forall_below_S {A} (key : A -> Id) n (l : list A) :
  Forall (fun a => key a < n) l -> Forall (fun a => key a < S n) l.
Proof. apply Forall_impl. intros a H. lia. Qed.

Lemma Forall_belowOpt_S n (l : list User) :
  Forall (fun u => belowOpt n (user_tutorId u)) l ->
  Forall (fun u => belowOpt (S n) (user_tutorId u)) l.
Proof.
  apply Forall_impl. intros u. destruct (user_tutorId u); cbn; [lia | auto].
Qed.

Lemma NoDup_map_filter {A K} (key : A -> K) (p : A -> bool) (l : list A) :
  NoDup (map key l) -> NoDup (map key (filter p l)).
Proof.
  induction l as [|x l IH]; simpl; intros H; [constructor|].
  inversion H as [|? ? Hnot Hnd]; subst.
  destruct (p x); simpl; [|auto].
  constructor; [|auto]. intros Hin. apply Hnot.
  apply in_map_iff in Hin. destruct Hin as (y & Hy & Hin).
  apply filter_In in Hin. rewrite <- Hy. apply in_map. tauto.
Qed.

Lemma Forall_filter {A} (P : A -> Prop) (p : A -> bool) (l : list A) :
  Forall P l -> Forall P (filter p l).
Proof.
  rewrite !Forall_forall. intros H x Hx. apply filter_In in Hx.
  apply H. tauto.
Qed.

Lemma shrinks_refl {A} (l : list A) : shrinks l l.
Proof.
  exists (fun _ => true). induction l as [|x l IH]; simpl; congruence.
Qed.

Lemma shrinks_deleteMany {A} (p : A -> bool) (l : list A) :
  shrinks (deleteMany p l) l.
Proof. unfold deleteMany. eexists. reflexivity. Qed.

(** Deleting rows keeps [wf]. *)
Lemma wf_shrink db db' :
  nextId db' = nextId db ->
  shrinks (assignments db') (assignments db) ->
  shrinks (sectionSubjects db') (sectionSubjects db) ->
  shrinks (tutors db') (tutors db) ->
  shrinks (users db') (users db) ->
  wf db -> wf db'.
Proof.
  intros Hn (pa & Ha) (ps & Hs) (pt & Ht) (pu & Hu)
         (W1 & (W2 & W3 & W4) & W5 & W6 & W7).
  unfold wf, subjectsWf. rewrite Hn, Ha, Hs, Ht, Hu.
  repeat split; auto using NoDup_map_filter, Forall_filter.
Qed.

(** Writing the sections, grades or schools keeps [wf]. *)
Lemma wf_with_sections db l : wf db -> wf (with_sections db l).
Proof. intros H. exact H. Qed.

Lemma wf_with_grades db l : wf db -> wf (with_grades db l).
Proof. intros H. exact H. Qed.

Lemma wf_bump db : wf db -> wf (bump db).
Proof.
  intros (W1 & (W2 & W3 & W4) & W5 & W6 & W7). unfold wf, subjectsWf. cbn.
  repeat split; auto using Forall_below_S, Forall_belowOpt_S.
Qed.

Lemma wf_dropTutors p db : wf db -> wf (dropTutors p db).
Proof.
  apply wf_shrink; cbn;
    auto using shrinks_refl, shrinks_deleteMany.
Qed.

Lemma wf_dropSectionSubjects p db : wf db -> wf (dropSectionSubjects p db).
Proof.
  apply wf_shrink; cbn; auto using shrinks_refl, shrinks_deleteMany.
Qed.

Lemma wf_dropSections p db : wf db -> wf (dropSections p db).
Proof.
  intros H. unfold dropSections. apply wf_dropSectionSubjects.
  apply wf_with_sections. exact H.
Qed.

Lemma wf_dropGrades p db : wf db -> wf (dropGrades p db).
Proof.
  intros H. unfold dropGrades. apply wf_dropSections.
  apply wf_with_grades. exact H.
Qed.

Lemma wf_clearTutor t db : wf db -> wf (clearTutor t db).
Proof.
  apply wf_shrink; cbn; auto using shrinks_refl, shrinks_deleteMany.
Qed.

Lemma wf_turn_subject db b i :
  wf db ->
  wf (with_sectionSubjects db
        (map (fun r => if Nat.eqb (ss_id r) i then set_ss_isActive b r
                       else r) (sectionSubjects db))).
Proof.
  intros (W1 & W2 & W5 & W6 & W7). unfold wf. cbn.
  split; [assumption|]. split; [|auto].
  apply (subjectsWf_turn b i W2).
Qed.

Lemma wf_turn_assignment db b i :
  wf db ->
  wf (with_assignments db
        (map (fun r => if Nat.eqb (tsa_id r) i then set_tsa_isActive b r
                       else r) (assignments db))).
Proof.
  intros (W1 & W2 & W5 & W6 & W7). unfold wf. cbn.
  split; [|split; [assumption|split; [|auto]]].
  - rewrite (map_key_update link); [assumption|].
    intros r. destruct (Nat.eqb (tsa_id r) i); reflexivity.
  - rewrite Forall_forall in *. intros y Hy. apply in_map_iff in Hy.
    destruct Hy as (r & <- & Hr). specialize (W5 r Hr).
    destruct (Nat.eqb (tsa_id r) i); cbn; assumption.
Qed.

Lemma wf_new_subject db name sid :
  existsb (fun r => Nat.eqb (ss_sectionId r) sid
                    && String.eqb (ss_name r) name)
          (sectionSubjects db) = false ->
  wf db ->
  wf (bump (with_sectionSubjects db
              (sectionSubjects db
               ++ [mkSectionSubject (nextId db) name sid true]))).
Proof.
  intros Hex (W1 & W2 & W5 & W6 & W7). unfold wf.
  split; [exact W1|]. split; [apply subjectsWf_new; assumption|].
  cbn. auto using Forall_below_S, Forall_belowOpt_S.
Qed.

Lemma wf_new_assignment db t ssid b :
  existsb (sameLink t ssid) (assignments db) = false ->
  wf db ->
  wf (bump (with_assignments db
              (assignments db ++ [mkAssignment (nextId db) t ssid b]))).
Proof.
  intros Hex (W1 & (W2 & W3 & W4) & W5 & W6 & W7). unfold wf, subjectsWf.
  cbn. split; [|split; [|split]];
    auto using Forall_below_S, Forall_belowOpt_S.
  - rewrite map_app. cbn.
    apply NoDup_app; [assumption | repeat constructor; intros [] |].
    intros k Hin [<-|[]]. apply in_map_iff in Hin.
    destruct Hin as (r & Hr & Hin).
    rewrite existsb_false_In in Hex. specialize (Hex r Hin).
    unfold link in Hr. inversion Hr as [[E1 E2]]. unfold sameLink in Hex.
    rewrite E1, E2, !Nat.eqb_refl in Hex. discriminate.
  - apply Forall_app. split; [apply Forall_below_S; assumption|].
    repeat constructor.
Qed.

(** ** The inserts and updates as the handlers call them *)

Lemma createSchoolRow_wf db name code row db' :
  createSchoolRow db name code = Ok (row, db') -> wf db -> wf db'.
Proof.
  unfold createSchoolRow. destruct (existsb _ _); [discriminate|].
  intros H. inversion H. intros Hwf.
  apply (wf_bump (db := with_schools db _)). exact Hwf.
Qed.

Lemma createGradeRow_wf db name schoolId order active row db' :
  createGradeRow db name schoolId order active = Ok (row, db') ->
  wf db -> wf db'.
Proof.
  unfold createGradeRow. destruct (negb (fitsInt order)); [discriminate|].
  destruct (existsb _ _); [discriminate|].
  destruct (negb _); [discriminate|].
  intros H. inversion H. intros Hwf.
  apply (wf_bump (db := with_grades db _)). exact Hwf.
Qed.

Lemma createSectionRow_wf db name gradeId active row db' :
  createSectionRow db name gradeId active = Ok (row, db') ->
  wf db -> wf db'.
Proof.
  unfold createSectionRow. destruct (existsb _ _); [discriminate|].
  destruct (negb _); [discriminate|].
  intros H. inversion H. intros Hwf.
  apply (wf_bump (db := with_sections db _)). exact Hwf.
Qed.

Lemma createTutorRow_wf db name email phone schoolId active row db' :
  createTutorRow db name email phone schoolId active = Ok (row, db') ->
  wf db -> wf db' /\ tutor_id row = nextId db.
Proof.
  unfold createTutorRow. destruct (existsb _ _); [discriminate|].
  destruct (negb _); [discriminate|].
  intros H. inversion H. intros (W1 & (W2 & W3 & W4) & W5 & W6 & W7).
  split; [|reflexivity]. unfold wf, subjectsWf. cbn.
  repeat split; auto using Forall_below_S, Forall_belowOpt_S.
  apply Forall_app. split; [apply Forall_below_S; assumption|].
  repeat constructor.
Qed.

Lemma createUserRow_wf db name email phone password role schoolId tutorId
    row db' :
  createUserRow db name email phone password role schoolId tutorId
  = Ok (row, db') ->
  wf db -> wf db'.
Proof.
  unfold createUserRow. destruct (existsb _ (users db)); [discriminate|].
  match goal with |- context [if ?c then Err P2002 else _] =>
    destruct c end; [discriminate|].
  destruct (optRef (hasSchool db) schoolId); cbn [andb negb];
    [|discriminate].
  destruct (optRef (hasTutor db) tutorId) eqn:Eref; cbn [negb];
    [|discriminate].
  intros H. inversion H. intros (W1 & (W2 & W3 & W4) & W5 & W6 & W7).
  unfold wf, subjectsWf. cbn.
  repeat split; auto using Forall_below_S, Forall_belowOpt_S.
  apply Forall_app. split; [apply Forall_belowOpt_S; assumption|].
  repeat constructor. cbn. destruct tutorId as [t|]; cbn; [|exact I].
  cbn in Eref. unfold hasTutor in Eref. apply existsb_exists in Eref.
  destruct Eref as (tu & Htu & E). apply Nat.eqb_eq in E.
  rewrite Forall_forall in W6. specialize (W6 tu Htu). lia.
Qed.

Lemma createSectionSubjectRow_wf db name sid row db' :
  createSectionSubjectRow db name sid true = Ok (row, db') ->
  wf db -> wf db'.
Proof.
  intros H Hwf. apply createSectionSubjectRow_ok in H.
  destruct H as (-> & -> & Hex & _). apply wf_new_subject; assumption.
Qed.

Lemma createAssignmentRow_wf db t ssid b row db' :
  createAssignmentRow db t ssid b = Ok (row, db') -> wf db -> wf db'.
Proof.
  intros H Hwf. apply createAssignmentRow_ok in H.
  destruct H as (-> & -> & Hex). apply wf_new_assignment; assumption.
Qed.

Lemma updateSectionSubjectRow_wf db i b db' :
  updateSectionSubjectRow db i (set_ss_isActive b) = Ok db' ->
  wf db -> wf db'.
Proof.
  unfold updateSectionSubjectRow.
  destruct (updateWhere _ _ _ _) as [l|e] eqn:E; cbn [bind]; [|discriminate].
  apply updateWhere_ok in E. destruct E as (-> & _).
  intros H. inversion H. apply wf_turn_subject.
Qed.

Lemma updateAssignmentRow_wf db i b db' :
  updateAssignmentRow db i (set_tsa_isActive b) = Ok db' ->
  wf db -> wf db'.
Proof.
  intros H. apply updateAssignmentRow_ok in H. subst db'.
  apply wf_turn_assignment.
Qed.

Lemma updateSectionRow_wf db i f db' :
  updateSectionRow db i f = Ok db' -> wf db -> wf db'.
Proof.
  intros H. apply updateSectionRow_ok in H. subst db'. auto.
Qed.

End WfTables.

Section WfHandlers.

Lemma createSubjects_wf sectionId names st st' :
  createSubjects sectionId names st = Ok st' ->
  wf (fst st) -> wf (fst st').
Proof.
  unfold createSubjects.
  apply (forEach_invariant
           (fun subjectName '(tx, acc) =>
              bind (createSectionSubjectRow tx subjectName sectionId true)
                   (fun '(row, tx') => Ok (tx', acc ++ [row])))
           (fun st => wf (fst st))).
  intros x [tx acc] [tx' acc'].
  destruct (createSectionSubjectRow tx x sectionId true) as [[row tx1]|e]
    eqn:E; cbn [bind]; [|discriminate].
  intros H. inversion H. subst. cbn. eapply createSectionSubjectRow_wf; eauto.
Qed.

Lemma createSections_wf gradeId sections st st' :
  createSections gradeId sections st = Ok st' ->
  wf (fst st) -> wf (fst st').
Proof.
  unfold createSections.
  apply (forEach_invariant
           (fun sectionData '(tx, acc) =>
              bind (createSectionRow tx (sd_name sectionData) gradeId true)
                   (fun '(section, tx1) =>
              bind (match sd_subjects sectionData with
                    | Some names =>
                        createSubjects (section_id section) names (tx1, [])
                    | None => Ok (tx1, [])
                    end)
                   (fun '(tx2, subjects) =>
                      Ok (tx2, acc ++ [(section, subjects)]))))
           (fun st => wf (fst st))).
  intros x [tx acc] [tx' acc'].
  destruct (createSectionRow tx (sd_name x) gradeId true)
    as [[section tx1]|e] eqn:E; cbn [bind]; [|discriminate].
  intros H Hwf. cbn [fst] in *.
  eapply createSectionRow_wf in Hwf; [|exact E].
  destruct (sd_subjects x) as [names|].
  - destruct (createSubjects (section_id section) names (tx1, []))
      as [[tx2 subjects]|e] eqn:E2; cbn [bind] in H; [|discriminate].
    inversion H. subst. apply createSubjects_wf in E2; assumption.
  - cbn [bind] in H. inversion H. subst. assumption.
Qed.

Lemma createGradeTx_wf schoolId name order sections tx created tx' :
  createGradeTx schoolId name order sections tx = Ok (created, tx') ->
  wf tx -> wf tx'.
Proof.
  unfold createGradeTx.
  destruct (createGradeRow tx name schoolId order true) as [[grade tx1]|e]
    eqn:E; cbn [bind]; [|discriminate].
  destruct (createSections (grade_id grade) sections (tx1, []))
    as [[tx2 secs]|e] eqn:E2; cbn [bind]; [|discriminate].
  intros H Hwf. inversion H. subst.
  eapply createGradeRow_wf in Hwf; [|exact E].
  apply createSections_wf in E2; assumption.
Qed.

Lemma transaction_wf {A} (body : DB -> result (A * DB)) db :
  (forall a db', body db = Ok (a, db') -> wf db') ->
  wf db -> wf (snd (transaction body db)).
Proof.
  intros H Hwf. unfold transaction.
  destruct (body db) as [[a db']|e] eqn:E; cbn; eauto.
Qed.

Lemma snd_match_result {A B} (r : result A * DB)
    (f : A -> DB -> Response B * DB) (g : PrismaError -> DB -> Response B * DB) :
  (forall a d, snd (f a d) = d) -> (forall e d, snd (g e d) = d) ->
  snd (match r with
       | (Ok a, d) => f a d
       | (Err e, d) => g e d
       end) = snd r.
Proof. intros Hf Hg. destruct r as [[a|e] d]; cbn; auto. Qed.

Lemma createSchool_wf db req temp hash :
  wf db -> wf (snd (SuperadminController.createSchool db req temp hash)).
Proof.
  intros Hwf. unfold SuperadminController.createSchool.
  destruct (required (SuperadminController.cs_name req)) as [name|];
    [|exact Hwf].
  destruct (required (SuperadminController.cs_code req)) as [code|];
    [|exact Hwf].
  destruct (required _); [|exact Hwf].
  destruct (required _); [|exact Hwf].
  destruct (required _); [|exact Hwf].
  destruct (findFirst _ (schools db)); [exact Hwf|].
  destruct (findFirst _ (users db)); [exact Hwf|].
  unfold transaction.
  destruct (createSchoolRow db name code) as [[school tx1]|e] eqn:E1;
    cbn [bind]; [|exact Hwf].
  destruct (createUserRow tx1 _ _ _ _ _ _ _) as [[admin tx2]|e] eqn:E2;
    cbn [bind snd]; [|exact Hwf].
  eapply createUserRow_wf; [exact E2|].
  eapply createSchoolRow_wf; eauto.
Qed.

Lemma createTutor_wf db req temp hash :
  wf db -> wf (snd (TutorController.createTutor db req temp hash)).
Proof.
  intros Hwf.
  destruct (createTutor_atomic db req temp hash) as [->|_]; [exact Hwf|].
  unfold TutorController.createTutor.
  destruct (required _); [|exact Hwf].
  destruct (required _); [|exact Hwf].
  destruct (required _); [|exact Hwf].
  destruct (findFirst _ (schools db)); [|exact Hwf].
  destruct (findFirst _ (tutors db)); [exact Hwf|].
  destruct (findFirst _ (users db)); [exact Hwf|].
  unfold transaction, TutorController.createTutorTx.
  destruct (createTutorRow db _ _ _ _ _) as [[tutor tx1]|e] eqn:E1;
    cbn [bind]; [|exact Hwf].
  destruct (createUserRow tx1 _ _ _ _ _ _ _) as [[user tx2]|e] eqn:E2;
    cbn [bind snd]; [|exact Hwf].
  eapply createUserRow_wf; [exact E2|].
  eapply createTutorRow_wf; eauto.
Qed.

Lemma deleteTutor_wf db tutorId force :
  wf db -> wf (snd (TutorController.deleteTutor db tutorId force)).
Proof.
  intros Hwf. unfold TutorController.deleteTutor.
  destruct (findFirst _ (tutors db)); [|exact Hwf].
  destruct (_ && _); [exact Hwf|].
  unfold deleteTutorRow. destruct (hasTutor db tutorId); [|exact Hwf].
  cbn [snd]. apply wf_dropTutors. exact Hwf.
Qed.

Lemma Rev1_createGrade_wf db req :
  wf db -> wf (snd (Rev1.createGrade db req)).
Proof.
  intros Hwf. unfold Rev1.createGrade.
  destruct (required _); [|exact Hwf].
  destruct (cg_sections req) as [[|sd more]|]; try exact Hwf.
  destruct (findFirst _ (schools db)); [|exact Hwf].
  destruct (findFirst _ (grades db)); [exact Hwf|].
  unfold transaction.
  destruct (createGradeTx _ _ _ _ db) as [[created tx']|e] eqn:E;
    cbn [snd]; [|exact Hwf].
  eapply createGradeTx_wf; eauto.
Qed.

Lemma Rev2_createGrade_wf db req :
  wf db -> wf (snd (Rev2.createGrade db req)).
Proof.
  intros Hwf. unfold Rev2.createGrade.
  destruct (required _); [|exact Hwf].
  destruct (cg_sections req) as [[|sd more]|]; try exact Hwf.
  destruct (findFirst _ (grades db)); [exact Hwf|].
  unfold transaction.
  destruct (createGradeTx _ _ _ _ db) as [[created tx']|e] eqn:E;
    cbn [snd]; [|exact Hwf].
  eapply createGradeTx_wf; eauto.
Qed.

Lemma addStep_wf sectionId m st st' :
  Rev2.addStep sectionId m st = Ok st' -> wf (fst st) -> wf (fst st').
Proof.
  destruct st as [tx added]. unfold Rev2.addStep.
  destruct (findFirst _ (sectionSubjects tx)) as [r0|].
  - destruct (updateSectionSubjectRow tx (ss_id r0) (set_ss_isActive true))
      as [tx'|e] eqn:E; cbn [bind]; [|discriminate].
    intros H Hwf. inversion H. subst. cbn.
    eapply updateSectionSubjectRow_wf; eauto.
  - destruct (createSectionSubjectRow tx m sectionId true)
      as [[row tx']|e] eqn:E; cbn [bind]; [|discriminate].
    intros H Hwf. inversion H. subst. cbn.
    eapply createSectionSubjectRow_wf; eauto.
Qed.

Lemma updateSectionSubjects_wf db sectionId subjects :
  wf db -> wf (snd (Rev2.updateSectionSubjects db sectionId subjects)).
Proof.
  intros Hwf. unfold Rev2.updateSectionSubjects.
  destruct subjects as [names|]; [|exact Hwf].
  destruct (findFirst _ (sections db)); [|exact Hwf].
  unfold transaction, Rev2.updateSectionSubjectsTx.
  match goal with |- context [forEach (Rev2.addStep sectionId) ?l ?s] =>
    destruct (forEach (Rev2.addStep sectionId) l s) as [[tx1 added]|e]
      eqn:E1 end; cbn [bind]; [|exact Hwf].
  apply (forEach_invariant (Rev2.addStep sectionId)
           (fun st => wf (fst st))) in E1;
    [|intros x a b; apply addStep_wf | exact Hwf].
  match goal with |- context [forEach Rev2.deactivateStep ?l tx1] =>
    destruct (forEach Rev2.deactivateStep l tx1) as [tx2|e] eqn:E2 end;
    cbn [bind snd]; [|exact Hwf].
  apply (forEach_invariant Rev2.deactivateStep wf) in E2; [exact E2| |exact E1].
  intros x a b. unfold Rev2.deactivateStep.
  apply updateSectionSubjectRow_wf.
Qed.

Lemma addSubjectToSection_wf db sectionId name :
  wf db -> wf (snd (Rev2.addSubjectToSection db sectionId name)).
Proof.
  intros Hwf. unfold Rev2.addSubjectToSection.
  destruct (required name) as [n|]; [|exact Hwf].
  destruct (findFirst _ (sections db)); [|exact Hwf].
  destruct (findFirst _ (sectionSubjects db)) as [existing|].
  - destruct (ss_isActive existing); [exact Hwf|].
    destruct (updateSectionSubjectRow _ _ _) as [db'|e] eqn:E;
      [|exact Hwf].
    cbn [snd]. eapply updateSectionSubjectRow_wf; eauto.
  - destruct (createSectionSubjectRow _ _ _ _) as [[row db']|e] eqn:E;
      [|exact Hwf].
    cbn [snd]. eapply createSectionSubjectRow_wf; eauto.
Qed.

Lemma deletes_wf db i :
  wf db ->
  wf (snd (Rev2.deleteSubjectFromSection db i))
  /\ wf (snd (Rev2.deleteSection db i))
  /\ wf (snd (Rev2.deleteGrade db i))
  /\ wf (snd (Rev2.removeAssignment db i))
  /\ wf (snd (Rev2.deleteAllTutorAssignments db i))
  /\ wf (snd (Rev2.removeClassTutor db i)).
Proof.
  intros Hwf.
  split; [|split; [|split; [|split; [|split]]]].
  - unfold Rev2.deleteSubjectFromSection.
    destruct (findFirst _ _); [|exact Hwf].
    unfold deleteSectionSubjectRow.
    destruct (hasSectionSubject db i); [|exact Hwf].
    apply wf_dropSectionSubjects. exact Hwf.
  - unfold Rev2.deleteSection. destruct (findFirst _ _); [|exact Hwf].
    unfold deleteSectionRow. destruct (hasSection db i); [|exact Hwf].
    apply wf_dropSections. exact Hwf.
  - unfold Rev2.deleteGrade. destruct (findFirst _ _); [|exact Hwf].
    unfold deleteGradeRow. destruct (hasGrade db i); [|exact Hwf].
    apply wf_dropGrades. exact Hwf.
  - unfold Rev2.removeAssignment. destruct (findFirst _ _); [|exact Hwf].
    unfold deleteAssignmentRow. destruct (existsb _ _); [|exact Hwf].
    cbn [snd]. revert Hwf.
    apply wf_shrink; cbn; auto using shrinks_refl, shrinks_deleteMany.
  - unfold Rev2.deleteAllTutorAssignments.
    destruct (findFirst _ _); [|exact Hwf].
    cbn. apply wf_clearTutor. exact Hwf.
  - unfold Rev2.removeClassTutor. destruct (findFirst _ _); [|exact Hwf].
    destruct (updateSectionRow _ _ _) as [db'|e] eqn:E; [|exact Hwf].
    cbn [snd]. eapply updateSectionRow_wf; eauto.
Qed.

Lemma assignClassTutor_wf db sectionId tutorId :
  wf db -> wf (snd (Rev2.assignClassTutor db sectionId tutorId)).
Proof.
  intros Hwf. unfold Rev2.assignClassTutor.
  destruct tutorId as [t|]; [|exact Hwf].
  destruct (findFirst _ (sections db)); [|exact Hwf].
  destruct (findFirst _ (tutors db)); [|exact Hwf].
  destruct (updateSectionRow _ _ _) as [db'|e] eqn:E; [|exact Hwf].
  cbn [snd]. eapply updateSectionRow_wf; eauto.
Qed.

Lemma assignSubjectToTutor_wf db schoolId tutorId ssid :
  wf db -> wf (snd (Rev2.assignSubjectToTutor db schoolId tutorId ssid)).
Proof.
  intros Hwf. unfold Rev2.assignSubjectToTutor.
  destruct tutorId as [t|]; [|exact Hwf].
  destruct ssid as [s|]; [|exact Hwf].
  destruct (findFirst _ (tutors db)); [|exact Hwf].
  destruct (findFirst _ (sectionSubjects db)); [|exact Hwf].
  destruct (findFirst _ (assignments db)) as [existing|].
  - destruct (tsa_isActive existing); [exact Hwf|].
    destruct (updateAssignmentRow _ _ _) as [db'|e] eqn:E.
    + cbn [snd]. eapply updateAssignmentRow_wf; eauto.
    + destruct e; exact Hwf.
  - destruct (createAssignmentRow _ _ _ _) as [[row db']|e] eqn:E.
    + cbn [snd]. eapply createAssignmentRow_wf; eauto.
    + destruct e; exact Hwf.
Qed.

Lemma Rev2_smartAssignTutor_wf db req :
  wf db -> wf (snd (Rev2.smartAssignTutor db req)).
Proof.
  intros Hwf. destruct (sa_tutorId req) as [t|] eqn:Eid.
  - apply smartAssignTutor_preserves with (tutorId := t); auto.
    + intros d name sid Hex _. apply wf_new_subject. exact Hex.
    + intros d i. apply wf_turn_assignment.
    + intros d ssid. apply wf_new_assignment.
  - unfold Rev2.smartAssignTutor. rewrite Eid. exact Hwf.
Qed.

Lemma Rev1_subjectStep_wf t sid g s x st st' :
  Rev1.subjectStep t sid g s x st = Ok st' ->
  wf (acc_db st) -> wf (acc_db st').
Proof.
  unfold Rev1.subjectStep. intros H Hwf.
  assert (Hlink : forall ss tx,
    wf tx ->
    match findFirst (sameLink t (ss_id ss)) (assignments tx) with
    | Some _ => Ok (withDb st tx)
    | None =>
        bind (createAssignmentRow tx t (ss_id ss) true)
             (fun '(assignment, tx') =>
                Ok (pushCreated st tx'
                      (mkCreatedItem (tsa_id assignment) g s x false)))
    end = Ok st' -> wf (acc_db st')).
  { intros ss tx Htx. destruct (findFirst _ (assignments tx)).
    - intros E. inversion E. exact Htx.
    - destruct (createAssignmentRow _ _ _ _) as [[row tx']|e] eqn:Ec;
        cbn [bind]; [|discriminate].
      intros E. inversion E. cbn. eapply createAssignmentRow_wf; eauto. }
  destruct (findFirst _ (sectionSubjects (acc_db st))) as [ss|].
  - cbn [bind] in H. eapply Hlink; eauto.
  - destruct (createSectionSubjectRow _ _ _ _) as [[ss tx]|e] eqn:Ecs;
      cbn [bind] in H; [|discriminate].
    eapply Hlink; [|exact H]. eapply createSectionSubjectRow_wf; eauto.
Qed.

Lemma Rev1_smartAssignTutor_wf db req :
  wf db -> wf (snd (Rev1.smartAssignTutor db req)).
Proof.
  intros Hwf. unfold Rev1.smartAssignTutor.
  destruct (sa_tutorId req) as [t|]; [|exact Hwf].
  destruct (findFirst _ (tutors db)); [|exact Hwf].
  unfold transaction, Rev1.smartAssignTx.
  destruct (forEach _ (sa_assignments req) _) as [st1|e] eqn:Ek;
    cbn [bind]; [|exact Hwf].
  apply (forEach_invariant (Rev1.keyStep (sa_schoolId req) t)
           (fun st => wf (acc_db st))) in Ek; [| |exact Hwf].
  2:{ intros [key names] a b. unfold Rev1.keyStep.
      destruct (matchKey key) as [[g s]|];
        [|intros H; inversion H; auto].
      destruct (findFirst _ (grades (acc_db a)));
        [|intros H; inversion H; auto].
      destruct (findFirst _ (sections (acc_db a))) as [section|];
        [|intros H; inversion H; auto].
      apply (forEach_invariant
               (Rev1.subjectStep t (section_id section) g s)
               (fun st => wf (acc_db st))).
      intros x y z. apply Rev1_subjectStep_wf. }
  destruct (Rev1.classTutorStep _ _ _ _ st1) as [[st2 cta]|e] eqn:Ec;
    cbn [bind snd]; [|exact Hwf].
  revert Ec. unfold Rev1.classTutorStep.
  destruct (required (sa_classGrade req));
    [|intros H; inversion H; subst; exact Ek].
  destruct (required (sa_classSection req));
    [|intros H; inversion H; subst; exact Ek].
  destruct (findFirst _ (grades (acc_db st1)));
    [|intros H; inversion H; subst; exact Ek].
  destruct (findFirst _ (sections (acc_db st1)));
    [|intros H; inversion H; subst; exact Ek].
  destruct (updateSectionRow _ _ _) as [tx'|e] eqn:Eu; cbn [bind];
    [|discriminate].
  intros H. inversion H. subst. cbn. eapply updateSectionRow_wf; eauto.
Qed.

Lemma updateTutorAssignments_wf db req :
  wf db ->
  wf (snd (Rev1.updateTutorAssignments db req))
  /\ wf (snd (Rev2.updateTutorAssignments db req)).
Proof.
  intros Hwf. unfold Rev1.updateTutorAssignments,
    Rev2.updateTutorAssignments.
  destruct (sa_tutorId req) as [t|]; [|auto].
  destruct (findFirst _ (tutors db)); [|auto].
  cbn [transaction]. split.
  - apply Rev1_smartAssignTutor_wf. apply wf_clearTutor. exact Hwf.
  - apply Rev2_smartAssignTutor_wf. apply wf_clearTutor. exact Hwf.
Qed.

(** Every request keeps [wf]. *)
Lemma handle_wf db rq : wf db -> wf (handle db rq).
Proof.
  intros Hwf. destruct rq; cbn [handle].
  - apply createSchool_wf; assumption.
  - apply createTutor_wf; assumption.
  - apply deleteTutor_wf; assumption.
  - apply Rev1_createGrade_wf; assumption.
  - apply Rev2_createGrade_wf; assumption.
  - apply updateSectionSubjects_wf; assumption.
  - apply addSubjectToSection_wf; assumption.
  - apply (deletes_wf subjectId Hwf).
  - apply (deletes_wf sectionId Hwf).
  - apply (deletes_wf gradeId Hwf).
  - apply Rev1_smartAssignTutor_wf; assumption.
  - apply Rev2_smartAssignTutor_wf; assumption.
  - apply (updateTutorAssignments_wf req Hwf).
  - apply (updateTutorAssignments_wf req Hwf).
  - apply (deletes_wf tutorId Hwf).
  - apply assignClassTutor_wf; assumption.
  - apply (deletes_wf sectionId Hwf).
  - apply assignSubjectToTutor_wf; assumption.
  - apply (deletes_wf assignmentId Hwf).
Qed.

Lemma seeded_wf : wf Scenario.seeded.
Proof.
  unfold wf, subjectsWf. cbn.
  repeat split; repeat constructor; cbn; auto.
Qed.

Lemma reachable_wf db : reachable db -> wf db.
Proof.
  induction 1 as [|db rq _ IH]; [apply seeded_wf | apply handle_wf, IH].
Qed.

End WfHandlers.

(** C10.  In every store the handlers can build from the seeded one,
    the assignment rows have pairwise different (tutorId,
    sectionSubjectId): two rows of the table that link the same tutor
    to the same section subject are one row.  And an insert that
    follows a lookup for the pair that found no row, active or not,
    never breaks the unique index. *)
Theorem reachable_unique_assignments db :
  reachable db ->
  NoDup (map link (assignments db))
  /\ (forall a b, In a (assignments db) -> In b (assignments db) ->
                  tsa_tutorId a = tsa_tutorId b ->
                  tsa_sectionSubjectId a = tsa_sectionSubjectId b -> a = b)
  /\ (forall tutorId sectionSubjectId active,
        findFirst (sameLink tutorId sectionSubjectId) (assignments db) = None ->
        createAssignmentRow db tutorId sectionSubjectId active <> Err P2002).
Proof.
  intros Hreach. apply reachable_wf in Hreach. destruct Hreach as (Hnd & _).
  split; [exact Hnd|]. split.
  - intros a b Ha Hb Et Es. eapply (NoDup_map_inj link); eauto.
    unfold link. rewrite Et, Es. reflexivity.
  - intros t s active Hnone. apply findFirst_none_existsb in Hnone.
    unfold createAssignmentRow. rewrite Hnone.
    destruct (negb _); discriminate.
Qed.

(** The store in which Jane teaches English is reachable. *)
Lemma reachable_unique_assignments_witness :
  NoDup (map link (assignments Scenario.janeAssigned)).
Proof.
  apply (@reachable_unique_assignments Scenario.janeAssigned).
  change Scenario.janeAssigned
    with (handle Scenario.withJane (SmartAssign2 Scenario.englishReq)).
  apply reach_handle.
  change Scenario.withJane
    with (handle Scenario.withGrade
            (CreateTutor Scenario.janeReq "temp2" "hash2")).
  apply reach_handle.
  change Scenario.withGrade
    with (handle Scenario.lincoln (CreateGrade2 Scenario.gradeOneReq)).
  apply reach_handle.
  change Scenario.lincoln
    with (handle Scenario.seeded
            (CreateSchool
               (SuperadminController.mkCreateSchoolReq
                  (Some "Lincoln") (Some "LIN01") (Some "Ann")
                  (Some "ann@lincoln.edu") (Some "555-0100"))
               "temp1" "hash1")).
  apply reach_handle. apply reach_seeded.
Defined.

(* ================================================================= *)
(** * The statements at concrete stores *)

(** What the theorems above ask of a store holds of every reachable
    one. *)
Lemma reachable_hypotheses db :
  reachable db ->
  subjectsWf db
  /\ Forall (fun a => tsa_id a < nextId db) (assignments db)
  /\ Forall (fun u => user_tutorId u <> Some (nextId db)) (users db).
Proof.
  intros H. apply reachable_wf in H. destruct H as (_ & Hs & Ha & _ & Hu).
  split; [exact Hs|]. split; [exact Ha|].
  revert Hu. apply Forall_impl. intros u Hu E. rewrite E in Hu. cbn in Hu. lia.
Qed.

(** Jane's school, a map with the key [Grade 1], which has no section
    letter, after the key [Grade 1-A]. *)
Lemma smartAssignTutor_malformed_key_witness :
  let r := Rev2.smartAssignTutor Scenario.withJane Scenario.mixedReq in
  let r' := Rev2.smartAssignTutor Scenario.withJane Scenario.englishReq in
  status (fst r) = 201
  /\ status (fst r) = status (fst r')
  /\ snd r = snd r'
  /\ createdOf (fst r) = createdOf (fst r')
  /\ errorsOf (fst r) = [invalidKeyMessage "Grade 1"].
Proof.
  cbv zeta.
  destruct (@smartAssignTutor_malformed_key Scenario.withJane
              Scenario.mixedReq [("Grade 1-A", ["English"])] "Grade 1"
              ["Maths"] [] eq_refl eq_refl)
    as (_ & Hst & Hdb & Hcr & _).
  split; [reflexivity|]. split; [exact Hst|]. split; [exact Hdb|].
  split; [exact Hcr | reflexivity].
Defined.

(** English, switched off in section A, is switched on again under
    its id 5 by a list that names it. *)
Lemma updateSectionSubjects_reactivates_witness :
  let r := Rev2.updateSectionSubjects Scenario.englishOff 4
             (Some ["English"; "Maths"]) in
  status (fst r) = 200
  /\ In (mkSectionSubject 5 "English" 4 true) (sectionSubjects (snd r))
  /\ (forall y, In y (sectionSubjects (snd r)) ->
                ss_sectionId y = 4 -> ss_name y = "English" ->
                y = mkSectionSubject 5 "English" 4 true)
  /\ NoDup (map skey (sectionSubjects (snd r))).
Proof.
  apply (@updateSectionSubjects_reactivates 4 Scenario.englishOff
           (mkSectionSubject 5 "English" 4 false)).
  - left. reflexivity.
  - reflexivity.
  - reflexivity.
  - unfold subjectsWf. vm_compute.
    split; [|split].
    + constructor; [intros [H|[]]; discriminate|].
      constructor; [intros []|constructor].
    + constructor; [intros [H|[]]; discriminate|].
      constructor; [intros []|constructor].
    + repeat constructor.
  - reflexivity.
  - left. reflexivity.
  - vm_compute. constructor; [intros []|constructor].
Defined.

(** C4 as stated fails.  English is switched off in section A; a list
    that names it twice switches it on at the first occurrence and
    inserts a second English row at the second, which the unique index
    refuses: the transaction is rolled back, the answer is 500 and
    English stays off. *)
Lemma updateSectionSubjects_repeated_name_fails :
  let db := Scenario.englishOff in
  let r := Rev2.updateSectionSubjects db 4 (Some ["English"; "English"]) in
  In (mkSectionSubject 5 "English" 4 false) (sectionSubjects db)
  /\ In "English" ["English"; "English"]
  /\ status (fst r) = 500
  /\ snd r = db
  /\ ~ In (mkSectionSubject 5 "English" 4 true) (sectionSubjects (snd r)).
Proof.
  cbv zeta. split; [left; reflexivity|]. split; [left; reflexivity|].
  split; [reflexivity|]. split; [reflexivity|].
  vm_compute. intros [H|[H|[]]]; discriminate.
Qed.

(** The subject block of Rev1's [updateGrade] never switches a row on
    again: with English off, a list that names English leaves the
    store as it is. *)
Lemma Rev1_updateGradeSubjects_no_reactivation :
  Rev1.updateGradeSubjects 4 ["English"; "Maths"] Scenario.englishOff
  = Ok Scenario.englishOff.
Proof. reflexivity. Qed.

(** The end-to-end scenario of the specification: after the school,
    the grade with section A and subjects English and Maths, and the
    tutor Jane, a smart-assign of English links Jane to the English
    row of section A. *)
Lemma scenario_jane_teaches_english :
  assignments Scenario.janeAssigned = [mkAssignment 9 7 5 true]
  /\ findFirst (subjectNamed 4 "English" true)
               (sectionSubjects Scenario.janeAssigned)
     = Some (mkSectionSubject 5 "English" 4 true)
  /\ map tutor_name (tutors Scenario.janeAssigned) = ["Jane"].
Proof. repeat split; reflexivity. Qed.

(* ================================================================= *)
(** * The key pattern of [smartAssignTutor] *)

Lemma string_of_list_ascii_app (a b : list ascii) :
  string_of_list_ascii (a ++ b)
  = (string_of_list_ascii a ++ string_of_list_ascii b)%string.
Proof.
  induction a as [|x a IH]; [reflexivity|].
  cbn. rewrite IH. reflexivity.
Qed.

Lemma list_ascii_of_string_app (a b : string) :
  list_ascii_of_string (a ++ b)%string
  = list_ascii_of_string a ++ list_ascii_of_string b.
Proof.
  induction a as [|x a IH]; [reflexivity|].
  cbn. rewrite IH. reflexivity.
Qed.

Lemma forallb_rev {A} (p : A -> bool) (l : list A) :
  forallb p (rev l) = forallb p l.
Proof.
  destruct (forallb p l) eqn:E.
  - apply forallb_forall. intros x Hx. apply in_rev in Hx.
    rewrite forallb_forall in E. auto.
  - destruct (forallb p (rev l)) eqn:E'; [|reflexivity].
    rewrite <- E. symmetry. apply forallb_forall. intros x Hx.
    rewrite forallb_forall in E'. apply E'. apply in_rev.
    rewrite rev_involutive. exact Hx.
Qed.

(** X1.  [matchKey] splits exactly the keys that are a grade name, a
    dash and a section letter: it answers the pair [(g, s)] if and
    only if [s] is one letter from A to Z, [g] is not empty and holds
    no line terminator, and the key is [g], ["-"], [s]. *)
Theorem matchKey_spec key g s :
  matchKey key = Some (g, s)
  <-> exists c,
        s = String c EmptyString
        /\ isUpperAZ c = true
        /\ g <> ""
        /\ forallb (fun x => negb (isLineTerminator x))
                   (list_ascii_of_string g) = true
        /\ key = (g ++ "-" ++ s)%string.
Proof.
  unfold matchKey. split.
  - destruct (rev (list_ascii_of_string key)) as [|c [|d front]] eqn:Erev;
      try discriminate.
    destruct (isUpperAZ c) eqn:Ec; cbn [andb]; [|discriminate].
    destruct (Ascii.eqb d "-") eqn:Ed; cbn [andb]; [|discriminate].
    destruct front as [|f front']; cbn [isNil negb andb]; [discriminate|].
    destruct (forallb _ (f :: front')) eqn:Ef; [|discriminate].
    intros H. inversion H; subst g s. clear H.
    exists c. split; [reflexivity|]. split; [assumption|].
    apply Ascii.eqb_eq in Ed. subst d.
    assert (Hkey : list_ascii_of_string key
                   = rev (f :: front') ++ ["-"%char; c]).
    { rewrite <- (rev_involutive (list_ascii_of_string key)), Erev.
      cbn [rev]. repeat rewrite <- app_assoc. reflexivity. }
    split; [|split].
    + intros Hg.
      apply (f_equal list_ascii_of_string) in Hg.
      rewrite list_ascii_of_string_of_list_ascii in Hg. cbn [rev] in Hg.
      destruct (rev front'); discriminate.
    + rewrite list_ascii_of_string_of_list_ascii.
      change (rev front' ++ [f]) with (rev (f :: front')).
      rewrite forallb_rev. exact Ef.
    + rewrite <- (string_of_list_ascii_of_string key), Hkey,
        string_of_list_ascii_app. reflexivity.
  - intros (c & -> & Hc & Hg & Hterm & ->).
    rewrite !list_ascii_of_string_app. cbn [list_ascii_of_string app].
    rewrite rev_app_distr. cbn [rev app].
    rewrite Hc. cbn [andb]. rewrite Ascii.eqb_refl. cbn [andb].
    rewrite forallb_rev, Hterm, rev_involutive,
      string_of_list_ascii_of_string.
    destruct (list_ascii_of_string g) as [|x l] eqn:El.
    + exfalso. apply Hg.
      rewrite <- (string_of_list_ascii_of_string g), El. reflexivity.
    + destruct (rev (x :: l)) eqn:Er.
      * apply (f_equal (@rev ascii)) in Er. rewrite rev_involutive in Er.
        discriminate.
      * reflexivity.
Qed.

(* ================================================================= *)
(** * Middleware and routes *)


Lemma split_head_no_sep sep (t rest : string) :
  forallb (fun x => negb (Ascii.eqb x sep)) (list_ascii_of_string t) = true ->
  split sep (t ++ String sep rest)%string = t :: split sep rest.
Proof.
  induction t as [|x t IH]; cbn [String.append list_ascii_of_string forallb].
  - intros _. cbn [split]. rewrite Ascii.eqb_refl. reflexivity.
  - intros H. apply andb_true_iff in H. destruct H as (Hx & Ht).
    cbn [split]. apply negb_true_iff in Hx. rewrite Hx, (IH Ht). reflexivity.
Qed.

Lemma split_no_sep sep (t : string) :
  forallb (fun x => negb (Ascii.eqb x sep)) (list_ascii_of_string t) = true ->
  split sep t = [t].
Proof.
  induction t as [|x t IH]; cbn [list_ascii_of_string forallb].
  - reflexivity.
  - intros H. apply andb_true_iff in H. destruct H as (Hx & Ht).
    cbn [split]. apply negb_true_iff in Hx. rewrite Hx, (IH Ht). reflexivity.
Qed.

Lemma prefix_app (a b : string) : String.prefix a (a ++ b)%string = true.
Proof.
  induction a as [|x a IH]; cbn.
  - destruct b; reflexivity.
  - destruct (ascii_dec x x) as [_|N]; [exact IH | contradiction].
Qed.

Lemma role_eqb_eq a b : role_eqb a b = true <-> a = b.
Proof. destruct a, b; cbn; split; intros H; congruence. Qed.

Lemma optId_eqb_eq a b : optId_eqb a b = true <-> a = b.
Proof.
  destruct a as [x|], b as [y|]; cbn; split; intros H;
    try congruence; try discriminate.
  - apply Nat.eqb_eq in H. congruence.
  - inversion H. apply Nat.eqb_refl.
Qed.

(** X2.  [authenticate] checks the text between the first and the
    second space of the header, and nothing after it: for a token
    without a space, the header [Bearer <token>], with or without
    more text after a further space, passes with the payload of
    [jwt.verify] on the token and is answered 401 when it throws; a
    missing header, or one that does not begin with [Bearer] and a
    space, is answered 401. *)
Theorem authenticate_bearer verify (token junk : string) :
  forallb (fun x => negb (Ascii.eqb x " ")) (list_ascii_of_string token)
  = true ->
  let outcome :=
    match verify token with
    | Some decoded => Next decoded
    | None => Reject 401 "Invalid or expired token"
    end in
  authenticate verify (Some ("Bearer " ++ token)%string) = outcome
  /\ authenticate verify (Some ("Bearer " ++ token ++ " " ++ junk)%string)
     = outcome
  /\ authenticate verify None = Reject 401 "Unauthorized"
  /\ (forall h, String.prefix "Bearer " h = false ->
                authenticate verify (Some h) = Reject 401 "Unauthorized").
Proof.
  intros Htoken outcome. subst outcome.
  split; [|split; [|split]].
  - unfold authenticate. rewrite prefix_app.
    change ("Bearer " ++ token)%string
      with ("Bearer" ++ String " " token)%string.
    rewrite split_head_no_sep by reflexivity.
    rewrite (split_no_sep _ _ Htoken). reflexivity.
  - unfold authenticate. rewrite prefix_app.
    change ("Bearer " ++ token ++ " " ++ junk)%string
      with ("Bearer" ++ String " " (token ++ String " " junk))%string.
    rewrite split_head_no_sep by reflexivity.
    rewrite (split_head_no_sep _ _ _ Htoken). reflexivity.
  - reflexivity.
  - intros h Hh. unfold authenticate. rewrite Hh. reflexivity.
Qed.

(** X3.  A route of a school-scoped router either runs its handler, and
    then for a user whose token was accepted, whose role is among the
    allowed ones and who is a super admin or belongs to the school of
    the route; or it answers 401 or 403 and leaves the store as it
    is. *)
Theorem route_guard {A} verify allowedRoles
    (handler : DB -> Response A * DB) authorization schoolId db :
  let r := route verify allowedRoles handler authorization schoolId db in
  (exists user,
      authenticate verify authorization = Next user
      /\ In (au_role user) allowedRoles
      /\ (au_role user = SUPERADMIN \/ au_schoolId user = Some schoolId)
      /\ r = handler db)
  \/ (snd r = db /\ (status (fst r) = 401 \/ status (fst r) = 403)
      /\ forall user,
           authenticate verify authorization = Next user ->
           ~ In (au_role user) allowedRoles
           \/ (au_role user <> SUPERADMIN
               /\ au_schoolId user <> Some schoolId)).
Proof.
  intros r. subst r. unfold route.
  destruct (authenticate verify authorization) as [user|code message] eqn:Ea.
  - unfold requireRole.
    destruct (existsb (role_eqb (au_role user)) allowedRoles) eqn:Er;
      cbn [negb].
    + apply existsb_exists in Er. destruct Er as (x & Hx & Hr).
      apply role_eqb_eq in Hr. subst x.
      destruct (role_eqb (au_role user) SUPERADMIN) eqn:Es.
      * apply role_eqb_eq in Es. left. exists user. auto.
      * destruct (optId_eqb (au_schoolId user) (Some schoolId)) eqn:Eo;
          cbn [negb].
        -- apply optId_eqb_eq in Eo. left. exists user. auto.
        -- right. cbn. split; [reflexivity|]. split; [auto|].
           intros u Hu. inversion Hu; subst u. right. split.
           ++ intros H. apply role_eqb_eq in H. congruence.
           ++ intros H. apply optId_eqb_eq in H. congruence.
    + right. cbn. split; [reflexivity|]. split; [auto|].
      intros u Hu. inversion Hu; subst u. left. intros Hin.
      assert (existsb (role_eqb (au_role user)) allowedRoles = true).
      { apply existsb_exists. exists (au_role user). split; [assumption|].
        apply role_eqb_eq. reflexivity. }
      congruence.
  - right. cbn. split; [reflexivity|].
    split.
    + unfold authenticate in Ea.
      destruct authorization as [h|]; [|inversion Ea; auto].
      destruct (String.prefix "Bearer " h); [|inversion Ea; auto].
      destruct (nth_error _ 1) as [t|]; [|inversion Ea; auto].
      destruct (verify t); [discriminate|inversion Ea; auto].
    + intros u Hu. discriminate.
Qed.

(* ================================================================= *)
(** * Requests that fail *)


Lemma transaction_err_inv {A} (body : DB -> result (A * DB)) db e db' :
  transaction body db = (Err e, db') -> db' = db.
Proof.
  unfold transaction. destruct (body db) as [[a d]|e0]; intros H;
    inversion H; reflexivity.
Qed.

(** X4.  A request that is not answered with a 2xx status leaves the
    store as it was, for every modelled handler but the two
    [updateTutorAssignments]. *)
Theorem failed_call_writes_nothing db c :
  isReplaceAll c = false ->
  succeeded (fst (respond db c)) = false ->
  snd (respond db c) = db.
Proof.
  intros Hc.
  destruct c as [rq| | | | | |]; [destruct rq|..]; try discriminate Hc;
    clear Hc; cbn [respond respondTo]; unfold answer; cbn [fst snd].
  all: lazymatch goal with
       | |- context [SuperadminController.createSchool] =>
           unfold SuperadminController.createSchool
       | |- context [createTutor] => unfold createTutor
       | |- context [deleteTutor] => unfold deleteTutor
       | |- context [Rev1.createGrade] => unfold Rev1.createGrade
       | |- context [Rev2.createGrade] => unfold Rev2.createGrade
       | |- context [Rev2.updateSectionSubjects] =>
           unfold Rev2.updateSectionSubjects
       | |- context [Rev2.addSubjectToSection] =>
           unfold Rev2.addSubjectToSection
       | |- context [Rev2.deleteSubjectFromSection] =>
           unfold Rev2.deleteSubjectFromSection
       | |- context [Rev2.deleteSection] => unfold Rev2.deleteSection
       | |- context [Rev2.deleteGrade] => unfold Rev2.deleteGrade
       | |- context [Rev1.smartAssignTutor] => unfold Rev1.smartAssignTutor
       | |- context [Rev2.smartAssignTutor] => unfold Rev2.smartAssignTutor
       | |- context [Rev2.deleteAllTutorAssignments] =>
           unfold Rev2.deleteAllTutorAssignments
       | |- context [Rev2.assignClassTutor] => unfold Rev2.assignClassTutor
       | |- context [Rev2.removeClassTutor] => unfold Rev2.removeClassTutor
       | |- context [Rev2.assignSubjectToTutor] =>
           unfold Rev2.assignSubjectToTutor
       | |- context [Rev2.removeAssignment] => unfold Rev2.removeAssignment
       | |- context [updateTutor] => unfold updateTutor
       | |- context [Rev2.updateGrade] => unfold Rev2.updateGrade
       | |- context [Rev2.addSection] => unfold Rev2.addSection
       | |- context [Rev2.updateSection] => unfold Rev2.updateSection
       | |- context [SuperadminController.deleteSchoolTx] =>
           unfold SuperadminController.deleteSchoolTx
       | |- context [SuperadminController.deleteSchool] =>
           unfold SuperadminController.deleteSchool
       end.
  all: unfold transaction.
  all: repeat (branch_on_answer; cbn [fst snd status];
               try solve [intros; reflexivity | intros H; discriminate H]).
  all: intros _;
    match goal with
    | H : match ?x with _ => _ end = (Err _, _) |- _ =>
        destruct x as [[? ?]|?]; inversion H; reflexivity
    end.
Qed.

(* ================================================================= *)
(** * Single assignments: [assignSubjectToTutor], [removeAssignment],
      [checkDuplicateAssignment] *)

Lemma sameLink_set_active t s b a :
  sameLink t s (set_tsa_isActive b a) = sameLink t s a.
Proof. reflexivity. Qed.

Lemma findFirst_ext {A} (p q : A -> bool) (l : list A) :
  (forall x, p x = q x) -> findFirst p l = findFirst q l.
Proof.
  intros H. unfold findFirst. induction l as [|x l IH]; [reflexivity|].
  cbn. rewrite H, IH. reflexivity.
Qed.

Lemma filter_all {A} (p : A -> bool) (l : list A) :
  Forall (fun x => p x = true) l -> filter p l = l.
Proof.
  induction 1 as [|x l Hx _ IH]; [reflexivity|].
  cbn. rewrite Hx, IH. reflexivity.
Qed.

Lemma filter_none {A} (p : A -> bool) (l : list A) :
  Forall (fun x => p x = false) l -> filter p l = [].
Proof.
  induction 1 as [|x l Hx _ IH]; [reflexivity|].
  cbn. rewrite Hx, IH. reflexivity.
Qed.

(** What a successful [assignSubjectToTutor] leaves: an active row
    for the pair, the first the lookup for the pair finds. *)
Lemma assignSubjectToTutor_done db schoolId tutorId ssId :
  succeeded (status (fst (Rev2.assignSubjectToTutor db schoolId (Some tutorId)
                            (Some ssId)))) = true ->
  let db1 := snd (Rev2.assignSubjectToTutor db schoolId (Some tutorId)
                    (Some ssId)) in
  tutors db1 = tutors db
  /\ sectionSubjects db1 = sectionSubjects db
  /\ exists a, findFirst (sameLink tutorId ssId) (assignments db1) = Some a
               /\ tsa_isActive a = true.
Proof.
  unfold Rev2.assignSubjectToTutor.
  destruct (findFirst _ (tutors db)) as [tutor|]; [|discriminate].
  destruct (findFirst _ (sectionSubjects db)) as [ss|]; [|discriminate].
  destruct (findFirst (sameLink tutorId ssId) (assignments db))
    as [existing|] eqn:Ef.
  - destruct (tsa_isActive existing) eqn:Ea; [discriminate|].
    destruct (updateAssignmentRow db (tsa_id existing) _) as [db'|e] eqn:Eu.
    + intros _. cbn [snd]. apply updateAssignmentRow_ok in Eu. subst db'.
      cbn [tutors sectionSubjects assignments with_assignments].
      split; [reflexivity|]. split; [reflexivity|].
      rewrite findFirst_map_respect.
      * rewrite Ef. cbn [option_map]. rewrite Nat.eqb_refl.
        eexists. split; reflexivity.
      * intros x. destruct (Nat.eqb (tsa_id x) (tsa_id existing));
          reflexivity.
    + destruct e; discriminate.
  - destruct (createAssignmentRow db tutorId ssId true) as [[row db']|e] eqn:Ec.
    + intros _. cbn [snd]. apply createAssignmentRow_ok in Ec.
      destruct Ec as (-> & -> & _).
      cbn [tutors sectionSubjects assignments with_assignments bump].
      split; [reflexivity|]. split; [reflexivity|].
      rewrite findFirst_app_none by exact Ef.
      cbn. unfold sameLink. cbn. rewrite !Nat.eqb_refl. cbn.
      eexists. split; reflexivity.
    + destruct e; discriminate.
Qed.

(** X5.  After [assignSubjectToTutor] has assigned or reactivated a
    subject (200 or 201), the same request is answered 409 and
    changes nothing. *)
Theorem assignSubjectToTutor_again db schoolId tutorId ssId :
  let r1 := Rev2.assignSubjectToTutor db schoolId (Some tutorId) (Some ssId) in
  succeeded (status (fst r1)) = true ->
  let r2 := Rev2.assignSubjectToTutor (snd r1) schoolId (Some tutorId)
              (Some ssId) in
  status (fst r2) = 409 /\ snd r2 = snd r1.
Proof.
  intros r1 Hok r2. subst r1 r2.
  destruct (assignSubjectToTutor_done db schoolId tutorId ssId Hok)
    as (Ht & Hs & a & Hf & Ha).
  revert Hok.
  set (db1 := snd (Rev2.assignSubjectToTutor db schoolId (Some tutorId)
                     (Some ssId))) in *.
  unfold Rev2.assignSubjectToTutor at 1.
  destruct (findFirst _ (tutors db)) as [tutor|] eqn:Et; [|discriminate].
  destruct (findFirst (fun s => Nat.eqb (ss_id s) ssId) (sectionSubjects db))
    as [ss|] eqn:Es; [|discriminate].
  intros _. unfold Rev2.assignSubjectToTutor.
  rewrite Ht, Hs, Et, Es, Hf, Ha. split; reflexivity.
Qed.

(** X6.  [removeAssignment] undoes a fresh [assignSubjectToTutor]:
    when the assignment ids of the store were drawn from its counter
    and the call is answered 201 with a new row, removing that row
    is answered 200 and leaves every table as it was before the
    two calls (the counter has moved on). *)
Theorem removeAssignment_undoes_assign db schoolId tutorId ssId a db1 :
  Forall (fun x => tsa_id x < nextId db) (assignments db) ->
  Rev2.assignSubjectToTutor db schoolId tutorId ssId = (Json 201 a, db1) ->
  Rev2.removeAssignment db1 (tsa_id a)
  = (Message 200 "Assignment removed successfully", bump db).
Proof.
  intros Hids. unfold Rev2.assignSubjectToTutor.
  destruct tutorId as [tutorId|]; [|discriminate].
  destruct ssId as [ssId|]; [|discriminate].
  destruct (findFirst _ (tutors db)) as [tutor|]; [|discriminate].
  destruct (findFirst _ (sectionSubjects db)) as [ss|]; [|discriminate].
  destruct (findFirst (sameLink tutorId ssId) (assignments db))
    as [existing|] eqn:Ef.
  { destruct (tsa_isActive existing); [discriminate|].
    destruct (updateAssignmentRow _ _ _) as [db'|[]]; discriminate. }
  destruct (createAssignmentRow db tutorId ssId true) as [[row db']|e] eqn:Ec;
    [|destruct e; discriminate].
  intros H. inversion H; subst a db1. clear H.
  apply createAssignmentRow_ok in Ec. destruct Ec as (-> & -> & _).
  cbn [tsa_id]. unfold Rev2.removeAssignment.
  cbn [assignments with_assignments bump].
  assert (Hnone : forall p, findFirst
            (fun x => Nat.eqb (tsa_id x) (nextId db) && p x)
            (assignments db) = None).
  { intros p. apply findFirst_none_existsb. apply not_true_is_false.
    intros Hex. apply existsb_exists in Hex. destruct Hex as (x & Hx & Hp).
    apply andb_true_iff in Hp. destruct Hp as (Hp & _).
    apply Nat.eqb_eq in Hp. rewrite Forall_forall in Hids.
    specialize (Hids x Hx). lia. }
  assert (Hfind : findFirst (fun x => Nat.eqb (tsa_id x) (nextId db))
                    (assignments db
                     ++ [mkAssignment (nextId db) tutorId ssId true])
                  = Some (mkAssignment (nextId db) tutorId ssId true)).
  { rewrite findFirst_app_none.
    - cbn. rewrite Nat.eqb_refl. reflexivity.
    - rewrite <- (Hnone (fun _ => true)). apply findFirst_ext.
      intros x. rewrite andb_true_r. reflexivity. }
  rewrite Hfind. unfold deleteAssignmentRow.
  cbn [assignments with_assignments bump].
  rewrite existsb_app. cbn [existsb tsa_id]. rewrite Nat.eqb_refl.
  cbn [orb]. rewrite orb_true_r.
  unfold deleteMany. rewrite filter_app. cbn [filter tsa_id].
  rewrite Nat.eqb_refl. cbn [negb]. rewrite app_nil_r.
  rewrite filter_all.
  - destruct db; reflexivity.
  - rewrite Forall_forall in Hids |- *. intros x Hx.
    apply negb_true_iff. apply Nat.eqb_neq. specialize (Hids x Hx). lia.
Qed.

Lemma findFirst_and_some {A} (p q : A -> bool) (l : list A) a :
  findFirst p l = Some a -> q a = true ->
  exists b, findFirst (fun x => p x && q x) l = Some b.
Proof.
  intros Hf Hq. destruct (findFirst (fun x => p x && q x) l) as [b|] eqn:E.
  - eauto.
  - exfalso. apply findFirst_none_existsb in E.
    apply findFirst_some in Hf. destruct Hf as (Hin & Hp).
    assert (existsb (fun x => p x && q x) l = true).
    { apply existsb_exists. exists a. rewrite Hp, Hq. auto. }
    congruence.
Qed.

(** X7.  [checkDuplicateAssignment] foretells the answer of
    [assignSubjectToTutor]: in a store that obeys the unique index on
    (tutorId, sectionSubjectId), for a tutor of the school and a
    section subject that exists, it reports a duplicate exactly when
    [assignSubjectToTutor] answers 409, and no duplicate exactly when
    that call succeeds. *)
Theorem checkDuplicateAssignment_agrees db schoolId tutorId ssId tutor ss :
  NoDup (map link (assignments db)) ->
  findFirst (fun t => Nat.eqb (tutor_id t) tutorId
                      && Nat.eqb (tutor_schoolId t) schoolId) (tutors db)
  = Some tutor ->
  findFirst (fun s => Nat.eqb (ss_id s) ssId) (sectionSubjects db)
  = Some ss ->
  let check := Rev2.checkDuplicateAssignment db (Some tutorId) (Some ssId) in
  let r := Rev2.assignSubjectToTutor db schoolId (Some tutorId) (Some ssId) in
  ((exists i, check = Json 200 (true, Some i)) /\ status (fst r) = 409
   /\ snd r = db)
  \/ (check = Json 200 (false, None)
      /\ succeeded (status (fst r)) = true).
Proof.
  intros Hnd Ht Hs check r. subst check r.
  unfold Rev2.checkDuplicateAssignment, Rev2.assignSubjectToTutor.
  rewrite Ht, Hs.
  destruct (findFirst (sameLink tutorId ssId) (assignments db))
    as [existing|] eqn:Ef.
  - destruct (tsa_isActive existing) eqn:Ea.
    + left.
      destruct (findFirst_and_some _ tsa_isActive _ Ef Ea) as (b & Hb).
      rewrite Hb. split; [eauto|]. split; reflexivity.
    + right.
      destruct (findFirst (fun a => sameLink tutorId ssId a && tsa_isActive a)
                          (assignments db)) as [b|] eqn:Eb.
      * exfalso. apply findFirst_some in Eb. destruct Eb as (Hbin & Hb).
        apply andb_true_iff in Hb. destruct Hb as (Hbl & Hba).
        apply findFirst_some in Ef. destruct Ef as (Hein & Hel).
        assert (b = existing).
        { apply (NoDup_map_inj link (assignments db)); auto.
          unfold sameLink in Hbl, Hel.
          apply andb_true_iff in Hbl, Hel.
          destruct Hbl as (B1 & B2), Hel as (E1 & E2).
          apply Nat.eqb_eq in B1, B2, E1, E2. unfold link. congruence. }
        congruence.
      * split; [reflexivity|].
        apply findFirst_some in Ef. destruct Ef as (Hein & _).
        unfold updateAssignmentRow.
        rewrite (updateWhere_present tsa_id _ _ _ Hein). reflexivity.
  - right.
    assert (Hn : findFirst (fun a => sameLink tutorId ssId a && tsa_isActive a)
                           (assignments db) = None).
    { apply findFirst_none_existsb. apply not_true_is_false. intros Hex.
      apply existsb_exists in Hex. destruct Hex as (x & Hx & Hp).
      apply andb_true_iff in Hp. destruct Hp as (Hp & _).
      apply findFirst_none_existsb in Ef.
      assert (existsb (sameLink tutorId ssId) (assignments db) = true)
        by (apply existsb_exists; eauto).
      congruence. }
    rewrite Hn. split; [reflexivity|].
    unfold createAssignmentRow.
    apply findFirst_none_existsb in Ef. rewrite Ef.
    apply findFirst_some in Ht, Hs.
    assert (hasTutor db tutorId = true) as ->.
    { apply existsb_exists. exists tutor. destruct Ht as (Hin & Hp).
      apply andb_true_iff in Hp. tauto. }
    assert (hasSectionSubject db ssId = true) as ->.
    { apply existsb_exists. exists ss. tauto. }
    reflexivity.
Qed.

(* ================================================================= *)
(** * Tutors and schools: composing the handlers *)

Lemma filter_deleteMany_nil {A} (p : A -> bool) (l : list A) :
  filter p (deleteMany p l) = [].
Proof.
  unfold deleteMany. apply filter_none. apply Forall_forall.
  intros x Hx. apply filter_In in Hx. destruct Hx as (_ & Hx).
  apply negb_true_iff in Hx. exact Hx.
Qed.

Lemma filter_updateMany_nil {A} (p : A -> bool) (f : A -> A) (l : list A) :
  (forall x, p (f x) = false) -> filter p (updateMany p f l) = [].
Proof.
  intros Hf. unfold updateMany. apply filter_none. apply Forall_forall.
  intros y Hy. apply in_map_iff in Hy. destruct Hy as (x & <- & _).
  destruct (p x) eqn:E; [apply Hf | exact E].
Qed.

Lemma updateMany_none {A} (p : A -> bool) (f : A -> A) (l : list A) :
  Forall (fun x => p x = false) l -> updateMany p f l = l.
Proof.
  unfold updateMany. induction 1 as [|x l Hx _ IH]; [reflexivity|].
  cbn. rewrite Hx, IH. reflexivity.
Qed.

Lemma hasTutor_findFirst db tutorId :
  hasTutor db tutorId = true ->
  exists t, findFirst (fun t => Nat.eqb (tutor_id t) tutorId) (tutors db)
            = Some t.
Proof.
  intros H.
  destruct (findFirst _ (tutors db)) as [t|] eqn:E; [eauto|].
  apply findFirst_none_existsb in E. unfold hasTutor in H. congruence.
Qed.

(** X8.  Once [deleteAllTutorAssignments] has run for a tutor,
    [deleteTutor] needs no [force]: it answers 200, the tutor is
    gone, and the assignment rows left are those of the other tutors
    as they were before the two calls. *)
Theorem deleteTutor_after_deleteAll db tutorId force :
  hasTutor db tutorId = true ->
  let db1 := snd (Rev2.deleteAllTutorAssignments db tutorId) in
  let r := deleteTutor db1 tutorId force in
  status (fst r) = 200
  /\ hasTutor (snd r) tutorId = false
  /\ assignments (snd r)
     = filter (fun a => negb (Nat.eqb (tsa_tutorId a) tutorId))
              (assignments db).
Proof.
  intros Hhas db1 r. subst r db1.
  destruct (hasTutor_findFirst _ _ Hhas) as (t & Ht).
  unfold Rev2.deleteAllTutorAssignments. rewrite Ht.
  unfold transaction. cbn [snd].
  unfold deleteTutor.
  change (tutors (clearTutor tutorId db)) with (tutors db). rewrite Ht.
  unfold countSubjectAssignments, countClassSections.
  cbn [clearTutor assignments sections with_sections with_assignments].
  rewrite filter_deleteMany_nil.
  rewrite filter_updateMany_nil by reflexivity.
  cbn [List.length Nat.ltb Nat.leb orb andb].
  unfold deleteTutorRow.
  change (hasTutor (clearTutor tutorId db) tutorId)
    with (hasTutor db tutorId).
  rewrite Hhas. cbn [fst snd status].
  split; [reflexivity|]. split.
  - unfold hasTutor, dropTutors. cbn [tutors].
    apply not_true_is_false. intros Hex. apply existsb_exists in Hex.
    destruct Hex as (x & Hx & Hid). unfold deleteMany in Hx.
    apply filter_In in Hx. destruct Hx as (_ & Hx).
    rewrite Hid in Hx. discriminate.
  - unfold dropTutors. cbn [assignments tutors].
    unfold deleteMany at 1. rewrite filter_all; [reflexivity|].
    apply Forall_forall. intros a Ha.
    change (tutors (clearTutor tutorId db)) with (tutors db).
    rewrite (@gone_tutor_ids db tutorId (tsa_tutorId a) Hhas).
    cbn [clearTutor assignments with_sections with_assignments] in Ha.
    unfold deleteMany in Ha. apply filter_In in Ha. tauto.
Qed.
Lemma findFirst_none_Forall {A} (p : A -> bool) (l : list A) :
  Forall (fun x => p x = false) l -> findFirst p l = None.
Proof.
  intros H. apply findFirst_none_existsb. apply not_true_is_false.
  intros Hex. apply existsb_exists in Hex. destruct Hex as (x & Hx & Hp).
  rewrite Forall_forall in H. rewrite (H x Hx) in Hp. discriminate.
Qed.

Lemma Forall_impl_In {A} (P Q : A -> Prop) (l : list A) :
  (forall x, In x l -> P x -> Q x) -> Forall P l -> Forall Q l.
Proof.
  intros H HP. apply Forall_forall. intros x Hx.
  rewrite Forall_forall in HP. auto.
Qed.

(** X9.  [deleteTutor] undoes [createTutor]: when no row of the store
    refers to the id the new tutor gets, deleting the tutor that
    [createTutor] has answered with is answered 200, with or without
    [force], and leaves every table as it was before the two calls:
    the tutor row and its user account are both gone. *)
Theorem deleteTutor_undoes_createTutor db req temp hash tutor db1 force :
  tutorIdUnused db (nextId db) ->
  createTutor db req temp hash = (Json 201 (tutor, temp), db1) ->
  deleteTutor db1 (tutor_id tutor) force
  = (Message 200 "Tutor deleted successfully", bump (bump db)).
Proof.
  intros (Ht & Hu & Ha & Hs). unfold createTutor.
  destruct (required (ct_name req)) as [name|]; [|discriminate].
  destruct (required (ct_email req)) as [email|]; [|discriminate].
  destruct (required (ct_phone req)) as [phone|]; [|discriminate].
  destruct (findFirst _ (schools db)); [|discriminate].
  destruct (findFirst _ (tutors db)); [discriminate|].
  destruct (findFirst _ (users db)); [discriminate|].
  unfold transaction.
  destruct (createTutorTx name email phone hash (ct_schoolId req) db)
    as [[[t u] db']|e] eqn:Etx; [|discriminate].
  intros H. inversion H; subst t db'. clear H.
  apply createTutorTx_rows in Etx. destruct Etx as (-> & -> & ->).
  cbn [tutor_id]. unfold deleteTutor.
  cbn [tutors with_users with_tutors bump].
  rewrite findFirst_app_none.
  2:{ apply findFirst_none_Forall. revert Ht. apply Forall_impl.
      intros x Hx. apply Nat.eqb_neq. exact Hx. }
  cbn [findFirst find tutor_id]. rewrite Nat.eqb_refl.
  unfold countSubjectAssignments, countClassSections.
  cbn [assignments sections with_users with_tutors bump].
  rewrite (@filter_none _ _ (assignments db)).
  2:{ revert Ha. apply Forall_impl. intros x Hx. apply Nat.eqb_neq. exact Hx. }
  rewrite (@filter_none _ _ (sections db)).
  2:{ revert Hs. apply Forall_impl. intros x Hx.
      apply not_true_is_false. intros E. apply optId_eqb_eq in E.
      contradiction. }
  cbn [List.length Nat.ltb Nat.leb orb andb].
  unfold deleteTutorRow, hasTutor.
  cbn [tutors with_users with_tutors bump].
  rewrite existsb_app. cbn [existsb tutor_id]. rewrite Nat.eqb_refl.
  cbn [orb]. rewrite orb_true_r.
  unfold dropTutors.
  cbn [tutors users sections assignments schools grades sectionSubjects
       nextId with_users with_tutors bump].
  assert (Hgone : forall j,
            existsb (fun t => Nat.eqb (tutor_id t) j)
              (filter (fun t => Nat.eqb (tutor_id t) (nextId db))
                 (tutors db
                  ++ [mkTutor (nextId db) name email phone (ct_schoolId req)
                              true]))
            = Nat.eqb (nextId db) j).
  { intros j. rewrite filter_app, (@filter_none _ _ (tutors db)).
    - cbn. rewrite Nat.eqb_refl. cbn. apply orb_false_r.
    - revert Ht. apply Forall_impl. intros x Hx. apply Nat.eqb_neq.
      exact Hx. }
  assert (Husers :
    deleteMany (fun u => match user_tutorId u with
                         | Some i =>
                             existsb (fun t => Nat.eqb (tutor_id t) i)
                               (filter (fun t => Nat.eqb (tutor_id t)
                                                         (nextId db))
                                  (tutors db
                                   ++ [mkTutor (nextId db) name email phone
                                               (ct_schoolId req) true]))
                         | None => false
                         end)
      (users db
       ++ [mkUser (S (nextId db)) name email (Some phone) hash TEACHER
                  (Some (ct_schoolId req)) (Some (nextId db))])
    = users db).
  { unfold deleteMany. rewrite filter_app. cbn [filter user_tutorId].
    rewrite Hgone, Nat.eqb_refl. cbn [negb]. rewrite app_nil_r.
    apply filter_all. revert Hu. apply Forall_impl. intros x Hx.
    destruct (user_tutorId x) as [i|]; [|reflexivity].
    rewrite Hgone. apply negb_true_iff. apply Nat.eqb_neq. congruence. }
  assert (Htutors :
    deleteMany (fun t => Nat.eqb (tutor_id t) (nextId db))
      (tutors db
       ++ [mkTutor (nextId db) name email phone (ct_schoolId req) true])
    = tutors db).
  { unfold deleteMany. rewrite filter_app. cbn [filter tutor_id].
    rewrite Nat.eqb_refl. cbn [negb]. rewrite app_nil_r.
    apply filter_all. revert Ht. apply Forall_impl. intros x Hx.
    apply negb_true_iff. apply Nat.eqb_neq. exact Hx. }
  assert (Hsections :
    updateMany (fun s => match section_classTutorId s with
                         | Some i =>
                             existsb (fun t => Nat.eqb (tutor_id t) i)
                               (filter (fun t => Nat.eqb (tutor_id t)
                                                         (nextId db))
                                  (tutors db
                                   ++ [mkTutor (nextId db) name email phone
                                               (ct_schoolId req) true]))
                         | None => false
                         end)
      (set_classTutorId None) (sections db)
    = sections db).
  { apply updateMany_none. revert Hs. apply Forall_impl. intros x Hx.
    destruct (section_classTutorId x) as [i|]; [|reflexivity].
    rewrite Hgone. apply Nat.eqb_neq. congruence. }
  assert (Hassignments :
    deleteMany (fun a => existsb (fun t => Nat.eqb (tutor_id t)
                                                   (tsa_tutorId a))
                           (filter (fun t => Nat.eqb (tutor_id t)
                                                     (nextId db))
                              (tutors db
                               ++ [mkTutor (nextId db) name email phone
                                           (ct_schoolId req) true])))
      (assignments db)
    = assignments db).
  { unfold deleteMany. apply filter_all. revert Ha. apply Forall_impl.
    intros x Hx. rewrite Hgone. apply negb_true_iff. apply Nat.eqb_neq.
    congruence. }
  rewrite Husers, Htutors, Hsections, Hassignments.
  destruct db; reflexivity.
Qed.
Lemma required_some f s : required f = Some s -> f = Some s /\ s <> "".
Proof.
  unfold required. destruct f as [x|]; [|discriminate].
  destruct (String.eqb x "") eqn:E; [discriminate|].
  intros H. inversion H; subst x. split; [reflexivity|].
  apply String.eqb_neq. exact E.
Qed.

Lemma updateTutorRow_free db tutorId d existing :
  findFirst (fun t => Nat.eqb (tutor_id t) tutorId) (tutors db)
  = Some existing ->
  (forall t, In t (tutors db) -> tutor_id t <> tutorId ->
             tutor_email t <> tutor_email (applyTutorData d existing)) ->
  updateTutorRow db tutorId d
  = Ok (applyTutorData d existing,
        with_tutors db
          (map (fun r => if Nat.eqb (tutor_id r) tutorId
                         then applyTutorData d r else r) (tutors db))).
Proof.
  intros Hf Hfree. unfold updateTutorRow. rewrite Hf.
  destruct (existsb _ (tutors db)) eqn:Ex; [|reflexivity].
  exfalso. apply existsb_exists in Ex. destruct Ex as (t & Ht & Hp).
  apply andb_true_iff in Hp. destruct Hp as (Hid & Hem).
  apply negb_true_iff in Hid. apply Nat.eqb_neq in Hid.
  apply String.eqb_eq in Hem. exact (Hfree t Ht Hid Hem).
Qed.

(** X10.  [updateTutor] with a new address [e]: when a tutor row
    carries [e] the answer is 409 and nothing changes; when no tutor
    row and no user row carries it (the user rows linked to the tutor
    being one account), the answer is 200, the tutor row and the
    linked user rows all carry [e], and the rows of other tutors and
    of users not linked to the tutor stay as they were. *)
Theorem updateTutor_email_change db tutorId req existing e :
  findFirst (fun t => Nat.eqb (tutor_id t) tutorId) (tutors db)
  = Some existing ->
  required (ut_email req) = Some e ->
  e <> tutor_email existing ->
  let r := updateTutor db tutorId req in
  ((exists t, In t (tutors db) /\ tutor_email t = e) ->
   status (fst r) = 409 /\ snd r = db)
  /\ ((forall t, In t (tutors db) -> tutor_email t <> e) ->
      (forall u, In u (users db) -> user_email u <> e) ->
      (forall u u', In u (users db) -> In u' (users db) ->
                    linkedTo tutorId u = true -> linkedTo tutorId u' = true ->
                    user_id u = user_id u') ->
      status (fst r) = 200
      /\ (forall t, In t (tutors (snd r)) -> tutor_id t = tutorId ->
                    tutor_email t = e)
      /\ (forall u, In u (users (snd r)) -> linkedTo tutorId u = true ->
                    user_email u = e)
      /\ (forall t, In t (tutors db) -> tutor_id t <> tutorId ->
                    In t (tutors (snd r)))
      /\ (forall u, In u (users db) -> linkedTo tutorId u = false ->
                    In u (users (snd r)))).
Proof.
  intros Hf Hreq Hne r. subst r. unfold updateTutor. rewrite Hf, Hreq.
  apply String.eqb_neq in Hne. rewrite Hne. cbn [negb].
  destruct (required_some _ Hreq) as (Hemail & _).
  split.
  - intros (t & Ht & Hte).
    destruct (findFirst (fun t0 => String.eqb (tutor_email t0) e) (tutors db))
      eqn:E; [split; reflexivity|].
    exfalso. apply findFirst_none_existsb in E.
    assert (existsb (fun t0 => String.eqb (tutor_email t0) e) (tutors db)
            = true).
    { apply existsb_exists. exists t. split; [assumption|].
      apply String.eqb_eq. assumption. }
    congruence.
  - intros Hnot Hnou Hone.
    rewrite findFirst_none_Forall.
    2:{ apply Forall_forall. intros t Ht. apply String.eqb_neq. auto. }
    unfold transaction, updateTutorTx.
    rewrite (@updateTutorRow_free db tutorId _ existing Hf).
    2:{ intros t Ht _. cbn. rewrite Hemail. cbn. auto. }
    cbn [bind]. unfold updateManyUsers. cbn [users with_tutors].
    fold (linkedTo tutorId).
    destruct (existsb _ (users db)) eqn:Ex.
    { exfalso. apply existsb_exists in Ex. destruct Ex as (u & Hu & Hp).
      apply andb_true_iff in Hp. destruct Hp as (Hlu & Hp).
      apply existsb_exists in Hp. destruct Hp as (x & Hx & Hq).
      apply andb_true_iff in Hq. destruct Hq as (Hid & Hem).
      apply negb_true_iff in Hid. apply Nat.eqb_neq in Hid.
      apply String.eqb_eq in Hem. cbn in Hem. rewrite Hemail in Hem.
      cbn in Hem.
      unfold updateMany in Hx. apply in_map_iff in Hx.
      destruct Hx as (y & Hy & Hyin).
      destruct (linkedTo tutorId y) eqn:Ely.
      - subst x. cbn in Hid. apply Hid. apply Hone; assumption.
      - subst x. exact (Hnou y Hyin Hem). }
    cbn [bind fst snd status tutors users with_users with_tutors].
    split; [reflexivity|]. split; [|split; [|split]].
    + intros t Ht Hid. apply in_map_iff in Ht. destruct Ht as (x & Hx & _).
      destruct (Nat.eqb (tutor_id x) tutorId) eqn:Ei.
      * subst t. cbn. rewrite Hemail. reflexivity.
      * subst t. apply Nat.eqb_neq in Ei. contradiction.
    + intros u Hu Hl. unfold updateMany in Hu. apply in_map_iff in Hu.
      destruct Hu as (x & Hx & _).
      destruct (linkedTo tutorId x) eqn:Ei.
      * subst u. cbn. rewrite Hemail. reflexivity.
      * subst u. congruence.
    + intros t Ht Hid. apply in_map_iff. exists t. split; [|assumption].
      apply Nat.eqb_neq in Hid. rewrite Hid. reflexivity.
    + intros u Hu Hl. unfold updateMany. apply in_map_iff. exists u.
      split; [|assumption]. rewrite Hl. reflexivity.
Qed.

(** X11.  The check of [updateTutor] looks at tutor rows only: when
    the new address is on no tutor row but on the row of a user other
    than the tutor's account, the update of the account breaks the
    unique index of [User.email], the transaction is rolled back and
    the answer is 500, with the tutor row as it was. *)
Theorem updateTutor_email_of_other_user db tutorId req existing e u r :
  findFirst (fun t => Nat.eqb (tutor_id t) tutorId) (tutors db)
  = Some existing ->
  required (ut_email req) = Some e ->
  e <> tutor_email existing ->
  (forall t, In t (tutors db) -> tutor_email t <> e) ->
  In u (users db) -> linkedTo tutorId u = true ->
  In r (users db) -> user_email r = e -> user_id r <> user_id u ->
  updateTutor db tutorId req = (Message 500 "Failed to update tutor", db).
Proof.
  intros Hf Hreq Hne Hnot Hu Hlu Hr Hre Hid.
  unfold updateTutor. rewrite Hf, Hreq.
  apply String.eqb_neq in Hne. rewrite Hne. cbn [negb].
  destruct (required_some _ Hreq) as (Hemail & _).
  rewrite findFirst_none_Forall.
  2:{ apply Forall_forall. intros t Ht. apply String.eqb_neq. auto. }
  unfold transaction, updateTutorTx.
  rewrite (@updateTutorRow_free db tutorId _ existing Hf).
  2:{ intros t Ht _. cbn. rewrite Hemail. cbn. auto. }
  cbn [bind]. unfold updateManyUsers. cbn [users with_tutors].
  fold (linkedTo tutorId).
  assert (Hex : existsb
            (fun u0 => linkedTo tutorId u0
               && existsb
                    (fun r0 => negb (Nat.eqb (user_id r0) (user_id u0))
                       && String.eqb (user_email r0)
                            (user_email
                               (applyUserData
                                  (mkUserData (ut_name req) (ut_email req)
                                              (ut_phone req)) u0)))
                    (updateMany (linkedTo tutorId)
                       (applyUserData
                          (mkUserData (ut_name req) (ut_email req)
                                      (ut_phone req))) (users db)))
            (users db) = true).
  { apply existsb_exists. exists u. split; [assumption|].
    rewrite Hlu. cbn [andb]. apply existsb_exists.
    exists (if linkedTo tutorId r
            then applyUserData (mkUserData (ut_name req) (ut_email req)
                                           (ut_phone req)) r
            else r).
    split.
    - unfold updateMany. apply in_map_iff. exists r. split; [reflexivity|].
      assumption.
    - apply andb_true_iff. split.
      + apply negb_true_iff. apply Nat.eqb_neq.
        destruct (linkedTo tutorId r); cbn; assumption.
      + apply String.eqb_eq.
        destruct (linkedTo tutorId r); cbn; rewrite Hemail; cbn; congruence. }
  match goal with
  | |- context [existsb ?f (users db)] =>
      replace (existsb f (users db)) with true by (symmetry; exact Hex)
  end.
  reflexivity.
Qed.

(** X12.  [createSchool], for a request that carries its five
    required fields: when the code is on a school row or the admin
    address on a user row the answer is 409 and the store is the
    same; otherwise the answer is 201 and the store gains the school
    row and its SCHOOL_ADMIN user row, and nothing else. *)
Theorem createSchool_conflict_or_both db req temp hash name code adminName
    adminEmail adminPhone :
  required (SuperadminController.cs_name req) = Some name ->
  required (SuperadminController.cs_code req) = Some code ->
  required (SuperadminController.cs_adminName req) = Some adminName ->
  required (SuperadminController.cs_adminEmail req) = Some adminEmail ->
  required (SuperadminController.cs_adminPhone req) = Some adminPhone ->
  let r := SuperadminController.createSchool db req temp hash in
  ((exists s, In s (schools db) /\ school_code s = code)
   \/ (exists u, In u (users db) /\ user_email u = adminEmail) ->
   status (fst r) = 409 /\ snd r = db)
  /\ ((forall s, In s (schools db) -> school_code s <> code) ->
      (forall u, In u (users db) -> user_email u <> adminEmail) ->
      let school := mkSchool (nextId db) name code true in
      let admin := mkUser (S (nextId db)) adminName adminEmail
                          (Some adminPhone) hash SCHOOL_ADMIN
                          (Some (nextId db)) None in
      r = (Json 201 (school, admin, temp),
           bump (with_users (bump (with_schools db (schools db ++ [school])))
                            (users db ++ [admin])))).
Proof.
  intros H1 H2 H3 H4 H5 r. subst r.
  unfold SuperadminController.createSchool. rewrite H1, H2, H3, H4, H5.
  split.
  - intros Htaken.
    destruct (findFirst _ (schools db)) eqn:Es; [split; reflexivity|].
    destruct (findFirst _ (users db)) eqn:Eu; [split; reflexivity|].
    exfalso. apply findFirst_none_existsb in Es, Eu.
    destruct Htaken as [(s & Hs & Hc)|(u & Hu & He)].
    + assert (existsb (fun s0 => String.eqb (school_code s0) code)
                      (schools db) = true).
      { apply existsb_exists. exists s. split; [assumption|].
        apply String.eqb_eq. assumption. }
      congruence.
    + assert (existsb (fun u0 => String.eqb (user_email u0) adminEmail)
                      (users db) = true).
      { apply existsb_exists. exists u. split; [assumption|].
        apply String.eqb_eq. assumption. }
      congruence.
  - intros Hs Hu. cbv zeta.
    assert (Es : existsb (fun s0 => String.eqb (school_code s0) code)
                         (schools db) = false).
    { apply not_true_is_false. intros Hex. apply existsb_exists in Hex.
      destruct Hex as (s & Hin & Hc). apply String.eqb_eq in Hc.
      exact (Hs s Hin Hc). }
    assert (Eu : existsb (fun u0 => String.eqb (user_email u0) adminEmail)
                         (users db) = false).
    { apply not_true_is_false. intros Hex. apply existsb_exists in Hex.
      destruct Hex as (u & Hin & Hc). apply String.eqb_eq in Hc.
      exact (Hu u Hin Hc). }
    rewrite (proj2 (findFirst_none_existsb _ _) Es).
    rewrite (proj2 (findFirst_none_existsb _ _) Eu).
    unfold transaction, createSchoolRow. rewrite Es. cbn [bind].
    unfold createUserRow.
    cbn [users with_schools bump school_id schools nextId tutors].
    rewrite Eu.
    unfold hasSchool. cbn [optRef schools with_schools bump].
    rewrite existsb_app. cbn [existsb school_id]. rewrite Nat.eqb_refl.
    cbn [orb]. rewrite orb_true_r. cbn [andb negb bind]. reflexivity.
Qed.

(* ================================================================= *)
(** * Sections: [addSection], [updateSection], [deleteSection] *)

Section NewSubjects.
Variable sid : Id.

Lemma createSubjects_cons name rest tx acc :
  createSubjects sid (name :: rest) (tx, acc)
  = bind (createSectionSubjectRow tx name sid true)
         (fun '(row, tx') => createSubjects sid rest (tx', acc ++ [row])).
Proof.
  unfold createSubjects. cbn [forEach].
  destruct (createSectionSubjectRow tx name sid true) as [[row tx']|e];
    reflexivity.
Qed.

Lemma withRows_cons db row rows :
  withRows (bump (with_sectionSubjects db (sectionSubjects db ++ [row]))) rows
  = withRows db (row :: rows).
Proof.
  unfold withRows. cbn. rewrite <- app_assoc. cbn.
  f_equal. lia.
Qed.

Lemma createSectionSubjectRow_fresh tx name :
  hasSection tx sid = true -> present tx sid name = false ->
  createSectionSubjectRow tx name sid true
  = Ok (mkSectionSubject (nextId tx) name sid true,
        bump (with_sectionSubjects tx
                (sectionSubjects tx
                 ++ [mkSectionSubject (nextId tx) name sid true]))).
Proof.
  intros Hs Hp. unfold createSectionSubjectRow. unfold present in Hp.
  rewrite Hp, Hs. reflexivity.
Qed.

Lemma present_after tx row name :
  present (bump (with_sectionSubjects tx (sectionSubjects tx ++ [row])))
          sid name
  = present tx sid name
    || (Nat.eqb (ss_sectionId row) sid && String.eqb (ss_name row) name).
Proof.
  unfold present. cbn. rewrite existsb_app. cbn. rewrite orb_false_r.
  reflexivity.
Qed.

(** A run of the loop that commits has inserted the names in order. *)
Lemma createSubjects_shape names :
  forall tx acc tx' acc',
    createSubjects sid names (tx, acc) = Ok (tx', acc') ->
    tx' = withRows tx (newSubjects (nextId tx) sid names)
    /\ acc' = acc ++ newSubjects (nextId tx) sid names.
Proof.
  induction names as [|name rest IH]; intros tx acc tx' acc' H.
  - cbn in H. inversion H; subst. cbn. rewrite app_nil_r. split; [|reflexivity].
    unfold withRows. cbn. rewrite app_nil_r, Nat.add_0_r.
    destruct tx'; reflexivity.
  - rewrite createSubjects_cons in H.
    destruct (createSectionSubjectRow tx name sid true) as [[row tx1]|e] eqn:E;
      [|discriminate].
    cbn [bind] in H. apply createSectionSubjectRow_ok in E.
    destruct E as (-> & -> & _).
    apply IH in H. destruct H as (-> & ->).
    cbn [nextId bump with_sectionSubjects newSubjects].
    rewrite withRows_cons. rewrite <- app_assoc. split; reflexivity.
Qed.

(** Names that are pairwise different and new to the section are all
    inserted. *)
Lemma createSubjects_ok names :
  forall tx acc,
    hasSection tx sid = true ->
    NoDup names ->
    Forall (fun n => present tx sid n = false) names ->
    exists tx' acc', createSubjects sid names (tx, acc) = Ok (tx', acc').
Proof.
  induction names as [|name rest IH]; intros tx acc Hs Hnd Hnew.
  - cbn. eauto.
  - rewrite createSubjects_cons.
    inversion Hnd as [|? ? Hnot Hnd']; subst.
    inversion Hnew as [|? ? Hn Hnew']; subst.
    rewrite (createSectionSubjectRow_fresh _ _ Hs Hn). cbn [bind].
    apply IH; [exact Hs | exact Hnd' |].
    apply Forall_forall. intros m Hm. rewrite present_after.
    rewrite Forall_forall in Hnew'. rewrite (Hnew' m Hm). cbn.
    rewrite Nat.eqb_refl. cbn. apply String.eqb_neq. intros ->.
    contradiction.
Qed.

(** A name that the section has already, or a name that comes twice,
    stops the loop with a unique-index error. *)
Lemma createSubjects_clash names :
  forall tx acc,
    hasSection tx sid = true ->
    (exists n, In n names /\ present tx sid n = true) \/ ~ NoDup names ->
    createSubjects sid names (tx, acc) = Err P2002.
Proof.
  induction names as [|name rest IH]; intros tx acc Hs Hbad.
  - exfalso. destruct Hbad as [(n & [] & _)|Hnd]. apply Hnd. constructor.
  - rewrite createSubjects_cons.
    destruct (present tx sid name) eqn:Hp.
    + unfold createSectionSubjectRow. unfold present in Hp. rewrite Hp.
      reflexivity.
    + rewrite (createSectionSubjectRow_fresh _ _ Hs Hp). cbn [bind].
      apply IH; [exact Hs|].
      destruct Hbad as [(n & [<-|Hn] & Hpn)|Hnd].
      * congruence.
      * left. exists n. split; [assumption|]. rewrite present_after, Hpn.
        reflexivity.
      * destruct (in_dec string_dec name rest) as [Hin|Hnin].
        -- left. exists name. split; [assumption|]. rewrite present_after.
           cbn. rewrite Nat.eqb_refl, String.eqb_refl. apply orb_true_r.
        -- right. intros Hnd'. apply Hnd. constructor; assumption.
Qed.

End NewSubjects.

(** X13.  [addSection] is all or nothing.  For a grade that exists
    and a section name that is new to it (no subject row referring
    to the id the section gets): when the subject names are pairwise
    different the answer is 201 and the store gains the section and
    one active subject row per name, in order; when a name comes
    twice the answer is 500 and nothing is created, not even the
    section. *)
Theorem addSection_all_or_nothing db gradeId name names n :
  required name = Some n ->
  hasGrade db gradeId = true ->
  (forall s, In s (sections db) -> section_gradeId s = gradeId ->
             section_name s <> n) ->
  Forall (fun s => ss_sectionId s <> nextId db) (sectionSubjects db) ->
  let r := Rev2.addSection db gradeId name (Some names) in
  let section := mkSection (nextId db) n gradeId None true in
  let rows := newSubjects (S (nextId db)) (nextId db) names in
  (NoDup names ->
   r = (Json 201 (section, rows),
        withRows (bump (with_sections db (sections db ++ [section]))) rows))
  /\ (~ NoDup names -> r = (Message 500 "Failed to add section", db)).
Proof.
  intros Hreq Hg Hnew Hfresh. cbv zeta.
  unfold Rev2.addSection. rewrite Hreq.
  assert (Hgf : exists g, findFirst (fun g => Nat.eqb (grade_id g) gradeId)
                            (grades db) = Some g).
  { destruct (findFirst _ (grades db)) eqn:E; [eauto|].
    apply findFirst_none_existsb in E. unfold hasGrade in Hg. congruence. }
  destruct Hgf as (g & ->).
  assert (Hex : existsb (fun s => Nat.eqb (section_gradeId s) gradeId
                                  && String.eqb (section_name s) n)
                        (sections db) = false).
  { apply not_true_is_false. intros Hex. apply existsb_exists in Hex.
    destruct Hex as (s & Hs & Hp). apply andb_true_iff in Hp.
    destruct Hp as (H1 & H2). apply Nat.eqb_eq in H1.
    apply String.eqb_eq in H2. exact (Hnew s Hs H1 H2). }
  rewrite (proj2 (findFirst_none_existsb _ _) Hex).
  unfold transaction, Rev2.addSectionTx, createSectionRow. rewrite Hex, Hg.
  cbn [negb bind section_id].
  set (tx1 := bump (with_sections db
                      (sections db
                       ++ [mkSection (nextId db) n gradeId None true]))).
  assert (Hs1 : hasSection tx1 (nextId db) = true).
  { unfold hasSection, tx1. cbn. rewrite existsb_app. cbn.
    rewrite Nat.eqb_refl. cbn. apply orb_true_r. }
  assert (Hp1 : forall m, present tx1 (nextId db) m = false).
  { intros m. unfold present, tx1. cbn. apply not_true_is_false.
    intros Hex'. apply existsb_exists in Hex'.
    destruct Hex' as (s & Hs & Hp). apply andb_true_iff in Hp.
    destruct Hp as (H1 & _). apply Nat.eqb_eq in H1.
    rewrite Forall_forall in Hfresh. exact (Hfresh s Hs H1). }
  split.
  - intros Hnd.
    destruct (@createSubjects_ok (nextId db) names tx1 [] Hs1 Hnd)
      as (tx' & acc' & Hrun).
    { apply Forall_forall. intros m _. apply Hp1. }
    rewrite Hrun. apply createSubjects_shape in Hrun.
    destruct Hrun as (-> & ->). cbn [bind app]. reflexivity.
  - intros Hnd.
    rewrite (@createSubjects_clash (nextId db) names tx1 [] Hs1 (or_intror Hnd)).
    reflexivity.
Qed.
Lemma newSubjects_ids names :
  forall next sid,
    Forall (fun r => ss_sectionId r = sid /\ next <= ss_id r)
           (newSubjects next sid names).
Proof.
  induction names as [|name rest IH]; intros next sid; cbn; constructor.
  - cbn. split; [reflexivity | lia].
  - eapply Forall_impl; [|apply IH]. cbn. intros r (H1 & H2).
    split; [assumption | lia].
Qed.

Lemma createSectionRow_ok db name gradeId active row db' :
  createSectionRow db name gradeId active = Ok (row, db') ->
  row = mkSection (nextId db) name gradeId None active
  /\ db' = bump (with_sections db (sections db ++ [row])).
Proof.
  unfold createSectionRow.
  destruct (existsb _ (sections db)); [discriminate|].
  destruct (negb (hasGrade db gradeId)); [discriminate|].
  intros H. inversion H; subst. split; reflexivity.
Qed.

(** Deleting a section that was appended last, with the subject rows
    appended after it, gives the tables back. *)
Lemma dropSections_new db sec rows k :
  sectionIdsBelow db ->
  section_id sec = nextId db ->
  Forall (fun r => ss_sectionId r = nextId db /\ nextId db <= ss_id r) rows ->
  sameTables db
    (dropSections (fun s => Nat.eqb (section_id s) (nextId db))
       (mkDB (schools db) (users db) (tutors db) (grades db)
             (sections db ++ [sec]) (sectionSubjects db ++ rows)
             (assignments db) k)).
Proof.
  intros (Hsec & Hsub & Hasg) Hid Hrows.
  unfold dropSections, dropSectionSubjects.
  cbn [sections sectionSubjects assignments with_sections
       with_sectionSubjects with_assignments schools users tutors grades].
  assert (Hgone : filter (fun s => Nat.eqb (section_id s) (nextId db))
                         (sections db ++ [sec]) = [sec]).
  { rewrite filter_app, (@filter_none _ _ (sections db)).
    - cbn. rewrite Hid, Nat.eqb_refl. reflexivity.
    - eapply Forall_impl; [|exact Hsec]. cbn. intros x Hx.
      apply Nat.eqb_neq. lia. }
  rewrite Hgone.
  assert (Hkeep : deleteMany (fun s => Nat.eqb (section_id s) (nextId db))
                             (sections db ++ [sec]) = sections db).
  { unfold deleteMany. rewrite filter_app. cbn. rewrite Hid, Nat.eqb_refl.
    cbn. rewrite app_nil_r. apply filter_all.
    eapply Forall_impl; [|exact Hsec]. cbn. intros x Hx.
    apply negb_true_iff. apply Nat.eqb_neq. lia. }
  assert (Hq : forall s,
            existsb (fun r => Nat.eqb (section_id r) (ss_sectionId s)) [sec]
            = Nat.eqb (nextId db) (ss_sectionId s)).
  { intros s. cbn. rewrite Hid. apply orb_false_r. }
  assert (Hsubs : deleteMany
                    (fun s => existsb (fun r => Nat.eqb (section_id r)
                                                       (ss_sectionId s))
                                      [sec])
                    (sectionSubjects db ++ rows) = sectionSubjects db).
  { unfold deleteMany. rewrite filter_app.
    rewrite (@filter_none _ _ rows).
    - rewrite app_nil_r. apply filter_all.
      eapply Forall_impl; [|exact Hsub]. intros x Hx. cbv beta in Hx |- *. rewrite Hq.
      apply negb_true_iff. apply Nat.eqb_neq. lia.
    - eapply Forall_impl; [|exact Hrows]. intros x (Hx & _).
      cbv beta. rewrite Hq, Hx, Nat.eqb_refl. reflexivity. }
  assert (Hgs : filter
                  (fun s => existsb (fun r => Nat.eqb (section_id r)
                                                     (ss_sectionId s))
                                    [sec])
                  (sectionSubjects db ++ rows) = rows).
  { rewrite filter_app. rewrite (@filter_none _ _ (sectionSubjects db)).
    - apply filter_all. eapply Forall_impl; [|exact Hrows]. 
      intros x (Hx & _). cbv beta. rewrite Hq, Hx. apply Nat.eqb_refl.
    - eapply Forall_impl; [|exact Hsub]. intros x Hx. cbv beta in Hx |- *. rewrite Hq.
      apply Nat.eqb_neq. lia. }
  rewrite Hkeep, Hsubs, Hgs.
  unfold sameTables. cbn.
  repeat split.
  unfold deleteMany. apply filter_all.
  eapply Forall_impl_In; [|exact Hasg]. cbn. intros a _ Ha.
  apply negb_true_iff. apply not_true_is_false. intros Hex.
  apply existsb_exists in Hex. destruct Hex as (r & Hr & He).
  apply Nat.eqb_eq in He. rewrite Forall_forall in Hrows.
  destruct (Hrows r Hr) as (_ & Hle). lia.
Qed.

(** X14.  [deleteSection] undoes [addSection]: in a store whose
    references stay below its counter, deleting the section that
    [addSection] has answered with is answered 200 and leaves every
    table as it was before the two calls: the section and the
    subjects created with it are gone, and no other row is. *)
Theorem deleteSection_undoes_addSection db gradeId name subjects section rows
    db1 :
  sectionIdsBelow db ->
  Rev2.addSection db gradeId name subjects = (Json 201 (section, rows), db1) ->
  let r := Rev2.deleteSection db1 (section_id section) in
  status (fst r) = 200 /\ sameTables db (snd r).
Proof.
  intros Hbelow. unfold Rev2.addSection.
  destruct (required name) as [n|]; [|discriminate].
  destruct (findFirst _ (grades db)); [|discriminate].
  destruct (findFirst _ (sections db)); [discriminate|].
  unfold transaction.
  destruct (Rev2.addSectionTx gradeId n subjects db) as [[[sec rs] db2]|e]
    eqn:Etx; [|discriminate].
  intros H. inversion H; subst sec rs db2. clear H.
  unfold Rev2.addSectionTx in Etx.
  destruct (createSectionRow db n gradeId true) as [[sec tx1]|e] eqn:Ecs;
    [|discriminate].
  apply createSectionRow_ok in Ecs. destruct Ecs as (-> & ->).
  cbn [bind section_id] in Etx.
  assert (Hshape :
    db1 = mkDB (schools db) (users db) (tutors db) (grades db)
               (sections db ++ [mkSection (nextId db) n gradeId None true])
               (sectionSubjects db ++ rows) (assignments db) (nextId db1)
    /\ Forall (fun r => ss_sectionId r = nextId db /\ nextId db <= ss_id r)
              rows).
  { destruct subjects as [names|].
    - destruct (createSubjects (nextId db) names _) as [[tx2 created]|e] eqn:Er;
        [|discriminate].
      cbn [bind] in Etx. inversion Etx; subst section rows db1. clear Etx.
      apply createSubjects_shape in Er. destruct Er as (-> & ->).
      cbn [app nextId bump with_sections]. split; [reflexivity|].
      eapply Forall_impl; [|apply newSubjects_ids]. cbn.
      intros r (H1 & H2). split; [assumption | lia].
    - cbn [bind] in Etx. inversion Etx; subst section rows db1. clear Etx.
      cbn. rewrite app_nil_r. split; [reflexivity | constructor]. }
  destruct Hshape as (Hdb1 & Hrows).
  assert (Hsection : section = mkSection (nextId db) n gradeId None true).
  { destruct subjects as [names|].
    - destruct (createSubjects (nextId db) names _) as [[tx2 created]|e];
        [|discriminate].
      cbn [bind] in Etx. inversion Etx. reflexivity.
    - cbn [bind] in Etx. inversion Etx. reflexivity. }
  subst section. cbn [section_id]. cbv zeta.
  rewrite Hdb1. unfold Rev2.deleteSection. cbn [sections].
  destruct Hbelow as (Hsec & Hsub & Hasg).
  rewrite findFirst_app_none.
  2:{ apply findFirst_none_Forall. eapply Forall_impl; [|exact Hsec]. cbn.
      intros x Hx. apply Nat.eqb_neq. lia. }
  cbn [findFirst find section_id]. rewrite Nat.eqb_refl.
  unfold deleteSectionRow, hasSection. cbn [sections].
  rewrite existsb_app. cbn [existsb section_id]. rewrite Nat.eqb_refl.
  cbn [orb]. rewrite orb_true_r. cbn [fst snd status].
  split; [reflexivity|].
  apply dropSections_new; [repeat split; assumption | reflexivity | exact Hrows].
Qed.

(** X15.  The check of [updateSection] is the unique index on
    (gradeId, name): for a section that exists, in a table where no
    other section of its grade carries its present name, the answer
    is 409, with nothing changed, exactly when another section of
    the grade carries the new name, and otherwise 200 with the row
    renamed; it is never 500. *)
Theorem updateSection_answers db sectionId name n existing :
  required name = Some n ->
  findFirst (fun s => Nat.eqb (section_id s) sectionId) (sections db)
  = Some existing ->
  ~ sectionNameTaken db existing (section_name existing) ->
  let r := Rev2.updateSection db sectionId name in
  (sectionNameTaken db existing n -> status (fst r) = 409 /\ snd r = db)
  /\ (~ sectionNameTaken db existing n ->
      status (fst r) = 200
      /\ sections (snd r)
         = map (fun s => if Nat.eqb (section_id s) sectionId
                         then set_section_name n s else s) (sections db)).
Proof.
  intros Hreq Hf Hindex. cbv zeta.
  unfold Rev2.updateSection. rewrite Hreq, Hf.
  pose proof (findFirst_some _ _ Hf) as (Hin & Hid).
  apply Nat.eqb_eq in Hid.
  assert (Hspec : forall m,
            existsb (fun s => Nat.eqb (section_gradeId s)
                                      (section_gradeId existing)
                              && String.eqb (section_name s) m
                              && negb (Nat.eqb (section_id s) sectionId))
                    (sections db) = true
            <-> sectionNameTaken db existing m).
  { intros m. rewrite existsb_exists. unfold sectionNameTaken. split.
    - intros (s & Hs & Hp). apply andb_true_iff in Hp.
      destruct Hp as (Hp & H3). apply andb_true_iff in Hp.
      destruct Hp as (H1 & H2). apply Nat.eqb_eq in H1.
      apply String.eqb_eq in H2. apply negb_true_iff in H3.
      apply Nat.eqb_neq in H3. exists s. repeat split; congruence.
    - intros (s & Hs & H1 & H2 & H3). exists s. split; [assumption|].
      rewrite H1, H2, Nat.eqb_refl, String.eqb_refl. cbn.
      apply negb_true_iff. apply Nat.eqb_neq. congruence. }
  assert (Hrow : forall m,
            ~ sectionNameTaken db existing m ->
            renameSectionRow db sectionId m
            = Ok (set_section_name m existing,
                  with_sections db
                    (map (fun s => if Nat.eqb (section_id s) sectionId
                                   then set_section_name m s else s)
                         (sections db)))).
  { intros m Hm. unfold renameSectionRow. rewrite Hf.
    destruct (existsb _ (sections db)) eqn:Ex; [|reflexivity].
    exfalso. apply Hm. apply existsb_exists in Ex.
    destruct Ex as (s & Hs & Hp). apply andb_true_iff in Hp.
    destruct Hp as (Hp & H3). apply andb_true_iff in Hp.
    destruct Hp as (H1 & H2). apply negb_true_iff in H1.
    apply Nat.eqb_neq in H1. apply Nat.eqb_eq in H2.
    apply String.eqb_eq in H3. exists s. repeat split; congruence. }
  destruct (String.eqb n (section_name existing)) eqn:En; cbn [negb].
  - apply String.eqb_eq in En. subst n. split; [contradiction|].
    intros _. rewrite (Hrow _ Hindex). split; reflexivity.
  - split.
    + intros Htaken. apply Hspec in Htaken.
      match goal with
      | |- context [findFirst ?p (sections db)] =>
          destruct (findFirst p (sections db)) eqn:E
      end; [split; reflexivity|].
      apply findFirst_none_existsb in E. congruence.
    + intros Hfree.
      match goal with
      | |- context [findFirst ?p (sections db)] =>
          destruct (findFirst p (sections db)) eqn:E
      end.
      * exfalso. apply Hfree. apply Hspec.
        apply findFirst_some_existsb in E. exact E.
      * rewrite (Hrow _ Hfree). split; reflexivity.
Qed.

(* ================================================================= *)
(** * Grades and schools *)

Lemma gradeNameTaken_existsb db gradeId existing m :
  grade_id existing = gradeId ->
  existsb (fun r => negb (Nat.eqb (grade_id r) gradeId)
                    && Nat.eqb (grade_schoolId r) (grade_schoolId existing)
                    && String.eqb (grade_name r) m) (grades db) = true
  <-> gradeNameTaken db existing m.
Proof.
  intros Hid. rewrite existsb_exists. unfold gradeNameTaken. split.
  - intros (g & Hg & Hp). apply andb_true_iff in Hp.
    destruct Hp as (Hp & H3). apply andb_true_iff in Hp.
    destruct Hp as (H1 & H2). apply negb_true_iff in H1.
    apply Nat.eqb_neq in H1. apply Nat.eqb_eq in H2.
    apply String.eqb_eq in H3. exists g. repeat split; congruence.
  - intros (g & Hg & H1 & H2 & H3). exists g. split; [assumption|].
    rewrite H1, H2, Nat.eqb_refl, String.eqb_refl.
    rewrite andb_true_r, andb_true_r.
    apply negb_true_iff. apply Nat.eqb_neq. congruence.
Qed.

Lemma inInt32_fits z : inInt32 z -> fitsInt z = true.
Proof.
  unfold inInt32, fitsInt. intros H. apply andb_true_intro.
  split; [apply Z.leb_le | apply Z.ltb_lt]; lia.
Qed.

(** X16.  [updateGrade] with a new name, for a grade that exists in a
    table where no other grade of its school carries its present
    name.  When another grade of the school carries the new name the
    answer is 409 if that name is not empty and 500 if it is empty
    (the check is skipped for the empty name and the update is
    refused); nothing changes in either case.  When no other grade
    carries it: with no [order], or with one within 32 bits, the
    answer is 200 and the row has the new name; with an [order] that
    does not fit 64 bits the answer is 500 and nothing changes. *)
Theorem updateGrade_name db gradeId req existing new :
  findFirst (fun g => Nat.eqb (grade_id g) gradeId) (grades db)
  = Some existing ->
  Rev2.ug_name req = Some new ->
  ~ gradeNameTaken db existing (grade_name existing) ->
  let r := Rev2.updateGrade db gradeId req in
  let data := mkGradeData (Rev2.ug_name req) (Rev2.ug_order req)
                          (Rev2.ug_isActive req) in
  (gradeNameTaken db existing new ->
   status (fst r) = (if String.eqb new "" then 500 else 409) /\ snd r = db)
  /\ (~ gradeNameTaken db existing new ->
      ((forall order, Rev2.ug_order req = Some order -> inInt32 order) ->
       status (fst r) = 200
       /\ grades (snd r)
          = map (fun g => if Nat.eqb (grade_id g) gradeId
                          then applyGradeData data g else g) (grades db)
       /\ grade_name (applyGradeData data existing) = new)
      /\ (forall order, Rev2.ug_order req = Some order ->
                        fitsInt order = false ->
                        status (fst r) = 500 /\ snd r = db)).
Proof.
  intros Hf Hname Hindex. cbv zeta.
  unfold Rev2.updateGrade. rewrite Hf, Hname.
  pose proof (findFirst_some _ _ Hf) as (Hin & Hid).
  apply Nat.eqb_eq in Hid.
  assert (Hrow : forall taken,
            existsb (fun r => negb (Nat.eqb (grade_id r) gradeId)
                       && Nat.eqb (grade_schoolId r) (grade_schoolId existing)
                       && String.eqb (grade_name r) new) (grades db) = taken ->
            updateGradeRow db gradeId
              (mkGradeData (Some new) (Rev2.ug_order req)
                           (Rev2.ug_isActive req))
            = if negb (match Rev2.ug_order req with
                       | Some order => fitsInt order
                       | None => true
                       end)
              then Err Invalid
              else if taken then Err P2002
              else Ok (applyGradeData
                         (mkGradeData (Some new) (Rev2.ug_order req)
                                      (Rev2.ug_isActive req)) existing,
                       with_grades db
                         (map (fun g => if Nat.eqb (grade_id g) gradeId
                                        then applyGradeData
                                               (mkGradeData (Some new)
                                                  (Rev2.ug_order req)
                                                  (Rev2.ug_isActive req)) g
                                        else g) (grades db)))).
  { intros taken Ht. unfold updateGradeRow. cbn [gd_order].
    destruct (negb _); [reflexivity|]. rewrite Hf.
    cbn [applyGradeData grade_schoolId grade_name gd_name orKeep].
    rewrite Ht. reflexivity. }
  assert (Hfree_row : ~ gradeNameTaken db existing new ->
            existsb (fun r => negb (Nat.eqb (grade_id r) gradeId)
                       && Nat.eqb (grade_schoolId r) (grade_schoolId existing)
                       && String.eqb (grade_name r) new) (grades db) = false).
  { intros Hfree. apply not_true_is_false. intros Hex. apply Hfree.
    apply (@gradeNameTaken_existsb db gradeId existing new Hid). exact Hex. }
  assert (Hwithin : (forall order, Rev2.ug_order req = Some order ->
                                   inInt32 order) ->
                    negb (match Rev2.ug_order req with
                          | Some order => fitsInt order
                          | None => true
                          end) = false).
  { intros H. destruct (Rev2.ug_order req) as [o|]; [|reflexivity].
    rewrite (inInt32_fits (H o eq_refl)). reflexivity. }
  assert (Hbeyond : forall order, Rev2.ug_order req = Some order ->
                                  fitsInt order = false ->
                                  negb (match Rev2.ug_order req with
                                        | Some order => fitsInt order
                                        | None => true
                                        end) = true).
  { intros o Eo Ho. rewrite Eo, Ho. reflexivity. }
  assert (Hconflict :
    forall m,
      findFirst (fun g => Nat.eqb (grade_schoolId g) (grade_schoolId existing)
                          && String.eqb (grade_name g) m
                          && negb (Nat.eqb (grade_id g) gradeId)) (grades db)
      = None <-> ~ gradeNameTaken db existing m).
  { intros m. rewrite findFirst_none_existsb.
    rewrite <- (@gradeNameTaken_existsb db gradeId existing m Hid).
    rewrite <- not_true_iff_false.
    assert (Hsame : existsb
              (fun g => Nat.eqb (grade_schoolId g) (grade_schoolId existing)
                        && String.eqb (grade_name g) m
                        && negb (Nat.eqb (grade_id g) gradeId)) (grades db)
            = existsb
                (fun r => negb (Nat.eqb (grade_id r) gradeId)
                          && Nat.eqb (grade_schoolId r)
                                     (grade_schoolId existing)
                          && String.eqb (grade_name r) m) (grades db)).
    { clear. induction (grades db) as [|g l IH]; [reflexivity|]. cbn.
      rewrite IH. f_equal.
      destruct (Nat.eqb (grade_schoolId g) (grade_schoolId existing)),
        (String.eqb (grade_name g) m), (Nat.eqb (grade_id g) gradeId);
        reflexivity. }
    rewrite Hsame. tauto. }
  unfold required.
  destruct (String.eqb new "") eqn:Eempty.
  - (* the empty name: no check *)
    split.
    + intros Htaken.
      rewrite (Hrow true).
      * destruct (negb _); split; reflexivity.
      * apply (@gradeNameTaken_existsb db gradeId existing new Hid).
        exact Htaken.
    + intros Hfree. rewrite (Hrow false (Hfree_row Hfree)). split.
      * intros Hin32. rewrite (Hwithin Hin32). cbn.
        repeat split; reflexivity.
      * intros o Eo Ho. rewrite (Hbeyond o Eo Ho). split; reflexivity.
  - destruct (String.eqb new (grade_name existing)) eqn:En; cbn [negb].
    + split.
      * apply String.eqb_eq in En. subst new. contradiction.
      * intros Hfree. rewrite (Hrow false (Hfree_row Hfree)). split.
        -- intros Hin32. rewrite (Hwithin Hin32). cbn.
           repeat split; reflexivity.
        -- intros o Eo Ho. rewrite (Hbeyond o Eo Ho). split; reflexivity.
    + split.
      * intros Htaken.
        match goal with
        | |- context [findFirst ?p (grades db)] =>
            destruct (findFirst p (grades db)) eqn:E
        end; [split; reflexivity|].
        apply Hconflict in E. contradiction.
      * intros Hfree. rewrite (proj2 (Hconflict new) Hfree).
        rewrite (Hrow false (Hfree_row Hfree)). split.
        -- intros Hin32. rewrite (Hwithin Hin32). cbn.
           repeat split; reflexivity.
        -- intros o Eo Ho. rewrite (Hbeyond o Eo Ho). split; reflexivity.
Qed.

(** X17.  [createGrade] of [part_001], answered 201: an [order] that
    is given and not zero is the order of the grade; without one, or
    with zero, the grade comes after every grade of the school, one
    above the largest order among them, and gets 1 when the school
    has none. *)
Theorem Rev1_createGrade_order db req g created db' :
  Rev1.createGrade db req = (Json 201 (g, created), db') ->
  (forall order, cg_order req = Some order -> order <> 0%Z ->
                 grade_order g = order)
  /\ (cg_order req = None \/ cg_order req = Some 0%Z ->
      (forall x, In x (grades db) -> grade_schoolId x = cg_schoolId req ->
                 (grade_order x < grade_order g)%Z)
      /\ ((exists x, In x (grades db) /\ grade_schoolId x = cg_schoolId req
                     /\ grade_order g = (grade_order x + 1)%Z)
          \/ ((forall x, In x (grades db) ->
                         grade_schoolId x <> cg_schoolId req)
              /\ grade_order g = 1%Z))).
Proof.
  unfold Rev1.createGrade.
  destruct (required (cg_gradeName req)) as [name|]; [|discriminate].
  destruct (cg_sections req) as [[|s more]|]; try discriminate.
  destruct (findFirst _ (schools db)); [|discriminate].
  destruct (findFirst _ (grades db)); [discriminate|].
  unfold transaction.
  match goal with
  | |- context [createGradeTx ?a ?b ?c ?d ?e] =>
      destruct (createGradeTx a b c d e) as [[[g0 cr] tx]|err] eqn:Etx
  end; [|discriminate].
  intros H. inversion H; subst g0 cr tx. clear H.
  apply createGradeTx_grade in Etx. subst g. cbn [grade_order].
  pose proof (maxOrder_spec db (cg_schoolId req)) as Hmax.
  split.
  - intros order Ho Hnz. rewrite Ho.
    apply Z.eqb_neq in Hnz. rewrite Hnz. reflexivity.
  - intros Hnone.
    assert (Hcomputed :
      match cg_order req with
      | Some order =>
          if Z.eqb order 0
          then (Rev1.orZero (Rev1.maxOrder db (cg_schoolId req)) + 1)%Z
          else order
      | None => (Rev1.orZero (Rev1.maxOrder db (cg_schoolId req)) + 1)%Z
      end = (Rev1.orZero (Rev1.maxOrder db (cg_schoolId req)) + 1)%Z).
    { destruct Hnone as [-> | ->]; reflexivity. }
    rewrite Hcomputed.
    destruct (Rev1.maxOrder db (cg_schoolId req)) as [m|]; cbn [Rev1.orZero].
    + destruct Hmax as ((x & Hx & Hs & Ho) & Hle). split.
      * intros y Hy Hys. specialize (Hle y Hy Hys). lia.
      * left. exists x. repeat split; try assumption. lia.
    + split.
      * intros y Hy Hys. exfalso. exact (Hmax y Hy Hys).
      * right. split; [exact Hmax | reflexivity].
Qed.

Lemma deleteMany_twice {A} (p q : A -> bool) (l : list A) :
  (forall x, q x = true -> p x = true) ->
  deleteMany p (deleteMany q l) = deleteMany p l.
Proof.
  intros H. unfold deleteMany. induction l as [|x l IH]; [reflexivity|].
  cbn. destruct (q x) eqn:Eq; cbn.
  - rewrite (H x Eq). cbn. exact IH.
  - destruct (p x); cbn; rewrite IH; reflexivity.
Qed.

(** X18.  The two [deleteSchool] handlers leave the same store and
    answer with the same status: the users that the one in
    [assignment.controller.ts] deletes first are those the cascade of
    the school's deletion takes in any case. *)
Theorem deleteSchool_versions_agree db id :
  status (fst (SuperadminController.deleteSchoolTx db id))
  = status (fst (SuperadminController.deleteSchool db id))
  /\ snd (SuperadminController.deleteSchoolTx db id)
     = snd (SuperadminController.deleteSchool db id).
Proof.
  unfold SuperadminController.deleteSchoolTx, SuperadminController.deleteSchool.
  destruct (findFirst (fun s => Nat.eqb (school_id s) id) (schools db))
    as [school|] eqn:Ef; [|split; reflexivity].
  assert (Hhas : hasSchool db id = true).
  { apply findFirst_some_existsb in Ef. exact Ef. }
  unfold transaction, deleteSchoolRow.
  change (hasSchool (with_users db _) id) with (hasSchool db id).
  rewrite Hhas. cbn [bind fst snd status]. split; [reflexivity|].
  unfold dropSchools.
  cbn [schools users with_users with_schools].
  rewrite deleteMany_twice; [reflexivity|].
  intros u Hu. apply optId_eqb_eq in Hu. rewrite Hu.
  apply existsb_exists. apply findFirst_some in Ef.
  destruct Ef as (Hin & Hid). exists school. split; [|exact Hid].
  apply filter_In. split; assumption.
Qed.

(* ================================================================= *)
(** * Foreign keys *)

Section Keys.
Context {A : Type}.
Variable key : A -> Id.

Lemma existsb_key (l : list A) i :
  existsb (fun r => Nat.eqb (key r) i) l = true <-> In i (map key l).
Proof.
  rewrite existsb_exists, in_map_iff. split.
  - intros (x & Hx & E). apply Nat.eqb_eq in E. eauto.
  - intros (x & E & Hx). exists x. split; [assumption|].
    apply Nat.eqb_eq. assumption.
Qed.

Lemma existsb_key_false (l : list A) i :
  existsb (fun r => Nat.eqb (key r) i) l = false <-> ~ In i (map key l).
Proof.
  rewrite <- existsb_key. split.
  - intros H. rewrite H. discriminate.
  - apply not_true_is_false.
Qed.

(** A row that is named and not deleted is still there. *)
Lemma key_survives (p : A -> bool) (l : list A) i :
  In i (map key l) -> ~ In i (map key (filter p l)) ->
  In i (map key (deleteMany p l)).
Proof.
  intros Hin Hgone. apply in_map_iff in Hin. destruct Hin as (x & E & Hx).
  apply in_map_iff. exists x. split; [assumption|].
  unfold deleteMany. apply filter_In. split; [assumption|].
  apply negb_true_iff. apply not_true_is_false. intros Hp.
  apply Hgone. apply in_map_iff. exists x. split; [assumption|].
  apply filter_In. split; assumption.
Qed.

Lemma map_key_where (f : A -> A) (p : A -> bool) (l : list A) :
  (forall x, key (f x) = key x) ->
  map key (map (fun r => if p r then f r else r) l) = map key l.
Proof.
  intros Hf. rewrite map_map. apply map_ext. intros x.
  destruct (p x); [apply Hf | reflexivity].
Qed.

End Keys.

Lemma flat_map_update {A} (g : A -> list Id) (f : A -> A) (p : A -> bool)
    (l : list A) :
  (forall x, g (f x) = g x) ->
  flat_map g (map (fun r => if p r then f r else r) l) = flat_map g l.
Proof.
  intros Hf. induction l as [|x l IH]; [reflexivity|].
  cbn. rewrite IH. destruct (p x); [rewrite Hf|]; reflexivity.
Qed.

Lemma in_flat_map_opt {A} (g : A -> option Id) (l : list A) i :
  In i (flat_map (fun x => optList (g x)) l)
  <-> exists x, In x l /\ g x = Some i.
Proof.
  rewrite in_flat_map. split.
  - intros (x & Hx & Hi). exists x. split; [assumption|].
    destruct (g x) as [j|]; cbn in Hi; [|contradiction].
    destruct Hi as [->|[]]. reflexivity.
  - intros (x & Hx & E). exists x. split; [assumption|]. rewrite E.
    left. reflexivity.
Qed.

(** A foreign key holds when the ids named are among the ids there. *)
Lemma holds_incl k db : holds k db <-> incl (src k db) (tgt k db).
Proof.
  unfold incl.
  destruct k; cbn [holds src tgt]; rewrite Forall_forall; split.
  all: try (intros H i Hi; apply in_flat_map_opt in Hi;
            destruct Hi as (x & Hx & E); specialize (H x Hx);
            rewrite E in H; cbn [optRef] in H;
            apply existsb_key in H; exact H).
  all: try (intros H x Hx;
            match goal with
            | |- optRef _ ?o = true =>
                destruct o as [j|] eqn:E; [|reflexivity]
            end;
            cbn [optRef]; apply existsb_key; apply H;
            apply in_flat_map_opt; eauto).
  all: try (intros H i Hi; apply in_map_iff in Hi;
            destruct Hi as (x & <- & Hx); specialize (H x Hx);
            apply existsb_key in H; exact H).
  all: try (intros H x Hx; apply existsb_key; apply H;
            apply in_map_iff; eauto).
Qed.

Lemma refsOk_incl db : refsOk db <-> forall k, incl (src k db) (tgt k db).
Proof.
  unfold refsOk. split; intros H k; apply holds_incl; apply H.
Qed.
Lemma incl_map_filter {A B} (f : A -> B) (p : A -> bool) (l : list A) :
  incl (map f (filter p l)) (map f l).
Proof.
  intros y Hy. apply in_map_iff in Hy. destruct Hy as (x & <- & Hx).
  apply filter_In in Hx. apply in_map. tauto.
Qed.

Lemma incl_flat_map_filter {A B} (f : A -> list B) (p : A -> bool)
    (l : list A) :
  incl (flat_map f (filter p l)) (flat_map f l).
Proof.
  intros y Hy. apply in_flat_map in Hy. destruct Hy as (x & Hx & Hi).
  apply filter_In in Hx. apply in_flat_map. exists x. tauto.
Qed.

Lemma optRef_incl {A} (key : A -> Id) (l : list A) o :
  optRef (fun i => existsb (fun r => Nat.eqb (key r) i) l) o = true ->
  incl (optList o) (map key l).
Proof.
  destruct o as [i|]; cbn; intros H x Hx; [|contradiction].
  destruct Hx as [<-|[]]. apply existsb_key. exact H.
Qed.

Lemma incl_one {A} (x : A) (l : list A) : In x l -> incl [x] l.
Proof. intros H y [<-|[]]. exact H. Qed.

(** ** Deletions and their cascades *)

Lemma dropSectionSubjects_refs k q db :
  incl (src k db) (tgt k db) ->
  incl (src k (dropSectionSubjects q db)) (tgt k (dropSectionSubjects q db)).
Proof.
  intros H. unfold dropSectionSubjects. cbv zeta.
  destruct k;
    cbn [src tgt schools users tutors grades sections sectionSubjects
         assignments with_assignments with_sectionSubjects] in *;
    try exact H.
  - eapply incl_tran; [apply incl_map_filter | exact H].
  - eapply incl_tran; [apply incl_map_filter | exact H].
  - intros i Hi. apply in_map_iff in Hi. destruct Hi as (a & <- & Ha).
    unfold deleteMany in Ha. apply filter_In in Ha. destruct Ha as (Ha & Hk).
    apply negb_true_iff in Hk. apply existsb_key_false in Hk.
    apply key_survives; [|exact Hk]. apply H. apply in_map. exact Ha.
Qed.

Lemma dropSections_refs k p db :
  incl (src k db) (tgt k db) ->
  incl (src k (dropSections p db)) (tgt k (dropSections p db)).
Proof.
  intros H. unfold dropSections. cbv zeta.
  destruct k eqn:Ek;
    try (apply dropSectionSubjects_refs;
         cbn [src tgt schools users tutors grades sections sectionSubjects
              assignments with_sections] in *;
         first [ exact H
               | eapply incl_tran; [apply incl_map_filter | exact H]
               | eapply incl_tran; [apply incl_flat_map_filter | exact H] ]).
  unfold dropSectionSubjects. cbv zeta.
  cbn [src tgt schools users tutors grades sections sectionSubjects
       assignments with_assignments with_sectionSubjects with_sections] in *.
  intros i Hi. apply in_map_iff in Hi. destruct Hi as (s & <- & Hs).
  unfold deleteMany in Hs. apply filter_In in Hs. destruct Hs as (Hs & Hk).
  apply negb_true_iff in Hk. apply existsb_key_false in Hk.
  apply key_survives; [|exact Hk]. apply H. apply in_map. exact Hs.
Qed.

Lemma dropGrades_refs k p db :
  incl (src k db) (tgt k db) ->
  incl (src k (dropGrades p db)) (tgt k (dropGrades p db)).
Proof.
  intros H. unfold dropGrades. cbv zeta.
  destruct k eqn:Ek;
    try (apply dropSections_refs;
         cbn [src tgt schools users tutors grades sections sectionSubjects
              assignments with_grades] in *;
         first [ exact H
               | eapply incl_tran; [apply incl_map_filter | exact H] ]).
  unfold dropSections, dropSectionSubjects. cbv zeta.
  cbn [src tgt schools users tutors grades sections sectionSubjects
       assignments with_assignments with_sectionSubjects with_sections
       with_grades] in *.
  intros i Hi. apply in_map_iff in Hi. destruct Hi as (s & <- & Hs).
  unfold deleteMany in Hs. apply filter_In in Hs. destruct Hs as (Hs & Hk).
  apply negb_true_iff in Hk. apply existsb_key_false in Hk.
  apply key_survives; [|exact Hk]. apply H. apply in_map. exact Hs.
Qed.

Lemma dropTutors_refs k p db :
  incl (src k db) (tgt k db) ->
  incl (src k (dropTutors p db)) (tgt k (dropTutors p db)).
Proof.
  intros H. unfold dropTutors. cbv zeta.
  destruct k;
    cbn [src tgt schools users tutors grades sections sectionSubjects
         assignments] in *.
  - eapply incl_tran; [apply incl_flat_map_filter | exact H].
  - intros i Hi. apply in_flat_map_opt in Hi. destruct Hi as (u & Hu & E).
    unfold deleteMany in Hu. apply filter_In in Hu. destruct Hu as (Hu & Hk).
    rewrite E in Hk. apply negb_true_iff in Hk.
    apply existsb_key_false in Hk.
    apply key_survives; [|exact Hk]. apply H. apply in_flat_map_opt. eauto.
  - eapply incl_tran; [apply incl_map_filter | exact H].
  - exact H.
  - unfold updateMany. rewrite map_key_where by reflexivity. exact H.
  - intros i Hi. apply in_flat_map_opt in Hi. destruct Hi as (s & Hs & E).
    unfold updateMany in Hs. apply in_map_iff in Hs.
    destruct Hs as (x & Hx & Hin).
    destruct (section_classTutorId x) as [j|] eqn:Ej.
    + destruct (existsb _ (filter p (tutors db))) eqn:Hk.
      * subst s. cbn in E. discriminate.
      * subst s. assert (j = i) by congruence. subst j.
        apply existsb_key_false in Hk.
        apply key_survives; [|exact Hk]. apply H. apply in_flat_map_opt.
        eauto.
    + subst s. congruence.
  - unfold updateMany. rewrite map_key_where by reflexivity. exact H.
  - intros i Hi. apply in_map_iff in Hi. destruct Hi as (a & <- & Ha).
    unfold deleteMany in Ha. apply filter_In in Ha. destruct Ha as (Ha & Hk).
    apply negb_true_iff in Hk. apply existsb_key_false in Hk.
    apply key_survives; [|exact Hk]. apply H. apply in_map. exact Ha.
  - eapply incl_tran; [apply incl_map_filter | exact H].
Qed.

Lemma dropSchools_refs k p db :
  incl (src k db) (tgt k db) ->
  incl (src k (dropSchools p db)) (tgt k (dropSchools p db)).
Proof.
  intros H. unfold dropSchools.
  set (gone := filter p (schools db)).
  set (db0 := with_users (with_schools db (deleteMany p (schools db)))
                (deleteMany (fun u => match user_schoolId u with
                                      | Some i =>
                                          existsb (fun s => Nat.eqb (school_id s) i)
                                                  gone
                                      | None => false
                                      end) (users db))).
  assert (Hschools : forall d q, schools (dropGrades q d) = schools d)
    by reflexivity.
  destruct k eqn:Ek.
  - (* UserSchool *)
    cbn [src tgt]. intros i Hi. apply in_flat_map_opt in Hi.
    destruct Hi as (u & Hu & E).
    change (users (dropGrades _ (dropTutors _ db0)))
      with (deleteMany (fun u => match user_tutorId u with
                                 | Some i =>
                                     existsb (fun t => Nat.eqb (tutor_id t) i)
                                       (filter (fun t => existsb
                                                  (fun s => Nat.eqb (school_id s)
                                                              (tutor_schoolId t))
                                                  gone) (tutors db0))
                                 | None => false
                                 end) (users db0)) in Hu.
    unfold deleteMany in Hu. apply filter_In in Hu. destruct Hu as (Hu & _).
    cbn [users db0 with_users with_schools] in Hu.
    apply filter_In in Hu. destruct Hu as (Hu & Hk).
    rewrite E in Hk. apply negb_true_iff in Hk.
    apply existsb_key_false in Hk.
    change (schools (dropGrades _ (dropTutors _ db0)))
      with (deleteMany p (schools db)).
    apply key_survives; [|exact Hk]. apply H. apply in_flat_map_opt. eauto.
  - apply dropGrades_refs. apply dropTutors_refs.
    cbn [src tgt db0 users tutors with_users with_schools] in *.
    eapply incl_tran; [apply incl_flat_map_filter | exact H].
  - (* TutorSchool *)
    cbn [src tgt]. intros i Hi. apply in_map_iff in Hi.
    destruct Hi as (t & <- & Ht).
    change (tutors (dropGrades _ (dropTutors _ db0)))
      with (deleteMany (fun t => existsb (fun s => Nat.eqb (school_id s)
                                                    (tutor_schoolId t)) gone)
                       (tutors db)) in Ht.
    unfold deleteMany in Ht. apply filter_In in Ht. destruct Ht as (Ht & Hk).
    apply negb_true_iff in Hk. apply existsb_key_false in Hk.
    change (schools (dropGrades _ (dropTutors _ db0)))
      with (deleteMany p (schools db)).
    apply key_survives; [|exact Hk]. apply H. apply in_map. exact Ht.
  - (* GradeSchool *)
    cbn [src tgt]. intros i Hi. apply in_map_iff in Hi.
    destruct Hi as (g & <- & Hg).
    change (grades (dropGrades _ (dropTutors _ db0)))
      with (deleteMany (fun g => existsb (fun s => Nat.eqb (school_id s)
                                                    (grade_schoolId g)) gone)
                       (grades db)) in Hg.
    unfold deleteMany in Hg. apply filter_In in Hg. destruct Hg as (Hg & Hk).
    apply negb_true_iff in Hk. apply existsb_key_false in Hk.
    change (schools (dropGrades _ (dropTutors _ db0)))
      with (deleteMany p (schools db)).
    apply key_survives; [|exact Hk]. apply H. apply in_map. exact Hg.
  - apply dropGrades_refs. apply dropTutors_refs. exact H.
  - apply dropGrades_refs. apply dropTutors_refs. exact H.
  - apply dropGrades_refs. apply dropTutors_refs. exact H.
  - apply dropGrades_refs. apply dropTutors_refs. exact H.
  - apply dropGrades_refs. apply dropTutors_refs. exact H.
Qed.
(** ** Each write keeps each foreign key *)

#[global] Hint Rewrite @map_key_where @flat_map_update
  using (intros; reflexivity) : refs.
#[global] Hint Extern 1 (incl _ _) => apply incl_map_filter : refs.
#[global] Hint Extern 1 (incl _ _) => apply incl_flat_map_filter : refs.

Lemma write_refs k db db' :
  write db db' ->
  incl (src k db) (tgt k db) -> incl (src k db') (tgt k db').
Proof.
  intros W H. destruct W as
    [db name code row db' E
    |db name email phone password role schoolId tutorId row db' E
    |db name email phone schoolId active row db' E
    |db name schoolId order active row db' E
    |db name gradeId active row db' E
    |db name sectionId row db' E
    |db tutorId sectionSubjectId active row db' E
    |db i b db' E
    |db i b db' E
    |db i t db' Ht E
    |db i d row db' E
    |db p d db' E
    |db i d row db' E
    |db i name row db' E
    |db i db' E |db i db' E |db i db' E |db i db' E |db i db' E |db i db' E
    |db p |db p |db p].
  - (* a school *)
    unfold createSchoolRow in E.
    destruct (existsb _ (schools db)); [discriminate|].
    inversion E; subst. destruct k; same_refs H.
  - (* a user *)
    unfold createUserRow in E.
    destruct (existsb _ (users db)); [discriminate|].
    destruct (match tutorId with Some _ => _ | None => _ end);
      [discriminate|].
    destruct (optRef (hasSchool db) schoolId) eqn:E1;
      [|cbn in E; discriminate].
    destruct (optRef (hasTutor db) tutorId) eqn:E2;
      [|cbn in E; discriminate].
    cbn in E. inversion E; subst.
    destruct k; try (same_refs H); tables;
      rewrite flat_map_app; cbn [flat_map user_schoolId user_tutorId];
      rewrite app_nil_r; apply incl_app; try exact H.
    + apply optRef_incl. exact E1.
    + apply optRef_incl. exact E2.
  - (* a tutor *)
    unfold createTutorRow in E.
    destruct (existsb _ (tutors db)); [discriminate|].
    destruct (hasSchool db schoolId) eqn:E1; [|discriminate].
    cbn in E. inversion E; subst.
    destruct k; try (same_refs H); tables.
    rewrite map_app. apply incl_app; [exact H|].
    apply incl_one. apply existsb_key. exact E1.
  - (* a grade *)
    unfold createGradeRow in E.
    destruct (negb (fitsInt order)); [discriminate|].
    destruct (existsb _ (grades db)); [discriminate|].
    destruct (hasSchool db schoolId) eqn:E1; [|discriminate].
    cbn in E. inversion E; subst.
    destruct k; try (same_refs H); tables.
    rewrite map_app. apply incl_app; [exact H|].
    apply incl_one. apply existsb_key. exact E1.
  - (* a section *)
    unfold createSectionRow in E.
    destruct (existsb _ (sections db)); [discriminate|].
    destruct (hasGrade db gradeId) eqn:E1; [|discriminate].
    cbn in E. inversion E; subst.
    destruct k; try (same_refs H); tables.
    rewrite map_app. apply incl_app; [exact H|].
    apply incl_one. apply existsb_key. exact E1.
  - (* a section subject *)
    unfold createSectionSubjectRow in E.
    destruct (existsb _ (sectionSubjects db)); [discriminate|].
    destruct (hasSection db sectionId) eqn:E1; [|discriminate].
    cbn in E. inversion E; subst.
    destruct k; try (same_refs H); tables.
    rewrite map_app. apply incl_app; [exact H|].
    apply incl_one. apply existsb_key. exact E1.
  - (* an assignment *)
    unfold createAssignmentRow in E.
    destruct (existsb _ (assignments db)); [discriminate|].
    destruct (hasTutor db tutorId) eqn:E1; [|discriminate].
    destruct (hasSectionSubject db sectionSubjectId) eqn:E2; [|discriminate].
    cbn in E. inversion E; subst.
    destruct k; try (same_refs H); tables;
      rewrite map_app; (apply incl_app; [exact H|]);
      apply incl_one; apply existsb_key; assumption.
  - (* a subject switched on or off *)
    unfold updateSectionSubjectRow in E.
    destruct (updateWhere _ _ _ _) as [l|e] eqn:Eu; [|discriminate].
    apply updateWhere_ok in Eu. destruct Eu as (-> & _).
    cbn in E. inversion E; subst. destruct k; same_refs H.
  - (* an assignment switched on or off *)
    unfold updateAssignmentRow in E.
    destruct (updateWhere _ _ _ _) as [l|e] eqn:Eu; [|discriminate].
    apply updateWhere_ok in Eu. destruct Eu as (-> & _).
    cbn in E. inversion E; subst. destruct k; same_refs H.
  - (* a class tutor *)
    apply updateSectionRow_ok in E. subst db'.
    destruct k; try (same_refs H); tables.
    intros j Hj. apply in_flat_map_opt in Hj. destruct Hj as (s & Hs & Ej).
    apply in_map_iff in Hs. destruct Hs as (x & Hx & Hin).
    destruct (Nat.eqb (section_id x) i).
    + subst s. cbn in Ej. subst t. cbn in Ht. apply existsb_key. exact Ht.
    + subst s. apply H. apply in_flat_map_opt. eauto.
  - (* the columns of a tutor *)
    unfold updateTutorRow in E.
    destruct (findFirst _ (tutors db)); [|discriminate].
    destruct (existsb _ (tutors db)); [discriminate|].
    inversion E; subst. destruct k; same_refs H.
  - (* the columns of users *)
    unfold updateManyUsers in E.
    destruct (existsb _ (users db)); [discriminate|].
    inversion E; subst. destruct k; same_refs H.
  - (* the columns of a grade *)
    unfold updateGradeRow in E.
    destruct (negb _); [discriminate|].
    destruct (findFirst _ (grades db)); [|discriminate].
    destruct (existsb _ (grades db)); [discriminate|].
    inversion E; subst. destruct k; same_refs H.
  - (* the name of a section *)
    unfold renameSectionRow in E.
    destruct (findFirst _ (sections db)); [|discriminate].
    destruct (existsb _ (sections db)); [discriminate|].
    inversion E; subst. destruct k; same_refs H.
  - unfold deleteTutorRow in E. destruct (hasTutor db i); [|discriminate].
    inversion E; subst. apply dropTutors_refs. exact H.
  - unfold deleteAssignmentRow in E.
    destruct (existsb _ (assignments db)); [|discriminate].
    inversion E; subst. destruct k; same_refs H.
  - unfold deleteSectionSubjectRow in E.
    destruct (hasSectionSubject db i); [|discriminate].
    inversion E; subst. apply dropSectionSubjects_refs. exact H.
  - unfold deleteSectionRow in E. destruct (hasSection db i); [|discriminate].
    inversion E; subst. apply dropSections_refs. exact H.
  - unfold deleteGradeRow in E. destruct (hasGrade db i); [|discriminate].
    inversion E; subst. apply dropGrades_refs. exact H.
  - unfold deleteSchoolRow in E. destruct (hasSchool db i); [|discriminate].
    inversion E; subst. apply dropSchools_refs. exact H.
  - destruct k; same_refs H.
  - destruct k; try (same_refs H); tables.
    intros j Hj. apply in_flat_map_opt in Hj. destruct Hj as (s & Hs & Ej).
    unfold updateMany in Hs. apply in_map_iff in Hs.
    destruct Hs as (x & Hx & Hin).
    destruct (p x).
    + subst s. cbn in Ej. discriminate.
    + subst s. apply H. apply in_flat_map_opt. eauto.
  - destruct k; same_refs H.
Qed.

Lemma writes_refs db db' : writes db db' -> refsOk db -> refsOk db'.
Proof.
  intros W H. apply refsOk_incl. rewrite refsOk_incl in H.
  induction W as [|db db1 db2 _ IH W]; [exact H|].
  intros k. eapply write_refs; eauto.
Qed.

Lemma writes_trans a b c : writes a b -> writes b c -> writes a c.
Proof.
  intros Hab Hbc. revert Hab.
  induction Hbc as [|b c d _ IH W]; intros Hab; [exact Hab|].
  eapply writes_more; [apply IH; exact Hab | exact W].
Qed.

Lemma writes_one a b : write a b -> writes a b.
Proof. intros W. eapply writes_more; [apply writes_none | exact W]. Qed.

(* ================================================================= *)
(** * Every handler is a sequence of writes *)

Lemma forEach_writes {A S} (proj : S -> DB) (body : A -> S -> result S) :
  (forall x st st', body x st = Ok st' -> writes (proj st) (proj st')) ->
  forall l st st', forEach body l st = Ok st' -> writes (proj st) (proj st').
Proof.
  intros Hbody.
  apply (forEach_preorder body (fun a b => writes (proj a) (proj b))).
  - intros st. apply writes_none.
  - intros a b c. apply writes_trans.
  - exact Hbody.
Qed.

Lemma transaction_writes {A} (body : DB -> result (A * DB)) db :
  (forall a db', body db = Ok (a, db') -> writes db db') ->
  writes db (snd (transaction body db)).
Proof.
  intros H. unfold transaction.
  destruct (body db) as [[a db']|e] eqn:E; cbn [snd];
    [eapply H; eauto | apply writes_none].
Qed.

Lemma createSchool_writes db req temp hash :
  writes db (snd (SuperadminController.createSchool db req temp hash)).
Proof.
  unfold SuperadminController.createSchool.
  repeat (branch_on_check; cbn [snd]; try apply writes_none).
  drop_answer. apply transaction_writes. intros a db' E. straight E.
Qed.

Lemma createTutor_writes db req temp hash :
  writes db (snd (createTutor db req temp hash)).
Proof.
  unfold createTutor.
  repeat (branch_on_check; cbn [snd]; try apply writes_none).
  drop_answer. apply transaction_writes. intros a db' E.
  unfold createTutorTx in E. straight E.
Qed.

Lemma deleteTutor_writes db tutorId force :
  writes db (snd (deleteTutor db tutorId force)).
Proof.
  unfold deleteTutor.
  repeat (branch_on_answer; cbn [snd]; try apply writes_none).
  by_writes.
Qed.

Lemma createSubjects_writes sectionId names st st' :
  createSubjects sectionId names st = Ok st' -> writes (fst st) (fst st').
Proof.
  unfold createSubjects. apply (forEach_writes fst).
  intros x [tx acc] [tx' acc']. unfold bind.
  destruct (createSectionSubjectRow tx x sectionId true) as [[row d]|e] eqn:E;
    [|discriminate].
  intros H. inversion H; subst. cbn [fst]. by_writes.
Qed.

Lemma createSections_writes gradeId sections st st' :
  createSections gradeId sections st = Ok st' -> writes (fst st) (fst st').
Proof.
  unfold createSections. apply (forEach_writes fst).
  intros x [tx acc] [tx' acc']. unfold bind.
  destruct (createSectionRow tx (sd_name x) gradeId true) as [[row d]|e] eqn:E;
    [|discriminate].
  destruct (sd_subjects x) as [names|].
  - destruct (createSubjects (section_id row) names (d, []))
      as [[d2 subs]|e] eqn:E2; [|discriminate].
    intros H. inversion H; subst. cbn [fst].
    apply createSubjects_writes in E2. cbn [fst] in E2.
    eapply writes_trans; [|exact E2]. by_writes.
  - intros H. inversion H; subst. cbn [fst]. by_writes.
Qed.

Lemma createGradeTx_writes schoolId name order sections tx created tx' :
  createGradeTx schoolId name order sections tx = Ok (created, tx') ->
  writes tx tx'.
Proof.
  unfold createGradeTx, bind.
  destruct (createGradeRow tx name schoolId order true) as [[g d]|e] eqn:E;
    [|discriminate].
  destruct (createSections (grade_id g) sections (d, [])) as [[d2 cr]|e] eqn:E2;
    [|discriminate].
  intros H. inversion H; subst.
  apply createSections_writes in E2. cbn [fst] in E2.
  eapply writes_trans; [|exact E2]. by_writes.
Qed.

Lemma snd_answer {A B} (r : result A * DB) (f : A -> Response B)
    (g : PrismaError -> Response B) :
  snd (match r with
       | (Ok a, d) => (f a, d)
       | (Err e, d) => (g e, d)
       end) = snd r.
Proof. destruct r as [[a|e] d]; reflexivity. Qed.

Lemma createGrade_writes db req :
  writes db (snd (Rev1.createGrade db req))
  /\ writes db (snd (Rev2.createGrade db req)).
Proof.
  split.
  - unfold Rev1.createGrade.
    destruct (required (cg_gradeName req)); [|apply writes_none].
    destruct (cg_sections req) as [[|sec more]|]; try apply writes_none.
    destruct (findFirst _ (schools db)); [|apply writes_none].
    destruct (findFirst _ (grades db)); [apply writes_none|].
    rewrite (snd_answer _ (fun created => Json 201 created)
                          (fun _ => Message 500 "Failed to create grade")).
    apply transaction_writes. intros a db'. apply createGradeTx_writes.
  - unfold Rev2.createGrade.
    destruct (required (cg_gradeName req)); [|apply writes_none].
    destruct (cg_sections req) as [[|sec more]|]; try apply writes_none.
    destruct (findFirst _ (grades db)); [apply writes_none|].
    rewrite (snd_answer _ (fun created => Json 201 created)
                          (fun _ => Message 500 "Failed to create grade")).
    apply transaction_writes. intros a db'. apply createGradeTx_writes.
Qed.

Lemma updateSectionSubjects_writes db sectionId subjects :
  writes db (snd (Rev2.updateSectionSubjects db sectionId subjects)).
Proof.
  unfold Rev2.updateSectionSubjects.
  destruct subjects as [names|]; [|apply writes_none].
  destruct (findFirst _ (sections db)); [|apply writes_none].
  match goal with
  | |- writes db (snd (match ?r with _ => _ end)) =>
      replace (snd (match r with
                    | (Ok (added, removed), db') =>
                        (Json 200 (map ss_name added, map ss_name removed),
                         db')
                    | (Err _, db') =>
                        (Message 500 "Failed to update section subjects", db')
                    end))
        with (snd r)
        by (destruct r as [[[? ?]|?] ?]; reflexivity)
  end.
  apply transaction_writes. intros [added removed] db'.
  unfold Rev2.updateSectionSubjectsTx, bind.
  match goal with |- context [forEach (Rev2.addStep sectionId) ?l ?s] =>
    destruct (forEach (Rev2.addStep sectionId) l s) as [[tx1 add]|e] eqn:E1
  end; [|discriminate].
  match goal with |- context [forEach Rev2.deactivateStep ?l tx1] =>
    destruct (forEach Rev2.deactivateStep l tx1) as [tx2|e] eqn:E2
  end; [|discriminate].
  intros H. inversion H; subst.
  apply (forEach_writes fst) in E1.
  - apply (forEach_writes (fun d => d)) in E2.
    + eapply writes_trans; [exact E1 | exact E2].
    + intros x a b. unfold Rev2.deactivateStep. intros E. by_writes.
  - intros x [tx acc] [tx' acc']. unfold Rev2.addStep, bind.
    destruct (findFirst _ (sectionSubjects tx)) as [old|].
    + destruct (updateSectionSubjectRow tx (ss_id old) _) as [d|e] eqn:E;
        [|discriminate].
      intros H1. inversion H1; subst. cbn [fst]. by_writes.
    + destruct (createSectionSubjectRow tx x sectionId true)
        as [[row d]|e] eqn:E; [|discriminate].
      intros H1. inversion H1; subst. cbn [fst]. by_writes.
Qed.

Lemma simple_handlers_write db i name o o' g :
  writes db (snd (Rev2.addSubjectToSection db i name))
  /\ writes db (snd (Rev2.deleteSubjectFromSection db i))
  /\ writes db (snd (Rev2.deleteSection db i))
  /\ writes db (snd (Rev2.deleteGrade db i))
  /\ writes db (snd (Rev2.removeAssignment db i))
  /\ writes db (snd (Rev2.removeClassTutor db i))
  /\ writes db (snd (Rev2.updateSection db i name))
  /\ writes db (snd (SuperadminController.deleteSchool db i))
  /\ writes db (snd (Rev2.updateGrade db i g))
  /\ writes db (snd (Rev2.assignSubjectToTutor db i o o')).
Proof.
  repeat split.
  - unfold Rev2.addSubjectToSection.
    repeat (branch_on_answer; cbn [snd]; try apply writes_none); by_writes.
  - unfold Rev2.deleteSubjectFromSection.
    repeat (branch_on_answer; cbn [snd]; try apply writes_none); by_writes.
  - unfold Rev2.deleteSection.
    repeat (branch_on_answer; cbn [snd]; try apply writes_none); by_writes.
  - unfold Rev2.deleteGrade.
    repeat (branch_on_answer; cbn [snd]; try apply writes_none); by_writes.
  - unfold Rev2.removeAssignment.
    repeat (branch_on_answer; cbn [snd]; try apply writes_none); by_writes.
  - unfold Rev2.removeClassTutor.
    repeat (branch_on_answer; cbn [snd]; try apply writes_none).
    eapply writes_one, w_class_tutor; [|eassumption]. reflexivity.
  - unfold Rev2.updateSection.
    repeat (branch_on_answer; cbn [snd]; try apply writes_none); by_writes.
  - unfold SuperadminController.deleteSchool.
    repeat (branch_on_answer; cbn [snd]; try apply writes_none); by_writes.
  - unfold Rev2.updateGrade.
    repeat (branch_on_answer; cbn [snd]; try apply writes_none); by_writes.
  - unfold Rev2.assignSubjectToTutor.
    repeat (branch_on_answer; cbn [snd]; try apply writes_none); by_writes.
Qed.

Lemma clearTutor_writes t db : writes db (clearTutor t db).
Proof.
  unfold clearTutor.
  eapply writes_more; [eapply writes_one; apply w_delete_assignments|].
  apply (w_clear_class_tutors
           (with_assignments db
              (deleteMany (fun a => Nat.eqb (tsa_tutorId a) t)
                          (assignments db)))).
Qed.

Lemma tutor_found db tutorId p t :
  findFirst (fun x => Nat.eqb (tutor_id x) tutorId && p x) (tutors db)
  = Some t ->
  hasTutor db tutorId = true.
Proof.
  intros H. apply findFirst_some in H. destruct H as (Hin & Hp).
  apply andb_true_iff in Hp. destruct Hp as (Hid & _).
  apply existsb_exists. exists t. split; assumption.
Qed.

(** ** [smartAssignTutor] *)

Lemma Rev2_subjectStep_writes t sid g s x st st' :
  Rev2.subjectStep t sid g s x st = Ok st' ->
  writes (acc_db st) (acc_db st') /\ tutors (acc_db st') = tutors (acc_db st).
Proof.
  unfold Rev2.subjectStep. intros E.
  unfold_run E; cbn [acc_db pushSkipped pushCreated].
  all: split; [by_writes|].
  all: repeat match goal with
         | H : createSectionSubjectRow _ _ _ _ = Ok _ |- _ =>
             apply createSectionSubjectRow_ok in H;
             destruct H as (? & ? & _); subst
         | H : createAssignmentRow _ _ _ _ = Ok _ |- _ =>
             apply createAssignmentRow_ok in H;
             destruct H as (? & ? & _); subst
         | H : updateAssignmentRow _ _ _ = Ok _ |- _ =>
             apply updateAssignmentRow_ok in H; subst
         end; reflexivity.
Qed.
Lemma Rev1_subjectStep_writes t sid g s x st st' :
  Rev1.subjectStep t sid g s x st = Ok st' ->
  writes (acc_db st) (acc_db st') /\ tutors (acc_db st') = tutors (acc_db st).
Proof.
  unfold Rev1.subjectStep. intros E.
  unfold_run E; cbn [acc_db withDb pushCreated].
  all: split; [by_writes|].
  all: repeat match goal with
         | H : createSectionSubjectRow _ _ _ _ = Ok _ |- _ =>
             apply createSectionSubjectRow_ok in H;
             destruct H as (? & ? & _); subst
         | H : createAssignmentRow _ _ _ _ = Ok _ |- _ =>
             apply createAssignmentRow_ok in H;
             destruct H as (? & ? & _); subst
         end; reflexivity.
Qed.

(** The loops of [smartAssignTutor] write and leave the tutors. *)
Lemma keySteps_write schoolId t l st st' :
  (forEach (Rev2.keyStep schoolId t) l st = Ok st'
   \/ forEach (Rev1.keyStep schoolId t) l st = Ok st') ->
  writes (acc_db st) (acc_db st') /\ tutors (acc_db st') = tutors (acc_db st).
Proof.
  assert (Hrefl : forall a : Acc,
            writes (acc_db a) (acc_db a) /\ tutors (acc_db a) = tutors (acc_db a))
    by (intros a; split; [apply writes_none | reflexivity]).
  assert (Htrans : forall a b c : Acc,
            writes (acc_db a) (acc_db b) /\ tutors (acc_db b) = tutors (acc_db a) ->
            writes (acc_db b) (acc_db c) /\ tutors (acc_db c) = tutors (acc_db b) ->
            writes (acc_db a) (acc_db c) /\ tutors (acc_db c) = tutors (acc_db a)).
  { intros a b c (W1 & T1) (W2 & T2). split.
    - eapply writes_trans; eauto.
    - congruence. }
  intros [E|E]; revert E.
  - apply (forEach_preorder (Rev2.keyStep schoolId t)
             (fun a b => writes (acc_db a) (acc_db b)
                         /\ tutors (acc_db b) = tutors (acc_db a)));
      [exact Hrefl | exact Htrans |].
    intros [key names] a b. unfold Rev2.keyStep.
    destruct (matchKey key) as [[g s]|];
      [|intros H; inversion H; exact (Hrefl a)].
    destruct (findFirst _ (grades (acc_db a)));
      [|intros H; inversion H; exact (Hrefl a)].
    destruct (findFirst _ (sections (acc_db a))) as [section|];
      [|intros H; inversion H; exact (Hrefl a)].
    apply (forEach_preorder
             (Rev2.subjectStep t (section_id section) g s)
             (fun a b => writes (acc_db a) (acc_db b)
                         /\ tutors (acc_db b) = tutors (acc_db a)));
      [exact Hrefl | exact Htrans |].
    intros x y z. apply Rev2_subjectStep_writes.
  - apply (forEach_preorder (Rev1.keyStep schoolId t)
             (fun a b => writes (acc_db a) (acc_db b)
                         /\ tutors (acc_db b) = tutors (acc_db a)));
      [exact Hrefl | exact Htrans |].
    intros [key names] a b. unfold Rev1.keyStep.
    destruct (matchKey key) as [[g s]|];
      [|intros H; inversion H; exact (Hrefl a)].
    destruct (findFirst _ (grades (acc_db a)));
      [|intros H; inversion H; exact (Hrefl a)].
    destruct (findFirst _ (sections (acc_db a))) as [section|];
      [|intros H; inversion H; exact (Hrefl a)].
    apply (forEach_preorder
             (Rev1.subjectStep t (section_id section) g s)
             (fun a b => writes (acc_db a) (acc_db b)
                         /\ tutors (acc_db b) = tutors (acc_db a)));
      [exact Hrefl | exact Htrans |].
    intros x y z. apply Rev1_subjectStep_writes.
Qed.

Lemma classTutorSteps_write schoolId t cg cs st st' cta :
  hasTutor (acc_db st) t = true ->
  (Rev2.classTutorStep schoolId t cg cs st = Ok (st', cta)
   \/ Rev1.classTutorStep schoolId t cg cs st = Ok (st', cta)) ->
  writes (acc_db st) (acc_db st').
Proof.
  intros Ht [E|E].
  - unfold Rev2.classTutorStep in E. unfold_run E;
      cbn [acc_db pushError withDb]; try apply writes_none.
    all: eapply writes_one, w_class_tutor; [|eassumption]; exact Ht.
  - unfold Rev1.classTutorStep in E. unfold_run E;
      cbn [acc_db pushError withDb]; try apply writes_none.
    all: eapply writes_one, w_class_tutor; [|eassumption]; exact Ht.
Qed.

Lemma smartAssignTutor_writes db req :
  writes db (snd (Rev2.smartAssignTutor db req))
  /\ writes db (snd (Rev1.smartAssignTutor db req)).
Proof.
  split.
  - unfold Rev2.smartAssignTutor.
    destruct (sa_tutorId req) as [t|]; [|apply writes_none].
    destruct (findFirst _ (tutors db)) as [tutor|] eqn:Et;
      [|apply writes_none].
    apply tutor_found in Et.
    drop_answer. apply transaction_writes. intros [st cta] db' E.
    unfold Rev2.smartAssignTx, bind in E.
    destruct (forEach _ (sa_assignments req) _) as [st1|e] eqn:Ek;
      [|discriminate].
    destruct (Rev2.classTutorStep _ _ _ _ st1) as [[st2 c]|e] eqn:Ec;
      [|discriminate].
    inversion E; subst.
    destruct (@keySteps_write _ _ _ _ _ (or_introl Ek)) as (W & T).
    cbn [acc_db] in W, T.
    eapply writes_trans; [exact W|].
    eapply classTutorSteps_write; [|left; exact Ec].
    unfold hasTutor. rewrite T. exact Et.
  - unfold Rev1.smartAssignTutor.
    destruct (sa_tutorId req) as [t|]; [|apply writes_none].
    destruct (findFirst _ (tutors db)) as [tutor|] eqn:Et;
      [|apply writes_none].
    apply tutor_found in Et.
    drop_answer. apply transaction_writes. intros [st cta] db' E.
    unfold Rev1.smartAssignTx, bind in E.
    destruct (forEach _ (sa_assignments req) _) as [st1|e] eqn:Ek;
      [|discriminate].
    destruct (Rev1.classTutorStep _ _ _ _ st1) as [[st2 c]|e] eqn:Ec;
      [|discriminate].
    inversion E; subst.
    destruct (@keySteps_write _ _ _ _ _ (or_intror Ek)) as (W & T).
    cbn [acc_db] in W, T.
    eapply writes_trans; [exact W|].
    eapply classTutorSteps_write; [|right; exact Ec].
    unfold hasTutor. rewrite T. exact Et.
Qed.

Lemma updateTutorAssignments_writes db req :
  writes db (snd (Rev2.updateTutorAssignments db req))
  /\ writes db (snd (Rev1.updateTutorAssignments db req)).
Proof.
  split.
  - unfold Rev2.updateTutorAssignments.
    destruct (sa_tutorId req) as [t|]; [|apply writes_none].
    destruct (findFirst _ (tutors db)); [|apply writes_none].
    unfold transaction.
    eapply writes_trans; [apply (clearTutor_writes t)|].
    apply smartAssignTutor_writes.
  - unfold Rev1.updateTutorAssignments.
    destruct (sa_tutorId req) as [t|]; [|apply writes_none].
    destruct (findFirst _ (tutors db)); [|apply writes_none].
    unfold transaction.
    eapply writes_trans; [apply (clearTutor_writes t)|].
    apply smartAssignTutor_writes.
Qed.

Lemma tutor_handlers_write db i o req :
  writes db (snd (Rev2.deleteAllTutorAssignments db i))
  /\ writes db (snd (Rev2.assignClassTutor db i o))
  /\ writes db (snd (updateTutor db i req)).
Proof.
  repeat split.
  - unfold Rev2.deleteAllTutorAssignments.
    destruct (findFirst _ (tutors db)); [|apply writes_none].
    unfold transaction. cbn [snd]. apply clearTutor_writes.
  - unfold Rev2.assignClassTutor.
    destruct o as [t|]; [|apply writes_none].
    destruct (findFirst _ (sections db)); [|apply writes_none].
    destruct (findFirst _ (tutors db)) as [tutor|] eqn:Et;
      [|apply writes_none].
    destruct (updateSectionRow db i _) as [db'|e] eqn:Eu;
      [|apply writes_none].
    cbn [snd]. eapply writes_one, w_class_tutor; [|exact Eu].
    cbn [optRef]. apply findFirst_some_existsb in Et. exact Et.
  - unfold updateTutor.
    repeat (branch_on_check; cbn [snd]; try apply writes_none).
    all: drop_answer; apply transaction_writes; intros a db' E;
      unfold updateTutorTx in E; straight E.
Qed.

Lemma section_handlers_write db i name subjects :
  writes db (snd (Rev2.addSection db i name subjects))
  /\ writes db (snd (SuperadminController.deleteSchoolTx db i)).
Proof.
  split.
  - unfold Rev2.addSection.
    repeat (branch_on_check; cbn [snd]; try apply writes_none).
    drop_answer. apply transaction_writes. intros a db' E.
    unfold Rev2.addSectionTx, bind in E.
    destruct (createSectionRow db _ i true) as [[sec d]|e] eqn:Es;
      [|discriminate].
    destruct subjects as [names|].
    + destruct (createSubjects (section_id sec) names (d, []))
        as [[d2 rows]|e] eqn:Er; [|discriminate].
      inversion E; subst. apply createSubjects_writes in Er.
      cbn [fst] in Er. eapply writes_trans; [|exact Er]. by_writes.
    + inversion E; subst. by_writes.
  - unfold SuperadminController.deleteSchoolTx.
    repeat (branch_on_check; cbn [snd]; try apply writes_none).
    drop_answer. apply transaction_writes. intros a db' E.
    unfold bind in E.
    match type of E with
    | context [deleteSchoolRow ?d i] =>
        destruct (deleteSchoolRow d i) as [d2|e] eqn:Ed; [|discriminate]
    end.
    inversion E; subst.
    eapply writes_more; [|eapply w_delete_school; exact Ed].
    apply writes_one. apply w_delete_users.
Qed.

Lemma respond_writes db c : writes db (snd (respond db c)).
Proof.
  destruct c as [rq| | | | | |]; [destruct rq|..];
    cbn [respond respondTo]; unfold answer; cbn [snd].
  - apply createSchool_writes.
  - apply createTutor_writes.
  - apply deleteTutor_writes.
  - apply createGrade_writes.
  - apply createGrade_writes.
  - apply updateSectionSubjects_writes.
  - apply (simple_handlers_write db sectionId name None None
             (Rev2.mkUpdateGradeReq None None None)).
  - apply (simple_handlers_write db subjectId None None None
             (Rev2.mkUpdateGradeReq None None None)).
  - apply (simple_handlers_write db sectionId None None None
             (Rev2.mkUpdateGradeReq None None None)).
  - apply (simple_handlers_write db gradeId None None None
             (Rev2.mkUpdateGradeReq None None None)).
  - apply smartAssignTutor_writes.
  - apply smartAssignTutor_writes.
  - apply updateTutorAssignments_writes.
  - apply updateTutorAssignments_writes.
  - apply (tutor_handlers_write db tutorId None
             (mkUpdateTutorReq None None None None)).
  - apply (tutor_handlers_write db sectionId tutorId
             (mkUpdateTutorReq None None None None)).
  - apply (simple_handlers_write db sectionId None None None
             (Rev2.mkUpdateGradeReq None None None)).
  - apply (simple_handlers_write db schoolId None tutorId sectionSubjectId
             (Rev2.mkUpdateGradeReq None None None)).
  - apply (simple_handlers_write db assignmentId None None None
             (Rev2.mkUpdateGradeReq None None None)).
  - apply (tutor_handlers_write db tutorId None req).
  - apply (simple_handlers_write db gradeId None None None req).
  - apply section_handlers_write.
  - apply (simple_handlers_write db sectionId name None None
             (Rev2.mkUpdateGradeReq None None None)).
  - apply (simple_handlers_write db id None None None
             (Rev2.mkUpdateGradeReq None None None)).
  - apply (section_handlers_write db id None None).
Qed.

Lemma built_writes db : built db -> writes Scenario.seeded db.
Proof.
  induction 1 as [|db c _ IH]; [apply writes_none|].
  eapply writes_trans; [exact IH | apply respond_writes].
Qed.

Lemma seeded_refs : refsOk Scenario.seeded.
Proof.
  intros k. destruct k; cbn; repeat constructor.
Qed.

(** ** The unique indexes along the writes *)

Lemma write_wf db db' : write db db' -> wf db -> wf db'.
Proof.
  intros W Hwf. destruct W as
    [db name code row db' E
    |db name email phone password role schoolId tutorId row db' E
    |db name email phone schoolId active row db' E
    |db name schoolId order active row db' E
    |db name gradeId active row db' E
    |db name sectionId row db' E
    |db tutorId sectionSubjectId active row db' E
    |db i b db' E
    |db i b db' E
    |db i t db' Ht E
    |db i d row db' E
    |db p d db' E
    |db i d row db' E
    |db i name row db' E
    |db i db' E |db i db' E |db i db' E |db i db' E |db i db' E |db i db' E
    |db p |db p |db p].
  - eapply createSchoolRow_wf; eauto.
  - eapply createUserRow_wf; eauto.
  - eapply createTutorRow_wf; eauto.
  - eapply createGradeRow_wf; eauto.
  - eapply createSectionRow_wf; eauto.
  - eapply createSectionSubjectRow_wf; eauto.
  - eapply createAssignmentRow_wf; eauto.
  - eapply updateSectionSubjectRow_wf; eauto.
  - eapply updateAssignmentRow_wf; eauto.
  - eapply updateSectionRow_wf; eauto.
  - unfold updateTutorRow in E.
    destruct (findFirst _ (tutors db)); [|discriminate].
    destruct (existsb _ (tutors db)); [discriminate|].
    inversion E; subst.
    destruct Hwf as (W1 & W2 & W3 & W4 & W5).
    split; [exact W1|]. split; [exact W2|]. split; [exact W3|].
    split; [|exact W5].
    cbn [tutors with_tutors nextId]. apply Forall_forall. intros x Hx.
    apply in_map_iff in Hx. destruct Hx as (y & <- & Hy).
    rewrite Forall_forall in W4. specialize (W4 y Hy).
    destruct (Nat.eqb (tutor_id y) i); exact W4.
  - unfold updateManyUsers in E.
    destruct (existsb _ (users db)); [discriminate|].
    inversion E; subst.
    destruct Hwf as (W1 & W2 & W3 & W4 & W5).
    split; [exact W1|]. split; [exact W2|]. split; [exact W3|].
    split; [exact W4|].
    cbn [users with_users nextId]. apply Forall_forall. intros x Hx.
    unfold updateMany in Hx.
    apply in_map_iff in Hx. destruct Hx as (y & <- & Hy).
    rewrite Forall_forall in W5. specialize (W5 y Hy).
    destruct (p y); exact W5.
  - unfold updateGradeRow in E.
    destruct (negb _); [discriminate|].
    destruct (findFirst _ (grades db)); [|discriminate].
    destruct (existsb _ (grades db)); [discriminate|].
    inversion E; subst. apply wf_with_grades. exact Hwf.
  - unfold renameSectionRow in E.
    destruct (findFirst _ (sections db)); [|discriminate].
    destruct (existsb _ (sections db)); [discriminate|].
    inversion E; subst. apply wf_with_sections. exact Hwf.
  - unfold deleteTutorRow in E. destruct (hasTutor db i); [|discriminate].
    inversion E; subst. apply wf_dropTutors. exact Hwf.
  - unfold deleteAssignmentRow in E.
    destruct (existsb _ (assignments db)); [|discriminate].
    inversion E; subst.
    apply (@wf_shrink db); try reflexivity; try apply shrinks_refl;
      [apply shrinks_deleteMany | exact Hwf].
  - unfold deleteSectionSubjectRow in E.
    destruct (hasSectionSubject db i); [|discriminate].
    inversion E; subst. apply wf_dropSectionSubjects. exact Hwf.
  - unfold deleteSectionRow in E. destruct (hasSection db i); [|discriminate].
    inversion E; subst. apply wf_dropSections. exact Hwf.
  - unfold deleteGradeRow in E. destruct (hasGrade db i); [|discriminate].
    inversion E; subst. apply wf_dropGrades. exact Hwf.
  - unfold deleteSchoolRow in E. destruct (hasSchool db i); [|discriminate].
    inversion E; subst. unfold dropSchools.
    apply wf_dropGrades. apply wf_dropTutors.
    apply (@wf_shrink db); try reflexivity; try apply shrinks_refl;
      [apply shrinks_deleteMany | exact Hwf].
  - apply (@wf_shrink db); try reflexivity; try apply shrinks_refl;
      [apply shrinks_deleteMany | exact Hwf].
  - apply wf_with_sections. exact Hwf.
  - apply (@wf_shrink db); try reflexivity; try apply shrinks_refl;
      [apply shrinks_deleteMany | exact Hwf].
Qed.

Lemma writes_wf db db' : writes db db' -> wf db -> wf db'.
Proof.
  induction 1 as [|db db1 db2 _ IH W]; [auto|].
  intros H. eapply write_wf; eauto.
Qed.

(** X19.  No request leaves a dangling reference or a doubled
    assignment.  In every store that a sequence of the modelled
    requests builds from the seeded one, each foreign key of the
    schema holds: every user names a school and a tutor that exist,
    every tutor and grade a school, every section a grade and, when
    it has one, a class tutor, every section subject a section, every
    assignment a tutor and a section subject; no two assignment rows
    link the same tutor to the same section subject, and no two
    subject rows of a section carry the same name. *)
Theorem built_store_is_consistent db :
  built db ->
  refsOk db
  /\ NoDup (map link (assignments db))
  /\ NoDup (map skey (sectionSubjects db)).
Proof.
  intros Hb. apply built_writes in Hb. split.
  - exact (writes_refs Hb seeded_refs).
  - pose proof (writes_wf Hb seeded_wf) as (W1 & (W2 & _) & _).
    split; assumption.
Qed.

(* ================================================================= *)
(** * [updateSectionSubjects] replaces the subjects of a section *)

Lemma activeIn_spec db s n :
  activeIn db s n = true
  <-> exists r, In r (sectionSubjects db) /\ ss_sectionId r = s
                /\ ss_name r = n /\ ss_isActive r = true.
Proof.
  unfold activeIn, subjectNamed. rewrite existsb_exists. split.
  - intros (r & Hr & Hp). apply andb_true_iff in Hp. destruct Hp as (Hp & Ha).
    apply andb_true_iff in Hp. destruct Hp as (Hs & Hn).
    apply Nat.eqb_eq in Hs. apply String.eqb_eq in Hn.
    apply Bool.eqb_prop in Ha. eauto 6.
  - intros (r & Hr & Hs & Hn & Ha). exists r. split; [assumption|].
    rewrite Hs, Hn, Ha, Nat.eqb_refl, String.eqb_refl. reflexivity.
Qed.

Lemma bool_eq_iff (a b : bool) : (a = true <-> b = true) -> a = b.
Proof. destruct a, b; intros [H1 H2]; auto; symmetry; auto. Qed.

Lemma includes_spec names n : includes names n = true <-> In n names.
Proof.
  unfold includes. rewrite existsb_exists. split.
  - intros (x & Hx & E). apply String.eqb_eq in E. subst. assumption.
  - intros H. exists n. split; [assumption | apply String.eqb_refl].
Qed.

Lemma includes_activeNames db s n :
  includes (activeNames db s) n = activeIn db s n.
Proof.
  apply bool_eq_iff. rewrite includes_spec, activeIn_spec.
  unfold activeNames. rewrite in_map_iff. split.
  - intros (r & Hn & Hr). apply filter_In in Hr. destruct Hr as (Hr & Hp).
    apply andb_true_iff in Hp. destruct Hp as (Hs & Ha).
    apply Nat.eqb_eq in Hs. eauto 6.
  - intros (r & Hr & Hs & Hn & Ha). exists r. split; [assumption|].
    apply filter_In. split; [assumption|].
    rewrite Hs, Ha, Nat.eqb_refl. reflexivity.
Qed.

(** Switching the row [r0] on or off changes the answer for its
    section and name, and for no other. *)
Lemma activeIn_turn tx b r0 s n :
  subjectsWf tx -> In r0 (sectionSubjects tx) ->
  activeIn (with_sectionSubjects tx
              (map (turn b (ss_id r0)) (sectionSubjects tx))) s n
  = if Nat.eqb s (ss_sectionId r0) && String.eqb n (ss_name r0)
    then b else activeIn tx s n.
Proof.
  intros (Hk & Hi & _) Hr0.
  assert (Hsame : forall r, In r (sectionSubjects tx) ->
                            ss_id r = ss_id r0 -> r = r0).
  { intros r Hr E. eapply (NoDup_map_inj ss_id); eauto. }
  assert (Hkey : forall r, In r (sectionSubjects tx) ->
                           skey r = skey r0 -> r = r0).
  { intros r Hr E. eapply (NoDup_map_inj skey); eauto. }
  apply bool_eq_iff. rewrite activeIn_spec.
  cbn [sectionSubjects with_sectionSubjects].
  destruct (Nat.eqb s (ss_sectionId r0) && String.eqb n (ss_name r0)) eqn:E.
  - apply andb_true_iff in E. destruct E as (E1 & E2).
    apply Nat.eqb_eq in E1. apply String.eqb_eq in E2. subst s n. split.
    + intros (y & Hy & Hs & Hn & Ha). apply in_map_iff in Hy.
      destruct Hy as (r & <- & Hr).
      assert (r = r0).
      { apply Hkey; [assumption|]. rewrite <- (turn_skey b (ss_id r0) r).
        unfold skey. congruence. }
      subst r. unfold turn in Ha. rewrite Nat.eqb_refl in Ha. exact Ha.
    + intros ->. exists (turn true (ss_id r0) r0).
      split; [apply in_map; assumption|].
      unfold turn. rewrite Nat.eqb_refl. auto.
  - rewrite activeIn_spec. split.
    + intros (y & Hy & Hs & Hn & Ha). apply in_map_iff in Hy.
      destruct Hy as (r & <- & Hr).
      destruct (Nat.eq_dec (ss_id r) (ss_id r0)) as [Eid|Eid].
      * rewrite (Hsame r Hr Eid) in Hs, Hn.
        pose proof (turn_skey b (ss_id r0) r0) as Esk. unfold skey in Esk.
        inversion Esk as [[H1 H2]]. rewrite H1 in Hs. rewrite H2 in Hn.
        subst s n. rewrite Nat.eqb_refl, String.eqb_refl in E.
        discriminate.
      * rewrite (@turn_other b (ss_id r0) r Eid) in Hs, Hn, Ha. eauto 6.
    + intros (r & Hr & Hs & Hn & Ha).
      exists (turn b (ss_id r0) r). split; [apply in_map; assumption|].
      destruct (Nat.eq_dec (ss_id r) (ss_id r0)) as [Eid|Eid].
      * rewrite (Hsame r Hr Eid) in Hs, Hn. subst s n.
        rewrite Nat.eqb_refl, String.eqb_refl in E. discriminate.
      * rewrite (@turn_other b (ss_id r0) r Eid). auto.
Qed.

Lemma activeIn_new tx m sid s n :
  activeIn (bump (with_sectionSubjects tx
                    (sectionSubjects tx
                     ++ [mkSectionSubject (nextId tx) m sid true]))) s n
  = activeIn tx s n || (Nat.eqb s sid && String.eqb n m).
Proof.
  unfold activeIn. cbn [sectionSubjects with_sectionSubjects bump].
  rewrite existsb_app. cbn. unfold subjectNamed. cbn.
  rewrite orb_false_r, andb_true_r.
  rewrite (Nat.eqb_sym sid s), (String.eqb_sym m n). reflexivity.
Qed.

Lemma keepsRows_turn db0 tx b i :
  keepsRows db0 tx ->
  keepsRows db0 (with_sectionSubjects tx
                   (map (turn b i) (sectionSubjects tx))).
Proof.
  intros H c Hc. destruct (H c Hc) as (r & Hr & Hid & Hk).
  exists (turn b i r). cbn. split; [apply in_map; assumption|].
  rewrite turn_id, turn_skey. auto.
Qed.

Lemma keepsRows_new db0 tx row :
  keepsRows db0 tx ->
  keepsRows db0 (bump (with_sectionSubjects tx (sectionSubjects tx ++ [row]))).
Proof.
  intros H c Hc. destruct (H c Hc) as (r & Hr & Hid & Hk).
  exists r. cbn. split; [apply in_app_iff; left; assumption | auto].
Qed.

Section Replace.
Variable sectionId : Id.
Variable db0 : DB.

Lemma addStep_added seen tx acc m :
  addedSoFar sectionId db0 seen tx -> ~ In m seen ->
  activeIn db0 sectionId m = false ->
  exists tx' acc',
    Rev2.addStep sectionId m (tx, acc) = Ok (tx', acc')
    /\ addedSoFar sectionId db0 (m :: seen) tx'.
Proof.
  intros (Hwf & Hsec & Hkeep & Hact) Hm Hoff.
  assert (Hnow : activeIn tx sectionId m = false).
  { rewrite Hact, Hoff, Nat.eqb_refl. cbn.
    apply not_true_is_false. rewrite includes_spec. exact Hm. }
  assert (Hinc : forall s n,
            activeIn db0 s n
            || (Nat.eqb s sectionId && includes seen n)
            || (Nat.eqb s sectionId && String.eqb n m)
            = activeIn db0 s n
              || (Nat.eqb s sectionId && includes (m :: seen) n)).
  { intros s n. unfold includes. cbn [existsb].
    destruct (activeIn db0 s n), (Nat.eqb s sectionId),
      (existsb (String.eqb n) seen), (String.eqb n m); reflexivity. }
  unfold Rev2.addStep.
  destruct (findFirst (subjectNamed sectionId m false) (sectionSubjects tx))
    as [r0|] eqn:Ef.
  - apply findFirst_some in Ef. destruct Ef as (Hr0 & Hp).
    unfold subjectNamed in Hp. apply andb_true_iff in Hp.
    destruct Hp as (Hp & _). apply andb_true_iff in Hp.
    destruct Hp as (Hs0 & Hn0).
    apply Nat.eqb_eq in Hs0. apply String.eqb_eq in Hn0.
    rewrite (updateSectionSubjectRow_present _ true _ Hr0). cbn [bind].
    eexists _, _. split; [reflexivity|].
    split; [apply subjectsWf_turn; assumption|].
    split; [exact Hsec|]. split; [apply keepsRows_turn; assumption|].
    intros s n. rewrite (@activeIn_turn tx true r0 s n Hwf Hr0).
    rewrite Hs0, Hn0, <- Hinc, <- Hact.
    destruct (Nat.eqb s sectionId && String.eqb n m);
      [rewrite orb_true_r | rewrite orb_false_r]; reflexivity.
  - assert (Hex : existsb (fun r => Nat.eqb (ss_sectionId r) sectionId
                                    && String.eqb (ss_name r) m)
                          (sectionSubjects tx) = false).
    { apply not_true_is_false. intros Hex. apply existsb_exists in Hex.
      destruct Hex as (r & Hr & Hp). apply andb_true_iff in Hp.
      destruct Hp as (H1 & H2).
      destruct (ss_isActive r) eqn:Ea.
      - assert (activeIn tx sectionId m = true).
        { apply activeIn_spec. exists r. apply Nat.eqb_eq in H1.
          apply String.eqb_eq in H2. auto. }
        congruence.
      - apply findFirst_none_existsb in Ef.
        assert (existsb (subjectNamed sectionId m false) (sectionSubjects tx)
                = true).
        { apply existsb_exists. exists r. split; [assumption|].
          unfold subjectNamed. rewrite H1, H2, Ea. reflexivity. }
        congruence. }
    unfold createSectionSubjectRow. rewrite Hex, Hsec. cbn [negb bind].
    eexists _, _. split; [reflexivity|].
    split; [apply subjectsWf_new; assumption|].
    split; [exact Hsec|]. split; [apply keepsRows_new; assumption|].
    intros s n. rewrite activeIn_new, Hact. apply Hinc.
Qed.

Lemma addLoop_added toAdd :
  forall seen tx acc,
    addedSoFar sectionId db0 seen tx -> NoDup toAdd ->
    (forall m, In m toAdd -> ~ In m seen
                             /\ activeIn db0 sectionId m = false) ->
    exists tx' acc',
      forEach (Rev2.addStep sectionId) toAdd (tx, acc) = Ok (tx', acc')
      /\ addedSoFar sectionId db0 (rev toAdd ++ seen) tx'
      /\ (toAdd = [] -> tx' = tx /\ acc' = acc).
Proof.
  induction toAdd as [|m rest IH]; intros seen tx acc Hadd Hnd Hnew.
  - exists tx, acc. split; [reflexivity|]. split; [exact Hadd | auto].
  - apply NoDup_cons_iff in Hnd. destruct Hnd as (Hnot & Hnd').
    destruct (Hnew m (or_introl eq_refl)) as (Hm & Hoff).
    destruct (@addStep_added seen tx acc m Hadd Hm Hoff)
      as (tx1 & acc1 & Hstep & Hadd1).
    destruct (IH (m :: seen) tx1 acc1 Hadd1 Hnd')
      as (tx' & acc' & Hrun & Hfin & _).
    { intros k Hk. destruct (Hnew k (or_intror Hk)) as (Hks & Hka).
      split; [|assumption]. intros [<-|H]; contradiction. }
    exists tx', acc'. cbn [forEach]. rewrite Hstep. cbn [bind].
    split; [exact Hrun|]. split; [|discriminate].
    cbn [rev]. rewrite <- app_assoc. exact Hfin.
Qed.

Lemma removeLoop_removed tx1 toDeactivate :
  forall gone tx,
    removedSoFar sectionId db0 tx1 gone tx ->
    Forall (fun c => In c (sectionSubjects db0)
                     /\ ss_sectionId c = sectionId) toDeactivate ->
    exists tx',
      forEach Rev2.deactivateStep toDeactivate tx = Ok tx'
      /\ removedSoFar sectionId db0 tx1 (rev toDeactivate ++ gone) tx'
      /\ (toDeactivate = [] -> tx' = tx).
Proof.
  induction toDeactivate as [|c rest IH]; intros gone tx Hrem Hall.
  - exists tx. split; [reflexivity|]. split; [exact Hrem | auto].
  - inversion Hall as [|? ? Hhead Hall']; subst.
    destruct Hhead as (Hc & Hcs).
    destruct Hrem as (Hwf & Hkeep & Hsec & Hact).
    destruct (Hkeep c Hc) as (r & Hr & Hid & Hk).
    unfold skey in Hk. inversion Hk as [[Hrs Hrn]].
    assert (Hstep : Rev2.deactivateStep c tx
                    = Ok (with_sectionSubjects tx
                            (map (turn false (ss_id r))
                                 (sectionSubjects tx)))).
    { unfold Rev2.deactivateStep. rewrite <- Hid.
      apply updateSectionSubjectRow_present. exact Hr. }
    destruct (IH (c :: gone)
                 (with_sectionSubjects tx
                    (map (turn false (ss_id r)) (sectionSubjects tx))))
      as (tx' & Hrun & Hfin & _); [|exact Hall'|].
    { split; [apply subjectsWf_turn; assumption|].
      split; [apply keepsRows_turn; assumption|].
      split; [exact Hsec|].
      intros s n. rewrite (@activeIn_turn tx false r s n Hwf Hr), Hact.
      rewrite Hrs, Hrn, Hcs. unfold includes. cbn [map existsb].
      destruct (activeIn tx1 s n), (Nat.eqb s sectionId),
        (String.eqb n (ss_name c)),
        (existsb (String.eqb n) (map ss_name gone)); reflexivity. }
    exists tx'. cbn [forEach]. rewrite Hstep. cbn [bind].
    split; [exact Hrun|]. split; [|discriminate].
    cbn [rev]. rewrite <- app_assoc. exact Hfin.
Qed.

Lemma includes_rev l n : includes (rev l) n = includes l n.
Proof.
  apply bool_eq_iff. rewrite !includes_spec. symmetry. apply in_rev.
Qed.

(** The run of the transaction and what it leaves. *)
Lemma updateSectionSubjectsTx_run names :
  subjectsWf db0 ->
  hasSection db0 sectionId = true ->
  NoDup (namesToAdd db0 sectionId names) ->
  let current := filter (fun s => Nat.eqb (ss_sectionId s) sectionId
                                  && ss_isActive s) (sectionSubjects db0) in
  exists plus minus tx,
    Rev2.updateSectionSubjectsTx sectionId current names db0
    = Ok ((plus, minus), tx)
    /\ subjectsWf tx
    /\ hasSection tx sectionId = true
    /\ (forall n, activeIn tx sectionId n = includes names n)
    /\ (forall s n, s <> sectionId -> activeIn tx s n = activeIn db0 s n)
    /\ (namesToAdd db0 sectionId names = [] ->
        (forall n, In n (activeNames db0 sectionId) -> In n names) ->
        plus = [] /\ minus = [] /\ tx = db0).
Proof.
  intros Hwf Hsec Hnd current.
  unfold Rev2.updateSectionSubjectsTx.
  change (map ss_name current) with (activeNames db0 sectionId).
  change (filter (fun name => negb (includes (activeNames db0 sectionId) name))
                 names)
    with (namesToAdd db0 sectionId names).
  destruct (@addLoop_added (namesToAdd db0 sectionId names) [] db0 [])
    as (tx1 & plus & Hrun1 & (Hwf1 & Hsec1 & Hkeep1 & Hact1) & Hnil1).
  { split; [exact Hwf|]. split; [exact Hsec|]. split.
    - intros c Hc. exists c. auto.
    - intros s n. cbn. rewrite andb_false_r, orb_false_r. reflexivity. }
  { exact Hnd. }
  { intros m Hm. split; [intros []|].
    unfold namesToAdd in Hm. apply filter_In in Hm. destruct Hm as (_ & Hm).
    apply negb_true_iff in Hm. rewrite includes_activeNames in Hm. exact Hm. }
  rewrite Hrun1. cbn [bind].
  set (toDeactivate :=
         filter (fun s => negb (includes names (ss_name s))) current).
  destruct (@removeLoop_removed tx1 toDeactivate [] tx1)
    as (tx2 & Hrun2 & (Hwf2 & Hkeep2 & Hsec2 & Hact2) & Hnil2).
  { split; [exact Hwf1|]. split; [exact Hkeep1|]. split; [reflexivity|].
    intros s n. cbn. rewrite andb_false_r. cbn. rewrite andb_true_r.
    reflexivity. }
  { apply Forall_forall. intros c Hc. unfold toDeactivate in Hc.
    apply filter_In in Hc. destruct Hc as (Hc & _). unfold current in Hc.
    apply filter_In in Hc. destruct Hc as (Hc & Hp).
    apply andb_true_iff in Hp. destruct Hp as (Hs & _).
    apply Nat.eqb_eq in Hs. auto. }
  rewrite Hrun2. cbn [bind].
  exists plus, toDeactivate, tx2. split; [reflexivity|].
  split; [exact Hwf2|]. split; [congruence|].
  rewrite app_nil_r in Hact1, Hact2.
  assert (Hgone : forall n,
            includes (map ss_name toDeactivate) n = true
            <-> activeIn db0 sectionId n = true /\ ~ In n names).
  { intros n. rewrite includes_spec, in_map_iff, activeIn_spec. split.
    - intros (c & Hn & Hc). unfold toDeactivate in Hc.
      apply filter_In in Hc. destruct Hc as (Hc & Hnot).
      unfold current in Hc. apply filter_In in Hc. destruct Hc as (Hc & Hp).
      apply andb_true_iff in Hp. destruct Hp as (Hs & Ha).
      apply Nat.eqb_eq in Hs. apply negb_true_iff in Hnot.
      split; [eauto 6|]. rewrite <- includes_spec, <- Hn. congruence.
    - intros ((c & Hc & Hs & Hn & Ha) & Hnot). exists c.
      split; [assumption|]. unfold toDeactivate. apply filter_In. split.
      + unfold current. apply filter_In. split; [assumption|].
        rewrite Hs, Ha, Nat.eqb_refl. reflexivity.
      + apply negb_true_iff. apply not_true_is_false.
        rewrite includes_spec, Hn. exact Hnot. }
  assert (Hplus : forall n,
            includes (namesToAdd db0 sectionId names) n = true
            <-> In n names /\ activeIn db0 sectionId n = false).
  { intros n. rewrite includes_spec. unfold namesToAdd.
    rewrite filter_In, negb_true_iff, includes_activeNames. tauto. }
  split; [|split].
  - intros n. rewrite Hact2, Hact1, Nat.eqb_refl, map_rev, !includes_rev.
    cbn [andb]. apply bool_eq_iff. rewrite includes_spec.
    rewrite andb_true_iff, orb_true_iff, negb_true_iff, Hplus.
    pose proof (Hgone n) as Hg.
    destruct (includes (map ss_name toDeactivate) n);
      destruct (activeIn db0 sectionId n) eqn:Ea;
      destruct (in_dec string_dec n names); intuition congruence.
  - intros s n Hs. rewrite Hact2, Hact1.
    apply Nat.eqb_neq in Hs. rewrite Hs. cbn.
    rewrite orb_false_r, andb_true_r. reflexivity.
  - intros Hnone Hall.
    assert (Hd : toDeactivate = []).
    { apply filter_none. apply Forall_forall. intros c Hc.
      apply negb_false_iff. apply includes_spec. apply Hall.
      unfold activeNames. apply in_map. exact Hc. }
    destruct (Hnil1 Hnone) as (-> & ->).
    rewrite (Hnil2 Hd). auto.
Qed.

End Replace.
Lemma updateSectionSubjects_run db sectionId names :
  subjectsWf db ->
  hasSection db sectionId = true ->
  NoDup (namesToAdd db sectionId names) ->
  exists plus minus tx,
    Rev2.updateSectionSubjects db sectionId (Some names)
    = (Json 200 (map ss_name plus, map ss_name minus), tx)
    /\ subjectsWf tx
    /\ hasSection tx sectionId = true
    /\ (forall n, activeIn tx sectionId n = includes names n)
    /\ (forall s n, s <> sectionId -> activeIn tx s n = activeIn db s n)
    /\ (namesToAdd db sectionId names = [] ->
        (forall n, In n (activeNames db sectionId) -> In n names) ->
        plus = [] /\ minus = [] /\ tx = db).
Proof.
  intros Hwf Hsec Hnd.
  destruct (@updateSectionSubjectsTx_run sectionId db names Hwf Hsec Hnd)
    as (plus & minus & tx & Hrun & Hrest).
  exists plus, minus, tx. split; [|exact Hrest].
  unfold Rev2.updateSectionSubjects.
  destruct (findFirst (fun s => Nat.eqb (section_id s) sectionId)
                      (sections db)) eqn:Es.
  2:{ apply findFirst_none_existsb in Es. unfold hasSection in Hsec.
      congruence. }
  cbv zeta. unfold transaction. rewrite Hrun. reflexivity.
Qed.

(** X20.  [updateSectionSubjects] replaces the subjects of a section.
    Let the subject table obey its unique index and its primary key,
    with ids drawn from the counter, let the section exist and let
    the list repeat none of the names it has to add.
    Then the answer is 200, a name is an active subject of the
    section afterwards exactly when it is in the list, and every
    other section has the active subjects it had. *)
Theorem updateSectionSubjects_replaces db sectionId names :
  subjectsWf db ->
  hasSection db sectionId = true ->
  NoDup (namesToAdd db sectionId names) ->
  let r := Rev2.updateSectionSubjects db sectionId (Some names) in
  status (fst r) = 200
  /\ (forall n, activeIn (snd r) sectionId n = true <-> In n names)
  /\ (forall s n, s <> sectionId ->
                  activeIn (snd r) s n = activeIn db s n).
Proof.
  intros Hwf Hsec Hnd.
  destruct (@updateSectionSubjects_run db sectionId names Hwf Hsec Hnd)
    as (plus & minus & tx & Hrun & _ & _ & Hin & Hout & _).
  cbv zeta. rewrite Hrun. cbn [fst snd status].
  split; [reflexivity|]. split; [|exact Hout].
  intros n. rewrite Hin. apply includes_spec.
Qed.

(** X21.  Sending the same list again changes nothing.  Under the
    conditions of X20, a second [updateSectionSubjects] with the
    list, on the store the first one left, answers 200 with no name
    added and none removed, and leaves that store as it is. *)
Theorem updateSectionSubjects_again db sectionId names :
  subjectsWf db ->
  hasSection db sectionId = true ->
  NoDup (namesToAdd db sectionId names) ->
  let r := Rev2.updateSectionSubjects db sectionId (Some names) in
  Rev2.updateSectionSubjects (snd r) sectionId (Some names)
  = (Json 200 ([], []), snd r).
Proof.
  intros Hwf Hsec Hnd.
  destruct (@updateSectionSubjects_run db sectionId names Hwf Hsec Hnd)
    as (plus & minus & tx & Hrun & Hwf1 & Hsec1 & Hin & _ & _).
  cbv zeta. rewrite Hrun. cbn [snd].
  assert (Hnone : namesToAdd tx sectionId names = []).
  { unfold namesToAdd. apply filter_none. apply Forall_forall. intros n Hn.
    apply negb_false_iff. rewrite includes_activeNames, Hin.
    apply includes_spec. exact Hn. }
  destruct (@updateSectionSubjects_run tx sectionId names Hwf1 Hsec1)
    as (plus' & minus' & tx' & Hrun' & _ & _ & _ & _ & Hsame).
  { rewrite Hnone. constructor. }
  destruct (Hsame Hnone) as (-> & -> & ->).
  { intros n Hn. apply includes_spec. rewrite <- Hin.
    rewrite <- includes_activeNames. apply includes_spec. exact Hn. }
  exact Hrun'.
Qed.

(* ================================================================= *)
(** * [addSubjectToSection] beside [updateSectionSubjects] *)

Lemma findFirst_ext_in {A} (p q : A -> bool) (l : list A) :
  (forall x, In x l -> p x = q x) -> findFirst p l = findFirst q l.
Proof.
  unfold findFirst. induction l as [|x l IH]; intros H; [reflexivity|].
  cbn. rewrite (H x (or_introl eq_refl)), IH; [reflexivity|].
  intros y Hy. apply H. right. exact Hy.
Qed.

(** Where the name is not active, looking for a row of that name and
    looking for a switched-off row of that name find the same row. *)
Lemma findFirst_named_off db sectionId n :
  activeIn db sectionId n = false ->
  findFirst (fun s => Nat.eqb (ss_sectionId s) sectionId
                      && String.eqb (ss_name s) n) (sectionSubjects db)
  = findFirst (subjectNamed sectionId n false) (sectionSubjects db).
Proof.
  intros Hoff. apply findFirst_ext_in. intros x Hx. unfold subjectNamed.
  destruct (Nat.eqb (ss_sectionId x) sectionId && String.eqb (ss_name x) n)
    eqn:E; [|reflexivity].
  destruct (ss_isActive x) eqn:Ea; [|reflexivity].
  exfalso. apply andb_true_iff in E. destruct E as (E1 & E2).
  apply Nat.eqb_eq in E1. apply String.eqb_eq in E2.
  assert (activeIn db sectionId n = true) by (apply activeIn_spec; eauto 6).
  congruence.
Qed.

(** The names that are active are all in a list that begins with
    them, and the one name after them is the one to add. *)
Lemma namesToAdd_one_more db sectionId n :
  activeIn db sectionId n = false ->
  namesToAdd db sectionId (activeNames db sectionId ++ [n]) = [n].
Proof.
  intros Hoff. unfold namesToAdd. rewrite filter_app.
  rewrite filter_none.
  - cbn. rewrite includes_activeNames, Hoff. reflexivity.
  - apply Forall_forall. intros m Hm. apply negb_false_iff.
    apply includes_spec. exact Hm.
Qed.

(** X22.  Adding one subject is replacing the list by itself and the
    subject.  For a name that is not empty and not an active subject
    of the section, [addSubjectToSection] leaves the store that
    [updateSectionSubjects] leaves for the list of the active names
    followed by the name; and in a section that exists both succeed,
    whether a switched-off row of that name is there (it is switched
    on) or not (a row is created). *)
Theorem addSubjectToSection_as_update db sectionId n :
  n <> "" ->
  activeIn db sectionId n = false ->
  let add := Rev2.addSubjectToSection db sectionId (Some n) in
  let upd := Rev2.updateSectionSubjects db sectionId
               (Some (activeNames db sectionId ++ [n])) in
  snd add = snd upd
  /\ (hasSection db sectionId = true ->
      succeeded (status (fst add)) = true /\ status (fst upd) = 200
      /\ activeIn (snd add) sectionId n = true).
Proof.
  intros Hn Hoff. cbv zeta.
  unfold Rev2.addSubjectToSection, Rev2.updateSectionSubjects, required.
  apply String.eqb_neq in Hn. rewrite Hn.
  destruct (findFirst (fun s => Nat.eqb (section_id s) sectionId)
                      (sections db)) as [section|] eqn:Es.
  2:{ split; [reflexivity|]. intros Hs.
      apply findFirst_none_existsb in Es. unfold hasSection in Hs.
      congruence. }
  assert (Hsec : hasSection db sectionId = true).
  { apply findFirst_some in Es. destruct Es as (Hin & Hp).
    apply existsb_exists. eauto. }
  unfold transaction, Rev2.updateSectionSubjectsTx.
  change (map ss_name
            (filter (fun s => Nat.eqb (ss_sectionId s) sectionId
                              && ss_isActive s) (sectionSubjects db)))
    with (activeNames db sectionId).
  change (filter (fun name => negb (includes (activeNames db sectionId) name))
                 (activeNames db sectionId ++ [n]))
    with (namesToAdd db sectionId (activeNames db sectionId ++ [n])).
  rewrite (@namesToAdd_one_more db sectionId n Hoff). cbn [forEach].
  assert (Hkeep : filter (fun s => negb (includes (activeNames db sectionId
                                                    ++ [n]) (ss_name s)))
                         (filter (fun s => Nat.eqb (ss_sectionId s) sectionId
                                           && ss_isActive s)
                                 (sectionSubjects db)) = []).
  { apply filter_none. apply Forall_forall. intros c Hc.
    apply negb_false_iff. apply includes_spec. apply in_or_app. left.
    unfold activeNames. apply in_map. exact Hc. }
  rewrite Hkeep. unfold Rev2.addStep.
  rewrite (@findFirst_named_off db sectionId n Hoff).
  destruct (findFirst (subjectNamed sectionId n false) (sectionSubjects db))
    as [r|] eqn:Ef.
  - pose proof Ef as Hr. apply findFirst_some in Hr.
    destruct Hr as (Hr & Hp). unfold subjectNamed in Hp.
    apply andb_true_iff in Hp. destruct Hp as (Hp & Ha).
    apply andb_true_iff in Hp. destruct Hp as (Hs & Hm).
    apply Nat.eqb_eq in Hs. apply String.eqb_eq in Hm.
    destruct (ss_isActive r) eqn:Ea; [discriminate Ha|].
    rewrite (updateSectionSubjectRow_present _ true _ Hr).
    cbn [bind forEach fst snd status].
    split; [reflexivity|]. intros _. split; [reflexivity|].
    split; [reflexivity|].
    apply activeIn_spec. exists (turn true (ss_id r) r).
    cbn [sectionSubjects with_sectionSubjects].
    split; [apply in_map; exact Hr|].
    pose proof (turn_skey true (ss_id r) r) as Hk. unfold skey in Hk.
    inversion Hk as [[H1 H2]]. rewrite H1, H2.
    unfold turn. rewrite Nat.eqb_refl. auto.
  - assert (Hnew : existsb (fun s => Nat.eqb (ss_sectionId s) sectionId
                                     && String.eqb (ss_name s) n)
                           (sectionSubjects db) = false).
    { rewrite <- (@findFirst_named_off db sectionId n Hoff) in Ef.
      apply findFirst_none_existsb in Ef. exact Ef. }
    unfold createSectionSubjectRow. rewrite Hnew, Hsec.
    cbn [negb bind forEach fst snd status].
    split; [reflexivity|]. intros _. split; [reflexivity|].
    split; [reflexivity|].
    rewrite activeIn_new, Nat.eqb_refl, String.eqb_refl.
    apply orb_true_r.
Qed.

(* ================================================================= *)
(** * What [smartAssignTutor] reports is in the store *)

Lemma Forall2_In_l {A B} (R : A -> B -> Prop) l l' x :
  Forall2 R l l' -> In x l -> exists y, In y l' /\ R x y.
Proof.
  induction 1 as [|a b l l' Hab _ IH]; intros Hx; [destruct Hx|].
  destruct Hx as [<-|Hx].
  - exists b. split; [left; reflexivity | exact Hab].
  - destruct (IH Hx) as (y & Hy & Hr). exists y. split; [right|]; assumption.
Qed.

Lemma located_ext schoolId db db' g s sid :
  ext db db' -> located schoolId db g s sid -> located schoolId db' g s sid.
Proof.
  intros (Hg & _ & Hs & _) (gr & sec & H1 & H2 & H3 & H4 & H5 & H6 & H7 & H8
                             & H9).
  destruct (@Forall2_In_l _ _ _ _ _ sec Hs H5) as (sec' & Hin & Ei & En & Eg & Ea).
  exists gr, sec'. rewrite Hg, Ei, En, Eg, Ea. auto 10.
Qed.

Lemma reported_ext schoolId tutorId db db' item :
  ext db db' -> reported schoolId tutorId db item ->
  reported schoolId tutorId db' item.
Proof.
  intros Hext (ss & a & Hloc & Hss & Hn & Hon & Ha & Hid & Ht & Hl & Hact).
  pose proof (@located_ext _ _ _ _ _ _ Hext Hloc) as Hloc'.
  destruct Hext as (_ & _ & _ & (extra & Hsubs) & (kept & more & Hasg & Hk)).
  destruct (@Forall2_In_l _ _ _ _ _ a Hk Ha) as (a' & Hin & Ei & Et & El & Eact).
  exists ss, a'. rewrite Hsubs, Hasg, Ei, Et, El.
  repeat split; auto using in_or_app.
Qed.

Section Reports.
Variables schoolId tutorId sectionId : Id.
Variables gradeName sectionName : string.

(** One turn of the inner loop pushes no created item, or one that
    names an active row of the tutor for an active subject of the
    section. *)
Lemma subjectStep_item subjectName st st' :
  Rev2.subjectStep tutorId sectionId gradeName sectionName subjectName st
  = Ok st' ->
  createdAssignments st' = createdAssignments st
  \/ exists item ss a,
       createdAssignments st' = createdAssignments st ++ [item]
       /\ ci_grade item = gradeName /\ ci_section item = sectionName
       /\ ci_subject item = subjectName
       /\ In ss (sectionSubjects (acc_db st'))
       /\ ss_sectionId ss = sectionId /\ ss_name ss = subjectName
       /\ ss_isActive ss = true
       /\ In a (assignments (acc_db st')) /\ tsa_id a = ci_id item
       /\ tsa_tutorId a = tutorId /\ tsa_sectionSubjectId a = ss_id ss
       /\ tsa_isActive a = true.
Proof.
  unfold Rev2.subjectStep.
  assert (Hlink : forall ss tx,
            In ss (sectionSubjects tx) -> ss_sectionId ss = sectionId ->
            ss_name ss = subjectName -> ss_isActive ss = true ->
            linkPart tutorId gradeName sectionName subjectName st ss tx
            = Ok st' ->
            createdAssignments st' = createdAssignments st
            \/ exists item ss a,
                 createdAssignments st' = createdAssignments st ++ [item]
                 /\ ci_grade item = gradeName /\ ci_section item = sectionName
                 /\ ci_subject item = subjectName
                 /\ In ss (sectionSubjects (acc_db st'))
                 /\ ss_sectionId ss = sectionId /\ ss_name ss = subjectName
                 /\ ss_isActive ss = true
                 /\ In a (assignments (acc_db st')) /\ tsa_id a = ci_id item
                 /\ tsa_tutorId a = tutorId
                 /\ tsa_sectionSubjectId a = ss_id ss
                 /\ tsa_isActive a = true).
  { intros ss tx Hss Hs Hn Hon. unfold linkPart.
    destruct (findFirst (sameLink tutorId (ss_id ss)) (assignments tx))
      as [a|] eqn:Ea.
    - apply findFirst_some in Ea. destruct Ea as (Ha & Hp).
      unfold sameLink in Hp. apply andb_true_iff in Hp.
      destruct Hp as (Ht & Hl).
      apply Nat.eqb_eq in Ht. apply Nat.eqb_eq in Hl.
      destruct (tsa_isActive a) eqn:Eact.
      + intros H. inversion H. left. reflexivity.
      + destruct (updateAssignmentRow _ _ _) as [tx'|e] eqn:Eu;
          cbn [bind]; [|discriminate].
        apply updateAssignmentRow_ok in Eu. subst tx'.
        intros H. inversion H. right.
        eexists _, ss, (set_tsa_isActive true a).
        cbn [createdAssignments acc_db pushCreated sectionSubjects
             assignments with_assignments ci_grade ci_section ci_subject
             ci_id].
        repeat split; auto.
        apply in_map_iff. exists a. rewrite Nat.eqb_refl. auto.
    - destruct (createAssignmentRow _ _ _ _) as [[row tx']|e] eqn:Ec;
        cbn [bind]; [|discriminate].
      apply createAssignmentRow_ok in Ec. destruct Ec as (-> & -> & _).
      intros H. inversion H. right.
      eexists _, ss, (mkAssignment (nextId tx) tutorId (ss_id ss) true).
      cbn [createdAssignments acc_db pushCreated sectionSubjects
           assignments with_assignments bump ci_grade ci_section ci_subject
           ci_id tsa_id tsa_tutorId tsa_sectionSubjectId tsa_isActive].
      split; [reflexivity|]. repeat split; auto.
      apply in_or_app. right. left. reflexivity. }
  destruct (findFirst (subjectNamed sectionId subjectName true)
                      (sectionSubjects (acc_db st))) as [ss|] eqn:Ess.
  - cbn [bind]. apply findFirst_some in Ess. destruct Ess as (Hss & Hp).
    unfold subjectNamed in Hp. apply andb_true_iff in Hp.
    destruct Hp as (Hp & Hon). apply andb_true_iff in Hp.
    destruct Hp as (Hs & Hn).
    apply Nat.eqb_eq in Hs. apply String.eqb_eq in Hn.
    apply Bool.eqb_prop in Hon. apply Hlink; assumption.
  - destruct (createSectionSubjectRow _ _ _ _) as [[ss tx]|e] eqn:Ecs;
      cbn [bind]; [|discriminate].
    apply createSectionSubjectRow_ok in Ecs. destruct Ecs as (-> & -> & _).
    apply Hlink; try reflexivity.
    cbn. apply in_or_app. right. left. reflexivity.
Qed.

Lemma subjectStep_reports subjectName st st' :
  located schoolId (acc_db st) gradeName sectionName sectionId ->
  Forall (reported schoolId tutorId (acc_db st)) (createdAssignments st) ->
  Rev2.subjectStep tutorId sectionId gradeName sectionName subjectName st
  = Ok st' ->
  located schoolId (acc_db st') gradeName sectionName sectionId
  /\ Forall (reported schoolId tutorId (acc_db st')) (createdAssignments st').
Proof.
  intros Hloc Hall H.
  destruct (@subjectStep_ok tutorId sectionId gradeName sectionName
              subjectName st st' H) as (Hext & _).
  pose proof (@located_ext _ _ _ _ _ _ Hext Hloc) as Hloc'.
  assert (Hold : Forall (reported schoolId tutorId (acc_db st'))
                        (createdAssignments st)).
  { eapply Forall_impl; [|exact Hall]. intros item.
    apply reported_ext. exact Hext. }
  split; [exact Hloc'|].
  destruct (@subjectStep_item subjectName st st' H)
    as [->|(item & ss & a & -> & Eg & Es & En & Hss & Hsid & Hn & Hon & Ha
            & Hid & Ht & Hl & Hact)]; [exact Hold|].
  apply Forall_app. split; [exact Hold|]. constructor; [|constructor].
  exists ss, a. rewrite Eg, Es, En, Hsid. auto 12.
Qed.

End Reports.

Lemma keyStep_reports schoolId tutorId entry st st' :
  Forall (reported schoolId tutorId (acc_db st)) (createdAssignments st) ->
  Rev2.keyStep schoolId tutorId entry st = Ok st' ->
  Forall (reported schoolId tutorId (acc_db st')) (createdAssignments st').
Proof.
  intros Hall. unfold Rev2.keyStep. destruct entry as [key subjectNames].
  destruct (matchKey key) as [[g s]|].
  2:{ intros H. inversion H. exact Hall. }
  destruct (findFirst _ (grades (acc_db st))) as [grade|] eqn:Eg.
  2:{ intros H. inversion H. exact Hall. }
  destruct (findFirst _ (sections (acc_db st))) as [section|] eqn:Es.
  2:{ intros H. inversion H. exact Hall. }
  apply findFirst_some in Eg. destruct Eg as (Hg & Hgp).
  unfold activeGradeNamed in Hgp. apply andb_true_iff in Hgp.
  destruct Hgp as (Hgp & Hga). apply andb_true_iff in Hgp.
  destruct Hgp as (Hgs & Hgn).
  apply Nat.eqb_eq in Hgs. apply String.eqb_eq in Hgn.
  apply findFirst_some in Es. destruct Es as (Hs & Hsp).
  unfold activeSectionNamed in Hsp. apply andb_true_iff in Hsp.
  destruct Hsp as (Hsp & Hsa). apply andb_true_iff in Hsp.
  destruct Hsp as (Hsg & Hsn).
  apply Nat.eqb_eq in Hsg. apply String.eqb_eq in Hsn.
  intros H.
  refine (proj2 (@forEach_invariant _ _
            (Rev2.subjectStep tutorId (section_id section) g s)
            (fun a => located schoolId (acc_db a) g s (section_id section)
                      /\ Forall (reported schoolId tutorId (acc_db a))
                                (createdAssignments a))
            _ subjectNames st st' H _)).
  - intros x a b Hx (Hloc & Hrep).
    exact (@subjectStep_reports schoolId tutorId (section_id section) g s
             x a b Hloc Hrep Hx).
  - split; [|exact Hall]. exists grade, section. auto 10.
Qed.

Lemma classTutorStep_created schoolId tutorId cg cs st st' cta :
  Rev2.classTutorStep schoolId tutorId cg cs st = Ok (st', cta) ->
  createdAssignments st' = createdAssignments st
  /\ ext (acc_db st) (acc_db st').
Proof.
  unfold Rev2.classTutorStep, bind.
  repeat match goal with
         | |- context [match ?x with _ => _ end] =>
             lazymatch x with
             | context [match _ with _ => _ end] => fail
             | _ => destruct x eqn:?
             end
         end;
    intros H; try discriminate H; inversion H; subst;
    cbn [createdAssignments acc_db pushError withDb];
    (split; [reflexivity|]); try apply ext_refl.
  all: match goal with
       | E : updateSectionRow _ _ _ = Ok _ |- _ =>
           apply updateSectionRow_ok in E; subst; apply ext_class_tutor
       end.
Qed.

(** X23.  What [smartAssignTutor] reports as created is in the store.
    After a 201 answer, every item of [subjectAssignments] names, by
    its id, an active assignment row of the tutor; the row points to
    an active subject of the item's name, in an active section of
    the item's section name, in an active grade of the school with
    the item's grade name. *)
Theorem smartAssignTutor_reports_rows db req tutorId body db' :
  sa_tutorId req = Some tutorId ->
  Rev2.smartAssignTutor db req = (Json 201 body, db') ->
  Forall (reported (sa_schoolId req) tutorId db')
         (sb_subjectAssignments body).
Proof.
  intros Hid Hrun.
  destruct (smartAssignTutor_cases db req)
    as [(code & msg & E)|(t & tutor & st1 & st1' & cta & Et & _ & Ekeys
                          & Eclass & E)];
    rewrite E in Hrun; [discriminate Hrun|].
  assert (t = tutorId) by congruence. subst t.
  inversion Hrun. subst body db'. cbn [sb_subjectAssignments].
  apply classTutorStep_created in Eclass. destruct Eclass as (-> & Hext).
  assert (Hkeys : Forall (reported (sa_schoolId req) tutorId (acc_db st1))
                         (createdAssignments st1)).
  { refine (@forEach_invariant _ _
              (Rev2.keyStep (sa_schoolId req) tutorId)
              (fun a => Forall (reported (sa_schoolId req) tutorId (acc_db a))
                               (createdAssignments a))
              _ (sa_assignments req) (mkAcc db [] [] []) st1 Ekeys _).
    - intros x a b Hx Ha.
      exact (@keyStep_reports (sa_schoolId req) tutorId x a b Ha Hx).
    - constructor. }
  eapply Forall_impl; [|exact Hkeys]. intros item.
  apply reported_ext. exact Hext.
Qed.

(* ================================================================= *)
(** * [deleteGrade] after [createGrade] *)

Lemma filter_old_new {A} (p : A -> bool) (old new : list A) :
  Forall (fun x => p x = false) old -> Forall (fun x => p x = true) new ->
  filter p (old ++ new) = new
  /\ deleteMany p (old ++ new) = old.
Proof.
  intros Hold Hnew. unfold deleteMany. rewrite !filter_app.
  rewrite (@filter_none _ p old Hold), (@filter_all _ p new Hnew).
  rewrite filter_all, filter_none.
  - rewrite app_nil_r. split; reflexivity.
  - eapply Forall_impl; [|exact Hnew]. cbn. intros x ->. reflexivity.
  - eapply Forall_impl; [|exact Hold]. cbn. intros x ->. reflexivity.
Qed.

Lemma createSections_cons gid sd rest tx acc :
  createSections gid (sd :: rest) (tx, acc)
  = bind (createSectionRow tx (sd_name sd) gid true)
         (fun '(section, tx1) =>
            bind (match sd_subjects sd with
                  | Some names => createSubjects (section_id section) names
                                                 (tx1, [])
                  | None => Ok (tx1, [])
                  end)
                 (fun '(tx2, subjects) =>
                    createSections gid rest
                      (tx2, acc ++ [(section, subjects)]))).
Proof.
  unfold createSections. cbn [forEach].
  destruct (createSectionRow tx (sd_name sd) gid true) as [[row tx1]|e];
    [|reflexivity].
  cbn [bind].
  destruct (match sd_subjects sd with
            | Some names => createSubjects (section_id row) names (tx1, [])
            | None => Ok (tx1, [])
            end) as [[tx2 subjects]|e]; reflexivity.
Qed.

(** A run of the loop of [createGrade] that commits has appended
    sections of the grade and subjects of these sections, with ids
    from the counter on, and has touched nothing else. *)
Lemma createSections_shape gid N sds :
  forall tx acc tx' acc',
    N <= nextId tx ->
    createSections gid sds (tx, acc) = Ok (tx', acc') ->
    exists secs subs,
      tx' = mkDB (schools tx) (users tx) (tutors tx) (grades tx)
                 (sections tx ++ secs) (sectionSubjects tx ++ subs)
                 (assignments tx) (nextId tx')
      /\ Forall (fun s => section_gradeId s = gid /\ N <= section_id s) secs
      /\ Forall (fun x => N <= ss_id x
                          /\ In (ss_sectionId x) (map section_id secs)) subs.
Proof.
  induction sds as [|sd rest IH]; intros tx acc tx' acc' HN H.
  - cbn in H. inversion H; subst. exists [], [].
    rewrite !app_nil_r. split; [destruct tx'; reflexivity|].
    split; constructor.
  - rewrite createSections_cons in H.
    destruct (createSectionRow tx (sd_name sd) gid true) as [[row tx1]|e]
      eqn:Er; [|discriminate].
    apply createSectionRow_ok in Er. destruct Er as (Hrow & ->).
    cbn [bind] in H.
    assert (Hsubs : exists rows tx2,
               match sd_subjects sd with
               | Some names =>
                   createSubjects (section_id row) names
                     (bump (with_sections tx (sections tx ++ [row])), [])
               | None => Ok (bump (with_sections tx (sections tx ++ [row])),
                             [])
               end = Ok (tx2, rows)
               /\ tx2 = withRows
                          (bump (with_sections tx (sections tx ++ [row])))
                          rows
               /\ Forall (fun r => ss_sectionId r = section_id row
                                   /\ N <= ss_id r) rows).
    { destruct (sd_subjects sd) as [names|].
      - destruct (createSubjects (section_id row) names _)
          as [[tx2 rows]|e] eqn:Es; [|discriminate].
        apply createSubjects_shape in Es. destruct Es as (-> & ->).
        eexists _, _. split; [reflexivity|]. split; [reflexivity|].
        cbn [app]. eapply Forall_impl; [|apply newSubjects_ids].
        cbn. intros r (H1 & H2). split; [assumption | lia].
      - eexists [], _. split; [reflexivity|]. split; [|constructor].
        unfold withRows. cbn. rewrite app_nil_r, Nat.add_0_r. reflexivity. }
    destruct Hsubs as (rows & tx2 & E & -> & Hrows).
    rewrite E in H. cbn [bind] in H.
    apply IH in H; [|cbn; lia].
    destruct H as (secs & subs & Htx' & Hsecs & Hsubs).
    exists (row :: secs), (rows ++ subs).
    split; [|split].
    + rewrite Htx'. cbn. rewrite <- !app_assoc. reflexivity.
    + constructor; [|exact Hsecs]. subst row. cbn. split; [reflexivity | lia].
    + apply Forall_app. split.
      * eapply Forall_impl; [|exact Hrows]. cbn. intros r (H1 & H2).
        split; [assumption | left; symmetry; assumption].
      * eapply Forall_impl; [|exact Hsubs]. cbn. intros r (H1 & H2).
        split; [assumption | right; assumption].
Qed.

Lemma existsb_id_false {A} (key : A -> Id) (l : list A) N i :
  Forall (fun x => N <= key x) l -> i < N ->
  existsb (fun x => Nat.eqb (key x) i) l = false.
Proof.
  intros Hl Hi. apply not_true_is_false. intros H.
  apply existsb_exists in H. destruct H as (x & Hx & E).
  apply Nat.eqb_eq in E. rewrite Forall_forall in Hl.
  specialize (Hl x Hx). lia.
Qed.

(** Deleting a grade that was appended last, with the sections and
    subjects appended after it, gives the tables back. *)
Lemma dropGrades_new db g secs subs k :
  gradeIdsBelow db ->
  grade_id g = nextId db ->
  Forall (fun s => section_gradeId s = nextId db /\ nextId db <= section_id s)
         secs ->
  Forall (fun x => nextId db <= ss_id x
                   /\ In (ss_sectionId x) (map section_id secs)) subs ->
  sameTables db
    (dropGrades (fun x => Nat.eqb (grade_id x) (nextId db))
       (mkDB (schools db) (users db) (tutors db) (grades db ++ [g])
             (sections db ++ secs) (sectionSubjects db ++ subs)
             (assignments db) k)).
Proof.
  intros (Hg & Hs & Hss & Ha) Hid Hsecs Hsubs.
  unfold dropGrades, dropSections, dropSectionSubjects.
  cbn [grades sections sectionSubjects assignments with_grades with_sections
       with_sectionSubjects with_assignments].
  destruct (@filter_old_new _ (fun x => Nat.eqb (grade_id x) (nextId db))
              (grades db) [g]) as (Eg1 & Eg2).
  { eapply Forall_impl; [|exact Hg]. cbn. intros x Hx.
    apply Nat.eqb_neq. lia. }
  { constructor; [|constructor]. apply Nat.eqb_eq. exact Hid. }
  rewrite Eg1, Eg2.
  destruct (@filter_old_new _
              (fun s => existsb (fun x => Nat.eqb (grade_id x)
                                            (section_gradeId s)) [g])
              (sections db) secs) as (Es1 & Es2).
  { eapply Forall_impl; [|exact Hs]. cbn. intros x Hx.
    rewrite orb_false_r. apply Nat.eqb_neq. lia. }
  { eapply Forall_impl; [|exact Hsecs]. cbn. intros x (Hx & _).
    rewrite orb_false_r. apply Nat.eqb_eq. congruence. }
  rewrite Es1, Es2.
  destruct (@filter_old_new _
              (fun s => existsb (fun r => Nat.eqb (section_id r)
                                            (ss_sectionId s)) secs)
              (sectionSubjects db) subs) as (Eb1 & Eb2).
  { eapply Forall_impl; [|exact Hss]. cbn. intros x Hx.
    apply (@existsb_id_false _ section_id secs (nextId db)); [|exact Hx].
    eapply Forall_impl; [|exact Hsecs]. cbn. tauto. }
  { eapply Forall_impl; [|exact Hsubs]. cbn. intros x (_ & Hx).
    apply in_map_iff in Hx. destruct Hx as (r & E & Hr).
    apply existsb_exists. exists r. split; [assumption|].
    apply Nat.eqb_eq. exact E. }
  rewrite Eb1, Eb2.
  assert (Ea : deleteMany
                 (fun a => existsb (fun s => Nat.eqb (ss_id s)
                                               (tsa_sectionSubjectId a)) subs)
                 (assignments db) = assignments db).
  { unfold deleteMany. apply filter_all.
    eapply Forall_impl; [|exact Ha]. cbn. intros x Hx.
    apply negb_true_iff.
    apply (@existsb_id_false _ ss_id subs (nextId db)); [|exact Hx].
    eapply Forall_impl; [|exact Hsubs]. cbn. tauto. }
  rewrite Ea. unfold sameTables. cbn. auto 10.
Qed.

(** The transaction of [createGrade], then [deleteGrade]. *)
Lemma deleteGrade_after_createGradeTx db schoolId name order sds g created
    db1 :
  gradeIdsBelow db ->
  createGradeTx schoolId name order sds db = Ok ((g, created), db1) ->
  status (fst (Rev2.deleteGrade db1 (grade_id g))) = 200
  /\ sameTables db (snd (Rev2.deleteGrade db1 (grade_id g))).
Proof.
  intros Hbelow Htx.
  pose proof (createGradeTx_grade _ _ _ _ _ Htx) as Hg.
  unfold createGradeTx in Htx.
  destruct (createGradeRow db name schoolId order true) as [[row tx1]|e]
    eqn:Er; [|discriminate].
  assert (Hrow : row = g /\ tx1 = bump (with_grades db (grades db ++ [g]))).
  { unfold createGradeRow in Er.
    destruct (negb (fitsInt order)); [discriminate|].
    destruct (existsb _ (grades db)); [discriminate|].
    destruct (negb (hasSchool db schoolId)); [discriminate|].
    inversion Er. subst g. auto. }
  destruct Hrow as (-> & ->). cbn [bind] in Htx.
  destruct (createSections (grade_id g) sds _) as [[tx2 made]|e] eqn:Es;
    [|discriminate].
  cbn [bind] in Htx. inversion Htx; subst made tx2. clear Htx.
  apply (@createSections_shape (grade_id g) (nextId db)) in Es; [|cbn; lia].
  destruct Es as (secs & subs & Hdb1 & Hsecs & Hsubs).
  cbn [schools users tutors grades sections sectionSubjects assignments
       bump with_grades] in Hdb1.
  assert (Hid : grade_id g = nextId db) by (subst g; reflexivity).
  rewrite Hdb1, Hid. unfold Rev2.deleteGrade. cbn [grades].
  destruct Hbelow as (Hgr & Hrest).
  rewrite findFirst_app_none.
  2:{ apply findFirst_none_Forall. eapply Forall_impl; [|exact Hgr]. cbn.
      intros x Hx. apply Nat.eqb_neq. lia. }
  cbn [findFirst find]. rewrite Hid, Nat.eqb_refl.
  unfold deleteGradeRow, hasGrade. cbn [grades].
  rewrite existsb_app. cbn [existsb]. rewrite Hid, Nat.eqb_refl.
  cbn [orb]. rewrite orb_true_r. cbn [fst snd status].
  split; [reflexivity|].
  apply dropGrades_new; [split; assumption | exact Hid | |exact Hsubs].
  eapply Forall_impl; [|exact Hsecs]. cbn. intros s (H1 & H2).
  split; [congruence | exact H2].
Qed.

(** X24.  [deleteGrade] undoes the [createGrade] of either revision:
    in a store whose references stay below its counter, deleting the
    grade that [createGrade] has answered with is answered 200 and
    leaves every table as it was before the two calls: the grade,
    its sections and their subjects are gone, and no other row is. *)
Theorem deleteGrade_undoes_createGrade db req g created db1 :
  gradeIdsBelow db ->
  Rev2.createGrade db req = (Json 201 (g, created), db1)
  \/ Rev1.createGrade db req = (Json 201 (g, created), db1) ->
  let r := Rev2.deleteGrade db1 (grade_id g) in
  status (fst r) = 200 /\ sameTables db (snd r).
Proof.
  intros Hbelow Hmade. cbv zeta.
  assert (Htx : exists schoolId name order sds,
             createGradeTx schoolId name order sds db = Ok ((g, created), db1)).
  { destruct Hmade as [H|H]; revert H.
    - unfold Rev2.createGrade.
      destruct (required (cg_gradeName req)) as [name|]; [|discriminate].
      destruct (cg_sections req) as [[|s more]|]; try discriminate.
      destruct (findFirst _ (grades db)); [discriminate|].
      cbv zeta. unfold transaction.
      destruct (createGradeTx _ _ _ _ db) as [[made tx]|e] eqn:E;
        [|discriminate].
      intros H. inversion H; subst. eauto.
    - unfold Rev1.createGrade.
      destruct (required (cg_gradeName req)) as [name|]; [|discriminate].
      destruct (cg_sections req) as [[|s more]|]; try discriminate.
      destruct (findFirst _ (schools db)); [|discriminate].
      destruct (findFirst _ (grades db)); [discriminate|].
      cbv zeta. unfold transaction.
      destruct (createGradeTx _ _ _ _ db) as [[made tx]|e] eqn:E;
        [|discriminate].
      intros H. inversion H; subst. eauto. }
  destruct Htx as (schoolId & name & order & sds & Htx).
  exact (@deleteGrade_after_createGradeTx db schoolId name order sds g
           created db1 Hbelow Htx).
Qed.

(* ================================================================= *)
(** * [createGrade] is all or nothing *)

Lemma NoDup_or_not (l : list string) : NoDup l \/ ~ NoDup l.
Proof.
  induction l as [|x l [IH|IH]].
  - left. constructor.
  - destruct (in_dec string_dec x l) as [Hin|Hnin].
    + right. intros H. inversion H. contradiction.
    + left. constructor; assumption.
  - right. intros H. inversion H. contradiction.
Qed.

Lemma newSubjects_names names :
  forall next sid, map ss_name (newSubjects next sid names) = names.
Proof.
  induction names as [|n rest IH]; intros next sid; cbn; [reflexivity|].
  rewrite IH. reflexivity.
Qed.

Section NewSections.
Variable gid : Id.

(** The subjects of one new section. *)
Lemma sectionSubjects_run tx sd :
  readyFor gid tx -> sectionTaken tx gid (sd_name sd) = false ->
  let row := mkSection (nextId tx) (sd_name sd) gid None true in
  let tx1 := bump (with_sections tx (sections tx ++ [row])) in
  createSectionRow tx (sd_name sd) gid true = Ok (row, tx1)
  /\ (NoDup (subjectNames sd) ->
      exists tx2 rows,
        match sd_subjects sd with
        | Some names => createSubjects (section_id row) names (tx1, [])
        | None => Ok (tx1, [])
        end = Ok (tx2, rows)
        /\ map ss_name rows = subjectNames sd
        /\ readyFor gid tx2
        /\ (forall n, sectionTaken tx2 gid n
                      = sectionTaken tx gid n || String.eqb (sd_name sd) n))
  /\ (~ NoDup (subjectNames sd) ->
      match sd_subjects sd with
      | Some names => createSubjects (section_id row) names (tx1, [])
      | None => Ok (tx1, [])
      end = Err P2002).
Proof.
  intros (Hg & Hbelow) Hfree. cbv zeta.
  set (row := mkSection (nextId tx) (sd_name sd) gid None true).
  set (tx1 := bump (with_sections tx (sections tx ++ [row]))).
  assert (Hsec : hasSection tx1 (section_id row) = true).
  { unfold hasSection, tx1. cbn. rewrite existsb_app. cbn.
    rewrite Nat.eqb_refl. cbn. apply orb_true_r. }
  split; [|split].
  - unfold createSectionRow. unfold sectionTaken in Hfree.
    rewrite Hfree, Hg. reflexivity.
  - intros Hnd. unfold subjectNames in *.
    assert (Htaken : forall tx2,
               sections tx2 = sections tx1 ->
               forall n, sectionTaken tx2 gid n
                         = sectionTaken tx gid n
                           || String.eqb (sd_name sd) n).
    { intros tx2 E n. unfold sectionTaken. rewrite E. unfold tx1. cbn.
      rewrite existsb_app. cbn. rewrite Nat.eqb_refl, orb_false_r.
      reflexivity. }
    destruct (sd_subjects sd) as [names|].
    + destruct (@createSubjects_ok (section_id row) names tx1 [] Hsec Hnd)
        as (tx2 & rows & E).
      { apply Forall_forall. intros n _. unfold present.
        apply not_true_is_false. intros H. apply existsb_exists in H.
        destruct H as (x & Hx & Hp). apply andb_true_iff in Hp.
        destruct Hp as (Hp & _). apply Nat.eqb_eq in Hp.
        rewrite Forall_forall in Hbelow. specialize (Hbelow x Hx).
        cbn in Hp. lia. }
      exists tx2, rows. split; [exact E|].
      apply createSubjects_shape in E. destruct E as (-> & ->).
      cbn [app]. split; [apply newSubjects_names|]. split.
      * split; [exact Hg|]. unfold withRows, tx1. cbn.
        apply Forall_app. split.
        -- eapply Forall_impl; [|exact Hbelow]. cbn. intros x Hx. lia.
        -- eapply Forall_impl; [|apply newSubjects_ids]. cbn.
           intros x (-> & _). lia.
      * apply Htaken. reflexivity.
    + exists tx1, []. split; [reflexivity|]. split; [reflexivity|]. split.
      * split; [exact Hg|]. unfold tx1. cbn.
        eapply Forall_impl; [|exact Hbelow]. cbn. intros x Hx. lia.
      * apply Htaken. reflexivity.
  - intros Hnd. unfold subjectNames in Hnd.
    destruct (sd_subjects sd) as [names|].
    + apply createSubjects_clash; [exact Hsec | right; exact Hnd].
    + exfalso. apply Hnd. constructor.
Qed.

(** Sections with names new to the grade and pairwise different, each
    with pairwise different subjects, are all created. *)
Lemma createSections_ok sds :
  forall tx acc,
    readyFor gid tx -> wellNamed sds ->
    Forall (fun sd => sectionTaken tx gid (sd_name sd) = false) sds ->
    exists tx' made,
      createSections gid sds (tx, acc) = Ok (tx', acc ++ made)
      /\ map madeNames made
         = map (fun sd => (sd_name sd, subjectNames sd)) sds.
Proof.
  induction sds as [|sd rest IH]; intros tx acc Hready (Hnd & Hsub) Hfree.
  - exists tx, []. rewrite app_nil_r. split; reflexivity.
  - inversion Hnd as [|? ? Hnot Hnd']; subst.
    inversion Hsub as [|? ? Hhead Hsub']; subst.
    inversion Hfree as [|? ? Hf Hfree']; subst.
    destruct (@sectionSubjects_run tx sd Hready Hf) as (Erow & Hok & _).
    destruct (Hok Hhead) as (tx2 & rows & Esubs & Hnames & Hready2 & Htaken).
    rewrite createSections_cons, Erow. cbn [bind]. rewrite Esubs.
    cbn [bind].
    destruct (IH tx2 (acc ++ [(mkSection (nextId tx) (sd_name sd) gid None
                                         true, rows)]) Hready2)
      as (tx' & made & E & Hmade).
    { split; assumption. }
    { apply Forall_forall. intros x Hx. rewrite Htaken.
      rewrite Forall_forall in Hfree'. rewrite (Hfree' x Hx). cbn.
      apply String.eqb_neq. intros Heq. apply Hnot. rewrite Heq.
      apply in_map. exact Hx. }
    exists tx', ((mkSection (nextId tx) (sd_name sd) gid None true, rows)
                 :: made).
    split.
    + rewrite E, <- app_assoc. reflexivity.
    + cbn [map]. rewrite Hmade. unfold madeNames at 1. cbn [fst snd].
      rewrite Hnames. reflexivity.
Qed.

(** A section name that the grade has already or that comes twice,
    or a subject name that comes twice in a section, stops the loop
    with a unique-index error. *)
Lemma createSections_clash sds :
  forall tx acc,
    readyFor gid tx ->
    (exists sd, In sd sds /\ sectionTaken tx gid (sd_name sd) = true)
    \/ ~ wellNamed sds ->
    createSections gid sds (tx, acc) = Err P2002.
Proof.
  induction sds as [|sd rest IH]; intros tx acc Hready Hbad.
  - exfalso. destruct Hbad as [(sd & [] & _)|Hw]. apply Hw.
    split; constructor.
  - rewrite createSections_cons.
    destruct (sectionTaken tx gid (sd_name sd)) eqn:Ht.
    { unfold createSectionRow. unfold sectionTaken in Ht. rewrite Ht.
      reflexivity. }
    destruct (@sectionSubjects_run tx sd Hready Ht) as (Erow & Hok & Hclash).
    rewrite Erow. cbn [bind].
    destruct (NoDup_or_not (subjectNames sd)) as [Hhead|Hhead].
    2:{ rewrite (Hclash Hhead). reflexivity. }
    destruct (Hok Hhead) as (tx2 & rows & Esubs & _ & Hready2 & Htaken).
    rewrite Esubs. cbn [bind]. apply IH; [exact Hready2|].
    destruct Hbad as [(x & [<-|Hx] & Hxt)|Hw].
    + congruence.
    + left. exists x. split; [exact Hx|]. rewrite Htaken, Hxt. reflexivity.
    + destruct (in_dec string_dec (sd_name sd) (map sd_name rest))
        as [Hin|Hnin].
      * left. apply in_map_iff in Hin. destruct Hin as (x & Ex & Hx).
        exists x. split; [exact Hx|]. rewrite Htaken, Ex, String.eqb_refl.
        apply orb_true_r.
      * right. intros (Hnd & Hsub). apply Hw. split.
        -- cbn [map]. constructor; assumption.
        -- constructor; assumption.
Qed.

End NewSections.

(** X25.  [createGrade] is all or nothing.  For a request with a
    grade name that is new to the school and at least one section,
    in a store that has the school and whose references stay below
    its counter.  When the [order] of the request, if it has one,
    is within 32 bits, the store has fewer than [2 ^ 31 - 1] grades,
    the section names are pairwise different, and so are the subject
    names of each section, the answer is 201 and lists the sections
    and subjects by the names of the request, in order.  When a
    section name or a subject name of one section comes twice, or
    the [order] does not fit 64 bits, the answer is 500 and nothing
    is created, not even the grade. *)
Theorem createGrade_all_or_nothing db req n s more :
  required (cg_gradeName req) = Some n ->
  cg_sections req = Some (s :: more) ->
  (forall g, In g (grades db) -> grade_schoolId g = cg_schoolId req ->
             grade_name g <> n) ->
  hasSchool db (cg_schoolId req) = true ->
  gradeIdsBelow db ->
  let r := Rev2.createGrade db req in
  ((forall order, cg_order req = Some order -> inInt32 order) ->
   (Z.of_nat (List.length (grades db)) < 2 ^ 31 - 1)%Z ->
   wellNamed (s :: more) ->
   exists g made,
     fst r = Json 201 (g, made)
     /\ grade_name g = n /\ In g (grades (snd r))
     /\ map madeNames made
        = map (fun sd => (sd_name sd, subjectNames sd)) (s :: more))
  /\ (~ wellNamed (s :: more) ->
      r = (Message 500 "Failed to create grade", db))
  /\ (forall order, cg_order req = Some order -> fitsInt order = false ->
                    r = (Message 500 "Failed to create grade", db)).
Proof.
  intros Hn Hs Hnew Hschool (_ & Hsec & Hsub & _). cbv zeta.
  unfold Rev2.createGrade. rewrite Hn, Hs.
  assert (Hnone : existsb (fun g => Nat.eqb (grade_schoolId g)
                                            (cg_schoolId req)
                                    && String.eqb (grade_name g) n)
                          (grades db) = false).
  { apply not_true_is_false. intros H. apply existsb_exists in H.
    destruct H as (g & Hg & Hp). apply andb_true_iff in Hp.
    destruct Hp as (H1 & H2). apply Nat.eqb_eq in H1.
    apply String.eqb_eq in H2. exact (Hnew g Hg H1 H2). }
  rewrite (proj2 (findFirst_none_existsb _ _) Hnone). cbv zeta.
  assert (Hcount :
    (Z.of_nat (List.length
                 (filter (fun g => Nat.eqb (grade_schoolId g)
                                           (cg_schoolId req)) (grades db)))
     <= Z.of_nat (List.length (grades db)))%Z).
  { apply Nat2Z.inj_le. apply filter_length_le. }
  set (order := match cg_order req with
                | Some o => o
                | None => _
                end) in *.
  unfold transaction, createGradeTx.
  destruct (fitsInt order) eqn:Efit.
  2:{ assert (Erow : createGradeRow db n (cg_schoolId req) order true
                     = Err Invalid).
      { unfold createGradeRow. rewrite Efit. reflexivity. }
      rewrite Erow. cbn [bind]. split; [|split; reflexivity].
      intros Hin32 Hfew _. exfalso.
      assert (inInt32 order).
      { unfold order. destruct (cg_order req) as [o|].
        - apply Hin32. reflexivity.
        - unfold inInt32. lia. }
      rewrite (inInt32_fits H) in Efit. discriminate. }
  set (g := mkGrade (nextId db) n (cg_schoolId req) order true).
  set (tx1 := bump (with_grades db (grades db ++ [g]))).
  assert (Erow : createGradeRow db n (cg_schoolId req) order true
                 = Ok (g, tx1)).
  { unfold createGradeRow. rewrite Efit, Hnone, Hschool. reflexivity. }
  assert (Hready : hasGrade tx1 (nextId db) = true
                   /\ Forall (fun x => ss_sectionId x < nextId tx1)
                             (sectionSubjects tx1)).
  { split.
    - unfold hasGrade, tx1. cbn. rewrite existsb_app. cbn.
      rewrite Nat.eqb_refl. cbn. apply orb_true_r.
    - unfold tx1. cbn. eapply Forall_impl; [|exact Hsub]. cbn.
      intros x Hx. lia. }
  assert (Hfree : forall name, sectionTaken tx1 (nextId db) name = false).
  { intros name. unfold sectionTaken, tx1. cbn.
    apply not_true_is_false. intros H. apply existsb_exists in H.
    destruct H as (x & Hx & Hp). apply andb_true_iff in Hp.
    destruct Hp as (Hp & _). apply Nat.eqb_eq in Hp.
    rewrite Forall_forall in Hsec. specialize (Hsec x Hx). lia. }
  rewrite Erow. cbn [bind grade_id g].
  split; [|split].
  - intros _ _ Hw.
    destruct (@createSections_ok (nextId db) (s :: more) tx1 [] Hready Hw)
      as (tx' & made & E & Hmade).
    { apply Forall_forall. intros sd _. apply Hfree. }
    rewrite E. cbn [bind fst snd app].
    exists g, made. split; [reflexivity|]. split; [reflexivity|].
    split; [|exact Hmade].
    apply (@createSections_shape (nextId db) (nextId db)) in E;
      [|unfold tx1; cbn; lia].
    destruct E as (secs & subs & -> & _). cbn [grades].
    unfold tx1. cbn. apply in_or_app. right. left. reflexivity.
  - intros Hw.
    rewrite (@createSections_clash (nextId db) (s :: more) tx1 [] Hready
               (or_intror Hw)).
    reflexivity.
  - intros o Eo Ho. exfalso. unfold order in Efit. rewrite Eo in Efit.
    congruence.
Qed.

(* ================================================================= *)
(** * The properties on the stores of [Scenario] *)

(** A header with the token of Ann, with and without a third word. *)
Lemma authenticate_bearer_witness :
  let ann := mkAuthUser 2 SCHOOL_ADMIN "ann@lincoln.edu" (Some 1) in
  let verify := fun t => if String.eqb t "abc" then Some ann else None in
  authenticate verify (Some "Bearer abc") = Next ann
  /\ authenticate verify (Some "Bearer abc def") = Next ann.
Proof.
  cbv zeta.
  pose proof (@authenticate_bearer
                (fun t => if String.eqb t "abc"
                          then Some (mkAuthUser 2 SCHOOL_ADMIN
                                       "ann@lincoln.edu" (Some 1))
                          else None)
                "abc" "def" eq_refl) as H.
  cbv zeta in H. destruct H as (H1 & H2 & _).
  split; [exact H1 | exact H2].
Defined.

(** A section with a subject named twice is answered 500. *)
Lemma failed_call_writes_nothing_witness :
  snd (respond Scenario.withJane
         (AddSection 3 (Some "B") (Some ["Art"; "Art"])))
  = Scenario.withJane.
Proof.
  apply (@failed_call_writes_nothing Scenario.withJane
           (AddSection 3 (Some "B") (Some ["Art"; "Art"])));
    vm_compute; reflexivity.
Defined.

(** Jane is assigned to Maths twice. *)
Lemma assignSubjectToTutor_again_witness :
  let r1 := Rev2.assignSubjectToTutor Scenario.withJane 1 (Some 7) (Some 6) in
  let r2 := Rev2.assignSubjectToTutor (snd r1) 1 (Some 7) (Some 6) in
  status (fst r2) = 409 /\ snd r2 = snd r1.
Proof.
  apply (@assignSubjectToTutor_again Scenario.withJane 1 7 6).
  vm_compute. reflexivity.
Defined.

(** Jane, who teaches English, is assigned to Maths and the
    assignment (id 10) is removed. *)
Lemma removeAssignment_undoes_assign_witness :
  Rev2.removeAssignment
    (snd (Rev2.assignSubjectToTutor Scenario.janeAssigned 1 (Some 7) (Some 6)))
    10
  = (Message 200 "Assignment removed successfully",
     bump Scenario.janeAssigned).
Proof.
  apply (@removeAssignment_undoes_assign Scenario.janeAssigned 1 (Some 7)
           (Some 6) (mkAssignment 10 7 6 true)).
  - distinct_rows.
  - vm_compute. reflexivity.
Defined.

(** Jane teaches English (assignment 9): the check says so, and the
    assignment is refused. *)
Lemma checkDuplicateAssignment_agrees_witness :
  Rev2.checkDuplicateAssignment Scenario.janeAssigned (Some 7) (Some 5)
  = Json 200 (true, Some 9)
  /\ status (fst (Rev2.assignSubjectToTutor Scenario.janeAssigned 1 (Some 7)
                    (Some 5))) = 409.
Proof.
  assert (Hnd : NoDup (map link (assignments Scenario.janeAssigned)))
    by distinct_rows.
  destruct (@checkDuplicateAssignment_agrees Scenario.janeAssigned 1 7 5
              (mkTutor 7 "Jane" "jane@lincoln.edu" "555-0101" 1 true)
              (mkSectionSubject 5 "English" 4 true)
              Hnd eq_refl eq_refl)
    as [(_ & Hs & _) | (Hc & _)].
  - split; [vm_compute; reflexivity | exact Hs].
  - vm_compute in Hc. discriminate Hc.
Defined.

(** Jane's assignments are deleted, then Jane. *)
Lemma deleteTutor_after_deleteAll_witness :
  let db1 := snd (Rev2.deleteAllTutorAssignments Scenario.janeAssigned 7) in
  let r := deleteTutor db1 7 None in
  status (fst r) = 200
  /\ hasTutor (snd r) 7 = false
  /\ assignments (snd r) = [].
Proof.
  apply (@deleteTutor_after_deleteAll Scenario.janeAssigned 7 None).
  vm_compute. reflexivity.
Defined.

(** Joan is created (id 9) and deleted. *)
Lemma deleteTutor_undoes_createTutor_witness :
  deleteTutor Scenario.withTwoTutors 9 None
  = (Message 200 "Tutor deleted successfully",
     bump (bump Scenario.withJane)).
Proof.
  apply (@deleteTutor_undoes_createTutor Scenario.withJane
           Scenario.joanNewReq "temp3" "hash3"
           (mkTutor 9 "Joan" "joan@lincoln.edu" "555-0102" 1 true)
           Scenario.withTwoTutors None).
  - repeat split; distinct_rows.
  - vm_compute. reflexivity.
Defined.

(** Jane gets an address that nobody has. *)
Lemma updateTutor_email_change_witness :
  let r := updateTutor Scenario.withJane 7
             (mkUpdateTutorReq None (Some "jane2@lincoln.edu") None None) in
  status (fst r) = 200
  /\ (forall u, In u (users (snd r)) -> linkedTo 7 u = true ->
                user_email u = "jane2@lincoln.edu").
Proof.
  cbv zeta.
  pose proof (@updateTutor_email_change Scenario.withJane 7
                (mkUpdateTutorReq None (Some "jane2@lincoln.edu") None None)
                (mkTutor 7 "Jane" "jane@lincoln.edu" "555-0101" 1 true)
                "jane2@lincoln.edu" eq_refl eq_refl) as H.
  cbv zeta in H. destruct H as (_ & H); [discriminate|].
  destruct H as (Hs & _ & Hu & _).
  - intros t Ht. each_row Ht. discriminate.
  - intros u Hu. each_row Hu; discriminate.
  - intros u u' Hu Hu' L L'. each_row Hu; each_row Hu';
      first [reflexivity | discriminate].
  - split; [exact Hs | exact Hu].
Defined.

(** Jane asks for the address of Ann, the admin of the school. *)
Lemma updateTutor_email_of_other_user_witness :
  updateTutor Scenario.withJane 7
    (mkUpdateTutorReq None (Some "ann@lincoln.edu") None None)
  = (Message 500 "Failed to update tutor", Scenario.withJane).
Proof.
  apply (@updateTutor_email_of_other_user Scenario.withJane 7
           (mkUpdateTutorReq None (Some "ann@lincoln.edu") None None)
           (mkTutor 7 "Jane" "jane@lincoln.edu" "555-0101" 1 true)
           "ann@lincoln.edu"
           (mkUser 8 "Jane" "jane@lincoln.edu" (Some "555-0101") "hash2"
                   TEACHER (Some 1) (Some 7))
           (mkUser 2 "Ann" "ann@lincoln.edu" (Some "555-0100") "hash1"
                   SCHOOL_ADMIN (Some 1) None)).
  - reflexivity.
  - reflexivity.
  - discriminate.
  - intros t Ht. each_row Ht. discriminate.
  - vm_compute. auto.
  - reflexivity.
  - vm_compute. auto.
  - reflexivity.
  - discriminate.
Defined.

(** A second school with the code of Lincoln. *)
Lemma createSchool_conflict_or_both_witness :
  let r := SuperadminController.createSchool Scenario.lincoln
             (SuperadminController.mkCreateSchoolReq
                (Some "Lincoln West") (Some "LIN01") (Some "Bob")
                (Some "bob@west.edu") (Some "555-0200"))
             "temp9" "hash9" in
  status (fst r) = 409 /\ snd r = Scenario.lincoln.
Proof.
  cbv zeta.
  pose proof (@createSchool_conflict_or_both Scenario.lincoln
                (SuperadminController.mkCreateSchoolReq
                   (Some "Lincoln West") (Some "LIN01") (Some "Bob")
                   (Some "bob@west.edu") (Some "555-0200"))
                "temp9" "hash9" "Lincoln West" "LIN01" "Bob" "bob@west.edu"
                "555-0200" eq_refl eq_refl eq_refl eq_refl eq_refl) as H.
  cbv zeta in H. destruct H as (H & _). apply H.
  left. exists (mkSchool 1 "Lincoln" "LIN01" true).
  split; [vm_compute; auto | reflexivity].
Defined.

(** Section B of Grade 1 with Art and Music, and with Art twice. *)
Lemma addSection_all_or_nothing_witness :
  status (fst (Rev2.addSection Scenario.withJane 3 (Some "B")
                 (Some ["Art"; "Music"]))) = 201
  /\ Rev2.addSection Scenario.withJane 3 (Some "B") (Some ["Art"; "Art"])
     = (Message 500 "Failed to add section", Scenario.withJane).
Proof.
  assert (Hfree : forall s, In s (sections Scenario.withJane) ->
                            section_gradeId s = 3 -> section_name s <> "B").
  { intros s Hs _. each_row Hs. discriminate. }
  assert (Hids : Forall (fun s => ss_sectionId s <> nextId Scenario.withJane)
                        (sectionSubjects Scenario.withJane))
    by distinct_rows.
  split.
  - pose proof (@addSection_all_or_nothing Scenario.withJane 3 (Some "B")
                  ["Art"; "Music"] "B" eq_refl eq_refl Hfree Hids) as H.
    cbv zeta in H. destruct H as (H & _). rewrite H; [reflexivity|].
    distinct_rows.
  - pose proof (@addSection_all_or_nothing Scenario.withJane 3 (Some "B")
                  ["Art"; "Art"] "B" eq_refl eq_refl Hfree Hids) as H.
    cbv zeta in H. destruct H as (_ & H). apply H.
    intros Hnd. inversion Hnd as [|? ? Hnot _]. apply Hnot. left. reflexivity.
Defined.

(** Section B (id 9) is added with two subjects and deleted. *)
Lemma deleteSection_undoes_addSection_witness :
  let db1 := snd (Rev2.addSection Scenario.withJane 3 (Some "B")
                    (Some ["Art"; "Music"])) in
  let r := Rev2.deleteSection db1 9 in
  status (fst r) = 200 /\ sameTables Scenario.withJane (snd r).
Proof.
  apply (@deleteSection_undoes_addSection Scenario.withJane 3 (Some "B")
           (Some ["Art"; "Music"]) (mkSection 9 "B" 3 None true)
           (newSubjects 10 9 ["Art"; "Music"])).
  - repeat split; distinct_rows.
  - vm_compute. reflexivity.
Defined.

(** Section A of Grade 1, the only section of the grade, becomes B. *)
Lemma updateSection_answers_witness :
  let r := Rev2.updateSection Scenario.withJane 4 (Some "B") in
  status (fst r) = 200
  /\ sections (snd r) = [mkSection 4 "B" 3 None true].
Proof.
  cbv zeta.
  pose proof (@updateSection_answers Scenario.withJane 4 (Some "B") "B"
                (mkSection 4 "A" 3 None true) eq_refl eq_refl) as H.
  cbv zeta in H. destruct H as (_ & H).
  - intros (s & Hs & _ & _ & Hid). each_row Hs; try (apply Hid; reflexivity).
  - apply H. intros (s & Hs & _ & _ & Hid). each_row Hs; try (apply Hid; reflexivity).
Defined.

(** Grade 1, the only grade of the school, becomes Grade 2. *)
Lemma updateGrade_name_witness :
  let r := Rev2.updateGrade Scenario.withJane 3
             (Rev2.mkUpdateGradeReq (Some "Grade 2") (Some 2%Z) None) in
  let r' := Rev2.updateGrade Scenario.withJane 3
              (Rev2.mkUpdateGradeReq (Some "Grade 2")
                 (Some (10 ^ 19)%Z) None) in
  (status (fst r) = 200
   /\ grades (snd r) = [mkGrade 3 "Grade 2" 1 2 true])
  /\ (status (fst r') = 500 /\ snd r' = Scenario.withJane).
Proof.
  cbv zeta.
  assert (Hfree : forall new,
            ~ gradeNameTaken Scenario.withJane
                (mkGrade 3 "Grade 1" 1 1 true) new).
  { intros new (g & Hg & _ & _ & Hid).
    each_row Hg; try (apply Hid; reflexivity). }
  split.
  - pose proof (@updateGrade_name Scenario.withJane 3
                  (Rev2.mkUpdateGradeReq (Some "Grade 2") (Some 2%Z) None)
                  (mkGrade 3 "Grade 1" 1 1 true) "Grade 2"
                  eq_refl eq_refl (Hfree _)) as H.
    cbv zeta in H. destruct H as (_ & H).
    destruct (H (Hfree _)) as (Hin & _).
    destruct Hin as (Hs & Hg & _).
    + intros order Ho. injection Ho as <-. unfold inInt32. lia.
    + split; [exact Hs | exact Hg].
  - pose proof (@updateGrade_name Scenario.withJane 3
                  (Rev2.mkUpdateGradeReq (Some "Grade 2")
                     (Some (10 ^ 19)%Z) None)
                  (mkGrade 3 "Grade 1" 1 1 true) "Grade 2"
                  eq_refl eq_refl (Hfree _)) as H.
    cbv zeta in H. destruct H as (_ & H).
    destruct (H (Hfree _)) as (_ & Hout).
    exact (Hout _ eq_refl eq_refl).
Defined.
(** Grade 6 comes after Grade 5, the only grade of the school. *)
Lemma Rev1_createGrade_order_witness :
  exists g created db',
    Rev1.createGrade Scenario.withGradeFive Scenario.gradeSixReq
    = (Json 201 (g, created), db')
    /\ (forall x, In x (grades Scenario.withGradeFive) ->
                  grade_schoolId x = 1 -> (grade_order x < grade_order g)%Z)
    /\ grade_order g = 6%Z.
Proof.
  eexists _, _, _. split; [lazy; reflexivity|].
  split; [|reflexivity].
  eapply (@Rev1_createGrade_order Scenario.withGradeFive
            Scenario.gradeSixReq).
  - lazy. reflexivity.
  - left. reflexivity.
Defined.

(** The store after Jane was given a new address and section A of
    Grade 1 was deleted. *)
Lemma built_store_is_consistent_witness :
  let db := snd (respond
                   (snd (respond Scenario.withJane
                           (UpdateTutor 7
                              (mkUpdateTutorReq None
                                 (Some "jane2@lincoln.edu") None None))))
                   (Base (DeleteSection 4))) in
  refsOk db
  /\ NoDup (map link (assignments db))
  /\ NoDup (map skey (sectionSubjects db)).
Proof.
  apply built_store_is_consistent.
  apply built_call. apply built_call.
  change Scenario.withJane
    with (snd (respond Scenario.withGrade
                 (Base (CreateTutor Scenario.janeReq "temp2" "hash2")))).
  apply built_call.
  change Scenario.withGrade
    with (snd (respond Scenario.lincoln
                 (Base (CreateGrade2 Scenario.gradeOneReq)))).
  apply built_call.
  change Scenario.lincoln
    with (snd (respond Scenario.seeded
                 (Base (CreateSchool
                          (SuperadminController.mkCreateSchoolReq
                             (Some "Lincoln") (Some "LIN01") (Some "Ann")
                             (Some "ann@lincoln.edu") (Some "555-0100"))
                          "temp1" "hash1")))).
  apply built_call. apply built_seeded.
Defined.

(** Section A, with English and Maths, is given Maths and Art. *)
Lemma updateSectionSubjects_replaces_witness :
  let r := Rev2.updateSectionSubjects Scenario.withJane 4
             (Some ["Maths"; "Art"]) in
  status (fst r) = 200
  /\ (forall n, activeIn (snd r) 4 n = true <-> In n ["Maths"; "Art"])
  /\ (forall s n, s <> 4 ->
                  activeIn (snd r) s n = activeIn Scenario.withJane s n).
Proof.
  apply (@updateSectionSubjects_replaces Scenario.withJane 4
           ["Maths"; "Art"]).
  - repeat split; distinct_rows.
  - reflexivity.
  - distinct_rows.
Defined.

(** The same list twice. *)
Lemma updateSectionSubjects_again_witness :
  let r := Rev2.updateSectionSubjects Scenario.withJane 4
             (Some ["Maths"; "Art"]) in
  Rev2.updateSectionSubjects (snd r) 4 (Some ["Maths"; "Art"])
  = (Json 200 ([], []), snd r).
Proof.
  apply (@updateSectionSubjects_again Scenario.withJane 4 ["Maths"; "Art"]).
  - repeat split; distinct_rows.
  - reflexivity.
  - distinct_rows.
Defined.
(** English is switched off in section A: adding it is sending Maths
    and English. *)
Lemma addSubjectToSection_as_update_witness :
  snd (Rev2.addSubjectToSection Scenario.englishOff 4 (Some "English"))
  = snd (Rev2.updateSectionSubjects Scenario.englishOff 4
           (Some ["Maths"; "English"])).
Proof.
  pose proof (@addSubjectToSection_as_update Scenario.englishOff 4 "English")
    as H.
  cbv zeta in H. destruct H as (H & _).
  - discriminate.
  - vm_compute. reflexivity.
  - exact H.
Defined.

(** Jane is assigned to English of Grade 1-A: the item of the answer
    (id 9) is in the store. *)
Lemma smartAssignTutor_reports_rows_witness :
  Forall (reported 1 7 Scenario.janeAssigned)
         [mkCreatedItem 9 "Grade 1" "A" "English" false].
Proof.
  apply (@smartAssignTutor_reports_rows Scenario.withJane Scenario.englishReq
           7
           (mkSmartAssignBody
              (mkTutor 7 "Jane" "jane@lincoln.edu" "555-0101" 1 true)
              [mkCreatedItem 9 "Grade 1" "A" "English" false] [] None [])
           Scenario.janeAssigned).
  - reflexivity.
  - vm_compute. reflexivity.
Defined.

(** Grade 2 (id 9) is created with section A and the subject Art, and
    deleted. *)
Lemma deleteGrade_undoes_createGrade_witness :
  let req := mkCreateGradeReq 1 (Some "Grade 2") None
               (Some [mkSectionData "A" (Some ["Art"])]) in
  let r := Rev2.deleteGrade (snd (Rev2.createGrade Scenario.withJane req)) 9 in
  status (fst r) = 200 /\ sameTables Scenario.withJane (snd r).
Proof.
  apply (@deleteGrade_undoes_createGrade Scenario.withJane
           (mkCreateGradeReq 1 (Some "Grade 2") None
              (Some [mkSectionData "A" (Some ["Art"])]))
           (mkGrade 9 "Grade 2" 1 2 true)
           [(mkSection 10 "A" 9 None true,
             [mkSectionSubject 11 "Art" 10 true])]).
  - repeat split; distinct_rows.
  - left. vm_compute. reflexivity.
Defined.

(** Grade 2 with the sections A and B, and with the section A twice. *)
Lemma createGrade_all_or_nothing_witness :
  status (fst (Rev2.createGrade Scenario.withJane
                 (mkCreateGradeReq 1 (Some "Grade 2") None
                    (Some [mkSectionData "A" (Some ["Art"; "Music"]);
                           mkSectionData "B" None])))) = 201
  /\ Rev2.createGrade Scenario.withJane
       (mkCreateGradeReq 1 (Some "Grade 2") None
          (Some [mkSectionData "A" (Some ["Art"]); mkSectionData "A" None]))
     = (Message 500 "Failed to create grade", Scenario.withJane)
  /\ Rev2.createGrade Scenario.withJane
       (mkCreateGradeReq 1 (Some "Grade 2") (Some (10 ^ 19)%Z)
          (Some [mkSectionData "A" None]))
     = (Message 500 "Failed to create grade", Scenario.withJane).
Proof.
  assert (Hnew : forall g, In g (grades Scenario.withJane) ->
                           grade_schoolId g = 1 -> grade_name g <> "Grade 2").
  { intros g Hg _. each_row Hg. discriminate. }
  assert (Hbelow : gradeIdsBelow Scenario.withJane)
    by (repeat split; distinct_rows).
  split; [|split].
  - pose proof (@createGrade_all_or_nothing Scenario.withJane
                  (mkCreateGradeReq 1 (Some "Grade 2") None
                     (Some [mkSectionData "A" (Some ["Art"; "Music"]);
                            mkSectionData "B" None]))
                  "Grade 2" (mkSectionData "A" (Some ["Art"; "Music"]))
                  [mkSectionData "B" None]
                  eq_refl eq_refl Hnew eq_refl Hbelow) as H.
    cbv zeta in H. destruct H as (H & _).
    destruct H as (g & made & E & _).
    + intros order Ho. discriminate Ho.
    + vm_compute. reflexivity.
    + split; distinct_rows.
    + rewrite E. reflexivity.
  - pose proof (@createGrade_all_or_nothing Scenario.withJane
                  (mkCreateGradeReq 1 (Some "Grade 2") None
                     (Some [mkSectionData "A" (Some ["Art"]);
                            mkSectionData "A" None]))
                  "Grade 2" (mkSectionData "A" (Some ["Art"]))
                  [mkSectionData "A" None]
                  eq_refl eq_refl Hnew eq_refl Hbelow) as H.
    cbv zeta in H. destruct H as (_ & H & _). apply H.
    intros (Hnd & _). cbn in Hnd. inversion Hnd as [|? ? Hnot _].
    apply Hnot. left. reflexivity.
  - pose proof (@createGrade_all_or_nothing Scenario.withJane
                  (mkCreateGradeReq 1 (Some "Grade 2") (Some (10 ^ 19)%Z)
                     (Some [mkSectionData "A" None]))
                  "Grade 2" (mkSectionData "A" None) []
                  eq_refl eq_refl Hnew eq_refl Hbelow) as H.
    cbv zeta in H. destruct H as (_ & _ & H).
    exact (H _ eq_refl eq_refl).
Defined.

